(** * Poll system: the two Django applications of the repository

    The repository holds two parallel applications over two schemas:

    - [src/poll_system] (models [Poll], [PollOption], [Vote]; votes are cast by
      authenticated users) - module [PollSystem];
    - [src/polls] (models [Poll], [Option], [Vote]; votes are cast by an
      anonymous (IP, session) pair) - module [Polls].

    Database tables are lists of rows in insertion order, request handlers
    are functions from a request and a store to a response and a store, and
    Python exceptions are values of an error monad, so that the [try/except]
    blocks of the views can be followed literally. *)

From Stdlib Require Import ZArith List String Ascii Bool Lia Sorted Permutation.
From Stdlib Require Import Floats.
Import ListNotations.

Local Open Scope string_scope.
Local Open Scope list_scope.
Local Open Scope Z_scope.

(* ================================================================== *)
(** * Python preliminaries *)
(* ================================================================== *)

Module Py.

(** The exceptions that the modelled code paths can raise. *)
Inductive exn : Type :=
  | ZeroDivisionError
  | JSONDecodeError
  | Http404
  | DoesNotExist
  | FieldError
  | TypeError
  | IntegrityError
  | ValueError
  | OverflowError
  | AttributeError.

Inductive result (A : Type) : Type :=
  | Ok (a : A)
  | Raise (e : exn).

Arguments Ok {A} a.
Arguments Raise {A} e.

Definition bind {A B : Type} (m : result A) (k : A -> result B) : result B :=
  match m with
  | Ok a => k a
  | Raise e => Raise e
  end.

(** A Python number is an [int] or a [float]; [round(0, 1)] stays the
    integer [0], whereas [round(33.33, 1)] is a float. *)
Inductive number : Type :=
  | PyInt (z : Z)
  | PyFloat (f : float).

(** [float(z)]: exact whenever [|z| < 2^53], which the row counts and
    small constants converted here are. *)
Definition float_of_int (z : Z) : float :=
  match z with
  | Z0 => PrimFloat.zero
  | Zpos _ => PrimFloat.of_uint63 (Uint63.of_Z z)
  | Zneg _ => PrimFloat.opp (PrimFloat.of_uint63 (Uint63.of_Z (- z)))
  end.

(** [a / b] on two ints: true division, raising on a zero divisor. *)
Definition truediv (a b : Z) : result float :=
  if b =? 0 then Raise ZeroDivisionError
  else Ok (PrimFloat.div (float_of_int a) (float_of_int b)).

(** [x * k] for a float [x] and an int [k]. *)
Definition mul_int (x : float) (k : Z) : float :=
  PrimFloat.mul x (float_of_int k).

(** Nearest integer to [n / d] for [d > 0], ties going to the even one. *)
Definition round_half_even (n d : Z) : Z :=
  let q := n / d in
  let r := n mod d in
  if 2 * r <? d then q
  else if d <? 2 * r then q + 1
  else if Z.even q then q else q + 1.

(** The integer nearest to the exact value of [m * 2^e * p]. *)
Definition scaled_nearest (m : positive) (e : Z) (p : Z) : Z :=
  if 0 <=? e then Zpos m * 2 ^ e * p
  else round_half_even (Zpos m * p) (2 ^ (- e)).

(** [round(x, ndigits)] on a float, [ndigits >= 0]: the exact binary value
    of [x] is rounded half-even to [ndigits] decimals and the decimal is
    read back as the nearest double.  Zeros, infinities and NaN round to
    themselves.  The read-back is one correctly rounded division, exact as
    long as the scaled integer stays below [2^53] (every percentage and
    rate of the application does). *)
Definition round_float (x : float) (ndigits : nat) : float :=
  match Prim2SF x with
  | S754_finite s m e =>
      let p := 10 ^ Z.of_nat ndigits in
      let r := PrimFloat.div (float_of_int (scaled_nearest m e p)) (float_of_int p) in
      if s then PrimFloat.opp r else r
  | _ => x
  end.

(** [round(x, ndigits)] on any number: an int is returned unchanged. *)
Definition round_n (x : number) (ndigits : nat) : number :=
  match x with
  | PyInt z => PyInt z
  | PyFloat f => PyFloat (round_float f ndigits)
  end.

(** [round(x)] on a float: the nearest int, ties to even. *)
Definition round_int (x : float) : result Z :=
  match Prim2SF x with
  | S754_zero _ => Ok 0
  | S754_finite s m e =>
      let n := scaled_nearest m e 1 in
      Ok (if s then - n else n)
  | S754_infinity _ => Raise OverflowError
  | S754_nan => Raise ValueError
  end.

(** A Python [str] is held as its UTF-8 encoding, one [ascii] per byte;
    equality of texts is equality of their encodings.  (A text with a lone
    surrogate has no encoding and is outside the model.) *)

(** [str.isspace] on a character of one byte: U+0009..U+000D,
    U+001C..U+0020. *)
Definition isspace (c : ascii) : bool :=
  let n := N_of_ascii c in
  (((9 <=? n) && (n <=? 13)) || ((28 <=? n) && (n <=? 32)))%N.

(** [str.isspace] on a character of two bytes: U+0085 and U+00A0. *)
Definition isspace2 (a b : ascii) : bool :=
  let a := N_of_ascii a in
  let b := N_of_ascii b in
  ((a =? 194) && ((b =? 133) || (b =? 160)))%N.

(** [str.isspace] on a character of three bytes: U+1680, U+2000..U+200A,
    U+2028, U+2029, U+202F, U+205F and U+3000.  No longer character is
    white space. *)
Definition isspace3 (a b c : ascii) : bool :=
  let a := N_of_ascii a in
  let b := N_of_ascii b in
  let c := N_of_ascii c in
  (((a =? 225) && (b =? 154) && (c =? 128))
   || ((a =? 226) && (b =? 128)
       && (((128 <=? c) && (c <=? 138)) || (c =? 168) || (c =? 169) || (c =? 175)))
   || ((a =? 226) && (b =? 129) && (c =? 159))
   || ((a =? 227) && (b =? 128) && (c =? 128)))%N.

(** Whether a text is one white-space character. *)
Definition is_space (s : string) : bool :=
  match s with
  | String a EmptyString => isspace a
  | String a (String b EmptyString) => isspace2 a b
  | String a (String b (String c EmptyString)) => isspace3 a b c
  | _ => false
  end.

(** Drops leading white space. *)
Fixpoint lstrip (s : string) : string :=
  match s with
  | EmptyString => EmptyString
  | String a s1 =>
      if isspace a then lstrip s1
      else
        match s1 with
        | EmptyString => s
        | String b s2 =>
            if isspace2 a b then lstrip s2
            else
              match s2 with
              | EmptyString => s
              | String c s3 => if isspace3 a b c then lstrip s3 else s
              end
        end
  end.

(** Drops trailing white space: what is left of the text from a byte on
    is that byte and what is left of the rest, unless the two together are
    one white-space character. *)
Fixpoint rstrip (s : string) : string :=
  match s with
  | EmptyString => EmptyString
  | String c s' =>
      let t := String c (rstrip s') in
      if is_space t then EmptyString else t
  end.

(** [s.strip()] *)
Definition strip (s : string) : string := rstrip (lstrip s).

(** Truth value of a string: [not s] holds for the empty string only. *)
Definition truthy (s : string) : bool :=
  match s with
  | EmptyString => false
  | _ => true
  end.

(** [len(s)]: the number of characters, which are the bytes that do not
    continue a character (those outside 0x80..0xBF). *)
Fixpoint len (s : string) : nat :=
  match s with
  | EmptyString => O
  | String c s' =>
      let n := N_of_ascii c in
      if ((128 <=? n) && (n <? 192))%N then len s' else S (len s')
  end.

(** Whether the text holds the character U+0000. *)
Fixpoint has_null (s : string) : bool :=
  match s with
  | EmptyString => false
  | String c s' => (N_of_ascii c =? 0)%N || has_null s'
  end.

End Py.

Import Py.

Notation "x <- m ;; k" := (Py.bind m (fun x => k))
  (at level 61, m at next level, right associativity).

(** Number of rows of a query set: [qs.count()], [len(l)]. *)
Definition count {A : Type} (l : list A) : Z := Z.of_nat (List.length l).

(** HTTP verbs seen by the views. *)
Inductive http_method : Type := GET | POST | PUT | DELETE.

Definition method_eqb (a b : http_method) : bool :=
  match a, b with
  | GET, GET | POST, POST | PUT, PUT | DELETE, DELETE => true
  | _, _ => false
  end.

(** A request: its verb, the authenticated user ([None] for an anonymous
    caller), the parsed JSON body ([None] when [json.loads] would fail) and
    the wall-clock time at which it is served.  It is a request that has
    passed the CSRF check of the framework where there is one. *)
Record request (B : Type) : Type := mkRequest {
  req_method : http_method;
  req_user : option Z;
  req_body : option B;
  req_now : Z
}.

Arguments mkRequest {B} _ _ _ _.
Arguments req_method {B} _.
Arguments req_user {B} _.
Arguments req_body {B} _.
Arguments req_now {B} _.

(** What a view answers: a JSON error document with a fixed message, the
    message of a caught exception behind a fixed prefix, the empty
    "method not allowed" answer of [require_http_methods], the redirection
    to the login page of [login_required], or a success document. *)
Inductive reply (A : Type) : Type :=
  | Failure (error : string)
  | Crash (prefix : string) (e : exn)
  | NotAllowed
  | Redirect
  | Success (a : A).

Arguments Failure {A} error.
Arguments Crash {A} prefix e.
Arguments NotAllowed {A}.
Arguments Redirect {A}.
Arguments Success {A} a.

Record response (A : Type) : Type := mkResponse {
  status : Z;
  content : reply A
}.

Arguments mkResponse {A} _ _.
Arguments status {A} _.
Arguments content {A} _.

(** JSON body of the poll create / update / edit requests; a field is
    [None] when its key is absent. *)
Record PollBody : Type := mkPollBody {
  body_title : option string;
  body_description : option string;
  body_category : option string;
  body_expires_at : option string;
  body_options : option (list string)
}.

(** JSON body of a vote request. *)
Record VoteBody : Type := mkVoteBody {
  body_option_id : option Z
}.

(** [data.get(key, default)] *)
Definition get_default {A : Type} (field : option A) (default : A) : A :=
  match field with
  | Some a => a
  | None => default
  end.

(** Stable sort in descending key order: [l.sort(key=..., reverse=True)]
    and [order_by('-key')] (Python's sort is stable; a database leaves the
    order of equal keys open, table order is taken here). *)
Fixpoint insert_desc {A : Type} (key : A -> Z) (x : A) (l : list A) : list A :=
  match l with
  | [] => [x]
  | y :: t => if key y <=? key x then x :: l else y :: insert_desc key x t
  end.

Fixpoint sort_desc {A : Type} (key : A -> Z) (l : list A) : list A :=
  match l with
  | [] => []
  | x :: t => insert_desc key x (sort_desc key t)
  end.

(** Stable sort by a "less or equal" test: [Meta.ordering] on several
    fields. *)
Fixpoint insert_by {A : Type} (leb : A -> A -> bool) (x : A) (l : list A) : list A :=
  match l with
  | [] => [x]
  | y :: t => if leb x y then x :: l else y :: insert_by leb x t
  end.

Fixpoint sort_by {A : Type} (leb : A -> A -> bool) (l : list A) : list A :=
  match l with
  | [] => []
  | x :: t => insert_by leb x (sort_by leb t)
  end.

(** Membership of a name in the declared fields of a model. *)
Definition is_field (fields : list string) (name : string) : bool :=
  existsb (String.eqb name) fields.

(* ================================================================== *)
(** * The views' monad *)
(* ================================================================== *)

(** A store threaded through code that may raise.  The store reached when
    an exception is raised is kept: the settings do not wrap requests in a
    transaction. *)
Section StateExn.

Context {S : Type}.

Definition M (A : Type) : Type := S -> result A * S.

Definition ret {A : Type} (a : A) : M A := fun s => (Ok a, s).

Definition raise {A : Type} (e : exn) : M A := fun s => (Raise e, s).

Definition mbind {A B : Type} (m : M A) (k : A -> M B) : M B :=
  fun s =>
    match m s with
    | (Ok a, s') => k a s'
    | (Raise e, s') => (Raise e, s')
    end.

Definition lift {A : Type} (r : result A) : M A := fun s => (r, s).

Definition get_store : M S := fun s => (Ok s, s).

(** [try: body  except Exception as e: handler(e)] *)
Definition try_except {A : Type} (body : M A) (handler : exn -> A)
  : S -> A * S :=
  fun s =>
    match body s with
    | (Ok a, s') => (a, s')
    | (Raise e, s') => (handler e, s')
    end.

(** The same block inside code that goes on afterwards. *)
Definition caught {A : Type} (body : M A) (handler : exn -> A) : M A :=
  fun s =>
    match try_except body handler s with
    | (a, s') => (Ok a, s')
    end.

(** [for x in l: body(x)] *)
Fixpoint for_each {A : Type} (l : list A) (body : A -> M unit) : M unit :=
  match l with
  | [] => ret tt
  | x :: t => mbind (body x) (fun _ => for_each t body)
  end.

(** [get_object_or_404(Model, lookup)] on the row a lookup found. *)
Definition get_object_or_404 {A : Type} (row : option A) : M A :=
  match row with
  | Some a => ret a
  | None => raise Http404
  end.

(** [Model.objects.get(lookup)] on the row a lookup found. *)
Definition objects_get {A : Type} (row : option A) : M A :=
  match row with
  | Some a => ret a
  | None => raise DoesNotExist
  end.

(** [request.user] used as a lookup or foreign-key value: the anonymous
    user is no [User] row and makes the ORM raise [TypeError]. *)
Definition request_user {B : Type} (req : request B) : M Z :=
  match req_user req with
  | Some u => ret u
  | None => raise TypeError
  end.

(** [json.loads(request.body)] *)
Definition json_loads {B : Type} (req : request B) : M B :=
  match req_body req with
  | Some b => ret b
  | None => raise JSONDecodeError
  end.

(** A view: from a request and a store to a response and a store. *)
Definition view (B A : Type) : Type := request B -> S -> response A * S.

(** [@require_http_methods([...])] *)
Definition require_http_methods {B A : Type} (allowed : list http_method)
  (v : view B A) : view B A :=
  fun req s =>
    if existsb (method_eqb (req_method req)) allowed then v req s
    else (mkResponse 405 NotAllowed, s).

(** [@login_required]: an anonymous caller is sent to the login page. *)
Definition login_required {B A : Type} (v : view B A) : view B A :=
  fun req s =>
    match req_user req with
    | None => (mkResponse 302 Redirect, s)
    | Some _ => v req s
    end.

(** Django REST framework's exception handler around an [@api_view]
    function or a generic view: [Http404] becomes a 404 answer, anything
    else it does not know is left to Django, which answers 500. *)
Definition drf_view {A : Type} (body : M (response A)) : S -> response A * S :=
  try_except body
    (fun e =>
       match e with
       | Http404 => mkResponse 404 (Failure "Not found.")
       | _ => mkResponse 500 (Crash "" e)
       end).

End StateExn.

Arguments M S A : clear implicits.
Arguments view S B A : clear implicits.

Notation "x <~ m ;; k" := (mbind m (fun x => k))
  (at level 61, m at next level, right associativity).

(* ================================================================== *)
(** * The [poll_system] application *)
(* ================================================================== *)

Module PollSystem.

(** ** [src/poll_system/models.py] *)

Record User : Type := mkUser {
  user_id : Z;
  username : string
}.

(** [updated_at] is written by the database and read by no modelled path. *)
Record Poll : Type := mkPoll {
  poll_id : Z;
  title : string;
  description : string;
  creator : Z;
  created_at : Z;
  expires_at : option Z;
  is_active : bool;
  category : string
}.

Record PollOption : Type := mkPollOption {
  option_id : Z;
  option_poll : Z;
  text : string;
  option_created_at : Z
}.

(** [ip_address] is nullable and never set by the views. *)
Record Vote : Type := mkVote {
  v_id : Z;
  v_poll : Z;
  v_option : Z;
  v_user : Z;
  v_created_at : Z
}.

(** The database: one list per table, in insertion order, and the next
    value of each primary-key sequence. *)
Record Store : Type := mkStore {
  users : list User;
  polls : list Poll;
  options : list PollOption;
  votes : list Vote;
  next_poll_id : Z;
  next_option_id : Z;
  next_vote_id : Z
}.

Definition empty_store (us : list User) : Store :=
  mkStore us [] [] [] 1 1 1.

(** Field names of [Poll], as [filter] / [get] keyword lookups see them. *)
Definition Poll_fields : list string :=
  ["id"; "title"; "description"; "creator"; "created_at"; "updated_at";
   "expires_at"; "is_active"; "category"].

(** [Poll.can_edit] / [Poll.can_delete]: [self.creator == user] *)
Definition can_edit (p : Poll) (user : Z) : bool := creator p =? user.
Definition can_delete (p : Poll) (user : Z) : bool := creator p =? user.

(** [Vote.objects.filter(poll=poll)] *)
Definition votes_of_poll (s : Store) (pid : Z) : list Vote :=
  filter (fun v => v_poll v =? pid) (votes s).

(** [Vote.objects.filter(option=option)], [option.votes] *)
Definition votes_of_option (s : Store) (oid : Z) : list Vote :=
  filter (fun v => v_option v =? oid) (votes s).

(** [Vote.objects.filter(poll=poll, user=user)]; [.first()] is its head:
    the row with the least primary key, rows being kept in insertion
    order. *)
Definition votes_of_poll_user (s : Store) (pid uid : Z) : list Vote :=
  filter (fun v => (v_poll v =? pid) && (v_user v =? uid)) (votes s).

(** [poll.options.all()] *)
Definition poll_options (s : Store) (pid : Z) : list PollOption :=
  filter (fun o => option_poll o =? pid) (options s).

(** [Poll.total_votes]: [self.votes.count()] *)
Definition total_votes (s : Store) (pid : Z) : Z := count (votes_of_poll s pid).

(** [PollOption.vote_count]: [self.votes.count()] *)
Definition vote_count (s : Store) (oid : Z) : Z := count (votes_of_option s oid).

(** [PollOption.vote_percentage] *)
Definition vote_percentage (s : Store) (o : PollOption) : result number :=
  let total_votes := total_votes s (option_poll o) in
  if total_votes =? 0 then Ok (PyInt 0)
  else
    q <- truediv (vote_count s (option_id o)) total_votes ;;
    Ok (round_n (PyFloat (mul_int q 100)) 1).

(** ** Object-relational layer *)

Definition set_polls (s : Store) (ps : list Poll) (next : Z) : Store :=
  mkStore (users s) ps (options s) (votes s) next (next_option_id s) (next_vote_id s).

Definition set_options (s : Store) (os : list PollOption) (next : Z) : Store :=
  mkStore (users s) (polls s) os (votes s) (next_poll_id s) next (next_vote_id s).

Definition set_votes (s : Store) (vs : list Vote) (next : Z) : Store :=
  mkStore (users s) (polls s) (options s) vs (next_poll_id s) (next_option_id s) next.

(** A keyword lookup naming something that is not a field of [Poll]
    raises [FieldError] when the query is built. *)
Definition check_lookup (names : list string) : M Store unit :=
  if forallb (is_field Poll_fields) names then ret tt else raise FieldError.

Definition find_poll (s : Store) (pid : Z) : option Poll :=
  find (fun p => poll_id p =? pid) (polls s).

Definition find_poll_of_creator (s : Store) (pid uid : Z) : option Poll :=
  find (fun p => (poll_id p =? pid) && (creator p =? uid)) (polls s).

Definition find_option_of_poll (s : Store) (oid pid : Z) : option PollOption :=
  find (fun o => (option_id o =? oid) && (option_poll o =? pid)) (options s).

(** [Poll.objects.create(title=, description=, category=, creator=,
    expires_at=)]; [is_active] takes its default [True]. *)
Definition Poll_objects_create (title description category : string)
  (creator : Z) (expires_at : option Z) (now : Z) : M Store Poll :=
  fun s =>
    let p := mkPoll (next_poll_id s) title description creator now expires_at
                    true category in
    (Ok p, set_polls s (polls s ++ [p]) (next_poll_id s + 1)).

(** [poll.save()]: the row with the poll's primary key is overwritten. *)
Definition Poll_save (p : Poll) : M Store unit :=
  fun s =>
    (Ok tt,
     set_polls s
       (map (fun q => if poll_id q =? poll_id p then p else q) (polls s))
       (next_poll_id s)).

(** [PollOption.objects.create(poll=poll, text=text)] *)
Definition PollOption_objects_create (pid : Z) (text : string) (now : Z) : M Store unit :=
  fun s =>
    (Ok tt,
     set_options s (options s ++ [mkPollOption (next_option_id s) pid text now])
                 (next_option_id s + 1)).

(** [unique_together = ('poll', 'user')]: the rows, other than the one with
    primary key [self_id], that already hold the pair. *)
Definition unique_together_clash (vs : list Vote) (self_id pid uid : Z) : bool :=
  existsb (fun v => negb (v_id v =? self_id)
                    && (v_poll v =? pid) && (v_user v =? uid)) vs.

(** [Vote.objects.create(poll=, option=, user=)]: the insert is refused
    with [IntegrityError] when the pair (poll, user) is already there. *)
Definition Vote_objects_create (pid oid uid now : Z) : M Store unit :=
  fun s =>
    if unique_together_clash (votes s) (next_vote_id s) pid uid
    then (Raise IntegrityError, s)
    else (Ok tt,
          set_votes s (votes s ++ [mkVote (next_vote_id s) pid oid uid now])
                    (next_vote_id s + 1)).

(** [vote.save()] on a loaded row: an update by primary key, under the
    same uniqueness constraint. *)
Definition Vote_save (v : Vote) : M Store unit :=
  fun s =>
    if unique_together_clash (votes s) (v_id v) (v_poll v) (v_user v)
    then (Raise IntegrityError, s)
    else (Ok tt,
          set_votes s
            (map (fun w => if v_id w =? v_id v then v else w) (votes s))
            (next_vote_id s)).

(** [poll.options.all().delete()]: the options of the poll go, and with
    them ([on_delete=CASCADE] on [Vote.option]) every vote for one of them. *)
Definition delete_options (pid : Z) : M Store unit :=
  fun s =>
    let doomed := map option_id (poll_options s pid) in
    (Ok tt,
     mkStore (users s) (polls s)
       (filter (fun o => negb (option_poll o =? pid)) (options s))
       (filter (fun v => negb (existsb (Z.eqb (v_option v)) doomed)) (votes s))
       (next_poll_id s) (next_option_id s) (next_vote_id s)).

(** [poll.delete()]: cascades to the poll's options and to the votes that
    reference the poll or one of those options. *)
Definition Poll_delete (pid : Z) : M Store unit :=
  fun s =>
    let doomed := map option_id (poll_options s pid) in
    (Ok tt,
     mkStore (users s)
       (filter (fun p => negb (poll_id p =? pid)) (polls s))
       (filter (fun o => negb (option_poll o =? pid)) (options s))
       (filter (fun v => negb (v_poll v =? pid)
                         && negb (existsb (Z.eqb (v_option v)) doomed))
               (votes s))
       (next_poll_id s) (next_option_id s) (next_vote_id s)).

(** ** [src/poll_system/views.py]: serialisation *)

Record OptionJson : Type := mkOptionJson {
  oj_id : Z;
  oj_text : string;
  oj_vote_count : Z;
  oj_order : Z;
  oj_created_at : Z
}.

(** [created_by] is the creator's primary key here (the view prints the
    user name that the foreign key leads to); the two timestamps of the
    poll are left out. *)
Record PollJson : Type := mkPollJson {
  pj_id : Z;
  pj_title : string;
  pj_description : string;
  pj_category : string;
  pj_expires_at : option Z;
  pj_vote_count : Z;
  pj_is_active : bool;
  pj_created_by : Z;
  pj_options : option (list OptionJson)
}.

(** The loop [for i, option in enumerate(options): data['options'].append(...)] *)
Fixpoint serialize_options (s : Store) (i : Z) (os : list PollOption)
  (acc : list OptionJson) : list OptionJson :=
  match os with
  | [] => acc
  | o :: t =>
      serialize_options s (i + 1) t
        (acc ++ [mkOptionJson (option_id o) (text o) (vote_count s (option_id o))
                              i (option_created_at o)])
  end.

(** [serialize_poll(poll, include_options)] *)
Definition serialize_poll (p : Poll) (include_options : bool) : M Store PollJson :=
  s <~ get_store ;;
  let vote_count := count (votes_of_poll s (poll_id p)) in
  ret (mkPollJson (poll_id p) (title p) (description p) (category p)
         (expires_at p) vote_count (is_active p) (creator p)
         (if include_options
          then Some (serialize_options s 0 (poll_options s (poll_id p)) [])
          else None)).

(** ** Decorators *)

Definition json_login_required {B A : Type} (v : view Store B A) : view Store B A :=
  fun req s =>
    match req_user req with
    | None => (mkResponse 401 (Failure "Authentication required"), s)
    | Some _ => v req s
    end.

(** ** [src/poll_system/views.py]: views that write *)

(** Success document of the poll views: an optional ['message'] and an
    optional serialised ['poll']. *)
Record Ack : Type := mkAck {
  ack_message : option string;
  ack_poll : option PollJson
}.

Section CreatePoll.

(** [datetime.fromisoformat(expires_at.replace('Z', '+00:00'))], with
    [None] standing for the [ValueError] that the view catches. *)
Variable parse_expiry : string -> option Z.

(** The loop that persists the options of a new poll. *)
Definition create_options (pid : Z) (options : list string) (now : Z) : M Store unit :=
  for_each options (fun option_text =>
    if truthy (strip option_text)
    then PollOption_objects_create pid (strip option_text) now
    else ret tt).

Definition create_poll_body (req : request PollBody) : M Store (response Ack) :=
  data <~ json_loads req ;;
  let title := strip (get_default (body_title data) "") in
  let description := strip (get_default (body_description data) "") in
  let category := strip (get_default (body_category data) "") in
  let expires_at := body_expires_at data in
  let options := get_default (body_options data) [] in
  if negb (truthy title) then
    ret (mkResponse 400 (Failure "Poll title is required"))
  else if count options <? 2 then
    ret (mkResponse 400 (Failure "At least 2 options are required"))
  else if 10 <? count options then
    ret (mkResponse 400 (Failure "Maximum 10 options allowed"))
  else
    let expires_at_obj :=
      match expires_at with
      | Some e => if truthy e && truthy (strip e) then parse_expiry e else None
      | None => None
      end in
    user <~ request_user req ;;
    poll <~ Poll_objects_create title description category user expires_at_obj
                                (req_now req) ;;
    _ <~ create_options (poll_id poll) options (req_now req) ;;
    data <~ serialize_poll poll true ;;
    ret (mkResponse 200
           (Success (mkAck (Some "Poll created successfully!") (Some data)))).

(** [create_poll]: [@json_login_required @require_http_methods(["POST"])] *)
Definition create_poll : view Store PollBody Ack :=
  json_login_required (require_http_methods [POST] (fun req =>
    try_except (create_poll_body req)
      (fun e => mkResponse 500 (Crash "Unable to create poll: " e)))).

End CreatePoll.

Definition vote_poll_body (poll_id : Z) (req : request VoteBody)
  : M Store (response Ack) :=
  data <~ json_loads req ;;
  let option_id := body_option_id data in
  match option_id with
  | None | Some 0 =>
      ret (mkResponse 400 (Failure "Option ID is required"))
  | Some option_id =>
      s <~ get_store ;;
      poll <~ get_object_or_404 (find_poll s poll_id) ;;
      option <~ get_object_or_404
                  (find_option_of_poll s option_id (PollSystem.poll_id poll)) ;;
      user <~ request_user req ;;
      let existing_vote :=
        hd_error (votes_of_poll_user s (PollSystem.poll_id poll) user) in
      message <~
        match existing_vote with
        | Some v =>
            _ <~ Vote_save (mkVote (v_id v) (v_poll v)
                                    (PollSystem.option_id option)
                                    (v_user v) (v_created_at v)) ;;
            ret "Vote updated successfully!"
        | None =>
            _ <~ Vote_objects_create (PollSystem.poll_id poll)
                                     (PollSystem.option_id option) user
                                     (req_now req) ;;
            ret "Vote submitted successfully!"
        end ;;
      data <~ serialize_poll poll true ;;
      ret (mkResponse 200 (Success (mkAck (Some message) (Some data))))
  end.

(** [vote_poll]: [@json_login_required @require_http_methods(["POST"])] *)
Definition vote_poll (poll_id : Z) : view Store VoteBody Ack :=
  json_login_required (require_http_methods [POST] (fun req =>
    try_except (vote_poll_body poll_id req)
      (fun e => mkResponse 500 (Crash "Unable to vote: " e)))).

(** The creator test of the PUT and DELETE branches of [poll_detail]:
    [not request.user.is_authenticated or poll.creator != request.user] *)
Definition not_creator {B : Type} (req : request B) (poll : Poll) : bool :=
  match req_user req with
  | None => true
  | Some u => negb (creator poll =? u)
  end.

(** [poll_detail] as bound at import time: the second definition of the
    module, which replaces the read-only one above it. *)
Definition poll_detail_body (poll_id : Z) (req : request PollBody)
  : M Store (response Ack) :=
  s <~ get_store ;;
  poll <~ get_object_or_404 (find_poll s poll_id) ;;
  match req_method req with
  | GET =>
      data <~ serialize_poll poll true ;;
      ret (mkResponse 200 (Success (mkAck None (Some data))))
  | PUT =>
      if not_creator req poll then
        ret (mkResponse 403 (Failure "Permission denied"))
      else
        data <~ json_loads req ;;
        let options := get_default (body_options data) [] in
        if count options <? 2 then
          ret (mkResponse 400 (Failure "At least 2 options are required"))
        else
          let poll := mkPoll (PollSystem.poll_id poll)
                        (get_default (body_title data) (title poll))
                        (get_default (body_description data) (description poll))
                        (creator poll) (created_at poll) (expires_at poll)
                        (is_active poll)
                        (get_default (body_category data) (category poll)) in
          _ <~ Poll_save poll ;;
          _ <~ match options with
               | [] => ret tt
               | _ =>
                   _ <~ delete_options (PollSystem.poll_id poll) ;;
                   create_options (PollSystem.poll_id poll) options (req_now req)
               end ;;
          data <~ serialize_poll poll true ;;
          ret (mkResponse 200
                 (Success (mkAck (Some "Poll updated successfully!") (Some data))))
  | DELETE =>
      if not_creator req poll then
        ret (mkResponse 403 (Failure "Permission denied"))
      else
        _ <~ Poll_delete (PollSystem.poll_id poll) ;;
        ret (mkResponse 200
               (Success (mkAck (Some "Poll deleted successfully!") None)))
  | POST =>
      (* not reached, the decorator has refused the verb: no branch of the
         view answers, and Django rejects a view that returns nothing *)
      raise ValueError
  end.

Definition poll_detail (poll_id : Z) : view Store PollBody Ack :=
  require_http_methods [GET; PUT; DELETE] (fun req =>
    try_except (poll_detail_body poll_id req)
      (fun e =>
         match e with
         | DoesNotExist => mkResponse 404 (Failure "Poll not found")
         | _ => mkResponse 500 (Crash "Operation failed: " e)
         end)).

Definition edit_poll_body (poll_id : Z) (req : request PollBody)
  : M Store (response Ack) :=
  s <~ get_store ;;
  user <~ request_user req ;;
  poll <~ get_object_or_404 (find_poll_of_creator s poll_id user) ;;
  data <~ json_loads req ;;
  let title := strip (get_default (body_title data) "") in
  let description := strip (get_default (body_description data) "") in
  let category := strip (get_default (body_category data) "") in
  if negb (truthy title) then
    ret (mkResponse 400 (Failure "Poll title is required"))
  else
    let poll := mkPoll (PollSystem.poll_id poll) title description
                  (creator poll) (created_at poll) (expires_at poll)
                  (is_active poll) category in
    _ <~ Poll_save poll ;;
    data <~ serialize_poll poll true ;;
    ret (mkResponse 200
           (Success (mkAck (Some "Poll updated successfully!") (Some data)))).

(** [edit_poll]: [@json_login_required @require_http_methods(["PUT"])] *)
Definition edit_poll (poll_id : Z) : view Store PollBody Ack :=
  json_login_required (require_http_methods [PUT] (fun req =>
    try_except (edit_poll_body poll_id req)
      (fun e =>
         match e with
         | DoesNotExist =>
             mkResponse 404
               (Failure "Poll not found or you do not have permission to edit it")
         | _ => mkResponse 500 (Crash "Unable to edit poll: " e)
         end))).

(** Integer-valued fields of [Poll] that a keyword lookup can compare. *)
Definition Poll_field_value (name : string) (p : Poll) : option Z :=
  if String.eqb name "id" then Some (poll_id p)
  else if String.eqb name "creator" then Some (creator p)
  else None.

(** [Poll.objects.get(kw)] for keyword lookups on integer fields. *)
Definition Poll_objects_get (kw : list (string * Z)) : M Store Poll :=
  _ <~ check_lookup (map fst kw) ;;
  s <~ get_store ;;
  objects_get
    (find (fun p =>
             forallb (fun nv =>
                        match Poll_field_value (fst nv) p with
                        | Some x => x =? snd nv
                        | None => false
                        end) kw)
          (polls s)).

Definition delete_poll_body (poll_id : Z) (req : request PollBody)
  : M Store (response Ack) :=
  user <~ request_user req ;;
  poll <~ Poll_objects_get [("id", poll_id); ("created_by", user)] ;;
  _ <~ Poll_delete (PollSystem.poll_id poll) ;;
  ret (mkResponse 200 (Success (mkAck (Some "Poll deleted successfully") None))).

(** [delete_poll]: [@json_login_required], the verb tested by hand. *)
Definition delete_poll (poll_id : Z) : view Store PollBody Ack :=
  json_login_required (fun req =>
    match req_method req with
    | DELETE =>
        try_except (delete_poll_body poll_id req)
          (fun e =>
             match e with
             | DoesNotExist =>
                 mkResponse 404 (Failure "Poll not found or unauthorized")
             | _ => mkResponse 500 (Crash "" e)
             end)
    | _ => fun s => (mkResponse 405 (Failure "Invalid method"), s)
    end).

(** ** [src/poll_system/views.py]: views that read *)

Record ResultRow : Type := mkResultRow {
  rr_id : Z;
  rr_text : string;
  rr_vote_count : Z;
  rr_percentage : number
}.

Record ResultsJson : Type := mkResultsJson {
  rj_poll : PollJson;
  rj_total_votes : Z;
  rj_options : list ResultRow;
  rj_user_vote : option Z
}.

(** [(vote_count / total_votes * 100) if total_votes > 0 else 0] *)
Definition percentage_of (vote_count total_votes : Z) : result number :=
  if 0 <? total_votes then
    q <- truediv vote_count total_votes ;;
    Ok (PyFloat (mul_int q 100))
  else Ok (PyInt 0).

(** The loop of [poll_results] over [poll.options.all()], appending one
    row per option to [options_with_votes]. *)
Fixpoint results_loop (s : Store) (total_votes : Z) (os : list PollOption)
  (options_with_votes : list ResultRow) : result (list ResultRow) :=
  match os with
  | [] => Ok options_with_votes
  | option :: t =>
      let vote_count := count (votes_of_option s (option_id option)) in
      percentage <- percentage_of vote_count total_votes ;;
      results_loop s total_votes t
        (options_with_votes ++
           [mkResultRow (option_id option) (text option) vote_count
                        (round_n percentage 1)])
  end.

Definition poll_results_body (poll_id : Z) (req : request unit)
  : M Store (response ResultsJson) :=
  s <~ get_store ;;
  poll <~ get_object_or_404 (find_poll s poll_id) ;;
  let total_votes := count (votes_of_poll s (PollSystem.poll_id poll)) in
  options_with_votes <~
    lift (results_loop s total_votes (poll_options s (PollSystem.poll_id poll)) []) ;;
  let user_vote :=
    match req_user req with
    | Some user =>
        match hd_error (votes_of_poll_user s (PollSystem.poll_id poll) user) with
        | Some user_vote_obj => Some (v_option user_vote_obj)
        | None => None
        end
    | None => None
    end in
  data <~ serialize_poll poll false ;;
  ret (mkResponse 200
         (Success (mkResultsJson data total_votes options_with_votes user_vote))).

(** [poll_results]: [@require_http_methods(["GET"])] *)
Definition poll_results (poll_id : Z) : view Store unit ResultsJson :=
  require_http_methods [GET] (fun req =>
    try_except (poll_results_body poll_id req)
      (fun _ => mkResponse 500 (Failure "Unable to load poll results"))).

(** [Poll.objects.annotate(vote_count=Count('votes'))]: each poll with the
    number of votes that reference it. *)
Definition annotate_vote_count (s : Store) : list (Poll * Z) :=
  map (fun p => (p, count (votes_of_poll s (poll_id p)))) (polls s).

(** [Vote.objects.values('user').distinct().count()] *)
Definition users_who_voted (s : Store) : Z :=
  count (nodup Z.eq_dec (map v_user (votes s))).

(** The three rates of [detailed_statistics]. *)
Definition completion_rate (polls_with_votes total_polls : Z) : result number :=
  if 0 <? total_polls then
    q <- truediv polls_with_votes total_polls ;;
    Ok (round_n (PyFloat (mul_int q 100)) 2)
  else Ok (PyInt 0).

Definition avg_votes_per_poll (total_votes total_polls : Z) : result number :=
  if 0 <? total_polls then
    q <- truediv total_votes total_polls ;;
    Ok (round_n (PyFloat q) 2)
  else Ok (PyInt 0).

Definition engagement_rate (users_who_voted total_users : Z) : result number :=
  if 0 <? total_users then
    q <- truediv users_who_voted total_users ;;
    Ok (round_n (PyFloat (mul_int q 100)) 2)
  else Ok (PyInt 0).

(** The document of [detailed_statistics]; its ['categoryDistribution']
    list (polls grouped by category) is left out. *)
Record DetailedStats : Type := mkDetailedStats {
  completionRate : number;
  avgVotesPerPoll : number;
  engagementRate : number
}.

Definition detailed_statistics_body (req : request unit)
  : M Store (response DetailedStats) :=
  s <~ get_store ;;
  let total_polls := count (polls s) in
  let total_votes := count (votes s) in
  let polls_with_votes :=
    count (filter (fun pv => 0 <? snd pv) (annotate_vote_count s)) in
  completion_rate <~ lift (completion_rate polls_with_votes total_polls) ;;
  avg_votes_per_poll <~ lift (avg_votes_per_poll total_votes total_polls) ;;
  let total_users := count (users s) in
  engagement_rate <~ lift (engagement_rate (users_who_voted s) total_users) ;;
  ret (mkResponse 200
         (Success (mkDetailedStats completion_rate avg_votes_per_poll
                                   engagement_rate))).

(** [detailed_statistics]: [@require_http_methods(["GET"])] *)
Definition detailed_statistics : view Store unit DetailedStats :=
  require_http_methods [GET] (fun req =>
    try_except (detailed_statistics_body req)
      (fun _ => mkResponse 500 (Failure "Unable to load detailed statistics"))).

Record TopPollRow : Type := mkTopPollRow {
  tp_id : Z;
  tp_title : string;
  tp_vote_count : Z;
  tp_participation_rate : number
}.

(** [round((poll.vote_count / total_possible_votes * 100), 2)
     if total_possible_votes > 0 else 0] *)
Definition participation_rate (vote_count total_possible_votes : Z)
  : result number :=
  if 0 <? total_possible_votes then
    q <- truediv vote_count total_possible_votes ;;
    Ok (round_n (PyFloat (mul_int q 100)) 2)
  else Ok (PyInt 0).

(** The query of [top_polls]:
    [annotate(...).filter(vote_count__gt=0).order_by('-vote_count')[:10]] *)
Definition top_polls_query (s : Store) : list (Poll * Z) :=
  firstn 10
    (sort_desc snd (filter (fun pv => 0 <? snd pv) (annotate_vote_count s))).

Fixpoint top_polls_loop (s : Store) (polls : list (Poll * Z))
  (top_polls_data : list TopPollRow) : result (list TopPollRow) :=
  match polls with
  | [] => Ok top_polls_data
  | (poll, vote_count) :: t =>
      let total_possible_votes := count (users s) in
      participation_rate <- participation_rate vote_count total_possible_votes ;;
      top_polls_loop s t
        (top_polls_data ++
           [mkTopPollRow (poll_id poll) (title poll) vote_count participation_rate])
  end.

Definition top_polls_body (req : request unit) : M Store (response (list TopPollRow)) :=
  s <~ get_store ;;
  top_polls_data <~ lift (top_polls_loop s (top_polls_query s) []) ;;
  ret (mkResponse 200 (Success top_polls_data)).

(** [top_polls]: [@require_http_methods(["GET"])] *)
Definition top_polls : view Store unit (list TopPollRow) :=
  require_http_methods [GET] (fun req =>
    try_except (top_polls_body req)
      (fun _ => mkResponse 500 (Failure "Unable to load top polls"))).

Record BasicStats : Type := mkBasicStats {
  totalPolls : Z;
  totalVotes : Z;
  activePollsCount : Z;
  avgParticipation : number
}.

(** [avg_participation = 0
     if total_polls > 0: avg_participation = round(total_votes / total_polls, 2)] *)
Definition avg_participation (total_votes total_polls : Z) : result number :=
  if 0 <? total_polls then
    q <- truediv total_votes total_polls ;;
    Ok (round_n (PyFloat q) 2)
  else Ok (PyInt 0).

Definition analytics_view_body (req : request unit) : M Store (response BasicStats) :=
  s <~ get_store ;;
  let total_polls := count (polls s) in
  let total_votes := count (votes s) in
  let active_polls := count (filter is_active (polls s)) in
  avg_participation <~ lift (avg_participation total_votes total_polls) ;;
  ret (mkResponse 200
         (Success (mkBasicStats total_polls total_votes active_polls
                                avg_participation))).

(** [analytics_view]: no decorator. *)
Definition analytics_view : view Store unit BasicStats :=
  fun req =>
    try_except (analytics_view_body req)
      (fun e => mkResponse 500 (Crash "" e)).

(** [Vote.objects.filter(poll__creator=user)] *)
Definition votes_on_polls_of (s : Store) (user : Z) : list Vote :=
  filter (fun v =>
            match find_poll s (v_poll v) with
            | Some p => creator p =? user
            | None => false
            end) (votes s).

(** [min(100, round((total_votes / total_polls) * 10))
     if total_polls > 0 and total_votes > 0 else 0] *)
Definition user_avg_participation (total_votes total_polls : Z) : result number :=
  if (0 <? total_polls) && (0 <? total_votes) then
    q <- truediv total_votes total_polls ;;
    n <- round_int (mul_int q 10) ;;
    Ok (PyInt (Z.min 100 n))
  else Ok (PyInt 0).

Definition api_statistics_body (user : Z) (req : request unit)
  : M Store (response BasicStats) :=
  s <~ get_store ;;
  let user_polls := filter (fun p => creator p =? user) (polls s) in
  let total_polls := count user_polls in
  let active_polls := count (filter is_active user_polls) in
  let total_votes := count (votes_on_polls_of s user) in
  avg_participation <~ lift (user_avg_participation total_votes total_polls) ;;
  ret (mkResponse 200
         (Success (mkBasicStats total_polls total_votes active_polls
                                avg_participation))).

(** [api_statistics]: [@require_http_methods(["GET"])]; an anonymous
    caller and a caught exception both get the all-zero document, with
    status 200. *)
Definition api_statistics : view Store unit BasicStats :=
  require_http_methods [GET] (fun req =>
    match req_user req with
    | None => fun s => (mkResponse 200 (Success (mkBasicStats 0 0 0 (PyInt 0))), s)
    | Some user =>
        try_except (api_statistics_body user req)
          (fun _ => mkResponse 200 (Success (mkBasicStats 0 0 0 (PyInt 0))))
    end).

Record PopularRow : Type := mkPopularRow {
  pp_id : Z;
  pp_title : string;
  pp_vote_count : Z
}.

(** The document of [analytics_data]; its ['categories'] list is left out. *)
Record Analytics : Type := mkAnalytics {
  an_total_polls : Z;
  an_total_votes : Z;
  an_active_polls : Z;
  an_user_polls : Z;
  an_user_votes : Z;
  an_polls_this_week : Z;
  an_votes_this_week : Z;
  an_popular_polls : list PopularRow
}.

(** [Poll.objects.all()]: [Meta.ordering = ['-created_at']] *)
Definition Poll_objects_all (s : Store) : list Poll :=
  sort_desc created_at (polls s).

(** The loop [for poll in Poll.objects.all()[:5]: popular_polls.append(...)] *)
Fixpoint popular_loop (s : Store) (ps : list Poll) (popular_polls : list PopularRow)
  : list PopularRow :=
  match ps with
  | [] => popular_polls
  | poll :: t =>
      let vote_count := count (votes_of_poll s (poll_id poll)) in
      popular_loop s t
        (popular_polls ++ [mkPopularRow (poll_id poll) (title poll) vote_count])
  end.

(** The ['popular_polls'] entry of [analytics_data]: the rows of the first
    five polls, then sorted by vote count, then cut to five. *)
Definition popular_polls (s : Store) : list PopularRow :=
  let popular_polls := popular_loop s (firstn 5 (Poll_objects_all s)) [] in
  let popular_polls := sort_desc pp_vote_count popular_polls in
  firstn 5 popular_polls.

(** Seven days, timestamps being counted in seconds. *)
Definition week : Z := 604800.

(** [analytics_data] as bound at import time: the last definition of the
    module. *)
Definition analytics_data_body (req : request unit) : M Store (response Analytics) :=
  s <~ get_store ;;
  let total_polls := count (polls s) in
  let total_votes := count (votes s) in
  let active_polls := count (filter is_active (polls s)) in
  let user_polls_count :=
    match req_user req with
    | Some user => count (filter (fun p => creator p =? user) (polls s))
    | None => 0
    end in
  let user_votes_count :=
    match req_user req with
    | Some user => count (filter (fun v => v_user v =? user) (votes s))
    | None => 0
    end in
  let week_ago := req_now req - week in
  let recent_polls := count (filter (fun p => week_ago <=? created_at p) (polls s)) in
  let recent_votes := count (filter (fun v => week_ago <=? v_created_at v) (votes s)) in
  ret (mkResponse 200
         (Success (mkAnalytics total_polls total_votes active_polls
                     user_polls_count user_votes_count recent_polls recent_votes
                     (popular_polls s)))).

Definition analytics_data : view Store unit Analytics :=
  require_http_methods [GET] (fun req =>
    try_except (analytics_data_body req)
      (fun _ => mkResponse 500 (Failure "Unable to load analytics data"))).

(** ** Histories: stores reached by sequences of requests *)

(** A request served by one of the views that write. *)
Inductive op : Type :=
  | CreatePoll (req : request PollBody)
  | VotePoll (poll_id : Z) (req : request VoteBody)
  | PollDetail (poll_id : Z) (req : request PollBody)
  | EditPoll (poll_id : Z) (req : request PollBody)
  | DeletePoll (poll_id : Z) (req : request PollBody).

(** A database operation: a served request, or a row written to the
    [Vote] table directly (any other writer of the table: a second worker,
    the admin site, a shell). *)
Inductive db_op : Type :=
  | Served (o : op)
  | InsertVote (poll option user now : Z)
  | SaveVote (v : Vote).

Section Histories.

Variable parse_expiry : string -> option Z.

Definition step (o : op) (s : Store) : Store :=
  match o with
  | CreatePoll req => snd (create_poll parse_expiry req s)
  | VotePoll poll_id req => snd (vote_poll poll_id req s)
  | PollDetail poll_id req => snd (poll_detail poll_id req s)
  | EditPoll poll_id req => snd (edit_poll poll_id req s)
  | DeletePoll poll_id req => snd (delete_poll poll_id req s)
  end.

Definition run (ops : list op) (s : Store) : Store :=
  fold_left (fun s o => step o s) ops s.

Definition db_step (o : db_op) (s : Store) : Store :=
  match o with
  | Served o => step o s
  | InsertVote poll option user now =>
      snd (Vote_objects_create poll option user now s)
  | SaveVote v => snd (Vote_save v s)
  end.

Definition db_run (ops : list db_op) (s : Store) : Store :=
  fold_left (fun s o => db_step o s) ops s.

End Histories.

(** ** [src/poll_system/views.py]: the remaining poll views *)

(** The list comprehension [[serialize_poll(poll, ...) for poll in polls]] *)
Fixpoint serialize_each (ps : list Poll) (include_options : bool)
  : M Store (list PollJson) :=
  match ps with
  | [] => ret []
  | poll :: t =>
      data <~ serialize_poll poll include_options ;;
      rest <~ serialize_each t include_options ;;
      ret (data :: rest)
  end.

(** The document of [api_polls] and [api_my_polls]. *)
Record PollList : Type := mkPollList {
  pl_polls : list PollJson;
  pl_count : Z
}.

(** [api_polls]: [@require_http_methods(["GET"])], open to everybody. *)
Definition api_polls : view Store unit PollList :=
  require_http_methods [GET] (fun req =>
    try_except
      (s <~ get_store ;;
       polls_data <~ serialize_each (Poll_objects_all s) false ;;
       ret (mkResponse 200 (Success (mkPollList polls_data (count polls_data)))))
      (fun e => mkResponse 500 (Crash "Unable to load polls: " e))).

(** [Poll.objects.filter(creator=user)], in the model's default order. *)
Definition polls_of_creator (s : Store) (user : Z) : list Poll :=
  filter (fun p => creator p =? user) (Poll_objects_all s).

(** [api_my_polls]: [@json_login_required @require_http_methods(["GET"])] *)
Definition api_my_polls : view Store unit PollList :=
  json_login_required (require_http_methods [GET] (fun req =>
    try_except
      (s <~ get_store ;;
       user <~ request_user req ;;
       polls_data <~ serialize_each (polls_of_creator s user) true ;;
       ret (mkResponse 200 (Success (mkPollList polls_data (count polls_data)))))
      (fun e => mkResponse 500 (Crash "Unable to load your polls: " e)))).

(** The ['poll'] entry of the success document of [update_poll]. *)
Record PollBrief : Type := mkPollBrief {
  pb_id : Z;
  pb_title : string;
  pb_description : string;
  pb_category : string
}.

Definition update_poll_body (poll_id : Z) (req : request PollBody)
  : M Store (response (string * PollBrief)) :=
  user <~ request_user req ;;
  poll <~ Poll_objects_get [("id", poll_id); ("created_by", user)] ;;
  data <~ json_loads req ;;
  let poll := mkPoll (PollSystem.poll_id poll)
                (get_default (body_title data) (title poll))
                (get_default (body_description data) (description poll))
                (creator poll) (created_at poll) (expires_at poll)
                (is_active poll)
                (get_default (body_category data) (category poll)) in
  _ <~ Poll_save poll ;;
  _ <~ match body_options data with
       | Some _ =>
           (* [poll.polloption_set]: the reverse accessor is named [options] *)
           raise AttributeError
       | None => ret tt
       end ;;
  ret (mkResponse 200
         (Success ("Poll updated successfully",
                   mkPollBrief (PollSystem.poll_id poll) (title poll)
                               (description poll) (category poll)))).

(** [update_poll]: [@json_login_required], the verb tested by hand. *)
Definition update_poll (poll_id : Z) : view Store PollBody (string * PollBrief) :=
  json_login_required (fun req =>
    match req_method req with
    | PUT =>
        try_except (update_poll_body poll_id req)
          (fun e =>
             match e with
             | DoesNotExist =>
                 mkResponse 404 (Failure "Poll not found or unauthorized")
             | _ => mkResponse 500 (Crash "" e)
             end)
    | _ => fun s => (mkResponse 405 (Failure "Invalid method"), s)
    end).

End PollSystem.

(* ================================================================== *)
(** * The [polls] application *)
(* ================================================================== *)

Module Polls.

(** ** [src/polls/models.py] *)

Record Poll : Type := mkPoll {
  poll_id : Z;
  title : string;
  description : option string;
  created_at : Z;
  expires_at : option Z;
  is_active : bool;
  created_by : option Z
}.

Record Option : Type := mkOption {
  option_id : Z;
  option_poll : Z;
  text : string;
  order : Z
}.

Record Vote : Type := mkVote {
  v_id : Z;
  v_option : Z;
  voter_ip : string;
  voter_session : string;
  voted_at : Z
}.

Record Store : Type := mkStore {
  polls : list Poll;
  options : list Option;
  votes : list Vote;
  next_poll_id : Z;
  next_option_id : Z;
  next_vote_id : Z
}.

Definition empty_store : Store := mkStore [] [] [] 1 1 1.

(** Field names of [Poll]: the model declares no [category]. *)
Definition Poll_fields : list string :=
  ["id"; "title"; "description"; "created_at"; "expires_at"; "is_active";
   "created_by"].

(** [Poll.is_expired] at time [now] *)
Definition is_expired (p : Poll) (now : Z) : bool :=
  match expires_at p with
  | Some t => t <? now
  | None => false
  end.

Definition find_poll (s : Store) (pid : Z) : option Poll :=
  find (fun p => poll_id p =? pid) (polls s).

Definition find_poll_of_creator (s : Store) (pid uid : Z) : option Poll :=
  find (fun p => (poll_id p =? pid)
                 && match created_by p with
                    | Some c => c =? uid
                    | None => false
                    end) (polls s).

Definition find_option (s : Store) (oid : Z) : option Option :=
  find (fun o => option_id o =? oid) (options s).

(** [Meta.ordering = ['order', 'id']] of [Option] *)
Definition option_leb (a b : Option) : bool :=
  (order a <? order b) || ((order a =? order b) && (option_id a <=? option_id b)).

(** [poll.options.all()] *)
Definition poll_options (s : Store) (pid : Z) : list Option :=
  sort_by option_leb (filter (fun o => option_poll o =? pid) (options s)).

(** [Vote.objects.filter(option=option)], [option.votes] *)
Definition votes_of_option (s : Store) (oid : Z) : list Vote :=
  filter (fun v => v_option v =? oid) (votes s).

(** [Vote.objects.filter(option__poll=poll)] *)
Definition votes_of_poll (s : Store) (pid : Z) : list Vote :=
  filter (fun v =>
            match find_option s (v_option v) with
            | Some o => option_poll o =? pid
            | None => false
            end) (votes s).

(** [Poll.total_votes] *)
Definition total_votes (s : Store) (pid : Z) : Z := count (votes_of_poll s pid).

(** One row of [Poll.get_results] and of the [poll_results] view. *)
Record ResultRow : Type := mkResultRow {
  rr_option_id : Z;
  rr_text : string;
  rr_votes : Z;
  rr_percentage : number
}.

(** The loop of [Poll.get_results]; [self.total_votes] is a property and
    is queried anew in the test and in the division. *)
Fixpoint get_results_loop (s : Store) (pid : Z) (os : list Option)
  (results : list ResultRow) : result (list ResultRow) :=
  match os with
  | [] => Ok results
  | option :: t =>
      let vote_count := count (votes_of_option s (option_id option)) in
      percentage <-
        (if 0 <? total_votes s pid then
           q <- truediv vote_count (total_votes s pid) ;;
           Ok (PyFloat (mul_int q 100))
         else Ok (PyInt 0)) ;;
      get_results_loop s pid t
        (results ++
           [mkResultRow (option_id option) (text option) vote_count
                        (round_n percentage 2)])
  end.

(** [Poll.get_results] *)
Definition get_results (s : Store) (p : Poll) : result (list ResultRow) :=
  get_results_loop s (poll_id p) (poll_options s (poll_id p)) [].

(** ** Object-relational layer *)

Definition set_polls (s : Store) (ps : list Poll) (next : Z) : Store :=
  mkStore ps (options s) (votes s) next (next_option_id s) (next_vote_id s).

Definition set_options (s : Store) (os : list Option) (next : Z) : Store :=
  mkStore (polls s) os (votes s) (next_poll_id s) next (next_vote_id s).

Definition set_votes (s : Store) (vs : list Vote) (next : Z) : Store :=
  mkStore (polls s) (options s) vs (next_poll_id s) (next_option_id s) next.

(** A keyword that is not a field of [Poll]: [TypeError] from the model
    constructor, [FieldError] from a query, [AttributeError] from an
    attribute read. *)
Definition check_names (e : exn) (names : list string) : M Store unit :=
  if forallb (is_field Poll_fields) names then ret tt else raise e.

(** The row insert behind [Poll.objects.create]. *)
Definition Poll_insert (title : string) (description : option string)
  (expires_at : option Z) (is_active : bool) (created_by : option Z) (now : Z)
  : M Store Poll :=
  fun s =>
    let p := mkPoll (next_poll_id s) title description now expires_at is_active
                    created_by in
    (Ok p, set_polls s (polls s ++ [p]) (next_poll_id s + 1)).

(** [poll.save()] *)
Definition Poll_save (p : Poll) : M Store unit :=
  fun s =>
    (Ok tt,
     set_polls s
       (map (fun q => if poll_id q =? poll_id p then p else q) (polls s))
       (next_poll_id s)).

(** [Option.objects.create(poll=, text=, order=)] under
    [unique_together = ['poll', 'text']]. *)
Definition Option_objects_create (pid : Z) (text : string) (order : Z)
  : M Store unit :=
  fun s =>
    if existsb (fun o => (option_poll o =? pid) && String.eqb (Polls.text o) text)
               (options s)
    then (Raise IntegrityError, s)
    else (Ok tt,
          set_options s (options s ++ [mkOption (next_option_id s) pid text order])
                      (next_option_id s + 1)).

(** [unique_together = ['option', 'voter_ip', 'voter_session']] *)
Definition unique_together_clash (vs : list Vote) (oid : Z) (ip session : string)
  : bool :=
  existsb (fun v => (v_option v =? oid) && String.eqb (voter_ip v) ip
                    && String.eqb (voter_session v) session) vs.

(** [':' in value] *)
Fixpoint has_colon (value : string) : bool :=
  match value with
  | EmptyString => false
  | String c t => Ascii.eqb c ":" || has_colon t
  end.

Section VoterAddress.

(** [django.utils.ipv6.clean_ipv6_address], the normal form of the text
    of an IPv6 address; [None] stands for the [ValidationError] it raises
    on a text that spells no address. *)
Variable clean_ipv6_address : string -> option string.

(** What is written to the column [voter_ip]:
    [GenericIPAddressField.get_prep_value] replaces a text with a colon by
    its normal form when it has one, and the back end's
    [adapt_ipaddressfield_value] turns the empty text into [NULL]
    ([None] here). *)
Definition ip_db_value (value : string) : option string :=
  let value :=
    if truthy value && has_colon value
    then get_default (clean_ipv6_address value) value
    else value in
  if truthy value then Some value else None.

(** [Vote.objects.create(option=, voter_ip=, voter_session=)]: the column
    [voter_ip] is declared [NOT NULL], and the row must not repeat the key
    of [unique_together]; the database raises [IntegrityError] on
    either. *)
Definition Vote_objects_create (oid : Z) (ip session : string) (now : Z)
  : M Store unit :=
  fun s =>
    match ip_db_value ip with
    | None => (Raise IntegrityError, s)
    | Some ip =>
        if unique_together_clash (votes s) oid ip session
        then (Raise IntegrityError, s)
        else (Ok tt,
              set_votes s (votes s ++ [mkVote (next_vote_id s) oid ip session now])
                        (next_vote_id s + 1))
    end.

End VoterAddress.

(** [poll.options.all().delete()], cascading to the votes. *)
Definition delete_options (pid : Z) : M Store unit :=
  fun s =>
    let doomed := map option_id (filter (fun o => option_poll o =? pid) (options s)) in
    (Ok tt,
     mkStore (polls s)
       (filter (fun o => negb (option_poll o =? pid)) (options s))
       (filter (fun v => negb (existsb (Z.eqb (v_option v)) doomed)) (votes s))
       (next_poll_id s) (next_option_id s) (next_vote_id s)).

(** [poll.delete()], cascading to the options and their votes. *)
Definition Poll_delete (pid : Z) : M Store unit :=
  fun s =>
    let doomed := map option_id (filter (fun o => option_poll o =? pid) (options s)) in
    (Ok tt,
     mkStore
       (filter (fun p => negb (poll_id p =? pid)) (polls s))
       (filter (fun o => negb (option_poll o =? pid)) (options s))
       (filter (fun v => negb (existsb (Z.eqb (v_option v)) doomed)) (votes s))
       (next_poll_id s) (next_option_id s) (next_vote_id s)).

(** ** [src/polls/views.py]: views that read *)

(** [@api_view([...])]: the verb test and the framework's exception
    handler around the function. *)
Definition api_view {B A : Type} (allowed : list http_method)
  (f : request B -> M Store (response A)) : view Store B A :=
  fun req s =>
    if existsb (method_eqb (req_method req)) allowed then drf_view (f req) s
    else (mkResponse 405 NotAllowed, s).

Record PollResults : Type := mkPollResults {
  pr_poll_id : Z;
  pr_poll_title : string;
  pr_total_votes : Z;
  pr_results : list ResultRow
}.

(** The loop of the [poll_results] view: the percentage is stored as
    computed. *)
Fixpoint results_loop (s : Store) (total_votes : Z) (os : list Option)
  (results : list ResultRow) : result (list ResultRow) :=
  match os with
  | [] => Ok results
  | option :: t =>
      let vote_count := count (votes_of_option s (option_id option)) in
      percentage <-
        (if 0 <? total_votes then
           q <- truediv vote_count total_votes ;;
           Ok (PyFloat (mul_int q 100))
         else Ok (PyInt 0)) ;;
      results_loop s total_votes t
        (results ++
           [mkResultRow (option_id option) (text option) vote_count percentage])
  end.

(** [poll_results]: [@api_view(['GET'])] *)
Definition poll_results (pk : Z) : view Store unit PollResults :=
  api_view [GET] (fun req =>
    s <~ get_store ;;
    poll <~ get_object_or_404 (find_poll s pk) ;;
    let total_votes := count (votes_of_poll s (poll_id poll)) in
    results <~ lift (results_loop s total_votes (poll_options s (poll_id poll)) []) ;;
    ret (mkResponse 200
           (Success (mkPollResults (poll_id poll) (title poll) total_votes results)))).

(** The three rates of [analytics_detailed]. *)
Definition completion_rate (total_votes total_polls : Z) : result number :=
  if 0 <? total_polls then
    q <- truediv total_votes (total_polls * 10) ;;
    n <- round_int (mul_int q 100) ;;
    Ok (PyInt n)
  else Ok (PyInt 0).

(** [avg_votes_per_poll = 0
     if total_polls > 0: avg_votes_per_poll = total_votes / total_polls] *)
Definition avg_votes_per_poll (total_votes total_polls : Z) : result number :=
  if 0 <? total_polls then
    q <- truediv total_votes total_polls ;;
    Ok (PyFloat q)
  else Ok (PyInt 0).

Definition engagement_rate (total_votes total_polls : Z) : result number :=
  if 0 <? total_polls then
    q <- truediv total_votes (total_polls * 20) ;;
    n <- round_int (mul_int q 100) ;;
    Ok (PyInt (Z.min 100 n))
  else Ok (PyInt 0).

(** The document of [analytics_detailed], without its
    ['categoryDistribution'] list. *)
Record DetailedStats : Type := mkDetailedStats {
  completionRate : number;
  avgVotesPerPoll : number;
  engagementRate : number
}.

(** [analytics_detailed]: [@api_view(['GET'])]; the query
    [Poll.objects.values('category')] names a field the model lacks. *)
Definition analytics_detailed : view Store unit DetailedStats :=
  api_view [GET] (fun req =>
    caught
      (s <~ get_store ;;
       let total_polls := count (polls s) in
       let total_votes := count (votes s) in
       avg_votes_per_poll <~ lift (avg_votes_per_poll total_votes total_polls) ;;
       _ <~ check_names FieldError ["category"] ;;
       completion_rate <~ lift (completion_rate total_votes total_polls) ;;
       engagement_rate <~ lift (engagement_rate total_votes total_polls) ;;
       ret (mkResponse 200
              (Success (mkDetailedStats completion_rate
                          (round_n avg_votes_per_poll 1) engagement_rate))))
      (fun e => mkResponse 500 (Crash "" e))).

Record TopPollRow : Type := mkTopPollRow {
  tp_id : Z;
  tp_title : string;
  tp_vote_count : Z;
  tp_participation_rate : Z
}.

(** [round((vote_count / 50) * 100) if vote_count > 0 else 0] *)
Definition participation_rate (vote_count : Z) : result Z :=
  if 0 <? vote_count then
    q <- truediv vote_count 50 ;;
    round_int (mul_int q 100)
  else Ok 0.

(** [Poll.objects.all()]: [Meta.ordering = ['-created_at']] *)
Definition Poll_objects_all (s : Store) : list Poll :=
  sort_desc created_at (polls s).

Fixpoint top_polls_loop (s : Store) (ps : list Poll) (top_polls : list TopPollRow)
  : result (list TopPollRow) :=
  match ps with
  | [] => Ok top_polls
  | poll :: t =>
      let vote_count := count (votes_of_poll s (poll_id poll)) in
      participation_rate <- participation_rate vote_count ;;
      top_polls_loop s t
        (top_polls ++
           [mkTopPollRow (poll_id poll) (title poll) vote_count
                         (Z.min 100 participation_rate)])
  end.

(** The list that [analytics_top_polls] answers with. *)
Definition top_polls_list (s : Store) : result (list TopPollRow) :=
  top_polls <- top_polls_loop s (Poll_objects_all s) [] ;;
  let top_polls := sort_desc tp_vote_count top_polls in
  Ok (firstn 6 top_polls).

(** [analytics_top_polls]: [@api_view(['GET'])] *)
Definition analytics_top_polls : view Store unit (list TopPollRow) :=
  api_view [GET] (fun req =>
    caught
      (s <~ get_store ;;
       top_polls <~ lift (top_polls_list s) ;;
       ret (mkResponse 200 (Success top_polls)))
      (fun e => mkResponse 500 (Crash "" e))).

(** ** [src/polls/views.py]: views that write *)

Record Ack : Type := mkAck {
  ack_message : string;
  ack_poll_id : option Z
}.

(** Truth value of [data.get('title')]: an absent key and an empty string
    are both false. *)
Definition truthy_opt (field : option string) : bool :=
  match field with
  | Some t => truthy t
  | None => false
  end.

Definition create_poll_body (req : request PollBody) : M Store (response Ack) :=
  data <~ json_loads req ;;
  let title := body_title data in
  let description := get_default (body_description data) "" in
  let category := get_default (body_category data) "general" in
  let options := get_default (body_options data) [] in
  if negb (truthy_opt title) then
    ret (mkResponse 400 (Failure "Poll title is required"))
  else if count options <? 2 then
    ret (mkResponse 400 (Failure "At least 2 options are required"))
  else
    user <~ request_user req ;;
    _ <~ check_names TypeError
           ["title"; "description"; "category"; "created_by"; "is_active"] ;;
    poll <~ Poll_insert (get_default title "") (Some description) None true
                        (Some user) (req_now req) ;;
    _ <~ for_each options (fun option_text =>
           Option_objects_create (poll_id poll) (strip option_text) 0) ;;
    ret (mkResponse 200
           (Success (mkAck "Poll created successfully" (Some (poll_id poll))))).

(** [create_poll]:
    [@csrf_exempt @login_required @require_http_methods(["POST"])] *)
Definition create_poll : view Store PollBody Ack :=
  login_required (require_http_methods [POST] (fun req =>
    try_except (create_poll_body req)
      (fun e => mkResponse 500 (Crash "" e)))).

Definition edit_poll_body (poll_id : Z) (req : request PollBody)
  : M Store (response Ack) :=
  s <~ get_store ;;
  user <~ request_user req ;;
  poll <~ get_object_or_404 (find_poll_of_creator s poll_id user) ;;
  data <~ json_loads req ;;
  let poll := mkPoll (Polls.poll_id poll)
                (get_default (body_title data) (title poll))
                (match body_description data with
                 | Some d => Some d
                 | None => description poll
                 end)
                (created_at poll) (expires_at poll) (is_active poll)
                (created_by poll) in
  (* [data.get('category', poll.category)] reads [poll.category] *)
  _ <~ check_names AttributeError ["category"] ;;
  _ <~ Poll_save poll ;;
  _ <~ match body_options data with
       | Some (_ :: _ as options) =>
           if 2 <=? count options then
             _ <~ delete_options (Polls.poll_id poll) ;;
             for_each options (fun option_text =>
               Option_objects_create (Polls.poll_id poll) (strip option_text) 0)
           else ret tt
       | _ => ret tt
       end ;;
  ret (mkResponse 200 (Success (mkAck "Poll updated successfully" None))).

(** [edit_poll]:
    [@csrf_exempt @login_required @require_http_methods(["POST"])] *)
Definition edit_poll (poll_id : Z) : view Store PollBody Ack :=
  login_required (require_http_methods [POST] (fun req =>
    try_except (edit_poll_body poll_id req)
      (fun e => mkResponse 500 (Crash "" e)))).

Definition delete_poll_body (poll_id : Z) (req : request PollBody)
  : M Store (response Ack) :=
  s <~ get_store ;;
  user <~ request_user req ;;
  poll <~ get_object_or_404 (find_poll_of_creator s poll_id user) ;;
  _ <~ Poll_delete (Polls.poll_id poll) ;;
  ret (mkResponse 200 (Success (mkAck "Poll deleted successfully" None))).

(** [delete_poll]:
    [@csrf_exempt @login_required @require_http_methods(["DELETE", "POST"])] *)
Definition delete_poll (poll_id : Z) : view Store PollBody Ack :=
  login_required (require_http_methods [DELETE; POST] (fun req =>
    try_except (delete_poll_body poll_id req)
      (fun e => mkResponse 500 (Crash "" e)))).

(** ** [src/polls/serializers.py] and the generic views over it *)

(** A vote request: the JSON body ([None] when it does not parse) with its
    [option] key, the two headers the address is read from ([REMOTE_ADDR]
    as the empty text when the server sets none), the session key if the
    session has one, and the key a new session would get. *)
Record vote_request : Type := mkVoteRequest {
  vr_body : option (option Z);
  vr_x_forwarded_for : option string;
  vr_remote_addr : string;
  vr_session_key : option string;
  vr_new_session_key : string;
  vr_now : Z
}.

(** [x_forwarded_for.split(',')[0]] *)
Fixpoint before_comma (s : string) : string :=
  match s with
  | EmptyString => EmptyString
  | String c t => if Ascii.eqb c "," then EmptyString else String c (before_comma t)
  end.

(** The address that [VoteSerializer.create] records. *)
Definition client_ip (req : vote_request) : string :=
  match vr_x_forwarded_for req with
  | Some x => if truthy x then before_comma x else vr_remote_addr req
  | None => vr_remote_addr req
  end.

(** The session key that [VoteSerializer.create] records. *)
Definition session_key (req : vote_request) : string :=
  match vr_session_key req with
  | Some k => if truthy k then k else vr_new_session_key req
  | None => vr_new_session_key req
  end.

(** [VoteSerializer.validate_option], after the primary key was resolved. *)
Definition validate_option (s : Store) (now : Z) (value : Option)
  : option string :=
  match find_poll s (option_poll value) with
  | Some poll =>
      if negb (is_active poll) then Some "This poll is no longer active"
      else if is_expired poll now then Some "This poll has expired"
      else None
  | None => None
  end.

(** [VoteCreateView.post]: validation errors are answered 400 by the
    framework, and so is the [IntegrityError] the view catches itself. *)
Definition VoteCreateView_post (clean_ipv6_address : string -> option string)
  (req : vote_request) (s : Store) : response Z * Store :=
  match vr_body req with
  | None => (mkResponse 400 (Failure "JSON parse error"), s)
  | Some None => (mkResponse 400 (Failure "This field is required."), s)
  | Some (Some pk) =>
      match find_option s pk with
      | None => (mkResponse 400 (Failure "Invalid pk - object does not exist."), s)
      | Some value =>
          match validate_option s (vr_now req) value with
          | Some error => (mkResponse 400 (Failure error), s)
          | None =>
              match Vote_objects_create clean_ipv6_address (option_id value)
                      (client_ip req) (session_key req) (vr_now req) s with
              | (Ok _, s') => (mkResponse 201 (Success (next_vote_id s)), s')
              | (Raise IntegrityError, s') =>
                  (mkResponse 400 (Failure "You have already voted in this poll"), s')
              | (Raise e, s') => (mkResponse 500 (Crash "" e), s')
              end
          end
      end
  end.

Section PollCreate.

(** The date-time parser of the serializer field; [None] is a value it
    rejects. *)
Variable parse_datetime : string -> option Z.

Definition all_distinct (l : list string) : bool :=
  Nat.eqb (List.length (nodup string_dec l)) (List.length l).

(** A [CharField] with the given length bounds: the value is trimmed, must
    not be blank, must fit - the length validators count characters - and
    must not hold a null character. *)
Definition char_field (min_length max_length : nat) (value : string)
  : option string :=
  let v := strip value in
  if truthy v && Nat.leb min_length (len v) && Nat.leb (len v) max_length
     && negb (has_null v)
  then Some v else None.

Fixpoint all_some {A : Type} (l : list (option A)) : option (list A) :=
  match l with
  | [] => Some []
  | Some a :: t =>
      match all_some t with
      | Some r => Some (a :: r)
      | None => None
      end
  | None :: _ => None
  end.

(** The [options] field of [PollCreateSerializer] with [validate_options]:
    between 2 and 10 entries, each of 2 to 200 characters, all distinct. *)
Definition validated_options (field : option (list string)) : option (list string) :=
  match field with
  | None => None
  | Some value =>
      if (2 <=? count value) && (count value <=? 10) then
        match all_some (map (char_field 2 200) value) with
        | Some value => if all_distinct value then Some value else None
        | None => None
        end
      else None
  end.

(** The [expires_at] field with [validate_expires_at]: absent, or a date
    in the future. *)
Definition validated_expires_at (now : Z) (field : option string)
  : option (option Z) :=
  match field with
  | None => Some None
  | Some e =>
      match parse_datetime e with
      | Some value => if value <=? now then None else Some (Some value)
      | None => None
      end
  end.

(** The [title] field: required, 5 to 200 characters. *)
Definition validated_title (field : option string) : option string :=
  match field with
  | None => None
  | Some value => char_field 5 200 value
  end.

(** The [description] field: not required, and a blank value is let
    through; any other value is trimmed and must not hold a null
    character. *)
Definition validated_description (field : option string)
  : option (option string) :=
  match field with
  | None => Some None
  | Some value =>
      let v := strip value in
      if truthy v && has_null v then None else Some (Some v)
  end.

(** [serializer.is_valid()]: every field is checked; the validated data
    when all of them pass. *)
Definition is_valid (now : Z) (data : PollBody)
  : option (string * option string * option Z * list string) :=
  match validated_title (body_title data),
        validated_description (body_description data),
        validated_expires_at now (body_expires_at data),
        validated_options (body_options data) with
  | Some title, Some description, Some expires_at, Some options =>
      Some (title, description, expires_at, options)
  | _, _, _, _ => None
  end.

(** The loop of [PollCreateSerializer.create]:
    [for index, option_text in enumerate(options_data)] *)
Fixpoint create_indexed (pid : Z) (index : Z) (options_data : list string)
  : M Store unit :=
  match options_data with
  | [] => ret tt
  | option_text :: t =>
      _ <~ Option_objects_create pid option_text index ;;
      create_indexed pid (index + 1) t
  end.

(** [PollCreateView.create] *)
Definition PollCreateView_create (req : request PollBody) (s : Store)
  : response Z * Store :=
  match req_body req with
  | None => (mkResponse 400 (Failure "JSON parse error"), s)
  | Some data =>
      match is_valid (req_now req) data with
      | Some (title, description, expires_at, options_data) =>
          drf_view
            (poll <~ Poll_insert title description expires_at true None
                                 (req_now req) ;;
             _ <~ create_indexed (poll_id poll) 0 options_data ;;
             ret (mkResponse 201 (Success (poll_id poll)))) s
      | None => (mkResponse 400 (Failure "Validation failed"), s)
      end
  end.

(** What a field of [PollDetailSerializer] finds under its key in
    [request.data]: no such key, [null], a value of a type that the field
    refuses, or a value of its type (for a text field, [str(value)] of the
    text or number that was sent). *)
Inductive submitted (A : Type) : Type :=
  | Absent
  | Null
  | Invalid
  | Given (a : A).

Arguments Absent {A}.
Arguments Null {A}.
Arguments Invalid {A}.
Arguments Given {A} a.

(** The keys of [request.data] that [PollDetailSerializer] writes; its
    other fields ([id], [created_at], [is_expired], [total_votes],
    [options], [results]) are read-only and ignored on input. *)
Record PollDetailBody : Type := mkPollDetailBody {
  pd_title : submitted string;
  pd_description : submitted string;
  pd_expires_at : submitted string;
  pd_is_active : submitted bool
}.

(** What a field makes of its key: it skips it (the key stays out of the
    validated data), it refuses the value, or it validates it. *)
Inductive field_result (A : Type) : Type :=
  | Skipped
  | Refused
  | Validated (a : A).

Arguments Skipped {A}.
Arguments Refused {A}.
Arguments Validated {A} a.

(** [title]: required unless the update is partial, never [null], 5 to
    200 characters. *)
Definition update_title (partial : bool) (field : submitted string)
  : field_result string :=
  match field with
  | Absent => if partial then Skipped else Refused
  | Null | Invalid => Refused
  | Given value =>
      match char_field 5 200 value with
      | Some v => Validated v
      | None => Refused
      end
  end.

(** [description]: not required, may be [null] or blank. *)
Definition update_description (field : submitted string)
  : field_result (option string) :=
  match field with
  | Absent => Skipped
  | Null => Validated None
  | Invalid => Refused
  | Given value =>
      match validated_description (Some value) with
      | Some v => Validated v
      | None => Refused
      end
  end.

(** [expires_at]: not required, may be [null]; this serializer has no
    [validate_expires_at], so that a date in the past passes. *)
Definition update_expires_at (field : submitted string)
  : field_result (option Z) :=
  match field with
  | Absent => Skipped
  | Null => Validated None
  | Invalid => Refused
  | Given e =>
      match parse_datetime e with
      | Some value => Validated (Some value)
      | None => Refused
      end
  end.

(** [is_active]: not required, never [null]. *)
Definition update_is_active (field : submitted bool) : field_result bool :=
  match field with
  | Absent => Skipped
  | Null | Invalid => Refused
  | Given value => Validated value
  end.

Definition refused {A : Type} (r : field_result A) : bool :=
  match r with
  | Refused => true
  | _ => false
  end.

(** [setattr(instance, attr, value)] for a key of the validated data; an
    attribute whose key was skipped keeps its value. *)
Definition set_attr {A : Type} (r : field_result A) (old : A) : A :=
  match r with
  | Validated a => a
  | _ => old
  end.

(** [PollDetailView] is a [RetrieveUpdateDestroyAPIView] without a
    permission class of its own, under the [AllowAny] of the settings: its
    handlers do not look at the caller.

    [UpdateModelMixin.update]: the poll is looked up by [pk], the
    serializer validates the data, [ModelSerializer.update] sets the
    validated attributes and saves the row. *)
Definition PollDetailView_update (partial : bool) (pk : Z)
  (req : request PollDetailBody) : Store -> response Poll * Store :=
  drf_view
    (s <~ get_store ;;
     instance <~ get_object_or_404 (find_poll s pk) ;;
     match req_body req with
     | None => ret (mkResponse 400 (Failure "JSON parse error"))
     | Some data =>
         let new_title := update_title partial (pd_title data) in
         let new_description := update_description (pd_description data) in
         let new_expires_at := update_expires_at (pd_expires_at data) in
         let new_is_active := update_is_active (pd_is_active data) in
         if refused new_title || refused new_description
            || refused new_expires_at || refused new_is_active
         then ret (mkResponse 400 (Failure "Invalid input."))
         else
           let instance :=
             mkPoll (poll_id instance)
               (set_attr new_title (title instance))
               (set_attr new_description (description instance))
               (created_at instance)
               (set_attr new_expires_at (expires_at instance))
               (set_attr new_is_active (is_active instance))
               (created_by instance) in
           _ <~ Poll_save instance ;;
           ret (mkResponse 200 (Success instance))
     end).

(** [PollDetailView.put] *)
Definition PollDetailView_put (pk : Z) (req : request PollDetailBody)
  : Store -> response Poll * Store :=
  PollDetailView_update false pk req.

(** [PollDetailView.patch]: [partial_update] *)
Definition PollDetailView_patch (pk : Z) (req : request PollDetailBody)
  : Store -> response Poll * Store :=
  PollDetailView_update true pk req.

(** [PollDetailView.delete]: [DestroyModelMixin.destroy] *)
Definition PollDetailView_delete (pk : Z) (req : request unit)
  : Store -> response unit * Store :=
  drf_view
    (s <~ get_store ;;
     instance <~ get_object_or_404 (find_poll s pk) ;;
     _ <~ Poll_delete (poll_id instance) ;;
     ret (mkResponse 204 (Success tt))).

End PollCreate.

(** Stores reached by sequences of vote requests and of rows written to
    the [Vote] table directly. *)
Inductive db_op : Type :=
  | CastVote (req : vote_request)
  | InsertVote (option : Z) (ip session : string) (now : Z).

Definition db_step (clean_ipv6_address : string -> option string) (o : db_op)
  (s : Store) : Store :=
  match o with
  | CastVote req => snd (VoteCreateView_post clean_ipv6_address req s)
  | InsertVote option ip session now =>
      snd (Vote_objects_create clean_ipv6_address option ip session now s)
  end.

Definition db_run (clean_ipv6_address : string -> option string)
  (ops : list db_op) (s : Store) : Store :=
  fold_left (fun s o => db_step clean_ipv6_address o s) ops s.

(** ** [src/polls/views.py]: the remaining views *)

Record MostPopular : Type := mkMostPopular {
  mp_id : Z;
  mp_title : string;
  mp_votes : Z
}.

Record Statistics : Type := mkStatistics {
  st_total_polls : Z;
  st_active_polls : Z;
  st_total_votes : Z;
  st_most_popular_poll : option MostPopular
}.

(** The inner loop of [poll_statistics]:
    [for option in poll.options.all(): poll_votes += ...count()] *)
Fixpoint poll_votes_loop (s : Store) (os : list Option) (poll_votes : Z) : Z :=
  match os with
  | [] => poll_votes
  | option :: t =>
      poll_votes_loop s t (poll_votes + count (votes_of_option s (option_id option)))
  end.

(** The outer loop of [poll_statistics] over [Poll.objects.all()], with
    its two running variables. *)
Fixpoint best_poll_loop (s : Store) (ps : list Poll) (best_poll : option Poll)
  (max_votes : Z) : option Poll * Z :=
  match ps with
  | [] => (best_poll, max_votes)
  | poll :: t =>
      let poll_votes := poll_votes_loop s (poll_options s (poll_id poll)) 0 in
      if max_votes <? poll_votes
      then best_poll_loop s t (Some poll) poll_votes
      else best_poll_loop s t best_poll max_votes
  end.

(** The ['most_popular_poll'] entry of [poll_statistics]. *)
Definition most_popular (s : Store) : option MostPopular :=
  if 0 <? count (polls s) then
    match best_poll_loop s (Poll_objects_all s) None 0 with
    | (Some best_poll, max_votes) =>
        if 0 <? max_votes
        then Some (mkMostPopular (poll_id best_poll) (title best_poll) max_votes)
        else None
    | (None, _) => None
    end
  else None.

(** [poll_statistics]: [@api_view(['GET'])] *)
Definition poll_statistics : view Store unit Statistics :=
  api_view [GET] (fun req =>
    caught
      (s <~ get_store ;;
       let total_polls := count (polls s) in
       let active_polls := count (filter is_active (polls s)) in
       let total_votes := count (votes s) in
       ret (mkResponse 200
              (Success (mkStatistics total_polls active_polls total_votes
                                     (most_popular s)))))
      (fun e => mkResponse 500 (Crash "Statistics calculation failed" e))).

(** One entry of [my_polls], without the ['category'] that the view reads
    from the poll. *)
Record MyPollRow : Type := mkMyPollRow {
  my_id : Z;
  my_title : string;
  my_description : option string;
  my_vote_count : Z;
  my_is_active : bool;
  my_created_at : Z
}.

(** [Poll.objects.filter(created_by=user)], in the model's default order. *)
Definition polls_of_creator (s : Store) (user : Z) : list Poll :=
  filter (fun p => match created_by p with
                   | Some c => c =? user
                   | None => false
                   end) (Poll_objects_all s).

(** The loop of [my_polls]; building an entry reads [poll.category]. *)
Fixpoint my_polls_loop (s : Store) (ps : list Poll) (polls_data : list MyPollRow)
  : M Store (list MyPollRow) :=
  match ps with
  | [] => ret polls_data
  | poll :: t =>
      let vote_count := count (votes_of_poll s (poll_id poll)) in
      _ <~ check_names AttributeError ["category"] ;;
      my_polls_loop s t
        (polls_data ++
           [mkMyPollRow (poll_id poll) (title poll) (description poll) vote_count
                        (is_active poll) (created_at poll)])
  end.

(** [my_polls]: [@api_view(['GET']) @login_required] *)
Definition my_polls : view Store unit (list MyPollRow) :=
  api_view [GET] (fun req =>
    match req_user req with
    | None => ret (mkResponse 302 Redirect)
    | Some user =>
        caught
          (s <~ get_store ;;
           polls_data <~ my_polls_loop s (polls_of_creator s user) [] ;;
           ret (mkResponse 200 (Success polls_data)))
          (fun e => mkResponse 500 (Crash "" e))
    end).

Definition toggle_poll_status_body (poll_id : Z) (req : request unit)
  : M Store (response bool) :=
  s <~ get_store ;;
  user <~ request_user req ;;
  poll <~ get_object_or_404 (find_poll_of_creator s poll_id user) ;;
  let poll := mkPoll (Polls.poll_id poll) (title poll) (description poll)
                (created_at poll) (expires_at poll) (negb (is_active poll))
                (created_by poll) in
  _ <~ Poll_save poll ;;
  ret (mkResponse 200 (Success (is_active poll))).

(** [toggle_poll_status]:
    [@csrf_exempt @login_required @require_http_methods(["POST"])] *)
Definition toggle_poll_status (poll_id : Z) : view Store unit bool :=
  login_required (require_http_methods [POST] (fun req =>
    try_except (toggle_poll_status_body poll_id req)
      (fun e => mkResponse 500 (Crash "" e)))).

(** ** Histories of [polls] *)

(** A request served by one of the views of [src/polls/views.py] that
    write to the tables of the polls: the three generic views and the four
    form views.  [PollDetailView] is represented by its three handlers that
    write. *)
Inductive op : Type :=
  | ApiCreate (req : request PollBody)
  | ApiPut (pk : Z) (req : request PollDetailBody)
  | ApiPatch (pk : Z) (req : request PollDetailBody)
  | ApiDelete (pk : Z) (req : request unit)
  | ApiVote (req : vote_request)
  | FormCreate (req : request PollBody)
  | FormEdit (poll_id : Z) (req : request PollBody)
  | FormDelete (poll_id : Z) (req : request PollBody)
  | FormToggle (poll_id : Z) (req : request unit).

Section Histories.

Variable parse_datetime : string -> option Z.
Variable clean_ipv6_address : string -> option string.

Definition step (o : op) (s : Store) : Store :=
  match o with
  | ApiCreate req => snd (PollCreateView_create parse_datetime req s)
  | ApiPut pk req => snd (PollDetailView_put parse_datetime pk req s)
  | ApiPatch pk req => snd (PollDetailView_patch parse_datetime pk req s)
  | ApiDelete pk req => snd (PollDetailView_delete pk req s)
  | ApiVote req => snd (VoteCreateView_post clean_ipv6_address req s)
  | FormCreate req => snd (create_poll req s)
  | FormEdit poll_id req => snd (edit_poll poll_id req s)
  | FormDelete poll_id req => snd (delete_poll poll_id req s)
  | FormToggle poll_id req => snd (toggle_poll_status poll_id req s)
  end.

Definition run (ops : list op) (s : Store) : Store :=
  fold_left (fun s o => step o s) ops s.

End Histories.

End Polls.

(* ================================================================== *)
(** * Notions used to state the properties *)
(* ================================================================== *)

(** A computation that does not end in a division by zero. *)
Definition no_zero_division {A : Type} (r : result A) : Prop :=
  r <> Raise ZeroDivisionError.

(** A rate [f numerator denominator] whose division is guarded: it never
    ends in [ZeroDivisionError], and it is the integer [0] when the
    denominator is [0]. *)
Definition division_guarded (f : Z -> Z -> result number) : Prop :=
  (forall n d, no_zero_division (f n d)) /\ (forall n, f n 0 = Ok (PyInt 0)).

(** The success document of a response, if it is one. *)
Definition payload {A : Type} (r : response A) : option A :=
  match content r with
  | Success a => Some a
  | _ => None
  end.

(** [count / total * 100], and [0] when there is no vote: the percentage
    before any rounding. *)
Definition exact_percentage (vote_count total_votes : Z) : number :=
  if total_votes =? 0 then PyInt 0
  else PyFloat (mul_int (PrimFloat.div (float_of_int vote_count)
                                       (float_of_int total_votes)) 100).

(** The specification's percentage: [exact_percentage] rounded to one
    decimal place. *)
Definition spec_percentage (vote_count total_votes : Z) : number :=
  round_n (exact_percentage vote_count total_votes) 1.

(** A number as data that can be told apart by computation: an int, or the
    sign, mantissa and exponent of a float. *)
Definition number_repr (n : number) : Z + spec_float :=
  match n with
  | PyInt z => inl z
  | PyFloat f => inr (Prim2SF f)
  end.

(** A poll of the [polls] application with three votes: one for its first
    option, two for its second. *)
Definition three_votes : Polls.Store :=
  Polls.mkStore
    [Polls.mkPoll 1 "Lunch today?" None 100 None true None]
    [Polls.mkOption 1 1 "Pizza" 0; Polls.mkOption 2 1 "Sushi" 1]
    [Polls.mkVote 1 1 "10.0.0.1" "s1" 110;
     Polls.mkVote 2 2 "10.0.0.2" "s2" 120;
     Polls.mkVote 3 2 "10.0.0.3" "s3" 130]
    2 3 4.

(** A poll that has received at least one vote. *)
Definition has_vote (s : PollSystem.Store) (p : PollSystem.Poll) : bool :=
  existsb (fun v => PollSystem.v_poll v =? PollSystem.poll_id p) (PollSystem.votes s).

(** The specification's completion rate:
    (polls with at least one vote) / (total polls) * 100, and 0 when there
    is no poll. *)
Definition spec_completion_rate (s : PollSystem.Store) : number :=
  exact_percentage (count (filter (has_vote s) (PollSystem.polls s)))
                   (count (PollSystem.polls s)).

(** Three polls of [poll_system], the first of which has one vote. *)
Definition one_of_three : PollSystem.Store :=
  PollSystem.mkStore
    [PollSystem.mkUser 1 "ann"]
    [PollSystem.mkPoll 1 "Lunch?" "" 1 100 None true "";
     PollSystem.mkPoll 2 "Dinner?" "" 1 200 None true "";
     PollSystem.mkPoll 3 "Coffee?" "" 1 300 None true ""]
    [PollSystem.mkPollOption 1 1 "Pizza" 100; PollSystem.mkPollOption 2 1 "Sushi" 100]
    [PollSystem.mkVote 1 1 1 1 110]
    4 3 2.

(** A computation that keeps a property of the store, however it ends. *)
Definition preserves {S A : Type} (P : S -> Prop) (m : M S A) : Prop :=
  forall s, P s -> P (snd (m s)).

(** What [unique_together = ('poll', 'user')] keys a vote by. *)
Definition vote_key (v : PollSystem.Vote) : Z * Z :=
  (PollSystem.v_poll v, PollSystem.v_user v).

(** The [Vote] table of [poll_system] is well formed: primary keys come
    from the sequence and are distinct, and no two rows share their
    (poll, user) pair. *)
Record votes_wf (s : PollSystem.Store) : Prop := {
  wf_ids_below : forall v, In v (PollSystem.votes s) ->
                           PollSystem.v_id v < PollSystem.next_vote_id s;
  wf_ids_nodup : NoDup (map PollSystem.v_id (PollSystem.votes s));
  wf_keys_nodup : NoDup (map vote_key (PollSystem.votes s))
}.

(** What [unique_together = ['option', 'voter_ip', 'voter_session']] keys
    a vote of [polls] by. *)
Definition anon_vote_key (v : Polls.Vote) : Z * string * string :=
  (Polls.v_option v, Polls.voter_ip v, Polls.voter_session v).

(** Votes of [polls] cast on an option by an (IP, session) pair. *)
Definition votes_of_option_voter (s : Polls.Store) (oid : Z) (ip session : string)
  : list Polls.Vote :=
  filter (fun v => (Polls.v_option v =? oid) && String.eqb (Polls.voter_ip v) ip
                   && String.eqb (Polls.voter_session v) session) (Polls.votes s).

(** Votes of [polls] cast on a poll by an (IP, session) pair. *)
Definition votes_of_poll_voter (s : Polls.Store) (pid : Z) (ip session : string)
  : list Polls.Vote :=
  filter (fun v => String.eqb (Polls.voter_ip v) ip
                   && String.eqb (Polls.voter_session v) session)
         (Polls.votes_of_poll s pid).

(** A normaliser that knows no IPv6 address.  The addresses of the
    examples below are IPv4 addresses, which hold no colon and are written
    to the database as they are. *)
Definition no_ipv6 (value : string) : option string := None.

(** An open poll of [polls] with two options and no vote yet. *)
Definition lunch_poll : Polls.Store :=
  Polls.mkStore
    [Polls.mkPoll 1 "Lunch today?" None 100 None true None]
    [Polls.mkOption 1 1 "Pizza" 0; Polls.mkOption 2 1 "Sushi" 1]
    [] 2 3 1.

(** A vote request from address 10.0.0.1 with session key [k1]. *)
Definition vote_for (option : Z) (now : Z) : Polls.vote_request :=
  Polls.mkVoteRequest (Some (Some option)) None "10.0.0.1" (Some "k1") "fresh" now.

(** A well-formed database of [poll_system]: the [Vote] table is well
    formed, primary keys are positive and come from their sequences, an
    option belongs to a poll number that was handed out, and the option of
    a vote is an option of the poll of that vote. *)
Record store_wf (s : PollSystem.Store) : Prop := {
  wf_votes : votes_wf s;
  wf_next : 1 <= PollSystem.next_poll_id s /\ 1 <= PollSystem.next_option_id s;
  wf_polls : forall p, In p (PollSystem.polls s) ->
                       1 <= PollSystem.poll_id p < PollSystem.next_poll_id s;
  wf_options : forall o, In o (PollSystem.options s) ->
                         1 <= PollSystem.option_id o < PollSystem.next_option_id s /\
                         1 <= PollSystem.option_poll o < PollSystem.next_poll_id s;
  wf_refs : forall v, In v (PollSystem.votes s) ->
                      exists o, In o (PollSystem.options s) /\
                                PollSystem.option_id o = PollSystem.v_option v /\
                                PollSystem.option_poll o = PollSystem.v_poll v
}.

(** The row that [create_poll] inserts for an accepted request. *)
Definition new_poll (parse_expiry : string -> option Z) (s : PollSystem.Store)
  (user : Z) (data : PollBody) (now : Z) : PollSystem.Poll :=
  PollSystem.mkPoll (PollSystem.next_poll_id s)
    (strip (get_default (body_title data) ""))
    (strip (get_default (body_description data) ""))
    user now
    match body_expires_at data with
    | Some e => if truthy e && truthy (strip e) then parse_expiry e else None
    | None => None
    end
    true
    (strip (get_default (body_category data) "")).

(** The store after [create_poll] has inserted the poll and its options. *)
Definition after_create (parse_expiry : string -> option Z) (s : PollSystem.Store)
  (user : Z) (data : PollBody) (now : Z) : PollSystem.Store :=
  snd (PollSystem.create_options (PollSystem.next_poll_id s)
         (get_default (body_options data) []) now
         (PollSystem.set_polls s
            (PollSystem.polls s ++ [new_poll parse_expiry s user data now])
            (PollSystem.next_poll_id s + 1))).

(** The serialised poll with its options, as [serialize_poll(poll, True)]
    computes it in a store. *)
Definition poll_json (s : PollSystem.Store) (p : PollSystem.Poll) : PollSystem.PollJson :=
  PollSystem.mkPollJson (PollSystem.poll_id p) (PollSystem.title p)
    (PollSystem.description p) (PollSystem.category p) (PollSystem.expires_at p)
    (PollSystem.total_votes s (PollSystem.poll_id p)) (PollSystem.is_active p)
    (PollSystem.creator p)
    (Some (PollSystem.serialize_options s 0
             (PollSystem.poll_options s (PollSystem.poll_id p)) [])).

(** Texts outside ASCII for the examples: U+00A0 NO-BREAK SPACE, U+3000
    IDEOGRAPHIC SPACE, U+00E9 (two bytes) and the four characters "Caf"
    and U+00E9. *)
Definition nbsp : string :=
  String (ascii_of_N 194) (String (ascii_of_N 160) EmptyString).

Definition ideographic_space : string :=
  String (ascii_of_N 227)
    (String (ascii_of_N 128) (String (ascii_of_N 128) EmptyString)).

Definition e_acute : string :=
  String (ascii_of_N 195) (String (ascii_of_N 169) EmptyString).

Definition cafe : string := ("Caf" ++ e_acute)%string.

(** [s * n] *)
Fixpoint times (s : string) (n : nat) : string :=
  match n with
  | O => EmptyString
  | S n => (s ++ times s n)%string
  end.

(** The entries of an options list that [create_poll] persists: the
    non-blank ones, stripped. *)
Definition kept_options (options : list string) : list string :=
  map strip (filter (fun t => truthy (strip t)) options).

(** The row that the PUT branch of [poll_detail] saves. *)
Definition updated_poll (poll : PollSystem.Poll) (data : PollBody) : PollSystem.Poll :=
  PollSystem.mkPoll (PollSystem.poll_id poll)
    (get_default (body_title data) (PollSystem.title poll))
    (get_default (body_description data) (PollSystem.description poll))
    (PollSystem.creator poll) (PollSystem.created_at poll)
    (PollSystem.expires_at poll) (PollSystem.is_active poll)
    (get_default (body_category data) (PollSystem.category poll)).

(** The store after an accepted PUT on [poll_detail]: the poll saved, its
    options deleted, the submitted ones created. *)
Definition after_update (s : PollSystem.Store) (poll : PollSystem.Poll)
  (data : PollBody) (now : Z) : PollSystem.Store :=
  snd (PollSystem.create_options (PollSystem.poll_id poll)
         (get_default (body_options data) []) now
         (snd (PollSystem.delete_options (PollSystem.poll_id poll)
                 (snd (PollSystem.Poll_save (updated_poll poll data) s))))).

(** The caller is not the creator of any poll row numbered [pid]. *)
Definition not_creator_of (s : PollSystem.Store) (pid u : Z) : Prop :=
  forall p, In p (PollSystem.polls s) -> PollSystem.poll_id p = pid ->
            PollSystem.creator p <> u.

(** The same for [polls], where the creator may be missing. *)
Definition polls_not_creator_of (s : Polls.Store) (pid u : Z) : Prop :=
  forall p, In p (Polls.polls s) -> Polls.poll_id p = pid ->
            Polls.created_by p <> Some u.

(** No date-time string parses: the expiry parser used in the examples. *)
Definition no_expiry (e : string) : option Z := None.

(** A POST by user [u] creating a poll with the given title and options. *)
Definition create_request (u : Z) (title : string) (options : list string)
  (now : Z) : request PollBody :=
  mkRequest POST (Some u)
    (Some (mkPollBody (Some title) None None None (Some options))) now.

(** The history of the examples: user 1 creates "Lunch?" (poll 1, options
    1 and 2), then "Dinner?" (poll 2, options 3 and 4). *)
Definition two_polls : PollSystem.Store :=
  PollSystem.run no_expiry
    [PollSystem.CreatePoll (create_request 1 "Lunch?" ["Pizza"; "Sushi"] 100);
     PollSystem.CreatePoll (create_request 1 "Dinner?" ["Pasta"; "Curry"] 200)]
    (PollSystem.empty_store [PollSystem.mkUser 1 "ann"; PollSystem.mkUser 2 "bob"]).

(** A POST by user [u] voting for option [oid]. *)
Definition vote_request_for (u oid now : Z) : request VoteBody :=
  mkRequest POST (Some u) (Some (mkVoteBody (Some oid))) now.

(** The option rows that a loop of inserts produces for the given texts,
    the first with primary key [next]. *)
Fixpoint option_rows (next pid : Z) (texts : list string) (now : Z)
  : list PollSystem.PollOption :=
  match texts with
  | [] => []
  | t :: rest =>
      PollSystem.mkPollOption next pid t now :: option_rows (next + 1) pid rest now
  end.

(** The history of the examples continued: user 2 votes for Pizza on the
    poll "Lunch?". *)
Definition lunch_with_a_vote : list PollSystem.op :=
  [PollSystem.CreatePoll (create_request 1 "Lunch?" ["Pizza"; "Sushi"] 100);
   PollSystem.VotePoll 1 (vote_request_for 2 1 300)].

(** The creator of "Lunch?" renames one of its options. *)
Definition rename_sushi : request PollBody :=
  mkRequest PUT (Some 1)
    (Some (mkPollBody (Some "Lunch?") None None None (Some ["Pizza"; "Salad"])))
    400.

(** A poll of [polls] created by user 1. *)
Definition poll_of_user_1 : Polls.Store :=
  Polls.mkStore
    [Polls.mkPoll 1 "Lunch today?" None 100 None true (Some 1)]
    [Polls.mkOption 1 1 "Pizza" 0; Polls.mkOption 2 1 "Sushi" 0]
    [] 2 3 1.

(** User 2 posts a well-formed edit of that poll. *)
Definition edit_by_user_2 : request PollBody :=
  mkRequest POST (Some 2)
    (Some (mkPollBody (Some "Dinner today?") None None None None)) 200.

(** A POST to [create_poll] of [polls] by user 1 with the given options. *)
Definition polls_create_request (options : list string) : request PollBody :=
  mkRequest POST (Some 1)
    (Some (mkPollBody (Some "Lunch today?") None None None (Some options))) 100.

Definition eleven_options : list string :=
  ["Pizza"; "Sushi"; "Pasta"; "Curry"; "Salad"; "Tacos"; "Ramen"; "Bagel";
   "Kebab"; "Pho"; "Soup"].

Definition ten_options : list string :=
  ["Pizza"; "Sushi"; "Pasta"; "Curry"; "Salad"; "Tacos"; "Ramen"; "Bagel";
   "Kebab"; "Pho"].


(** A list in descending order of a key. *)
Definition descending {A : Type} (key : A -> Z) (l : list A) : Prop :=
  StronglySorted (fun a b => key b <= key a) l.

(** Six polls created one after the other by user 1; users 1, 2 and 3
    then vote on the oldest one, which is the only poll with votes. *)
Definition six_polls : PollSystem.Store :=
  PollSystem.run no_expiry
    [PollSystem.CreatePoll (create_request 1 "Lunch?" ["Pizza"; "Sushi"] 100);
     PollSystem.CreatePoll (create_request 1 "Dinner?" ["Pasta"; "Curry"] 200);
     PollSystem.CreatePoll (create_request 1 "Coffee?" ["Yes"; "No"] 300);
     PollSystem.CreatePoll (create_request 1 "Tea?" ["Yes"; "No"] 400);
     PollSystem.CreatePoll (create_request 1 "Cake?" ["Yes"; "No"] 500);
     PollSystem.CreatePoll (create_request 1 "Fruit?" ["Yes"; "No"] 600);
     PollSystem.VotePoll 1 (vote_request_for 1 1 700);
     PollSystem.VotePoll 1 (vote_request_for 2 1 710);
     PollSystem.VotePoll 1 (vote_request_for 3 2 720)]
    (PollSystem.empty_store
       [PollSystem.mkUser 1 "ann"; PollSystem.mkUser 2 "bob";
        PollSystem.mkUser 3 "cat"]).

(** Primary keys of the [Poll] and [PollOption] tables of [poll_system]
    are distinct. *)
Record keys_wf (s : PollSystem.Store) : Prop := {
  wf_poll_ids : NoDup (map PollSystem.poll_id (PollSystem.polls s));
  wf_option_ids : NoDup (map PollSystem.option_id (PollSystem.options s))
}.

(** Sum of a list of integers. *)
Definition sumZ (l : list Z) : Z := fold_right Z.add 0 l.


(** The row of [analytics_data]'s ['popular_polls'] for a poll. *)
Definition popular_row (s : PollSystem.Store) (p : PollSystem.Poll)
  : PollSystem.PopularRow :=
  PollSystem.mkPopularRow (PollSystem.poll_id p) (PollSystem.title p)
    (PollSystem.total_votes s (PollSystem.poll_id p)).

(** The serialised poll without its options, as [serialize_poll(poll)]
    computes it in a store. *)
Definition poll_summary (s : PollSystem.Store) (p : PollSystem.Poll)
  : PollSystem.PollJson :=
  PollSystem.mkPollJson (PollSystem.poll_id p) (PollSystem.title p)
    (PollSystem.description p) (PollSystem.category p) (PollSystem.expires_at p)
    (PollSystem.total_votes s (PollSystem.poll_id p)) (PollSystem.is_active p)
    (PollSystem.creator p) None.

(** The positions [0, 1, ..., n - 1]. *)
Definition positions (n : nat) : list Z := map Z.of_nat (seq 0 n).

(** The row that [edit_poll] saves: title, description and category are
    taken from the request, stripped, an absent field counting as the empty
    string; the other fields are those of the stored poll. *)
Definition edited_poll (poll : PollSystem.Poll) (data : PollBody) : PollSystem.Poll :=
  PollSystem.mkPoll (PollSystem.poll_id poll)
    (strip (get_default (body_title data) ""))
    (strip (get_default (body_description data) ""))
    (PollSystem.creator poll) (PollSystem.created_at poll)
    (PollSystem.expires_at poll) (PollSystem.is_active poll)
    (strip (get_default (body_category data) "")).

(** The fields of a poll that no edit changes. *)
Definition fixed_fields (p : PollSystem.Poll) : Z * Z * Z * option Z * bool :=
  (PollSystem.poll_id p, PollSystem.creator p, PollSystem.created_at p,
   PollSystem.expires_at p, PollSystem.is_active p).

(** Whether a text begins with a white-space character. *)
Definition starts_with_space (s : string) : bool :=
  match s with
  | EmptyString => false
  | String a s1 =>
      isspace a
      || match s1 with
         | EmptyString => false
         | String b s2 =>
             isspace2 a b
             || match s2 with
                | EmptyString => false
                | String c _ => isspace3 a b c
                end
         end
  end.

(** A text that is not empty and has no white space around it:
    [t and t.strip() == t]. *)
Definition trimmed (t : string) : Prop := truthy t = true /\ strip t = t.

(** A well-formed database of [polls]: the primary keys of polls and
    options come from their sequences and are distinct, an option belongs to
    a poll number that was handed out, and a vote is for an option number
    that was handed out. *)
Record polls_store_wf (s : Polls.Store) : Prop := {
  pwf_polls : forall p, In p (Polls.polls s) ->
                        Polls.poll_id p < Polls.next_poll_id s;
  pwf_options : forall o, In o (Polls.options s) ->
                          Polls.option_id o < Polls.next_option_id s /\
                          Polls.option_poll o < Polls.next_poll_id s;
  pwf_poll_ids : NoDup (map Polls.poll_id (Polls.polls s));
  pwf_option_ids : NoDup (map Polls.option_id (Polls.options s));
  pwf_votes : forall v, In v (Polls.votes s) ->
                        Polls.v_option v < Polls.next_option_id s
}.

(** The option rows that [PollCreateSerializer.create] inserts for the
    given texts: primary keys from [next] on, orders from [index] on. *)
Fixpoint indexed_rows (next pid index : Z) (texts : list string)
  : list Polls.Option :=
  match texts with
  | [] => []
  | t :: rest =>
      Polls.mkOption next pid t index :: indexed_rows (next + 1) pid (index + 1) rest
  end.

(** A text of between [lo] and [hi] characters. *)
Definition fits (lo hi : nat) (t : string) : Prop :=
  (lo <= len t <= hi)%nat.

(** The row that [PollDetailView] saves for a poll on an update with the
    given data: the attributes whose keys were validated are replaced. *)
Definition saved_poll (parse_datetime : string -> option Z) (partial : bool)
  (data : Polls.PollDetailBody) (p : Polls.Poll) : Polls.Poll :=
  Polls.mkPoll (Polls.poll_id p)
    (Polls.set_attr (Polls.update_title partial (Polls.pd_title data)) (Polls.title p))
    (Polls.set_attr (Polls.update_description (Polls.pd_description data))
                    (Polls.description p))
    (Polls.created_at p)
    (Polls.set_attr (Polls.update_expires_at parse_datetime (Polls.pd_expires_at data))
                    (Polls.expires_at p))
    (Polls.set_attr (Polls.update_is_active (Polls.pd_is_active data))
                    (Polls.is_active p))
    (Polls.created_by p).

(** Whether the serializer of [PollDetailView] accepts the data. *)
Definition update_accepted (parse_datetime : string -> option Z) (partial : bool)
  (data : Polls.PollDetailBody) : bool :=
  negb (Polls.refused (Polls.update_title partial (Polls.pd_title data))
        || Polls.refused (Polls.update_description (Polls.pd_description data))
        || Polls.refused (Polls.update_expires_at parse_datetime
                            (Polls.pd_expires_at data))
        || Polls.refused (Polls.update_is_active (Polls.pd_is_active data))).

(** The row that [toggle_poll_status] saves for a poll. *)
Definition toggled (p : Polls.Poll) : Polls.Poll :=
  Polls.mkPoll (Polls.poll_id p) (Polls.title p) (Polls.description p)
    (Polls.created_at p) (Polls.expires_at p) (negb (Polls.is_active p))
    (Polls.created_by p).

(** The votes that [poll_statistics] counts for a poll: the votes of its
    options, added up. *)
Definition option_votes (s : Polls.Store) (p : Polls.Poll) : Z :=
  sumZ (map (fun o => count (Polls.votes_of_option s (Polls.option_id o)))
           (Polls.poll_options s (Polls.poll_id p))).

(* ================================================================== *)
(** * Properties *)
(* ================================================================== *)

(** ** Texts *)

(** [strip] removes the white space of Unicode, and [len] counts
    characters, not bytes. *)
Example strip_removes_unicode_white_space :
  strip (nbsp ++ " Pizza" ++ ideographic_space ++ " ")%string = "Pizza" /\
  strip nbsp = "" /\ strip ("a" ++ nbsp ++ "b")%string = ("a" ++ nbsp ++ "b")%string /\
  len cafe = 4%nat /\ String.length cafe = 5%nat.
Proof. repeat split. Qed.

(** ** Division guards *)

Lemma truediv_nonzero (a b : Z) :
  b <> 0 -> truediv a b = Ok (PrimFloat.div (float_of_int a) (float_of_int b)).
Proof.
  intros Hb. unfold truediv.
  destruct (b =? 0) eqn:E; [apply Z.eqb_eq in E; contradiction | reflexivity].
Qed.

Lemma truediv_positive (a b : Z) :
  (0 <? b) = true ->
  truediv a b = Ok (PrimFloat.div (float_of_int a) (float_of_int b)).
Proof.
  intros Hb. apply truediv_nonzero. apply Z.ltb_lt in Hb. lia.
Qed.

Lemma round_int_no_zero_division (x : float) : no_zero_division (round_int x).
Proof.
  unfold no_zero_division, round_int. destruct (Prim2SF x); discriminate.
Qed.

Ltac guard_on t :=
  destruct (0 <? t) eqn:?guard; [rewrite truediv_positive by assumption | ];
  cbn [bind]; try discriminate.

Lemma ps_results_loop_ok (s : PollSystem.Store) (t : Z) os :
  forall acc, exists rows, PollSystem.results_loop s t os acc = Ok rows.
Proof.
  induction os as [|o os IH]; intros acc; cbn [PollSystem.results_loop].
  - eauto.
  - unfold PollSystem.percentage_of. guard_on t; apply IH.
Qed.

Lemma ps_top_polls_loop_ok (s : PollSystem.Store) ps :
  forall acc, exists rows, PollSystem.top_polls_loop s ps acc = Ok rows.
Proof.
  induction ps as [|[p c] ps IH]; intros acc; cbn [PollSystem.top_polls_loop].
  - eauto.
  - unfold PollSystem.participation_rate.
    guard_on (count (PollSystem.users s)); apply IH.
Qed.

Lemma polls_get_results_loop_ok (s : Polls.Store) pid os :
  forall acc, exists rows, Polls.get_results_loop s pid os acc = Ok rows.
Proof.
  induction os as [|o os IH]; intros acc; cbn [Polls.get_results_loop].
  - eauto.
  - guard_on (Polls.total_votes s pid); apply IH.
Qed.

Lemma polls_results_loop_ok (s : Polls.Store) t os :
  forall acc, exists rows, Polls.results_loop s t os acc = Ok rows.
Proof.
  induction os as [|o os IH]; intros acc; cbn [Polls.results_loop].
  - eauto.
  - guard_on t; apply IH.
Qed.

Lemma polls_top_polls_loop_nzd (s : Polls.Store) ps :
  forall acc, no_zero_division (Polls.top_polls_loop s ps acc).
Proof.
  induction ps as [|p ps IH]; intros acc; cbn [Polls.top_polls_loop].
  - discriminate.
  - unfold Polls.participation_rate.
    destruct (0 <? count (Polls.votes_of_poll s (Polls.poll_id p))).
    + rewrite truediv_nonzero by lia. cbn [bind].
      destruct (round_int _) eqn:E; cbn [bind].
      * apply IH.
      * intros H. injection H as ->. exact (round_int_no_zero_division _ E).
    + cbn [bind]. apply IH.
Qed.

Lemma ok_no_zero_division {A : Type} (r : result A) :
  (exists a, r = Ok a) -> no_zero_division r.
Proof. intros [a ->]. discriminate. Qed.

Ltac guarded_rate :=
  split; [intros ? ? | intros ?; reflexivity];
  match goal with
  | |- no_zero_division (?f _ ?d) => unfold f; guard_on d; discriminate
  end.

Lemma ps_percentage_of_guarded : division_guarded PollSystem.percentage_of.
Proof. guarded_rate. Qed.

Lemma ps_completion_rate_guarded : division_guarded PollSystem.completion_rate.
Proof. guarded_rate. Qed.

Lemma ps_avg_votes_per_poll_guarded : division_guarded PollSystem.avg_votes_per_poll.
Proof. guarded_rate. Qed.

Lemma ps_engagement_rate_guarded : division_guarded PollSystem.engagement_rate.
Proof. guarded_rate. Qed.

Lemma ps_participation_rate_guarded : division_guarded PollSystem.participation_rate.
Proof. guarded_rate. Qed.

Lemma ps_avg_participation_guarded : division_guarded PollSystem.avg_participation.
Proof. guarded_rate. Qed.

Lemma ps_user_avg_participation_guarded :
  division_guarded PollSystem.user_avg_participation.
Proof.
  split; [intros n d | intros n; reflexivity].
  unfold PollSystem.user_avg_participation.
  destruct (0 <? d) eqn:Hd; cbn [andb]; [|discriminate].
  destruct (0 <? n); [|discriminate].
  rewrite truediv_positive by assumption. cbn [bind].
  destruct (round_int _) eqn:E; cbn [bind]; [discriminate|].
  intros H. injection H as ->. exact (round_int_no_zero_division _ E).
Qed.

Lemma polls_completion_rate_guarded : division_guarded Polls.completion_rate.
Proof.
  split; [intros n d | intros n; reflexivity].
  unfold Polls.completion_rate.
  destruct (0 <? d) eqn:Hd; [|discriminate].
  apply Z.ltb_lt in Hd. rewrite truediv_nonzero by lia. cbn [bind].
  destruct (round_int _) eqn:E; cbn [bind]; [discriminate|].
  intros H. injection H as ->. exact (round_int_no_zero_division _ E).
Qed.

Lemma polls_avg_votes_per_poll_guarded : division_guarded Polls.avg_votes_per_poll.
Proof. guarded_rate. Qed.

Lemma polls_engagement_rate_guarded : division_guarded Polls.engagement_rate.
Proof.
  split; [intros n d | intros n; reflexivity].
  unfold Polls.engagement_rate.
  destruct (0 <? d) eqn:Hd; [|discriminate].
  apply Z.ltb_lt in Hd. rewrite truediv_nonzero by lia. cbn [bind].
  destruct (round_int _) eqn:E; cbn [bind]; [discriminate|].
  intros H. injection H as ->. exact (round_int_no_zero_division _ E).
Qed.

Lemma polls_participation_rate_nzd (v : Z) :
  no_zero_division (Polls.participation_rate v).
Proof.
  unfold Polls.participation_rate.
  destruct (0 <? v); [|discriminate].
  rewrite truediv_nonzero by lia. cbn [bind]. apply round_int_no_zero_division.
Qed.

Lemma ps_vote_percentage_ok (s : PollSystem.Store) (o : PollSystem.PollOption) :
  exists n, PollSystem.vote_percentage s o = Ok n.
Proof.
  unfold PollSystem.vote_percentage.
  destruct (PollSystem.total_votes s (PollSystem.option_poll o) =? 0) eqn:E.
  - eauto.
  - apply Z.eqb_neq in E. rewrite truediv_nonzero by assumption. cbn [bind]. eauto.
Qed.

Lemma ps_results_loop_zero (s : PollSystem.Store) os :
  forall acc,
    PollSystem.results_loop s 0 os acc =
    Ok (acc ++ map (fun o =>
                      PollSystem.mkResultRow (PollSystem.option_id o)
                        (PollSystem.text o)
                        (PollSystem.vote_count s (PollSystem.option_id o))
                        (PyInt 0)) os).
Proof.
  induction os as [|o os IH]; intros acc; cbn [PollSystem.results_loop map].
  - now rewrite app_nil_r.
  - cbn [PollSystem.percentage_of Z.ltb Z.compare bind round_n].
    rewrite IH, <- app_assoc. reflexivity.
Qed.

Lemma polls_get_results_loop_zero (s : Polls.Store) pid os :
  Polls.total_votes s pid = 0 ->
  forall acc,
    Polls.get_results_loop s pid os acc =
    Ok (acc ++ map (fun o =>
                      Polls.mkResultRow (Polls.option_id o) (Polls.text o)
                        (count (Polls.votes_of_option s (Polls.option_id o)))
                        (PyInt 0)) os).
Proof.
  intros Hz.
  induction os as [|o os IH]; intros acc; cbn [Polls.get_results_loop map].
  - now rewrite app_nil_r.
  - rewrite Hz. cbn [Z.ltb Z.compare bind round_n].
    rewrite IH, <- app_assoc. reflexivity.
Qed.

Lemma ps_top_polls_loop_zero (s : PollSystem.Store) ps :
  count (PollSystem.users s) = 0 ->
  forall acc,
    PollSystem.top_polls_loop s ps acc =
    Ok (acc ++ map (fun pv =>
                      PollSystem.mkTopPollRow (PollSystem.poll_id (fst pv))
                        (PollSystem.title (fst pv)) (snd pv) (PyInt 0)) ps).
Proof.
  intros Hz.
  induction ps as [|[p c] ps IH]; intros acc; cbn [PollSystem.top_polls_loop map].
  - now rewrite app_nil_r.
  - rewrite Hz. cbn [PollSystem.participation_rate Z.ltb Z.compare bind fst snd].
    rewrite IH, <- app_assoc. reflexivity.
Qed.

Lemma ps_detailed_statistics_ok (s : PollSystem.Store) u b now :
  exists r,
    PollSystem.detailed_statistics (mkRequest GET u b now) s
    = (mkResponse 200 (Success r), s).
Proof.
  unfold PollSystem.detailed_statistics, require_http_methods.
  cbn [existsb method_eqb req_method orb].
  unfold try_except, PollSystem.detailed_statistics_body, mbind, get_store, lift, ret.
  unfold PollSystem.completion_rate, PollSystem.avg_votes_per_poll,
    PollSystem.engagement_rate.
  destruct (0 <? count (PollSystem.polls s)) eqn:Hp;
    [rewrite !truediv_positive by assumption|];
    (destruct (0 <? count (PollSystem.users s)) eqn:Hu;
     [rewrite !truediv_positive by assumption|]);
    cbn [bind]; eauto.
Qed.

Lemma ps_top_polls_ok (s : PollSystem.Store) u b now :
  exists rows,
    PollSystem.top_polls (mkRequest GET u b now) s
    = (mkResponse 200 (Success rows), s).
Proof.
  unfold PollSystem.top_polls, require_http_methods.
  cbn [existsb method_eqb req_method orb].
  unfold try_except, PollSystem.top_polls_body, mbind, get_store, lift, ret.
  destruct (ps_top_polls_loop_ok s (PollSystem.top_polls_query s) []) as [rows ->].
  eauto.
Qed.

Lemma ps_analytics_view_ok (s : PollSystem.Store) (req : request unit) :
  exists r, PollSystem.analytics_view req s = (mkResponse 200 (Success r), s).
Proof.
  unfold PollSystem.analytics_view, try_except, PollSystem.analytics_view_body,
    mbind, get_store, lift, ret, PollSystem.avg_participation.
  destruct (0 <? count (PollSystem.polls s)) eqn:Hp;
    [rewrite !truediv_positive by assumption|]; cbn [bind]; eauto.
Qed.

(** C3.  Every percentage and rate of the two applications guards its
    division: none of them can end in a division by zero, whatever the
    store holds, and each one is the integer 0 when its denominator is 0
    (no vote, no poll, no user).  The statistics views of [poll_system]
    therefore always answer 200, and on an empty database they answer with
    three zero rates. *)
Theorem rate_divisions_are_guarded :
  (* the rates of poll_system *)
  division_guarded PollSystem.percentage_of /\
  division_guarded PollSystem.completion_rate /\
  division_guarded PollSystem.avg_votes_per_poll /\
  division_guarded PollSystem.engagement_rate /\
  division_guarded PollSystem.participation_rate /\
  division_guarded PollSystem.avg_participation /\
  division_guarded PollSystem.user_avg_participation /\
  (* the rates of polls *)
  division_guarded Polls.completion_rate /\
  division_guarded Polls.avg_votes_per_poll /\
  division_guarded Polls.engagement_rate /\
  (forall v, no_zero_division (Polls.participation_rate v)) /\
  (* the model property and the loops that use the rates *)
  (forall s o, no_zero_division (PollSystem.vote_percentage s o)) /\
  (forall us ps os n1 n2 n3 o,
     PollSystem.vote_percentage (PollSystem.mkStore us ps os [] n1 n2 n3) o
     = Ok (PyInt 0)) /\
  (forall s t os acc, no_zero_division (PollSystem.results_loop s t os acc)) /\
  (forall s os,
     PollSystem.results_loop s 0 os [] =
     Ok (map (fun o =>
                PollSystem.mkResultRow (PollSystem.option_id o) (PollSystem.text o)
                  (PollSystem.vote_count s (PollSystem.option_id o)) (PyInt 0)) os)) /\
  (forall s ps acc, no_zero_division (PollSystem.top_polls_loop s ps acc)) /\
  (forall ps os vs n1 n2 n3 rows,
     let s := PollSystem.mkStore [] ps os vs n1 n2 n3 in
     PollSystem.top_polls_loop s rows [] =
     Ok (map (fun pv =>
                PollSystem.mkTopPollRow (PollSystem.poll_id (fst pv))
                  (PollSystem.title (fst pv)) (snd pv) (PyInt 0)) rows)) /\
  (forall s p, no_zero_division (Polls.get_results s p)) /\
  (forall ps os n1 n2 n3 p,
     let s := Polls.mkStore ps os [] n1 n2 n3 in
     Polls.get_results s p =
     Ok (map (fun o =>
                Polls.mkResultRow (Polls.option_id o) (Polls.text o) 0 (PyInt 0))
             (Polls.poll_options s (Polls.poll_id p)))) /\
  (forall s t os acc, no_zero_division (Polls.results_loop s t os acc)) /\
  (forall s, no_zero_division (Polls.top_polls_list s)) /\
  (* the statistics views *)
  (forall s u b now,
     status (fst (PollSystem.detailed_statistics (mkRequest GET u b now) s)) = 200) /\
  (forall s u b now,
     status (fst (PollSystem.top_polls (mkRequest GET u b now) s)) = 200) /\
  (forall s req, status (fst (PollSystem.analytics_view req s)) = 200) /\
  (forall os n1 n2 n3 u b now,
     let s := PollSystem.mkStore [] [] os [] n1 n2 n3 in
     PollSystem.detailed_statistics (mkRequest GET u b now) s =
     (mkResponse 200
        (Success (PollSystem.mkDetailedStats (PyInt 0) (PyInt 0) (PyInt 0))), s)).
Proof.
  repeat match goal with |- _ /\ _ => split end.
  - apply ps_percentage_of_guarded.
  - apply ps_completion_rate_guarded.
  - apply ps_avg_votes_per_poll_guarded.
  - apply ps_engagement_rate_guarded.
  - apply ps_participation_rate_guarded.
  - apply ps_avg_participation_guarded.
  - apply ps_user_avg_participation_guarded.
  - apply polls_completion_rate_guarded.
  - apply polls_avg_votes_per_poll_guarded.
  - apply polls_engagement_rate_guarded.
  - apply polls_participation_rate_nzd.
  - intros s o. apply ok_no_zero_division, ps_vote_percentage_ok.
  - reflexivity.
  - intros s t os acc. apply ok_no_zero_division, ps_results_loop_ok.
  - intros s os. apply (ps_results_loop_zero s os []).
  - intros s ps acc. apply ok_no_zero_division, ps_top_polls_loop_ok.
  - intros ps os vs n1 n2 n3 rows s.
    apply (ps_top_polls_loop_zero s rows eq_refl []).
  - intros s p. apply ok_no_zero_division, polls_get_results_loop_ok.
  - intros ps os n1 n2 n3 p s. unfold Polls.get_results.
    rewrite polls_get_results_loop_zero by reflexivity. reflexivity.
  - intros s t os acc. apply ok_no_zero_division, polls_results_loop_ok.
  - intros s. unfold Polls.top_polls_list.
    destruct (Polls.top_polls_loop s (Polls.Poll_objects_all s) []) eqn:E;
      cbn [bind]; [discriminate|].
    rewrite <- E. apply polls_top_polls_loop_nzd.
  - intros s u b now. destruct (ps_detailed_statistics_ok s u b now) as [r ->].
    reflexivity.
  - intros s u b now. destruct (ps_top_polls_ok s u b now) as [r ->].
    reflexivity.
  - intros s req. destruct (ps_analytics_view_ok s req) as [r ->]. reflexivity.
  - reflexivity.
Qed.

(** ** Poll results *)

Lemma count_nonneg {A : Type} (l : list A) : 0 <= count l.
Proof. unfold count. lia. Qed.

Lemma percentage_of_exact (c t : Z) :
  0 <= t -> PollSystem.percentage_of c t = Ok (exact_percentage c t).
Proof.
  intros Ht. unfold PollSystem.percentage_of, exact_percentage.
  destruct (0 <? t) eqn:E.
  - rewrite truediv_positive by assumption. cbn [bind].
    apply Z.ltb_lt in E. destruct (t =? 0) eqn:E0; [apply Z.eqb_eq in E0; lia|].
    reflexivity.
  - apply Z.ltb_ge in E. replace t with 0 by lia. reflexivity.
Qed.

Lemma ps_results_loop_spec (s : PollSystem.Store) (t : Z) os :
  0 <= t ->
  forall acc,
    PollSystem.results_loop s t os acc =
    Ok (acc ++ map (fun o =>
                     PollSystem.mkResultRow (PollSystem.option_id o)
                       (PollSystem.text o)
                       (PollSystem.vote_count s (PollSystem.option_id o))
                       (spec_percentage
                          (PollSystem.vote_count s (PollSystem.option_id o)) t))
                   os).
Proof.
  intros Ht.
  induction os as [|o os IH]; intros acc; cbn [PollSystem.results_loop map].
  - now rewrite app_nil_r.
  - rewrite percentage_of_exact by assumption. cbn [bind].
    rewrite IH, <- app_assoc. reflexivity.
Qed.

Lemma polls_get_results_loop_spec (s : Polls.Store) pid os :
  forall acc,
    Polls.get_results_loop s pid os acc =
    Ok (acc ++ map (fun o =>
                     let c := count (Polls.votes_of_option s (Polls.option_id o)) in
                     Polls.mkResultRow (Polls.option_id o) (Polls.text o) c
                       (round_n (exact_percentage c (Polls.total_votes s pid)) 2))
                   os).
Proof.
  induction os as [|o os IH]; intros acc; cbn [Polls.get_results_loop map].
  - now rewrite app_nil_r.
  - pose proof (percentage_of_exact
                  (count (Polls.votes_of_option s (Polls.option_id o)))
                  (Polls.total_votes s pid) (count_nonneg _)) as H.
    unfold PollSystem.percentage_of in H. rewrite H. cbn [bind].
    rewrite IH, <- app_assoc. reflexivity.
Qed.

Lemma polls_results_loop_spec (s : Polls.Store) t os :
  0 <= t ->
  forall acc,
    Polls.results_loop s t os acc =
    Ok (acc ++ map (fun o =>
                     let c := count (Polls.votes_of_option s (Polls.option_id o)) in
                     Polls.mkResultRow (Polls.option_id o) (Polls.text o) c
                       (exact_percentage c t))
                   os).
Proof.
  intros Ht.
  induction os as [|o os IH]; intros acc; cbn [Polls.results_loop map].
  - now rewrite app_nil_r.
  - pose proof (percentage_of_exact
                  (count (Polls.votes_of_option s (Polls.option_id o))) t Ht) as H.
    unfold PollSystem.percentage_of in H. rewrite H. cbn [bind].
    rewrite IH, <- app_assoc. reflexivity.
Qed.

Lemma ps_find_poll_id (s : PollSystem.Store) pid poll :
  PollSystem.find_poll s pid = Some poll -> PollSystem.poll_id poll = pid.
Proof.
  unfold PollSystem.find_poll. intros H. apply find_some in H as [_ H].
  now apply Z.eqb_eq.
Qed.

Lemma ps_poll_results_get (s : PollSystem.Store) pid u b now :
  PollSystem.find_poll s pid <> None ->
  exists data,
    PollSystem.poll_results pid (mkRequest GET u b now) s =
    (mkResponse 200
       (Success
          (PollSystem.mkResultsJson data (PollSystem.total_votes s pid)
             (map (fun o =>
                     PollSystem.mkResultRow (PollSystem.option_id o)
                       (PollSystem.text o)
                       (PollSystem.vote_count s (PollSystem.option_id o))
                       (spec_percentage
                          (PollSystem.vote_count s (PollSystem.option_id o))
                          (PollSystem.total_votes s pid)))
                  (PollSystem.poll_options s pid))
             match u with
             | Some user =>
                 option_map PollSystem.v_option
                   (hd_error (PollSystem.votes_of_poll_user s pid user))
             | None => None
             end)), s).
Proof.
  intros Hfind.
  destruct (PollSystem.find_poll s pid) as [poll|] eqn:E; [clear Hfind|congruence].
  pose proof (ps_find_poll_id _ _ _ E) as Hid.
  unfold PollSystem.poll_results, require_http_methods.
  cbn [existsb method_eqb req_method orb].
  unfold try_except, PollSystem.poll_results_body, mbind, get_store.
  rewrite E. cbn [get_object_or_404 ret]. rewrite Hid.
  unfold lift. rewrite ps_results_loop_spec by apply count_nonneg.
  cbn [app req_user PollSystem.serialize_poll].
  unfold PollSystem.serialize_poll, mbind, get_store, ret.
  destruct u as [user|]; [destruct (hd_error _)|]; eexists; reflexivity.
Qed.

Lemma polls_find_poll_id (s : Polls.Store) pid poll :
  Polls.find_poll s pid = Some poll -> Polls.poll_id poll = pid.
Proof.
  unfold Polls.find_poll. intros H. apply find_some in H as [_ H].
  now apply Z.eqb_eq.
Qed.

Lemma polls_poll_results_get (s : Polls.Store) pk u b now :
  Polls.find_poll s pk <> None ->
  exists title,
    Polls.poll_results pk (mkRequest GET u b now) s =
    (mkResponse 200
       (Success
          (Polls.mkPollResults pk title (Polls.total_votes s pk)
             (map (fun o =>
                     let c := count (Polls.votes_of_option s (Polls.option_id o)) in
                     Polls.mkResultRow (Polls.option_id o) (Polls.text o) c
                       (exact_percentage c (Polls.total_votes s pk)))
                  (Polls.poll_options s pk)))), s).
Proof.
  intros Hfind.
  destruct (Polls.find_poll s pk) as [poll|] eqn:E; [clear Hfind|congruence].
  pose proof (polls_find_poll_id _ _ _ E) as Hid.
  unfold Polls.poll_results, Polls.api_view.
  cbn [existsb method_eqb req_method orb].
  unfold drf_view, try_except, mbind, get_store.
  rewrite E. cbn [get_object_or_404 ret]. rewrite Hid.
  unfold lift. rewrite polls_results_loop_spec by apply count_nonneg.
  cbn [app]. eexists. reflexivity.
Qed.

(** C2 (amended).  The results view of [poll_system] answers, for each
    option of the poll, its vote count and the percentage
    count / total * 100 rounded to one decimal place, the integer 0 when
    the poll has no vote.  [Poll.get_results] of [polls] returns the same
    rows with the percentage rounded to two decimal places, and the
    results view of [polls] returns it without any rounding. *)
Theorem results_percentages :
  (forall s pid u b now,
     PollSystem.find_poll s pid <> None ->
     let resp := fst (PollSystem.poll_results pid (mkRequest GET u b now) s) in
     status resp = 200 /\
     option_map PollSystem.rj_total_votes (payload resp)
     = Some (PollSystem.total_votes s pid) /\
     option_map PollSystem.rj_options (payload resp)
     = Some (map (fun o =>
                    let c := PollSystem.vote_count s (PollSystem.option_id o) in
                    PollSystem.mkResultRow (PollSystem.option_id o)
                      (PollSystem.text o) c
                      (spec_percentage c (PollSystem.total_votes s pid)))
                 (PollSystem.poll_options s pid))) /\
  (forall s p,
     Polls.get_results s p
     = Ok (map (fun o =>
                  let c := count (Polls.votes_of_option s (Polls.option_id o)) in
                  Polls.mkResultRow (Polls.option_id o) (Polls.text o) c
                    (round_n (exact_percentage c
                                (Polls.total_votes s (Polls.poll_id p))) 2))
               (Polls.poll_options s (Polls.poll_id p)))) /\
  (forall s pk u b now,
     Polls.find_poll s pk <> None ->
     let resp := fst (Polls.poll_results pk (mkRequest GET u b now) s) in
     status resp = 200 /\
     option_map Polls.pr_results (payload resp)
     = Some (map (fun o =>
                    let c := count (Polls.votes_of_option s (Polls.option_id o)) in
                    Polls.mkResultRow (Polls.option_id o) (Polls.text o) c
                      (exact_percentage c (Polls.total_votes s pk)))
                 (Polls.poll_options s pk))) /\
  (forall c, spec_percentage c 0 = PyInt 0).
Proof.
  split; [|split; [|split]].
  - intros s pid u b now H resp. subst resp.
    destruct (ps_poll_results_get s pid u b now H) as [data ->].
    repeat split.
  - intros s p. unfold Polls.get_results.
    now rewrite polls_get_results_loop_spec.
  - intros s pk u b now H resp. subst resp.
    destruct (polls_poll_results_get s pk u b now H) as [t ->].
    repeat split.
  - reflexivity.
Qed.

(** The store of the scenario of the specification: a poll with the
    options Pizza and Sushi, one vote for Pizza. *)
Lemma results_percentages_witness :
  let s := PollSystem.mkStore
             [PollSystem.mkUser 1 "ann"]
             [PollSystem.mkPoll 1 "Lunch?" "" 1 100 None true ""]
             [PollSystem.mkPollOption 1 1 "Pizza" 100;
              PollSystem.mkPollOption 2 1 "Sushi" 100]
             [PollSystem.mkVote 1 1 1 1 110] 2 3 2 in
  let resp := fst (PollSystem.poll_results 1 (mkRequest GET None None 120) s) in
  status resp = 200 /\
  option_map PollSystem.rj_total_votes (payload resp) = Some 1 /\
  option_map PollSystem.rj_options (payload resp)
  = Some [PollSystem.mkResultRow 1 "Pizza" 1 (PyFloat 100%float);
          PollSystem.mkResultRow 2 "Sushi" 0 (PyFloat 0%float)].
Proof.
  intros s resp.
  assert (H : PollSystem.find_poll s 1 <> None) by (vm_compute; discriminate).
  exact (proj1 results_percentages s 1 None None 120 H).
Defined.

(** The claim of C2 fails on [Poll.get_results]: with one vote out of
    three the method returns 33.33, not the 33.3 that rounding to one
    decimal place gives. *)
Lemma get_results_keeps_two_decimals :
  Polls.get_results three_votes (Polls.mkPoll 1 "Lunch today?" None 100 None true None)
  <> Ok (map (fun o =>
                let c := count (Polls.votes_of_option three_votes (Polls.option_id o)) in
                Polls.mkResultRow (Polls.option_id o) (Polls.text o) c
                  (spec_percentage c (Polls.total_votes three_votes 1)))
             (Polls.poll_options three_votes 1)).
Proof.
  intros H.
  apply (f_equal (fun r =>
                    match r with
                    | Ok rows => map (fun x => number_repr (Polls.rr_percentage x)) rows
                    | Raise _ => []
                    end)) in H.
  vm_compute in H. discriminate H.
Qed.

(** ** Completion rate *)

Lemma filter_map_length {A B : Type} (f : B -> bool) (g : A -> B) (l : list A) :
  List.length (filter f (map g l)) = List.length (filter (fun a => f (g a)) l).
Proof.
  induction l as [|a l IH]; cbn [map filter]; [reflexivity|].
  destruct (f (g a)); cbn [List.length]; now rewrite IH.
Qed.

Lemma positive_count_filter {A : Type} (q : A -> bool) (l : list A) :
  (0 <? count (filter q l)) = existsb q l.
Proof.
  unfold count. induction l as [|a l IH]; cbn [filter existsb]; [reflexivity|].
  destruct (q a); cbn [orb List.length].
  - apply Z.ltb_lt. lia.
  - exact IH.
Qed.

Lemma polls_with_votes_count (s : PollSystem.Store) :
  count (filter (fun pv => 0 <? snd pv) (PollSystem.annotate_vote_count s))
  = count (filter (has_vote s) (PollSystem.polls s)).
Proof.
  unfold PollSystem.annotate_vote_count, count. rewrite filter_map_length.
  f_equal. f_equal. apply filter_ext. intros p. cbn [snd].
  unfold PollSystem.votes_of_poll, has_vote. apply positive_count_filter.
Qed.

Lemma ps_completion_rate_spec (s : PollSystem.Store) :
  PollSystem.completion_rate
    (count (filter (fun pv => 0 <? snd pv) (PollSystem.annotate_vote_count s)))
    (count (PollSystem.polls s))
  = Ok (round_n (spec_completion_rate s) 2).
Proof.
  rewrite polls_with_votes_count.
  unfold PollSystem.completion_rate, spec_completion_rate.
  pose proof (percentage_of_exact (count (filter (has_vote s) (PollSystem.polls s)))
                (count (PollSystem.polls s)) (count_nonneg _)) as H.
  unfold PollSystem.percentage_of in H.
  destruct (0 <? count (PollSystem.polls s)).
  - destruct (truediv _ _); cbn [bind] in *; [|discriminate].
    injection H as <-. reflexivity.
  - injection H as <-. reflexivity.
Qed.

(** C6 (amended).  On every store the detailed statistics of
    [poll_system] answer 200 with a completion rate equal to
    (polls with at least one vote) / (total polls) * 100 rounded to two
    decimal places, and equal to the integer 0 when there is no poll. *)
Theorem completion_rate_is_rounded_share_of_voted_polls :
  (forall s u b now,
     let resp := fst (PollSystem.detailed_statistics (mkRequest GET u b now) s) in
     status resp = 200 /\
     option_map PollSystem.completionRate (payload resp)
     = Some (round_n (spec_completion_rate s) 2)) /\
  (forall us os vs n1 n2 n3,
     round_n (spec_completion_rate (PollSystem.mkStore us [] os vs n1 n2 n3)) 2
     = PyInt 0).
Proof.
  split; [intros s u b now resp; subst resp; split | reflexivity].
  - destruct (ps_detailed_statistics_ok s u b now) as [r ->]. reflexivity.
  - unfold PollSystem.detailed_statistics, require_http_methods.
    cbn [existsb method_eqb req_method orb].
    unfold try_except, PollSystem.detailed_statistics_body, mbind, get_store, lift.
    rewrite ps_completion_rate_spec.
    unfold PollSystem.avg_votes_per_poll, PollSystem.engagement_rate.
    destruct (0 <? count (PollSystem.polls s)) eqn:Hp;
      [rewrite !truediv_positive by assumption|];
      (destruct (0 <? count (PollSystem.users s)) eqn:Hu;
       [rewrite !truediv_positive by assumption|]);
      reflexivity.
Qed.

(** The rate that [analytics_detailed] of [polls] is written to report is
    another quantity, votes per ten polls (one vote on one poll gives 10,
    not 100); the view itself answers 500 on every store, its category
    query naming a field that the model lacks. *)
Lemma polls_analytics_detailed_rate :
  Polls.completion_rate 1 1 = Ok (PyInt 10) /\
  (forall s u b now,
     status (fst (Polls.analytics_detailed (mkRequest GET u b now) s)) = 500).
Proof.
  split; [reflexivity|].
  intros s u b now.
  unfold Polls.analytics_detailed, Polls.api_view.
  cbn [existsb method_eqb req_method orb].
  unfold drf_view, caught, try_except, mbind, get_store, lift.
  unfold Polls.avg_votes_per_poll.
  destruct (0 <? count (Polls.polls s)) eqn:Hp;
    [rewrite !truediv_positive by assumption|]; reflexivity.
Qed.

(** The claim of C6 fails on [detailed_statistics] itself: with one voted
    poll out of three the view reports 33.33, which is not
    1 / 3 * 100. *)
Lemma completion_rate_is_not_the_exact_share :
  option_map PollSystem.completionRate
    (payload (fst (PollSystem.detailed_statistics (mkRequest GET None None 400)
                     one_of_three)))
  <> Some (spec_completion_rate one_of_three).
Proof.
  intros H. apply (f_equal (option_map number_repr)) in H.
  vm_compute in H. discriminate H.
Qed.

(** ** Keeping a property of the store through a view *)

Section Preserves.

Context {S : Type} (P : S -> Prop).

Lemma preserves_ret {A : Type} (a : A) : preserves P (ret a).
Proof. intros s H. exact H. Qed.

Lemma preserves_raise {A : Type} (e : exn) : preserves P (@raise S A e).
Proof. intros s H. exact H. Qed.

Lemma preserves_lift {A : Type} (r : result A) : preserves P (lift r).
Proof. intros s H. exact H. Qed.

Lemma preserves_get_store : preserves P get_store.
Proof. intros s H. exact H. Qed.

Lemma preserves_bind {A B : Type} (m : M S A) (k : A -> M S B) :
  preserves P m -> (forall a, preserves P (k a)) -> preserves P (mbind m k).
Proof.
  intros Hm Hk s H. unfold mbind. specialize (Hm s H).
  destruct (m s) as [[a|e] s']; cbn [snd] in *.
  - apply Hk, Hm.
  - exact Hm.
Qed.

Lemma preserves_for_each {A : Type} (l : list A) (body : A -> M S unit) :
  (forall a, preserves P (body a)) -> preserves P (for_each l body).
Proof.
  intros Hb. induction l as [|x l IH]; cbn [for_each].
  - apply preserves_ret.
  - apply preserves_bind; [apply Hb | intros _; exact IH].
Qed.

Lemma preserves_get_object_or_404 {A : Type} (row : option A) :
  preserves P (get_object_or_404 row).
Proof. destruct row; [apply preserves_ret | apply preserves_raise]. Qed.

Lemma preserves_objects_get {A : Type} (row : option A) :
  preserves P (objects_get row).
Proof. destruct row; [apply preserves_ret | apply preserves_raise]. Qed.

Lemma preserves_request_user {B : Type} (req : request B) :
  preserves P (request_user req).
Proof.
  unfold request_user. destruct (req_user req);
    [apply preserves_ret | apply preserves_raise].
Qed.

Lemma preserves_json_loads {B : Type} (req : request B) :
  preserves P (json_loads req).
Proof.
  unfold json_loads. destruct (req_body req);
    [apply preserves_ret | apply preserves_raise].
Qed.

Lemma try_except_keeps {A : Type} (body : M S A) (handler : exn -> A) (s : S) :
  preserves P body -> P s -> P (snd (try_except body handler s)).
Proof.
  intros Hb H. unfold try_except. specialize (Hb s H).
  destruct (body s) as [[a|e] s']; exact Hb.
Qed.

Lemma require_http_methods_keeps {B A : Type} allowed (v : view S B A) req s :
  (P s -> P (snd (v req s))) -> P s ->
  P (snd (require_http_methods allowed v req s)).
Proof.
  intros Hv H. unfold require_http_methods.
  destruct (existsb _ allowed); [apply Hv, H | exact H].
Qed.

End Preserves.

Ltac preserve_step :=
  match goal with
  | |- preserves _ (mbind _ _) => apply preserves_bind; [|intros ?]
  | |- preserves _ (ret _) => apply preserves_ret
  | |- preserves _ (raise _) => apply preserves_raise
  | |- preserves _ (lift _) => apply preserves_lift
  | |- preserves _ get_store => apply preserves_get_store
  | |- preserves _ (get_object_or_404 _) => apply preserves_get_object_or_404
  | |- preserves _ (objects_get _) => apply preserves_objects_get
  | |- preserves _ (request_user _) => apply preserves_request_user
  | |- preserves _ (json_loads _) => apply preserves_json_loads
  | |- preserves _ (for_each _ _) => apply preserves_for_each; intros ?
  | |- preserves _ (if ?c then _ else _) => destruct c
  | |- preserves _ (match ?x with _ => _ end) => destruct x
  end.

(** ** The uniqueness constraint of [poll_system] *)

Lemma NoDup_map_filter {A B : Type} (f : A -> B) (q : A -> bool) (l : list A) :
  NoDup (map f l) -> NoDup (map f (filter q l)).
Proof.
  induction l as [|a l IH]; cbn [map filter]; intros H; [constructor|].
  inversion H as [|? ? Hn Hl]; subst.
  destruct (q a); cbn [map]; [constructor|]; auto.
  intros Hin. apply Hn. apply in_map_iff in Hin as [x [Hx Hin]].
  apply filter_In in Hin as [Hin _]. apply in_map_iff. eauto.
Qed.

Lemma NoDup_snoc {A : Type} (l : list A) (x : A) :
  NoDup l -> ~ In x l -> NoDup (l ++ [x]).
Proof.
  intros Hl Hx. induction l as [|a l IH]; cbn [app].
  - constructor; [intros []|constructor].
  - inversion Hl as [|? ? Hn Hl']; subst. constructor.
    + intros Hin. apply in_app_or in Hin as [Hin|[->|[]]]; [auto|].
      apply Hx. now left.
    + apply IH; [assumption|]. intros Hin. apply Hx. now right.
Qed.

Section Replace.

Context {A K : Type} (id : A -> Z) (key : A -> K) (v : A).

Let replace (w : A) : A := if id w =? id v then v else w.

Lemma replace_ids (l : list A) : map id (map replace l) = map id l.
Proof.
  induction l as [|w l IH]; cbn [map]; [reflexivity|].
  rewrite IH. f_equal. unfold replace.
  destruct (id w =? id v) eqn:E; [apply Z.eqb_eq in E; congruence | reflexivity].
Qed.

Lemma replace_absent (l : list A) :
  ~ In (id v) (map id l) -> map replace l = l.
Proof.
  induction l as [|w l IH]; cbn [map]; intros H; [reflexivity|].
  rewrite IH by (intros Hin; apply H; now right). f_equal. unfold replace.
  destruct (id w =? id v) eqn:E; [|reflexivity].
  apply Z.eqb_eq in E. exfalso. apply H. now left.
Qed.

Lemma replace_keys_nodup (l : list A) :
  NoDup (map id l) -> NoDup (map key l) ->
  (forall w, In w l -> id w <> id v -> key w <> key v) ->
  NoDup (map key (map replace l)).
Proof.
  induction l as [|w l IH]; cbn [map]; intros Hid Hkey Hother; [constructor|].
  inversion Hid as [|? ? Hidn Hid']; subst.
  inversion Hkey as [|? ? Hkeyn Hkey']; subst.
  unfold replace at 1. destruct (id w =? id v) eqn:E.
  - apply Z.eqb_eq in E. rewrite E in Hidn. rewrite replace_absent by assumption.
    constructor; [|assumption].
    intros Hin. apply in_map_iff in Hin as [u [Hu Hin]].
    apply (Hother u); [now right | | assumption].
    intros Heq. apply Hidn. rewrite <- Heq. now apply in_map.
  - apply Z.eqb_neq in E. constructor.
    + intros Hin. apply in_map_iff in Hin as [u' [Hu' Hin]].
      apply in_map_iff in Hin as [u [Hu Hin]]. subst u'. unfold replace in Hu'.
      destruct (id u =? id v).
      * apply (Hother w); [now left | assumption | now symmetry].
      * apply Hkeyn. rewrite <- Hu'. now apply in_map.
    + apply IH; [assumption | assumption |].
      intros u Hin. apply Hother. now right.
Qed.

End Replace.

Lemma votes_wf_frame (s s' : PollSystem.Store) :
  PollSystem.votes s' = PollSystem.votes s ->
  PollSystem.next_vote_id s' = PollSystem.next_vote_id s ->
  votes_wf s -> votes_wf s'.
Proof.
  intros Hv Hn [H1 H2 H3]. split; rewrite ?Hv, ?Hn; assumption.
Qed.

Lemma votes_wf_filter (s s' : PollSystem.Store) q :
  PollSystem.votes s' = filter q (PollSystem.votes s) ->
  PollSystem.next_vote_id s' = PollSystem.next_vote_id s ->
  votes_wf s -> votes_wf s'.
Proof.
  intros Hv Hn [H1 H2 H3]. split; rewrite ?Hv, ?Hn.
  - intros v Hin. apply filter_In in Hin as [Hin _]. auto.
  - now apply NoDup_map_filter.
  - now apply NoDup_map_filter.
Qed.

Lemma no_clash_key_absent (s : PollSystem.Store) pid uid :
  votes_wf s ->
  PollSystem.unique_together_clash (PollSystem.votes s)
    (PollSystem.next_vote_id s) pid uid = false ->
  ~ In (pid, uid) (map vote_key (PollSystem.votes s)).
Proof.
  intros [Hb _ _] Hc Hin. apply in_map_iff in Hin as [v [Hk Hin]].
  unfold PollSystem.unique_together_clash in Hc.
  rewrite <- not_true_iff_false in Hc. apply Hc.
  apply existsb_exists. exists v. split; [assumption|].
  unfold vote_key in Hk. injection Hk as <- <-.
  rewrite !Z.eqb_refl, !andb_true_r. apply negb_true_iff, Z.eqb_neq.
  specialize (Hb v Hin). lia.
Qed.

Lemma Vote_objects_create_keeps_wf pid oid uid now :
  preserves votes_wf (PollSystem.Vote_objects_create pid oid uid now).
Proof.
  intros s H. unfold PollSystem.Vote_objects_create.
  destruct (PollSystem.unique_together_clash _ _ _ _) eqn:Hc; [exact H|].
  pose proof (no_clash_key_absent s pid uid H Hc) as Hk.
  destruct H as [Hb Hi Hkeys]. cbn [snd].
  split; cbn [PollSystem.set_votes PollSystem.votes PollSystem.next_vote_id].
  - intros v Hin. apply in_app_or in Hin as [Hin|[<-|[]]].
    + specialize (Hb v Hin). lia.
    + cbn. lia.
  - rewrite map_app. apply NoDup_snoc; [assumption|].
    cbn [map PollSystem.v_id]. intros Hin.
    apply in_map_iff in Hin as [v [Hv Hin]]. specialize (Hb v Hin). lia.
  - rewrite map_app. apply NoDup_snoc; assumption.
Qed.

Lemma Vote_save_keeps_wf v : preserves votes_wf (PollSystem.Vote_save v).
Proof.
  intros s H. unfold PollSystem.Vote_save.
  destruct (PollSystem.unique_together_clash _ _ _ _) eqn:Hc; [exact H|].
  destruct H as [Hb Hi Hkeys]. cbn [snd].
  split; cbn [PollSystem.set_votes PollSystem.votes PollSystem.next_vote_id].
  - intros w Hin. apply in_map_iff in Hin as [u [Hu Hin]].
    destruct (PollSystem.v_id u =? PollSystem.v_id v) eqn:E.
    + apply Z.eqb_eq in E. subst w. rewrite <- E. auto.
    + subst w. auto.
  - rewrite (replace_ids PollSystem.v_id v). assumption.
  - apply (replace_keys_nodup PollSystem.v_id vote_key v); [assumption..|].
    intros w Hin Hne Hkey.
    unfold PollSystem.unique_together_clash in Hc.
    rewrite <- not_true_iff_false in Hc. apply Hc.
    apply existsb_exists. exists w. split; [assumption|].
    unfold vote_key in Hkey. injection Hkey as -> ->.
    rewrite !Z.eqb_refl, !andb_true_r. now apply negb_true_iff, Z.eqb_neq.
Qed.

Lemma Poll_objects_create_keeps_wf t d c u e now :
  preserves votes_wf (PollSystem.Poll_objects_create t d c u e now).
Proof. intros s. now apply votes_wf_frame. Qed.

Lemma Poll_save_keeps_wf p : preserves votes_wf (PollSystem.Poll_save p).
Proof. intros s. now apply votes_wf_frame. Qed.

Lemma PollOption_objects_create_keeps_wf pid t now :
  preserves votes_wf (PollSystem.PollOption_objects_create pid t now).
Proof. intros s. now apply votes_wf_frame. Qed.

Lemma delete_options_keeps_wf pid : preserves votes_wf (PollSystem.delete_options pid).
Proof. intros s. eapply votes_wf_filter; reflexivity. Qed.

Lemma Poll_delete_keeps_wf pid : preserves votes_wf (PollSystem.Poll_delete pid).
Proof. intros s. eapply votes_wf_filter; reflexivity. Qed.

Lemma create_options_keeps_wf pid options now :
  preserves votes_wf (PollSystem.create_options pid options now).
Proof.
  unfold PollSystem.create_options. apply preserves_for_each. intros t.
  destruct (truthy (strip t)).
  - apply PollOption_objects_create_keeps_wf.
  - apply preserves_ret.
Qed.

Lemma serialize_poll_keeps {P : PollSystem.Store -> Prop} p b :
  preserves P (PollSystem.serialize_poll p b).
Proof. intros s H. exact H. Qed.

Lemma check_lookup_keeps {P : PollSystem.Store -> Prop} names :
  preserves P (PollSystem.check_lookup names).
Proof.
  unfold PollSystem.check_lookup.
  destruct (forallb _ names); [apply preserves_ret | apply preserves_raise].
Qed.

Ltac wf_step :=
  first
    [ preserve_step
    | apply Vote_objects_create_keeps_wf
    | apply Vote_save_keeps_wf
    | apply Poll_objects_create_keeps_wf
    | apply Poll_save_keeps_wf
    | apply delete_options_keeps_wf
    | apply Poll_delete_keeps_wf
    | apply create_options_keeps_wf
    | apply serialize_poll_keeps
    | apply check_lookup_keeps ].

Lemma create_poll_keeps_wf parse req s :
  votes_wf s -> votes_wf (snd (PollSystem.create_poll parse req s)).
Proof.
  intros H. unfold PollSystem.create_poll, PollSystem.json_login_required.
  destruct (req_user req); [|exact H].
  apply require_http_methods_keeps; [|exact H].
  intros _. apply try_except_keeps; [|exact H].
  unfold PollSystem.create_poll_body. cbv zeta. repeat wf_step.
Qed.

Lemma vote_poll_keeps_wf pid req s :
  votes_wf s -> votes_wf (snd (PollSystem.vote_poll pid req s)).
Proof.
  intros H. unfold PollSystem.vote_poll, PollSystem.json_login_required.
  destruct (req_user req); [|exact H].
  apply require_http_methods_keeps; [|exact H].
  intros _. apply try_except_keeps; [|exact H].
  unfold PollSystem.vote_poll_body. cbv zeta. repeat wf_step.
Qed.

Lemma poll_detail_keeps_wf pid req s :
  votes_wf s -> votes_wf (snd (PollSystem.poll_detail pid req s)).
Proof.
  intros H. unfold PollSystem.poll_detail.
  apply require_http_methods_keeps; [|exact H].
  intros _. apply try_except_keeps; [|exact H].
  unfold PollSystem.poll_detail_body. cbv zeta. repeat wf_step.
Qed.

Lemma edit_poll_keeps_wf pid req s :
  votes_wf s -> votes_wf (snd (PollSystem.edit_poll pid req s)).
Proof.
  intros H. unfold PollSystem.edit_poll, PollSystem.json_login_required.
  destruct (req_user req); [|exact H].
  apply require_http_methods_keeps; [|exact H].
  intros _. apply try_except_keeps; [|exact H].
  unfold PollSystem.edit_poll_body. cbv zeta. repeat wf_step.
Qed.

Lemma delete_poll_keeps_wf pid req s :
  votes_wf s -> votes_wf (snd (PollSystem.delete_poll pid req s)).
Proof.
  intros H. unfold PollSystem.delete_poll, PollSystem.json_login_required.
  destruct (req_user req); [|exact H].
  destruct (req_method req); try exact H.
  apply try_except_keeps; [|exact H].
  unfold PollSystem.delete_poll_body, PollSystem.Poll_objects_get. repeat wf_step.
Qed.

Lemma step_keeps_wf parse o s :
  votes_wf s -> votes_wf (PollSystem.step parse o s).
Proof.
  destruct o; cbn [PollSystem.step].
  - apply create_poll_keeps_wf.
  - apply vote_poll_keeps_wf.
  - apply poll_detail_keeps_wf.
  - apply edit_poll_keeps_wf.
  - apply delete_poll_keeps_wf.
Qed.

Lemma db_run_keeps_wf parse ops :
  forall s, votes_wf s -> votes_wf (PollSystem.db_run parse ops s).
Proof.
  unfold PollSystem.db_run.
  induction ops as [|o ops IH]; intros s H; cbn [fold_left]; [exact H|].
  apply IH. destruct o; cbn [PollSystem.db_step].
  - now apply step_keeps_wf.
  - now apply Vote_objects_create_keeps_wf.
  - now apply Vote_save_keeps_wf.
Qed.

Lemma votes_wf_empty us : votes_wf (PollSystem.empty_store us).
Proof. split; cbn; [intros v [] | constructor | constructor]. Qed.

Lemma nodup_key_count {A K : Type} (key : A -> K) (q : A -> bool) (k : K)
  (l : list A) :
  NoDup (map key l) -> (forall a, q a = true -> key a = k) ->
  count (filter q l) <= 1.
Proof.
  intros Hnd Hq. unfold count.
  induction l as [|a l IH]; cbn [filter List.length]; [lia|].
  cbn [map] in Hnd. inversion Hnd as [|? ? Hn Hl]; subst.
  specialize (IH Hl). destruct (q a) eqn:Ea; [|exact IH].
  destruct (filter q l) as [|b t] eqn:Ef; [cbn; lia|].
  exfalso. apply Hn.
  assert (Hb : In b (filter q l)) by (rewrite Ef; now left).
  apply filter_In in Hb as [Hb Hqb].
  rewrite (Hq a Ea), <- (Hq b Hqb). now apply in_map.
Qed.

Lemma votes_wf_one_vote (s : PollSystem.Store) pid uid :
  votes_wf s -> count (PollSystem.votes_of_poll_user s pid uid) <= 1.
Proof.
  intros [_ _ Hk]. unfold PollSystem.votes_of_poll_user.
  apply (nodup_key_count vote_key _ (pid, uid)); [assumption|].
  intros v Hv. apply andb_true_iff in Hv as [H1 H2].
  apply Z.eqb_eq in H1, H2. unfold vote_key. congruence.
Qed.

(** ** The uniqueness constraint of [polls] *)

Lemma anon_no_clash_key_absent (vs : list Polls.Vote) oid ip session :
  Polls.unique_together_clash vs oid ip session = false ->
  ~ In (oid, ip, session) (map anon_vote_key vs).
Proof.
  intros Hc Hin. apply in_map_iff in Hin as [v [Hk Hin]].
  unfold Polls.unique_together_clash in Hc.
  rewrite <- not_true_iff_false in Hc. apply Hc.
  apply existsb_exists. exists v. split; [assumption|].
  unfold anon_vote_key in Hk. injection Hk as <- <- <-.
  now rewrite Z.eqb_refl, !String.eqb_refl.
Qed.

Lemma anon_Vote_objects_create_keeps clean oid ip session now :
  preserves (fun s => NoDup (map anon_vote_key (Polls.votes s)))
            (Polls.Vote_objects_create clean oid ip session now).
Proof.
  intros s H. unfold Polls.Vote_objects_create.
  destruct (Polls.ip_db_value clean ip) as [stored|]; [|exact H].
  destruct (Polls.unique_together_clash _ _ _ _) eqn:Hc; [exact H|].
  cbn [snd Polls.set_votes Polls.votes]. rewrite map_app.
  apply NoDup_snoc; [assumption|]. now apply anon_no_clash_key_absent.
Qed.

Lemma VoteCreateView_post_keeps clean req s :
  NoDup (map anon_vote_key (Polls.votes s)) ->
  NoDup (map anon_vote_key (Polls.votes (snd (Polls.VoteCreateView_post clean req s)))).
Proof.
  intros H. unfold Polls.VoteCreateView_post.
  destruct (Polls.vr_body req) as [[pk|]|]; try exact H.
  destruct (Polls.find_option s pk) as [value|]; [|exact H].
  destruct (Polls.validate_option _ _ _); [exact H|].
  pose proof (anon_Vote_objects_create_keeps clean (Polls.option_id value)
                (Polls.client_ip req) (Polls.session_key req) (Polls.vr_now req)
                s H) as H'.
  destruct (Polls.Vote_objects_create clean _ _ _ _ s) as [[u|e] s'];
    [exact H' | destruct e; exact H'].
Qed.

Lemma polls_db_run_keeps clean ops :
  forall s, NoDup (map anon_vote_key (Polls.votes s)) ->
            NoDup (map anon_vote_key (Polls.votes (Polls.db_run clean ops s))).
Proof.
  unfold Polls.db_run.
  induction ops as [|o ops IH]; intros s H; cbn [fold_left]; [exact H|].
  apply IH. destruct o; cbn [Polls.db_step].
  - now apply VoteCreateView_post_keeps.
  - now apply anon_Vote_objects_create_keeps.
Qed.

(** C1 (amended).  In [poll_system], whatever sequence of requests and of
    direct inserts or updates of [Vote] rows the database has gone through,
    a user has at most one vote on a poll: the constraint on (poll, user)
    refuses any write that would make a second one.  In [polls] the
    constraint is on (option, IP, session): whatever sequence of vote
    requests and direct inserts has been served, an (IP, session) pair has
    at most one vote on an option. *)
Theorem at_most_one_vote_per_constraint_key :
  (forall parse us ops pid uid,
     count (PollSystem.votes_of_poll_user
              (PollSystem.db_run parse ops (PollSystem.empty_store us)) pid uid)
     <= 1) /\
  (forall clean ps os n1 n2 n3 ops oid ip session,
     count (votes_of_option_voter
              (Polls.db_run clean ops (Polls.mkStore ps os [] n1 n2 n3))
              oid ip session)
     <= 1).
Proof.
  split.
  - intros parse us ops pid uid.
    apply votes_wf_one_vote, db_run_keeps_wf, votes_wf_empty.
  - intros clean ps os n1 n2 n3 ops oid ip session. unfold votes_of_option_voter.
    apply (nodup_key_count anon_vote_key _ (oid, ip, session)).
    + apply polls_db_run_keeps. constructor.
    + intros v Hv. apply andb_true_iff in Hv as [Hv H3].
      apply andb_true_iff in Hv as [H1 H2].
      apply Z.eqb_eq in H1. apply String.eqb_eq in H2, H3.
      unfold anon_vote_key. congruence.
Qed.

(** The claim of C1 fails in [polls]: the same (IP, session) pair votes
    for both options of one poll, both requests are answered 201, and the
    poll then holds two votes of that voter. *)
Lemma anonymous_voter_votes_twice_in_a_poll :
  let first := Polls.VoteCreateView_post no_ipv6 (vote_for 1 200) lunch_poll in
  let second := Polls.VoteCreateView_post no_ipv6 (vote_for 2 210) (snd first) in
  status (fst first) = 201 /\ status (fst second) = 201 /\
  ~ count (votes_of_poll_voter (snd second) 1 "10.0.0.1" "k1") <= 1.
Proof.
  vm_compute. repeat split. intros H. apply H. reflexivity.
Qed.

(** ** Well-formed stores of [poll_system] *)

Lemma store_wf_empty us : store_wf (PollSystem.empty_store us).
Proof.
  split; cbn; try (intros ? []); [apply votes_wf_empty | lia].
Qed.

Lemma Poll_objects_create_wf t d c u e now s :
  store_wf s -> store_wf (snd (PollSystem.Poll_objects_create t d c u e now s)).
Proof.
  intros [Hv Hn Hp Ho Hr]. split; cbn.
  - now apply (Poll_objects_create_keeps_wf t d c u e now s).
  - lia.
  - intros p Hin. apply in_app_or in Hin as [Hin|[<-|[]]].
    + specialize (Hp p Hin). lia.
    + cbn. lia.
  - intros o Hin. specialize (Ho o Hin). lia.
  - exact Hr.
Qed.

Lemma Poll_save_wf p s :
  store_wf s -> 1 <= PollSystem.poll_id p < PollSystem.next_poll_id s ->
  store_wf (snd (PollSystem.Poll_save p s)).
Proof.
  intros [Hv Hn Hp Ho Hr] Hid. split; cbn.
  - now apply (Poll_save_keeps_wf p s).
  - exact Hn.
  - intros q Hin. apply in_map_iff in Hin as [q' [Hq Hin]].
    destruct (PollSystem.poll_id q' =? PollSystem.poll_id p); subst q; auto.
  - exact Ho.
  - exact Hr.
Qed.

Lemma PollOption_objects_create_wf pid t now s :
  store_wf s -> 1 <= pid < PollSystem.next_poll_id s ->
  store_wf (snd (PollSystem.PollOption_objects_create pid t now s)).
Proof.
  intros [Hv Hn Hp Ho Hr] Hid. split; cbn.
  - now apply (PollOption_objects_create_keeps_wf pid t now s).
  - lia.
  - exact Hp.
  - intros o Hin. apply in_app_or in Hin as [Hin|[<-|[]]].
    + specialize (Ho o Hin). lia.
    + cbn. lia.
  - intros v Hin. destruct (Hr v Hin) as [o [Hino Ho']].
    exists o. split; [apply in_or_app; now left | exact Ho'].
Qed.

Lemma create_options_effect pid options now :
  forall s,
    fst (PollSystem.create_options pid options now s) = Ok tt /\
    PollSystem.polls (snd (PollSystem.create_options pid options now s))
    = PollSystem.polls s /\
    PollSystem.votes (snd (PollSystem.create_options pid options now s))
    = PollSystem.votes s /\
    PollSystem.next_poll_id (snd (PollSystem.create_options pid options now s))
    = PollSystem.next_poll_id s /\
    PollSystem.next_vote_id (snd (PollSystem.create_options pid options now s))
    = PollSystem.next_vote_id s /\
    PollSystem.users (snd (PollSystem.create_options pid options now s))
    = PollSystem.users s.
Proof.
  unfold PollSystem.create_options.
  induction options as [|t options IH]; intros s; cbn [for_each].
  - repeat split.
  - unfold mbind. destruct (truthy (strip t)).
    + cbn [PollSystem.PollOption_objects_create].
      destruct (IH (PollSystem.set_options s
                      (PollSystem.options s ++
                         [PollSystem.mkPollOption (PollSystem.next_option_id s)
                            pid (strip t) now])
                      (PollSystem.next_option_id s + 1)))
        as (H1 & H2 & H3 & H4 & H5 & H6).
      repeat split; assumption.
    + cbn [ret]. apply IH.
Qed.

Lemma create_options_wf pid options now :
  forall s, store_wf s -> 1 <= pid < PollSystem.next_poll_id s ->
            store_wf (snd (PollSystem.create_options pid options now s)).
Proof.
  unfold PollSystem.create_options.
  induction options as [|t options IH]; intros s H Hid; cbn [for_each].
  - exact H.
  - unfold mbind. destruct (truthy (strip t)).
    + cbn [PollSystem.PollOption_objects_create].
      apply IH; [now apply (PollOption_objects_create_wf pid (strip t) now s)|].
      cbn. exact Hid.
    + cbn [ret]. now apply IH.
Qed.

Lemma in_doomed (s : PollSystem.Store) pid (v : PollSystem.Vote) :
  existsb (Z.eqb (PollSystem.v_option v))
          (map PollSystem.option_id (PollSystem.poll_options s pid)) = true <->
  exists o, In o (PollSystem.options s) /\ PollSystem.option_poll o = pid /\
            PollSystem.option_id o = PollSystem.v_option v.
Proof.
  rewrite existsb_exists. split.
  - intros [x [Hin Hx]]. apply Z.eqb_eq in Hx. subst x.
    apply in_map_iff in Hin as [o [Ho Hin]].
    apply filter_In in Hin as [Hin Hp]. apply Z.eqb_eq in Hp. eauto.
  - intros [o (Hin & Hp & Ho)]. exists (PollSystem.option_id o). split.
    + apply in_map, filter_In. split; [assumption | now apply Z.eqb_eq].
    + now apply Z.eqb_eq.
Qed.

Lemma delete_options_wf pid s :
  store_wf s -> store_wf (snd (PollSystem.delete_options pid s)).
Proof.
  intros H. pose proof (delete_options_keeps_wf pid s (wf_votes s H)) as Hv.
  destruct H as [_ Hn Hp Ho Hr]. split; [exact Hv|exact Hn|exact Hp| |]; cbn.
  - intros o Hin. apply filter_In in Hin as [Hin _]. auto.
  - intros v Hin. apply filter_In in Hin as [Hin Hkeep].
    destruct (Hr v Hin) as [o (Hino & Hid & Hpoll)]. exists o.
    split; [|auto]. apply filter_In. split; [assumption|].
    apply negb_true_iff, Z.eqb_neq. intros Heq.
    apply negb_true_iff in Hkeep. rewrite <- not_true_iff_false in Hkeep.
    apply Hkeep, in_doomed. eauto.
Qed.

Lemma Poll_delete_wf pid s :
  store_wf s -> store_wf (snd (PollSystem.Poll_delete pid s)).
Proof.
  intros H. pose proof (Poll_delete_keeps_wf pid s (wf_votes s H)) as Hv.
  destruct H as [_ Hn Hp Ho Hr]. split; [exact Hv|exact Hn| | |]; cbn.
  - intros p Hin. apply filter_In in Hin as [Hin _]. auto.
  - intros o Hin. apply filter_In in Hin as [Hin _]. auto.
  - intros v Hin. apply filter_In in Hin as [Hin Hkeep].
    destruct (Hr v Hin) as [o (Hino & Hid & Hpoll)]. exists o.
    split; [|auto]. apply filter_In. split; [assumption|].
    apply andb_true_iff in Hkeep as [Hkeep _].
    apply negb_true_iff, Z.eqb_neq in Hkeep.
    apply negb_true_iff, Z.eqb_neq. congruence.
Qed.

Lemma Vote_objects_create_wf pid oid uid now s o :
  store_wf s -> In o (PollSystem.options s) ->
  PollSystem.option_id o = oid -> PollSystem.option_poll o = pid ->
  store_wf (snd (PollSystem.Vote_objects_create pid oid uid now s)).
Proof.
  intros H Hin Hid Hpoll.
  pose proof (Vote_objects_create_keeps_wf pid oid uid now s (wf_votes s H)) as Hv.
  destruct H as [_ Hn Hp Ho Hr].
  unfold PollSystem.Vote_objects_create in *.
  destruct (PollSystem.unique_together_clash _ _ _ _); cbn [snd] in *;
    split; try assumption; cbn.
  intros v Hv'. apply in_app_or in Hv' as [Hv'|[<-|[]]]; [auto|].
  exists o. cbn. auto.
Qed.

Lemma Vote_save_wf v s o :
  store_wf s -> In o (PollSystem.options s) ->
  PollSystem.option_id o = PollSystem.v_option v ->
  PollSystem.option_poll o = PollSystem.v_poll v ->
  store_wf (snd (PollSystem.Vote_save v s)).
Proof.
  intros H Hin Hid Hpoll.
  pose proof (Vote_save_keeps_wf v s (wf_votes s H)) as Hv.
  destruct H as [_ Hn Hp Ho Hr].
  unfold PollSystem.Vote_save in *.
  destruct (PollSystem.unique_together_clash _ _ _ _); cbn [snd] in *;
    split; try assumption; cbn.
  intros w Hw. apply in_map_iff in Hw as [u [Hu Hw]].
  destruct (PollSystem.v_id u =? PollSystem.v_id v); subst w; eauto.
Qed.

(** ** What [create_poll] does *)

Lemma create_poll_accepts parse req s u data :
  req_user req = Some u -> req_method req = POST -> req_body req = Some data ->
  truthy (strip (get_default (body_title data) "")) = true ->
  2 <= count (get_default (body_options data) []) <= 10 ->
  PollSystem.create_poll parse req s =
  (mkResponse 200
     (Success
        (PollSystem.mkAck (Some "Poll created successfully!")
           (Some (poll_json (after_create parse s u data (req_now req))
                            (new_poll parse s u data (req_now req)))))),
   after_create parse s u data (req_now req)).
Proof.
  intros Hu Hm Hb Ht Hc.
  unfold PollSystem.create_poll, PollSystem.json_login_required. rewrite Hu.
  unfold require_http_methods. rewrite Hm. cbn [existsb method_eqb orb].
  unfold try_except, PollSystem.create_poll_body, mbind, json_loads.
  rewrite Hb. cbn [ret]. cbv zeta. rewrite Ht. cbn [negb].
  destruct (_ <? 2) eqn:E1; [apply Z.ltb_lt in E1; lia|].
  destruct (10 <? _) eqn:E2; [apply Z.ltb_lt in E2; lia|].
  unfold request_user. rewrite Hu.
  cbn [ret PollSystem.Poll_objects_create PollSystem.poll_id].
  fold (new_poll parse s u data (req_now req)).
  pose proof (create_options_effect (PollSystem.next_poll_id s)
                (get_default (body_options data) []) (req_now req)
                (PollSystem.set_polls s
                   (PollSystem.polls s ++ [new_poll parse s u data (req_now req)])
                   (PollSystem.next_poll_id s + 1))) as [Hok _].
  unfold after_create.
  destruct (PollSystem.create_options _ _ _ _) as [r s']. cbn [fst snd] in *.
  subst r. reflexivity.
Qed.

Lemma create_poll_store parse req s :
  snd (PollSystem.create_poll parse req s) = s \/
  exists u data,
    snd (PollSystem.create_poll parse req s)
    = after_create parse s u data (req_now req).
Proof.
  destruct (req_user req) as [u|] eqn:Hu.
  2:{ left. unfold PollSystem.create_poll, PollSystem.json_login_required.
      now rewrite Hu. }
  destruct (req_method req) eqn:Hm.
  1,3,4: left; unfold PollSystem.create_poll, PollSystem.json_login_required,
           require_http_methods; rewrite Hu, Hm; reflexivity.
  destruct (req_body req) as [data|] eqn:Hb.
  2:{ left. unfold PollSystem.create_poll, PollSystem.json_login_required,
        require_http_methods, try_except, PollSystem.create_poll_body, mbind,
        json_loads.
      now rewrite Hu, Hm, Hb. }
  destruct (truthy (strip (get_default (body_title data) ""))) eqn:Ht.
  2:{ left. unfold PollSystem.create_poll, PollSystem.json_login_required,
        require_http_methods, try_except, PollSystem.create_poll_body, mbind,
        json_loads.
      rewrite Hu, Hm, Hb. cbn [existsb method_eqb orb ret]. cbv zeta.
      now rewrite Ht. }
  destruct (count (get_default (body_options data) []) <? 2) eqn:E1.
  { left. unfold PollSystem.create_poll, PollSystem.json_login_required,
      require_http_methods, try_except, PollSystem.create_poll_body, mbind,
      json_loads.
    rewrite Hu, Hm, Hb. cbn [existsb method_eqb orb ret]. cbv zeta.
    now rewrite Ht, E1. }
  destruct (10 <? count (get_default (body_options data) [])) eqn:E2.
  { left. unfold PollSystem.create_poll, PollSystem.json_login_required,
      require_http_methods, try_except, PollSystem.create_poll_body, mbind,
      json_loads.
    rewrite Hu, Hm, Hb. cbn [existsb method_eqb orb ret]. cbv zeta.
    now rewrite Ht, E1, E2. }
  right. exists u, data.
  rewrite (create_poll_accepts parse req s u data); try assumption; [reflexivity|].
  apply Z.ltb_ge in E1, E2. lia.
Qed.

Lemma after_create_wf parse s u data now :
  store_wf s -> store_wf (after_create parse s u data now).
Proof.
  intros H. unfold after_create. apply create_options_wf.
  - apply (Poll_objects_create_wf _ _ _ _ _ _ s H).
  - cbn. destruct H as [_ [Hn _] _ _ _]. lia.
Qed.

Lemma create_poll_wf parse req s :
  store_wf s -> store_wf (snd (PollSystem.create_poll parse req s)).
Proof.
  intros H. destruct (create_poll_store parse req s) as [->|[u [data ->]]].
  - exact H.
  - now apply after_create_wf.
Qed.

(** ** What [vote_poll] does *)

Lemma ps_find_option_of_poll_spec (s : PollSystem.Store) oid pid o :
  PollSystem.find_option_of_poll s oid pid = Some o ->
  In o (PollSystem.options s) /\ PollSystem.option_id o = oid /\
  PollSystem.option_poll o = pid.
Proof.
  unfold PollSystem.find_option_of_poll. intros H.
  apply find_some in H as [Hin H]. apply andb_true_iff in H as [H1 H2].
  apply Z.eqb_eq in H1, H2. auto.
Qed.

Lemma hd_error_filter_In {A : Type} (q : A -> bool) (l : list A) (a : A) :
  hd_error (filter q l) = Some a -> In a l /\ q a = true.
Proof.
  intros H. apply filter_In. destruct (filter q l) as [|b t]; [discriminate|].
  injection H as ->. now left.
Qed.

Lemma no_prior_vote_no_clash (s : PollSystem.Store) self pid uid :
  hd_error (PollSystem.votes_of_poll_user s pid uid) = None ->
  PollSystem.unique_together_clash (PollSystem.votes s) self pid uid = false.
Proof.
  unfold PollSystem.votes_of_poll_user, PollSystem.unique_together_clash.
  intros H. apply not_true_iff_false. intros Hc.
  apply existsb_exists in Hc as [v [Hin Hv]].
  apply andb_true_iff in Hv as [Hv H3]. apply andb_true_iff in Hv as [_ H2].
  assert (Hf : In v (filter (fun v => (PollSystem.v_poll v =? pid)
                                      && (PollSystem.v_user v =? uid))
                            (PollSystem.votes s))).
  { apply filter_In. split; [assumption|]. now rewrite H2, H3. }
  destruct (filter _ _); [destruct Hf | discriminate].
Qed.

Lemma same_key_same_row {A K : Type} (key : A -> K) (l : list A) (a b : A) :
  NoDup (map key l) -> In a l -> In b l -> key a = key b -> a = b.
Proof.
  induction l as [|x l IH]; cbn [map]; intros Hnd Ha Hb Hk; [destruct Ha|].
  inversion Hnd as [|? ? Hn Hl]; subst.
  destruct Ha as [->|Ha], Hb as [->|Hb]; auto.
  - exfalso. apply Hn. rewrite Hk. now apply in_map.
  - exfalso. apply Hn. rewrite <- Hk. now apply in_map.
Qed.

Lemma prior_vote_no_clash (s : PollSystem.Store) pid uid v :
  votes_wf s ->
  hd_error (PollSystem.votes_of_poll_user s pid uid) = Some v ->
  PollSystem.unique_together_clash (PollSystem.votes s) (PollSystem.v_id v)
    (PollSystem.v_poll v) (PollSystem.v_user v) = false.
Proof.
  intros [_ _ Hk] H. apply hd_error_filter_In in H as [Hin _].
  unfold PollSystem.unique_together_clash. apply not_true_iff_false. intros Hc.
  apply existsb_exists in Hc as [w [Hw Hc]].
  apply andb_true_iff in Hc as [Hc H3]. apply andb_true_iff in Hc as [H1 H2].
  apply Z.eqb_eq in H2, H3. apply negb_true_iff, Z.eqb_neq in H1.
  apply H1. f_equal.
  apply (same_key_same_row vote_key (PollSystem.votes s)); try assumption.
  unfold vote_key. congruence.
Qed.

(** The vote that [vote_poll] writes over a prior vote [v]: the same row
    with the new option. *)
Lemma vote_poll_accepts pid req s u oid poll o :
  votes_wf s ->
  req_user req = Some u -> req_method req = POST ->
  req_body req = Some (mkVoteBody (Some oid)) -> oid <> 0 ->
  PollSystem.find_poll s pid = Some poll ->
  PollSystem.find_option_of_poll s oid pid = Some o ->
  exists message s',
    PollSystem.vote_poll pid req s =
    (mkResponse 200
       (Success (PollSystem.mkAck (Some message) (Some (poll_json s' poll)))), s')
    /\ match hd_error (PollSystem.votes_of_poll_user s pid u) with
       | None =>
           message = "Vote submitted successfully!" /\
           s' = PollSystem.set_votes s
                  (PollSystem.votes s ++
                     [PollSystem.mkVote (PollSystem.next_vote_id s) pid oid u
                                        (req_now req)])
                  (PollSystem.next_vote_id s + 1)
       | Some v =>
           message = "Vote updated successfully!" /\
           s' = PollSystem.set_votes s
                  (map (fun w =>
                          if PollSystem.v_id w =? PollSystem.v_id v
                          then PollSystem.mkVote (PollSystem.v_id v)
                                 (PollSystem.v_poll v) oid (PollSystem.v_user v)
                                 (PollSystem.v_created_at v)
                          else w) (PollSystem.votes s))
                  (PollSystem.next_vote_id s)
       end.
Proof.
  intros Hwf Hu Hm Hb Hz Hp Ho.
  pose proof (ps_find_poll_id _ _ _ Hp) as Hpid.
  destruct (ps_find_option_of_poll_spec _ _ _ _ Ho) as (_ & Hoid & _).
  unfold PollSystem.vote_poll, PollSystem.json_login_required. rewrite Hu.
  unfold require_http_methods. rewrite Hm. cbn [existsb method_eqb orb].
  unfold try_except, PollSystem.vote_poll_body, mbind, json_loads.
  rewrite Hb. cbn [ret body_option_id].
  destruct oid as [|oid|oid]; [contradiction| |];
    cbn [get_store]; rewrite Hp; cbn [get_object_or_404 ret]; rewrite Hpid, Ho;
    cbn [get_object_or_404 ret]; unfold request_user; rewrite Hu; cbn [ret];
    rewrite Hoid;
    (destruct (hd_error (PollSystem.votes_of_poll_user s pid u)) as [v|] eqn:Hv;
     [ unfold PollSystem.Vote_save; cbn [PollSystem.v_id PollSystem.v_poll PollSystem.v_user];
       rewrite (prior_vote_no_clash s pid u v Hwf Hv)
     | unfold PollSystem.Vote_objects_create;
       rewrite (no_prior_vote_no_clash s _ pid u Hv) ]);
    cbn [ret]; unfold PollSystem.serialize_poll, mbind, get_store, ret;
    do 2 eexists; (split; [reflexivity|]); split; reflexivity.
Qed.

Lemma vote_poll_without_option_id pid req s u :
  req_user req = Some u -> req_method req = POST ->
  req_body req = Some (mkVoteBody None) ->
  PollSystem.vote_poll pid req s =
  (mkResponse 400 (Failure "Option ID is required"), s).
Proof.
  intros Hu Hm Hb.
  unfold PollSystem.vote_poll, PollSystem.json_login_required. rewrite Hu.
  unfold require_http_methods. rewrite Hm. cbn [existsb method_eqb orb].
  unfold try_except, PollSystem.vote_poll_body, mbind, json_loads.
  rewrite Hb. reflexivity.
Qed.

Lemma vote_poll_foreign_option pid req s u oid poll :
  req_user req = Some u -> req_method req = POST ->
  req_body req = Some (mkVoteBody (Some oid)) ->
  PollSystem.find_poll s pid = Some poll ->
  PollSystem.find_option_of_poll s oid pid = None ->
  PollSystem.vote_poll pid req s =
  (if oid =? 0 then mkResponse 400 (Failure "Option ID is required")
   else mkResponse 500 (Crash "Unable to vote: " Http404), s).
Proof.
  intros Hu Hm Hb Hp Ho.
  pose proof (ps_find_poll_id _ _ _ Hp) as Hpid.
  unfold PollSystem.vote_poll, PollSystem.json_login_required. rewrite Hu.
  unfold require_http_methods. rewrite Hm. cbn [existsb method_eqb orb].
  unfold try_except, PollSystem.vote_poll_body, mbind, json_loads.
  rewrite Hb. cbn [ret body_option_id].
  destruct oid as [|oid|oid]; [reflexivity| |];
    cbn [get_store]; rewrite Hp; cbn [get_object_or_404 ret]; rewrite Hpid, Ho;
    reflexivity.
Qed.

Lemma vote_poll_wf pid req s :
  store_wf s -> store_wf (snd (PollSystem.vote_poll pid req s)).
Proof.
  intros H.
  destruct (req_user req) as [u|] eqn:Hu.
  2:{ unfold PollSystem.vote_poll, PollSystem.json_login_required.
      now rewrite Hu. }
  destruct (method_eqb (req_method req) POST) eqn:Hm.
  2:{ unfold PollSystem.vote_poll, PollSystem.json_login_required,
        require_http_methods.
      rewrite Hu. cbn [existsb]. rewrite Hm. exact H. }
  assert (Hm' : req_method req = POST) by (destruct (req_method req); easy).
  destruct (req_body req) as [[[oid|]]|] eqn:Hb.
  3:{ unfold PollSystem.vote_poll, PollSystem.json_login_required,
        require_http_methods, try_except, PollSystem.vote_poll_body, mbind,
        json_loads.
      rewrite Hu, Hm', Hb. exact H. }
  2:{ now rewrite (vote_poll_without_option_id pid req s u). }
  destruct (PollSystem.find_poll s pid) as [poll|] eqn:Hp.
  2:{ unfold PollSystem.vote_poll, PollSystem.json_login_required,
        require_http_methods, try_except, PollSystem.vote_poll_body, mbind,
        json_loads.
      rewrite Hu, Hm', Hb. cbn [existsb method_eqb orb ret body_option_id].
      destruct oid; [exact H| |]; cbn [get_store]; rewrite Hp; exact H. }
  destruct (PollSystem.find_option_of_poll s oid pid) as [o|] eqn:Ho.
  2:{ rewrite (vote_poll_foreign_option pid req s u oid poll); assumption. }
  destruct (Z.eq_dec oid 0) as [->|Hz].
  { unfold PollSystem.vote_poll, PollSystem.json_login_required,
      require_http_methods, try_except, PollSystem.vote_poll_body, mbind,
      json_loads.
    rewrite Hu, Hm', Hb. exact H. }
  destruct (vote_poll_accepts pid req s u oid poll o (wf_votes s H) Hu Hm' Hb Hz Hp Ho)
    as (message & s' & -> & Hs').
  destruct (ps_find_option_of_poll_spec _ _ _ _ Ho) as (Hin & Hoid & Hpoll).
  cbn [snd].
  destruct (hd_error (PollSystem.votes_of_poll_user s pid u)) as [v|] eqn:Hv;
    destruct Hs' as [_ ->].
  - pose proof (hd_error_filter_In _ _ _ Hv) as [_ Hkey].
    apply andb_true_iff in Hkey as [Hkey _]. apply Z.eqb_eq in Hkey.
    pose proof (Vote_save_wf
                  (PollSystem.mkVote (PollSystem.v_id v) (PollSystem.v_poll v) oid
                     (PollSystem.v_user v) (PollSystem.v_created_at v)) s o H Hin)
      as Hsave.
    unfold PollSystem.Vote_save in Hsave.
    cbn [PollSystem.v_id PollSystem.v_poll PollSystem.v_user PollSystem.v_option]
      in Hsave.
    rewrite (prior_vote_no_clash s pid u v (wf_votes s H) Hv) in Hsave.
    apply Hsave; congruence.
  - pose proof (Vote_objects_create_wf pid oid u (req_now req) s o H Hin Hoid Hpoll)
      as Hcreate.
    unfold PollSystem.Vote_objects_create in Hcreate.
    rewrite (no_prior_vote_no_clash s _ pid u Hv) in Hcreate. exact Hcreate.
Qed.

(** ** What [poll_detail] does *)

Lemma poll_detail_forbidden pid req s u poll :
  req_method req = PUT \/ req_method req = DELETE ->
  req_user req = Some u ->
  PollSystem.find_poll s pid = Some poll -> PollSystem.creator poll <> u ->
  PollSystem.poll_detail pid req s =
  (mkResponse 403 (Failure "Permission denied"), s).
Proof.
  intros Hm Hu Hp Hc.
  unfold PollSystem.poll_detail, require_http_methods.
  assert (Hn : PollSystem.not_creator req poll = true).
  { unfold PollSystem.not_creator. rewrite Hu.
    now apply negb_true_iff, Z.eqb_neq. }
  destruct Hm as [Hm|Hm]; rewrite Hm; cbn [existsb method_eqb orb];
    unfold try_except, PollSystem.poll_detail_body, mbind, get_store;
    rewrite Hp; cbn [get_object_or_404 ret]; rewrite Hm, Hn; reflexivity.
Qed.

Lemma poll_detail_put_accepts pid req s u poll data :
  req_method req = PUT -> req_user req = Some u ->
  PollSystem.find_poll s pid = Some poll -> PollSystem.creator poll = u ->
  req_body req = Some data ->
  2 <= count (get_default (body_options data) []) ->
  PollSystem.poll_detail pid req s =
  (mkResponse 200
     (Success
        (PollSystem.mkAck (Some "Poll updated successfully!")
           (Some (poll_json (after_update s poll data (req_now req))
                            (updated_poll poll data))))),
   after_update s poll data (req_now req)).
Proof.
  intros Hm Hu Hp Hc Hb Hn. subst u.
  unfold PollSystem.poll_detail, require_http_methods.
  rewrite Hm. cbn [existsb method_eqb orb].
  unfold try_except, PollSystem.poll_detail_body, mbind, get_store.
  rewrite Hp. cbn [get_object_or_404 ret]. rewrite Hm.
  unfold PollSystem.not_creator. rewrite Hu, Z.eqb_refl. cbn [negb].
  unfold json_loads. rewrite Hb. cbn [ret]. cbv zeta.
  destruct (_ <? 2) eqn:E; [apply Z.ltb_lt in E; lia|].
  fold (updated_poll poll data).
  destruct (get_default (body_options data) []) as [|t ts] eqn:Hopts;
    [cbn in Hn; lia|].
  unfold after_update. rewrite Hopts.
  cbn [PollSystem.Poll_save PollSystem.poll_id updated_poll snd].
  cbn [PollSystem.delete_options snd].
  match goal with
  | |- context [PollSystem.create_options ?a ?b ?c ?d] =>
      pose proof (create_options_effect a b c d) as [Hok _];
      destruct (PollSystem.create_options a b c d) as [r s']
  end.
  cbn [fst snd] in *. subst r. reflexivity.
Qed.

Lemma poll_detail_delete_accepts pid req s u poll :
  req_method req = DELETE -> req_user req = Some u ->
  PollSystem.find_poll s pid = Some poll -> PollSystem.creator poll = u ->
  PollSystem.poll_detail pid req s =
  (mkResponse 200
     (Success (PollSystem.mkAck (Some "Poll deleted successfully!") None)),
   snd (PollSystem.Poll_delete (PollSystem.poll_id poll) s)).
Proof.
  intros Hm Hu Hp Hc.
  unfold PollSystem.poll_detail, require_http_methods.
  rewrite Hm. cbn [existsb method_eqb orb].
  unfold try_except, PollSystem.poll_detail_body, mbind, get_store.
  rewrite Hp. cbn [get_object_or_404 ret]. rewrite Hm.
  unfold PollSystem.not_creator. rewrite Hu, Hc, Z.eqb_refl. reflexivity.
Qed.

(** Every other way through [poll_detail] leaves the store alone and, on
    PUT, does not answer 200. *)
Lemma poll_detail_cases pid req s :
  (snd (PollSystem.poll_detail pid req s) = s /\
   (req_method req = PUT ->
    status (fst (PollSystem.poll_detail pid req s)) <> 200)) \/
  (exists u poll data,
     req_method req = PUT /\ req_user req = Some u /\
     PollSystem.find_poll s pid = Some poll /\ PollSystem.creator poll = u /\
     req_body req = Some data /\
     2 <= count (get_default (body_options data) [])) \/
  (exists u poll,
     req_method req = DELETE /\ req_user req = Some u /\
     PollSystem.find_poll s pid = Some poll /\ PollSystem.creator poll = u).
Proof.
  destruct (PollSystem.find_poll s pid) as [poll|] eqn:Hp.
  2:{ left. unfold PollSystem.poll_detail, require_http_methods, try_except,
        PollSystem.poll_detail_body, mbind, get_store.
      rewrite Hp. destruct (req_method req); cbn; (split; [reflexivity | intros Hx; first [discriminate Hx | discriminate]]). }
  destruct (req_method req) eqn:Hm.
  - left. unfold PollSystem.poll_detail, require_http_methods, try_except,
      PollSystem.poll_detail_body, mbind, get_store.
    rewrite ?Hm, Hp. cbn. split; [reflexivity | intros Hx; first [discriminate Hx | discriminate]].
  - left. unfold PollSystem.poll_detail, require_http_methods.
    rewrite ?Hm. cbn. split; [reflexivity | intros Hx; first [discriminate Hx | discriminate]].
  - destruct (req_user req) as [u|] eqn:Hu.
    2:{ left. unfold PollSystem.poll_detail, require_http_methods, try_except,
          PollSystem.poll_detail_body, mbind, get_store, PollSystem.not_creator.
        rewrite ?Hm, Hp. cbn [existsb method_eqb orb get_object_or_404 ret].
        rewrite ?Hm, Hu. cbn. split; [reflexivity | intros Hx; first [discriminate Hx | discriminate]]. }
    destruct (Z.eq_dec (PollSystem.creator poll) u) as [Hc|Hc].
    2:{ left. rewrite (poll_detail_forbidden pid req s u poll); auto.
        cbn. split; [reflexivity | intros Hx; first [discriminate Hx | discriminate]]. }
    destruct (req_body req) as [data|] eqn:Hb.
    2:{ left. unfold PollSystem.poll_detail, require_http_methods, try_except,
          PollSystem.poll_detail_body, mbind, get_store, PollSystem.not_creator,
          json_loads.
        rewrite ?Hm, Hp. cbn [existsb method_eqb orb get_object_or_404 ret].
        rewrite ?Hm, Hu, Hc, Z.eqb_refl, Hb. cbn. split; [reflexivity | intros Hx; first [discriminate Hx | discriminate]]. }
    destruct (count (get_default (body_options data) []) <? 2) eqn:E.
    + left. unfold PollSystem.poll_detail, require_http_methods, try_except,
        PollSystem.poll_detail_body, mbind, get_store, PollSystem.not_creator,
        json_loads.
      rewrite ?Hm, Hp. cbn [existsb method_eqb orb get_object_or_404 ret].
      rewrite ?Hm, Hu, Hc, Z.eqb_refl, Hb. cbn [negb ret]. cbv zeta. rewrite E.
      cbn. split; [reflexivity | intros Hx; first [discriminate Hx | discriminate]].
    + right. left. exists u, poll, data. apply Z.ltb_ge in E. auto 10.
  - destruct (req_user req) as [u|] eqn:Hu.
    2:{ left. unfold PollSystem.poll_detail, require_http_methods, try_except,
          PollSystem.poll_detail_body, mbind, get_store, PollSystem.not_creator.
        rewrite ?Hm, Hp. cbn [existsb method_eqb orb get_object_or_404 ret].
        rewrite ?Hm, Hu. cbn. split; [reflexivity | intros Hx; first [discriminate Hx | discriminate]]. }
    destruct (Z.eq_dec (PollSystem.creator poll) u) as [Hc|Hc].
    2:{ left. rewrite (poll_detail_forbidden pid req s u poll); auto.
        cbn. split; [reflexivity | intros Hx; first [discriminate Hx | discriminate]]. }
    right. right. exists u, poll. auto.
Qed.

Lemma ps_find_poll_In (s : PollSystem.Store) pid poll :
  PollSystem.find_poll s pid = Some poll -> In poll (PollSystem.polls s).
Proof. unfold PollSystem.find_poll. intros H. now apply find_some in H. Qed.

Lemma after_update_wf s poll data now :
  store_wf s -> In poll (PollSystem.polls s) ->
  store_wf (after_update s poll data now).
Proof.
  intros H Hin. pose proof (wf_polls s H poll Hin) as Hid.
  unfold after_update. apply create_options_wf.
  - apply delete_options_wf, Poll_save_wf; assumption.
  - exact Hid.
Qed.

Lemma poll_detail_wf pid req s :
  store_wf s -> store_wf (snd (PollSystem.poll_detail pid req s)).
Proof.
  intros H.
  destruct (poll_detail_cases pid req s)
    as [[-> _]|[(u & poll & data & Hm & Hu & Hp & Hc & Hb & Hn)
               |(u & poll & Hm & Hu & Hp & Hc)]].
  - exact H.
  - rewrite (poll_detail_put_accepts pid req s u poll data); try assumption.
    apply after_update_wf; [assumption | now apply ps_find_poll_In with pid].
  - rewrite (poll_detail_delete_accepts pid req s u poll); try assumption.
    now apply Poll_delete_wf.
Qed.

(** ** What [edit_poll] and [delete_poll] do *)

Lemma find_all_false {A : Type} (f : A -> bool) (l : list A) :
  (forall x, In x l -> f x = false) -> find f l = None.
Proof.
  induction l as [|a l IH]; cbn [find]; intros H; [reflexivity|].
  rewrite (H a) by now left. apply IH. intros x Hx. apply H. now right.
Qed.

Lemma not_creator_not_found s pid u :
  not_creator_of s pid u -> PollSystem.find_poll_of_creator s pid u = None.
Proof.
  intros H. unfold PollSystem.find_poll_of_creator. apply find_all_false.
  intros p Hin. apply andb_false_iff.
  destruct (PollSystem.poll_id p =? pid) eqn:E; [right|now left].
  apply Z.eqb_eq in E. apply Z.eqb_neq. now apply H.
Qed.

Lemma edit_poll_not_found pid req s u :
  req_user req = Some u ->
  PollSystem.find_poll_of_creator s pid u = None ->
  PollSystem.edit_poll pid req s =
  (if method_eqb (req_method req) PUT
   then mkResponse 500 (Crash "Unable to edit poll: " Http404)
   else mkResponse 405 NotAllowed, s).
Proof.
  intros Hu Hf.
  unfold PollSystem.edit_poll, PollSystem.json_login_required. rewrite Hu.
  unfold require_http_methods. cbn [existsb]. rewrite orb_false_r.
  destruct (method_eqb (req_method req) PUT); [|reflexivity].
  unfold try_except, PollSystem.edit_poll_body, mbind, get_store, request_user.
  rewrite Hu. cbn [ret]. rewrite Hf. reflexivity.
Qed.

Lemma ps_find_poll_of_creator_spec s pid u poll :
  PollSystem.find_poll_of_creator s pid u = Some poll ->
  In poll (PollSystem.polls s) /\ PollSystem.poll_id poll = pid /\
  PollSystem.creator poll = u.
Proof.
  unfold PollSystem.find_poll_of_creator. intros H.
  apply find_some in H as [Hin H]. apply andb_true_iff in H as [H1 H2].
  apply Z.eqb_eq in H1, H2. auto.
Qed.

Lemma edit_poll_store pid req s :
  snd (PollSystem.edit_poll pid req s) = s \/
  exists poll p',
    In poll (PollSystem.polls s) /\
    PollSystem.poll_id p' = PollSystem.poll_id poll /\
    snd (PollSystem.edit_poll pid req s) = snd (PollSystem.Poll_save p' s).
Proof.
  destruct (req_user req) as [u|] eqn:Hu.
  2:{ left. unfold PollSystem.edit_poll, PollSystem.json_login_required.
      now rewrite Hu. }
  destruct (PollSystem.find_poll_of_creator s pid u) as [poll|] eqn:Hf.
  2:{ left. now rewrite (edit_poll_not_found pid req s u). }
  destruct (ps_find_poll_of_creator_spec _ _ _ _ Hf) as (Hin & _ & _).
  unfold PollSystem.edit_poll, PollSystem.json_login_required. rewrite Hu.
  unfold require_http_methods.
  destruct (existsb _ _); [|now left].
  unfold try_except, PollSystem.edit_poll_body, mbind, get_store, request_user,
    json_loads.
  rewrite Hu. cbn [ret]. rewrite Hf. cbn [get_object_or_404 ret].
  destruct (req_body req) as [data|]; [|now left].
  cbn [ret]. cbv zeta.
  destruct (negb _); [now left|].
  right. eexists poll, _. split; [exact Hin|]. split; [|reflexivity]. reflexivity.
Qed.

Lemma edit_poll_wf pid req s :
  store_wf s -> store_wf (snd (PollSystem.edit_poll pid req s)).
Proof.
  intros H.
  destruct (edit_poll_store pid req s) as [->|(poll & p' & Hin & Hid & ->)].
  - exact H.
  - apply Poll_save_wf; [assumption|]. rewrite Hid. now apply (wf_polls s H).
Qed.

Lemma delete_poll_always_fails pid req s :
  snd (PollSystem.delete_poll pid req s) = s /\
  400 <= status (fst (PollSystem.delete_poll pid req s)).
Proof.
  unfold PollSystem.delete_poll, PollSystem.json_login_required.
  destruct (req_user req) as [u|] eqn:Hu; [|cbn; split; [reflexivity|lia]].
  destruct (req_method req); try (cbn; split; [reflexivity|lia]).
  unfold try_except, PollSystem.delete_poll_body, mbind, request_user.
  rewrite Hu. cbn. split; [reflexivity|lia].
Qed.

Lemma step_wf parse o s : store_wf s -> store_wf (PollSystem.step parse o s).
Proof.
  destruct o; cbn [PollSystem.step].
  - apply create_poll_wf.
  - apply vote_poll_wf.
  - apply poll_detail_wf.
  - apply edit_poll_wf.
  - intros H. now rewrite (proj1 (delete_poll_always_fails poll_id req s)).
Qed.

Lemma run_wf parse ops :
  forall s, store_wf s -> store_wf (PollSystem.run parse ops s).
Proof.
  unfold PollSystem.run.
  induction ops as [|o ops IH]; intros s H; cbn [fold_left]; [exact H|].
  apply IH. now apply step_wf.
Qed.

Lemma reachable_wf parse us ops :
  store_wf (PollSystem.run parse ops (PollSystem.empty_store us)).
Proof. apply run_wf, store_wf_empty. Qed.

(** ** The vote endpoint *)

(** C7 (amended).  In every store reached by a sequence of requests, a
    vote request of an authenticated user on an existing poll behaves as
    follows.  An [option_id] of an option of that poll is answered 200; if
    the user had no vote on the poll, exactly one row is added to the
    votes, for that poll, option and user; if the user had one, that row
    (and no other) gets the new option.  A missing [option_id] is answered
    400 and nothing is written.  An [option_id] that is not an option of
    the poll is answered with an error status and nothing is written. *)
Theorem vote_poll_creates_updates_or_rejects :
  forall parse us ops pid u body now,
    let s := PollSystem.run parse ops (PollSystem.empty_store us) in
    let r := PollSystem.vote_poll pid (mkRequest POST (Some u) (Some body) now) s in
    PollSystem.find_poll s pid <> None ->
    match body_option_id body with
    | None => r = (mkResponse 400 (Failure "Option ID is required"), s)
    | Some oid =>
        match PollSystem.find_option_of_poll s oid pid with
        | None => 400 <= status (fst r) /\ snd r = s
        | Some _ =>
            status (fst r) = 200 /\
            PollSystem.polls (snd r) = PollSystem.polls s /\
            PollSystem.options (snd r) = PollSystem.options s /\
            match hd_error (PollSystem.votes_of_poll_user s pid u) with
            | None =>
                PollSystem.votes (snd r) =
                PollSystem.votes s ++
                  [PollSystem.mkVote (PollSystem.next_vote_id s) pid oid u now]
            | Some v =>
                PollSystem.votes (snd r) =
                map (fun w =>
                       if PollSystem.v_id w =? PollSystem.v_id v
                       then PollSystem.mkVote (PollSystem.v_id v)
                              (PollSystem.v_poll v) oid (PollSystem.v_user v)
                              (PollSystem.v_created_at v)
                       else w) (PollSystem.votes s)
            end
        end
    end.
Proof.
  intros parse us ops pid u body now s r Hfind.
  pose proof (reachable_wf parse us ops) as Hwf. fold s in Hwf.
  destruct (PollSystem.find_poll s pid) as [poll|] eqn:Hp; [clear Hfind|congruence].
  destruct body as [[oid|]]; cbn [body_option_id].
  - destruct (PollSystem.find_option_of_poll s oid pid) as [o|] eqn:Ho.
    + destruct (ps_find_option_of_poll_spec _ _ _ _ Ho) as (Hin & Hoid & _).
      assert (Hz : oid <> 0).
      { pose proof (wf_options s Hwf o Hin). lia. }
      destruct (vote_poll_accepts pid (mkRequest POST (Some u)
                                         (Some (mkVoteBody (Some oid))) now)
                  s u oid poll o (wf_votes s Hwf) eq_refl eq_refl eq_refl Hz Hp Ho)
        as (message & s' & Hr & Hs').
      subst r. rewrite Hr. cbn [fst snd status req_now] in *.
      destruct (hd_error (PollSystem.votes_of_poll_user s pid u));
        destruct Hs' as [_ ->]; repeat split.
    + subst r.
      rewrite (vote_poll_foreign_option pid
                 (mkRequest POST (Some u) (Some (mkVoteBody (Some oid))) now)
                 s u oid poll eq_refl eq_refl eq_refl Hp Ho).
      cbn [fst snd]. split; [|reflexivity].
      destruct (oid =? 0); cbn; lia.
  - subst r.
    now rewrite (vote_poll_without_option_id pid
                   (mkRequest POST (Some u) (Some (mkVoteBody None)) now) s u).
Qed.

(** User 2 casts a first vote, for Pizza, on the poll "Lunch?". *)
Lemma vote_poll_creates_updates_or_rejects_witness :
  let r := PollSystem.vote_poll 1 (vote_request_for 2 1 300) two_polls in
  status (fst r) = 200 /\
  PollSystem.polls (snd r) = PollSystem.polls two_polls /\
  PollSystem.options (snd r) = PollSystem.options two_polls /\
  PollSystem.votes (snd r) = [PollSystem.mkVote 1 1 1 2 300].
Proof.
  assert (H : PollSystem.find_poll two_polls 1 <> None)
    by (vm_compute; discriminate).
  exact (vote_poll_creates_updates_or_rejects no_expiry
           [PollSystem.mkUser 1 "ann"; PollSystem.mkUser 2 "bob"]
           [PollSystem.CreatePoll (create_request 1 "Lunch?" ["Pizza"; "Sushi"] 100);
            PollSystem.CreatePoll (create_request 1 "Dinner?" ["Pasta"; "Curry"] 200)]
           1 2 (mkVoteBody (Some 1)) 300 H).
Defined.

(** The claim of C7 fails for an option of another poll: voting on poll 1
    with the identifier of an option of poll 2 is answered 500, not 400
    (the store is left as it was). *)
Lemma vote_for_foreign_option_is_not_400 :
  let r := PollSystem.vote_poll 1 (vote_request_for 2 3 300) two_polls in
  PollSystem.find_option_of_poll two_polls 3 2 <> None /\
  PollSystem.find_option_of_poll two_polls 3 1 = None /\
  status (fst r) <> 400 /\ snd r = two_polls.
Proof.
  vm_compute. repeat split; discriminate.
Qed.

(** ** The options written by [create_options] *)

Lemma create_options_rows pid options now :
  forall s,
    PollSystem.options (snd (PollSystem.create_options pid options now s))
    = PollSystem.options s ++
        option_rows (PollSystem.next_option_id s) pid (kept_options options) now.
Proof.
  unfold PollSystem.create_options, kept_options.
  induction options as [|t options IH]; intros s; cbn [for_each filter map].
  - cbn. now rewrite app_nil_r.
  - unfold mbind. destruct (truthy (strip t)).
    + cbn [PollSystem.PollOption_objects_create map option_rows].
      rewrite IH. cbn [PollSystem.set_options PollSystem.options
                         PollSystem.next_option_id].
      now rewrite <- app_assoc.
    + cbn [ret]. apply IH.
Qed.

Lemma option_rows_spec next pid texts now :
  forall o, In o (option_rows next pid texts now) ->
            next <= PollSystem.option_id o /\ PollSystem.option_poll o = pid.
Proof.
  revert next. induction texts as [|t texts IH]; intros next o Hin;
    cbn [option_rows] in Hin; [destruct Hin|].
  destruct Hin as [<-|Hin]; [cbn; split; [lia|reflexivity]|].
  apply IH in Hin. lia.
Qed.

Lemma option_rows_texts next pid texts now :
  map PollSystem.text (option_rows next pid texts now) = texts.
Proof.
  revert next. induction texts as [|t texts IH]; intros next; cbn; [reflexivity|].
  now rewrite IH.
Qed.

Lemma option_rows_of_poll next pid texts now :
  filter (fun o => PollSystem.option_poll o =? pid) (option_rows next pid texts now)
  = option_rows next pid texts now.
Proof.
  revert next. induction texts as [|t texts IH]; intros next; cbn; [reflexivity|].
  now rewrite Z.eqb_refl, IH.
Qed.

Lemma filter_none {A : Type} (q : A -> bool) (l : list A) :
  (forall a, In a l -> q a = false) -> filter q l = [].
Proof.
  induction l as [|a l IH]; cbn [filter]; intros H; [reflexivity|].
  rewrite (H a) by now left. apply IH. intros x Hx. apply H. now right.
Qed.

(** ** Updating a poll with an options list *)

Lemma after_update_votes s poll data now :
  PollSystem.votes (after_update s poll data now)
  = filter (fun v =>
              negb (existsb (Z.eqb (PollSystem.v_option v))
                      (map PollSystem.option_id
                         (PollSystem.poll_options s (PollSystem.poll_id poll)))))
           (PollSystem.votes s).
Proof.
  unfold after_update.
  destruct (create_options_effect (PollSystem.poll_id poll)
              (get_default (body_options data) []) now
              (snd (PollSystem.delete_options (PollSystem.poll_id poll)
                      (snd (PollSystem.Poll_save (updated_poll poll data) s)))))
    as (_ & _ & -> & _).
  reflexivity.
Qed.

Lemma after_update_options s poll data now :
  PollSystem.options (after_update s poll data now)
  = filter (fun o => negb (PollSystem.option_poll o =? PollSystem.poll_id poll))
           (PollSystem.options s)
    ++ option_rows (PollSystem.next_option_id s) (PollSystem.poll_id poll)
         (kept_options (get_default (body_options data) [])) now.
Proof.
  unfold after_update. rewrite create_options_rows. reflexivity.
Qed.

Lemma after_update_no_votes s poll data now :
  store_wf s ->
  PollSystem.votes_of_poll (after_update s poll data now) (PollSystem.poll_id poll)
  = [].
Proof.
  intros H. unfold PollSystem.votes_of_poll. rewrite after_update_votes.
  apply filter_none. intros v Hin.
  apply filter_In in Hin as [Hin Hkeep]. apply Z.eqb_neq. intros Hpoll.
  apply negb_true_iff in Hkeep. rewrite <- not_true_iff_false in Hkeep.
  apply Hkeep, in_doomed.
  destruct (wf_refs s H v Hin) as [o (Hino & Hid & Hp)].
  exists o. repeat split; congruence.
Qed.

(** C9.  In every store reached by a sequence of requests, a PUT on
    [poll_detail] that is answered 200 comes from the poll's creator with
    at least two submitted options; it removes every option row the poll
    had and, by cascade, every vote row of the poll: none of them is in the
    store afterwards, the poll's total vote count is 0, and the answer
    itself reports a vote count of 0. *)
Theorem update_with_options_discards_the_votes :
  forall parse us ops pid req,
    let s := PollSystem.run parse ops (PollSystem.empty_store us) in
    let r := PollSystem.poll_detail pid req s in
    req_method req = PUT -> status (fst r) = 200 ->
    (exists data,
       req_body req = Some data /\
       2 <= count (get_default (body_options data) [])) /\
    (forall o, In o (PollSystem.options s) -> PollSystem.option_poll o = pid ->
               ~ In o (PollSystem.options (snd r))) /\
    (forall v, In v (PollSystem.votes s) -> PollSystem.v_poll v = pid ->
               ~ In v (PollSystem.votes (snd r))) /\
    PollSystem.total_votes (snd r) pid = 0 /\
    option_map PollSystem.pj_vote_count
      (match payload (fst r) with
       | Some ack => PollSystem.ack_poll ack
       | None => None
       end) = Some 0.
Proof.
  intros parse us ops pid req s r Hm H200.
  pose proof (reachable_wf parse us ops) as Hwf. fold s in Hwf.
  destruct (poll_detail_cases pid req s)
    as [[_ Hno]|[(u & poll & data & _ & Hu & Hp & Hc & Hb & Hn)
                |(u & poll & Hd & _)]].
  - exfalso. now apply Hno.
  - pose proof (ps_find_poll_id _ _ _ Hp) as Hpid.
    assert (Hr : r = (mkResponse 200
                        (Success
                           (PollSystem.mkAck (Some "Poll updated successfully!")
                              (Some (poll_json (after_update s poll data (req_now req))
                                               (updated_poll poll data))))),
                      after_update s poll data (req_now req)))
      by (apply poll_detail_put_accepts with u; assumption).
    rewrite Hr. cbn [fst snd]. clear Hr.
    pose proof (after_update_no_votes s poll data (req_now req) Hwf) as Hnone.
    rewrite Hpid in Hnone.
    split; [eauto|]. split; [|split; [|split]].
    + intros o Hin Hpoll Hin'. rewrite after_update_options in Hin'.
      apply in_app_or in Hin' as [Hin'|Hin'].
      * apply filter_In in Hin' as [_ Hkeep].
        apply negb_true_iff, Z.eqb_neq in Hkeep. congruence.
      * apply option_rows_spec in Hin' as [Hnew _].
        pose proof (wf_options s Hwf o Hin). lia.
    + intros v Hin Hpoll Hin'.
      assert (Hv : In v (PollSystem.votes_of_poll
                           (after_update s poll data (req_now req)) pid)).
      { apply filter_In. split; [assumption | now apply Z.eqb_eq]. }
      rewrite Hnone in Hv. destruct Hv.
    + unfold PollSystem.total_votes. now rewrite Hnone.
    + cbn. unfold PollSystem.total_votes.
      change (PollSystem.poll_id poll) with (PollSystem.poll_id (updated_poll poll data)) in Hpid.
      cbn [updated_poll PollSystem.poll_id] in *.
      rewrite Hpid. now rewrite Hnone.
  - rewrite Hm in Hd. discriminate.
Qed.

(** The creator of "Lunch?" renames Sushi to Salad: the vote for Pizza is
    gone. *)
Lemma update_with_options_discards_the_votes_witness :
  let s := PollSystem.run no_expiry lunch_with_a_vote
             (PollSystem.empty_store [PollSystem.mkUser 1 "ann";
                                      PollSystem.mkUser 2 "bob"]) in
  let r := PollSystem.poll_detail 1 rename_sushi s in
  PollSystem.total_votes s 1 = 1 /\ PollSystem.total_votes (snd r) 1 = 0.
Proof.
  intros s r.
  assert (H200 : status (fst r) = 200) by (vm_compute; reflexivity).
  split; [vm_compute; reflexivity|].
  exact (proj1 (proj2 (proj2 (proj2
           (update_with_options_discards_the_votes no_expiry
              [PollSystem.mkUser 1 "ann"; PollSystem.mkUser 2 "bob"]
              lunch_with_a_vote 1 rename_sushi eq_refl H200))))).
Defined.

(** ** Blank options at creation *)

Lemma after_create_options parse s u data now :
  PollSystem.options (after_create parse s u data now)
  = PollSystem.options s ++
      option_rows (PollSystem.next_option_id s) (PollSystem.next_poll_id s)
        (kept_options (get_default (body_options data) [])) now.
Proof. unfold after_create. rewrite create_options_rows. reflexivity. Qed.

Lemma after_create_polls parse s u data now :
  PollSystem.polls (after_create parse s u data now)
  = PollSystem.polls s ++ [new_poll parse s u data now].
Proof.
  unfold after_create.
  match goal with
  | |- context [PollSystem.create_options ?a ?b ?c ?d] =>
      destruct (create_options_effect a b c d) as (_ & -> & _)
  end.
  reflexivity.
Qed.

Lemma after_create_poll_options parse s u data now :
  store_wf s ->
  PollSystem.poll_options (after_create parse s u data now)
    (PollSystem.next_poll_id s)
  = option_rows (PollSystem.next_option_id s) (PollSystem.next_poll_id s)
      (kept_options (get_default (body_options data) [])) now.
Proof.
  intros H. unfold PollSystem.poll_options. rewrite after_create_options.
  rewrite filter_app, option_rows_of_poll, filter_none; [reflexivity|].
  intros o Hin. apply Z.eqb_neq. pose proof (wf_options s H o Hin). lia.
Qed.

(** C10.  In every store reached by a sequence of requests, [create_poll]
    accepts a request on the length of the submitted list alone (2 to 10
    entries, title not blank) and then persists, for the new poll, exactly
    the non-blank entries, stripped.  So a list of one non-blank and one
    blank entry is accepted and the poll is stored with a single option. *)
Theorem create_poll_counts_before_it_strips :
  (forall parse us ops u data now,
     let s := PollSystem.run parse ops (PollSystem.empty_store us) in
     let r := PollSystem.create_poll parse (mkRequest POST (Some u) (Some data) now) s in
     truthy (strip (get_default (body_title data) "")) = true ->
     2 <= count (get_default (body_options data) []) <= 10 ->
     status (fst r) = 200 /\
     In (new_poll parse s u data now) (PollSystem.polls (snd r)) /\
     map PollSystem.text (PollSystem.poll_options (snd r) (PollSystem.next_poll_id s))
     = kept_options (get_default (body_options data) [])) /\
  (forall parse us ops u title choice blank now,
     let s := PollSystem.run parse ops (PollSystem.empty_store us) in
     let r := PollSystem.create_poll parse
                (create_request u title [choice; blank] now) s in
     truthy (strip title) = true ->
     truthy (strip choice) = true -> truthy (strip blank) = false ->
     status (fst r) = 200 /\
     In (new_poll parse s u
           (mkPollBody (Some title) None None None (Some [choice; blank])) now)
        (PollSystem.polls (snd r)) /\
     count (PollSystem.poll_options (snd r) (PollSystem.next_poll_id s)) = 1).
Proof.
  assert (General :
    forall parse us ops u data now,
      let s := PollSystem.run parse ops (PollSystem.empty_store us) in
      let r := PollSystem.create_poll parse (mkRequest POST (Some u) (Some data) now) s in
      truthy (strip (get_default (body_title data) "")) = true ->
      2 <= count (get_default (body_options data) []) <= 10 ->
      status (fst r) = 200 /\
      In (new_poll parse s u data now) (PollSystem.polls (snd r)) /\
      map PollSystem.text (PollSystem.poll_options (snd r) (PollSystem.next_poll_id s))
      = kept_options (get_default (body_options data) [])).
  { intros parse us ops u data now s r Ht Hc.
    pose proof (reachable_wf parse us ops) as Hwf. fold s in Hwf.
    subst r.
    rewrite (create_poll_accepts parse (mkRequest POST (Some u) (Some data) now)
               s u data eq_refl eq_refl eq_refl Ht Hc).
    cbn [fst snd status req_now]. split; [reflexivity|]. split.
    - rewrite after_create_polls. apply in_or_app. right. now left.
    - rewrite after_create_poll_options by assumption. apply option_rows_texts. }
  split; [exact General|].
  intros parse us ops u title choice blank now s r Ht Hc Hb.
  destruct (General parse us ops u
              (mkPollBody (Some title) None None None (Some [choice; blank])) now)
    as (H200 & Hin & Htexts); [exact Ht | cbn; lia |].
  fold s in H200, Hin, Htexts. split; [exact H200|]. split; [exact Hin|].
  unfold count. rewrite <- (length_map PollSystem.text).
  unfold create_request in r. fold r in Htexts. rewrite Htexts.
  unfold kept_options. cbn [get_default body_options filter].
  rewrite Hc, Hb. reflexivity.
Qed.

(** A poll submitted with the options "Pizza" and three spaces. *)
Lemma create_poll_counts_before_it_strips_witness :
  let r := PollSystem.create_poll no_expiry
             (create_request 1 "Lunch?" ["Pizza"; "   "] 100)
             (PollSystem.empty_store [PollSystem.mkUser 1 "ann"]) in
  status (fst r) = 200 /\
  map PollSystem.text (PollSystem.poll_options (snd r) 1) = ["Pizza"] /\
  count (PollSystem.poll_options (snd r) 1) < 2.
Proof.
  intros r.
  destruct (proj2 create_poll_counts_before_it_strips no_expiry
              [PollSystem.mkUser 1 "ann"] [] 1 "Lunch?" "Pizza" "   " 100
              eq_refl eq_refl eq_refl) as (H200 & _ & Hcount).
  split; [exact H200|]. split; [vm_compute; reflexivity|].
  change (count (PollSystem.poll_options (snd r) 1) = 1) in Hcount.
  rewrite Hcount. reflexivity.
Defined.

(** An entry that is a no-break space is as blank as one of spaces: the
    poll is stored with the option "Pizza" alone; and a title that is a
    no-break space is refused. *)
Example create_poll_skips_a_no_break_space :
  let s := PollSystem.empty_store [PollSystem.mkUser 1 "ann"] in
  let r := PollSystem.create_poll no_expiry
             (create_request 1 "Lunch?" ["Pizza"; nbsp] 100) s in
  status (fst r) = 200 /\
  map PollSystem.text (PollSystem.poll_options (snd r) 1) = ["Pizza"] /\
  PollSystem.create_poll no_expiry (create_request 1 nbsp ["Pizza"; "Sushi"] 100) s
  = (mkResponse 400 (Failure "Poll title is required"), s).
Proof. vm_compute. repeat split. Qed.

(** ** Ownership *)

Lemma polls_not_creator_not_found s pid u :
  polls_not_creator_of s pid u -> Polls.find_poll_of_creator s pid u = None.
Proof.
  intros H. unfold Polls.find_poll_of_creator. apply find_all_false.
  intros p Hin. apply andb_false_iff.
  destruct (Polls.poll_id p =? pid) eqn:E; [right|now left].
  apply Z.eqb_eq in E. specialize (H p Hin E).
  destruct (Polls.created_by p) as [c|]; [|reflexivity].
  apply Z.eqb_neq. congruence.
Qed.

Lemma polls_edit_poll_not_found pid req s u :
  req_user req = Some u -> Polls.find_poll_of_creator s pid u = None ->
  Polls.edit_poll pid req s =
  (if method_eqb (req_method req) POST
   then mkResponse 500 (Crash "" Http404)
   else mkResponse 405 NotAllowed, s).
Proof.
  intros Hu Hf. unfold Polls.edit_poll, login_required. rewrite Hu.
  unfold require_http_methods. cbn [existsb]. rewrite orb_false_r.
  destruct (method_eqb (req_method req) POST); [|reflexivity].
  unfold try_except, Polls.edit_poll_body, mbind, get_store, request_user.
  rewrite Hu. cbn [ret]. rewrite Hf. reflexivity.
Qed.

Lemma polls_delete_poll_not_found pid req s u :
  req_user req = Some u -> Polls.find_poll_of_creator s pid u = None ->
  Polls.delete_poll pid req s =
  (if method_eqb (req_method req) DELETE || method_eqb (req_method req) POST
   then mkResponse 500 (Crash "" Http404)
   else mkResponse 405 NotAllowed, s).
Proof.
  intros Hu Hf. unfold Polls.delete_poll, login_required. rewrite Hu.
  unfold require_http_methods. cbn [existsb]. rewrite orb_false_r.
  destruct (_ || _); [|reflexivity].
  unfold try_except, Polls.delete_poll_body, mbind, get_store, request_user.
  rewrite Hu. cbn [ret]. rewrite Hf. reflexivity.
Qed.

(** C4 (amended).  Whatever the store and whatever the payload (valid,
    invalid or not even JSON), an edit or delete request of an
    authenticated user who is not the poll's creator, sent to [poll_detail]
    of [poll_system] or to [edit_poll] or [delete_poll] of either
    application, fails and leaves the whole store unchanged.  On
    [poll_detail] (PUT and DELETE on an existing poll) the answer is 403
    "Permission denied".  The views that look the poll up by identifier and
    creator ([edit_poll] and [delete_poll] of both applications) answer
    with an error status of 400 or more.  Nothing is said here of
    [PollDetailView] of [polls], which has no test of the creator. *)
Theorem non_creator_cannot_edit_or_delete :
  (forall s pid u m body now,
     m = PUT \/ m = DELETE ->
     PollSystem.find_poll s pid <> None -> not_creator_of s pid u ->
     PollSystem.poll_detail pid (mkRequest m (Some u) body now) s
     = (mkResponse 403 (Failure "Permission denied"), s)) /\
  (forall s pid u m body now,
     not_creator_of s pid u ->
     let r := PollSystem.edit_poll pid (mkRequest m (Some u) body now) s in
     400 <= status (fst r) /\ snd r = s) /\
  (forall s pid u m body now,
     not_creator_of s pid u ->
     let r := PollSystem.delete_poll pid (mkRequest m (Some u) body now) s in
     400 <= status (fst r) /\ snd r = s) /\
  (forall s pid u m body now,
     polls_not_creator_of s pid u ->
     let r := Polls.edit_poll pid (mkRequest m (Some u) body now) s in
     400 <= status (fst r) /\ snd r = s) /\
  (forall s pid u m body now,
     polls_not_creator_of s pid u ->
     let r := Polls.delete_poll pid (mkRequest m (Some u) body now) s in
     400 <= status (fst r) /\ snd r = s).
Proof.
  repeat match goal with |- _ /\ _ => split end.
  - intros s pid u m body now Hm Hfind Hnot.
    destruct (PollSystem.find_poll s pid) as [poll|] eqn:Hp; [|congruence].
    apply poll_detail_forbidden with u poll; try assumption; [reflexivity|].
    apply Hnot; [now apply ps_find_poll_In with pid | now apply ps_find_poll_id with s].
  - intros s pid u m body now Hnot r. subst r.
    rewrite (edit_poll_not_found pid (mkRequest m (Some u) body now) s u eq_refl (not_creator_not_found s pid u Hnot)).
    cbn [fst snd]. split; [|reflexivity]. destruct (method_eqb _ _); cbn; lia.
  - intros s pid u m body now _ r. subst r.
    destruct (delete_poll_always_fails pid (mkRequest m (Some u) body now) s). auto.
  - intros s pid u m body now Hnot r. subst r.
    rewrite (polls_edit_poll_not_found pid (mkRequest m (Some u) body now) s u eq_refl
               (polls_not_creator_not_found s pid u Hnot)).
    cbn [fst snd]. split; [|reflexivity]. destruct (method_eqb _ _); cbn; lia.
  - intros s pid u m body now Hnot r. subst r.
    rewrite (polls_delete_poll_not_found pid (mkRequest m (Some u) body now) s u eq_refl
               (polls_not_creator_not_found s pid u Hnot)).
    cbn [fst snd]. split; [|reflexivity]. destruct (_ || _); cbn; lia.
Qed.

(** User 2 sends a DELETE with a body that is not JSON for the poll
    "Lunch?" of user 1. *)
Lemma non_creator_cannot_edit_or_delete_witness :
  PollSystem.poll_detail 1 (mkRequest DELETE (Some 2) None 500) two_polls
  = (mkResponse 403 (Failure "Permission denied"), two_polls).
Proof.
  assert (Hfind : PollSystem.find_poll two_polls 1 <> None)
    by (vm_compute; discriminate).
  assert (Hnot : not_creator_of two_polls 1 2).
  { intros p Hin _. vm_compute in Hin.
    destruct Hin as [<-|[<-|[]]]; cbn; discriminate. }
  exact (proj1 non_creator_cannot_edit_or_delete two_polls 1 2 DELETE None 500
           (or_intror eq_refl) Hfind Hnot).
Defined.

(** The claim of C4 fails on [edit_poll] of [polls]: the edit of user 2
    on the poll of user 1 is refused, but with status 500, not 403.  It
    fails on [PollDetailView] of [polls] as well: the DELETE of user 2 for
    the poll of user 1 is answered 204, and the poll is gone. *)
Lemma edit_by_non_creator_is_not_403 :
  polls_not_creator_of poll_of_user_1 1 2 /\
  Polls.find_poll poll_of_user_1 1 <> None /\
  status (fst (Polls.edit_poll 1 edit_by_user_2 poll_of_user_1)) <> 403 /\
  (let r := Polls.PollDetailView_delete 1 (mkRequest DELETE (Some 2) None 200)
              poll_of_user_1 in
   status (fst r) = 204 /\ Polls.find_poll (snd r) 1 = None).
Proof.
  split; [|split; [|split]].
  - intros p Hin _. vm_compute in Hin. destruct Hin as [<-|[]]. cbn. discriminate.
  - vm_compute. discriminate.
  - vm_compute. discriminate.
  - vm_compute. split; reflexivity.
Qed.

(** ** The bounds on the number of options *)

(** [create_poll] of [poll_system] at the bounds: fewer than 2 or more
    than 10 entries are answered 400 and nothing is written. *)
Lemma ps_create_poll_rejects_count parse s u data now :
  truthy (strip (get_default (body_title data) "")) = true ->
  count (get_default (body_options data) []) < 2 \/
  10 < count (get_default (body_options data) []) ->
  let r := PollSystem.create_poll parse (mkRequest POST (Some u) (Some data) now) s in
  status (fst r) = 400 /\ snd r = s.
Proof.
  intros Ht Hc r. subst r.
  unfold PollSystem.create_poll, PollSystem.json_login_required, require_http_methods,
    try_except, PollSystem.create_poll_body, mbind, json_loads.
  cbn [req_user req_method req_body existsb method_eqb orb ret]. cbv zeta.
  rewrite Ht. cbn [negb].
  destruct (count _ <? 2) eqn:E1; [split; reflexivity|].
  destruct (10 <? count _) eqn:E2; [split; reflexivity|].
  apply Z.ltb_ge in E1, E2. lia.
Qed.

(** The four boundary cases of the specification on [create_poll] of
    [poll_system], in any store. *)
Lemma ps_create_poll_boundaries parse s u data now :
  truthy (strip (get_default (body_title data) "")) = true ->
  let n := count (get_default (body_options data) []) in
  let r := PollSystem.create_poll parse (mkRequest POST (Some u) (Some data) now) s in
  (n = 1 -> status (fst r) = 400) /\ (n = 11 -> status (fst r) = 400) /\
  (n = 2 -> status (fst r) = 200) /\ (n = 10 -> status (fst r) = 200).
Proof.
  intros Ht n r. subst n r.
  repeat split; intros Hn.
  1,2: apply ps_create_poll_rejects_count; [assumption | lia].
  1,2: rewrite (create_poll_accepts parse (mkRequest POST (Some u) (Some data) now)
                  s u data eq_refl eq_refl eq_refl Ht); [reflexivity | lia].
Qed.


(** [create_poll] of [polls] never answers 400 to a request with a title
    and two entries or more, however many: its only test on the list is
    the lower bound. *)
Lemma polls_create_poll_has_no_upper_bound s u data now :
  Polls.truthy_opt (body_title data) = true ->
  2 <= count (get_default (body_options data) []) ->
  status (fst (Polls.create_poll (mkRequest POST (Some u) (Some data) now) s)) = 500 /\
  snd (Polls.create_poll (mkRequest POST (Some u) (Some data) now) s) = s.
Proof.
  intros Ht Hc.
  unfold Polls.create_poll, login_required, require_http_methods, try_except,
    Polls.create_poll_body, mbind, json_loads.
  cbn [req_user req_method req_body existsb method_eqb orb ret]. cbv zeta.
  rewrite Ht. cbn [negb].
  destruct (count _ <? 2) eqn:E1; [apply Z.ltb_lt in E1; lia|].
  split; reflexivity.
Qed.

(** The form view [create_poll] of [polls], which no URL pattern is bound
    to, answers a request with eleven options with status 500, not with the
    validation error 400, and a request with two or with ten options with
    500 as well: the view has no upper bound on the list, and its call of
    [Poll.objects.create] passes a [category] that the model does not
    declare.  The view of [poll_system] answers the same four requests 400,
    400, 200, 200. *)
Theorem polls_create_poll_at_the_bounds :
  status (fst (Polls.create_poll (polls_create_request eleven_options)
                 Polls.empty_store)) = 500 /\
  status (fst (Polls.create_poll (polls_create_request ["Pizza"; "Sushi"])
                 Polls.empty_store)) = 500 /\
  status (fst (Polls.create_poll (polls_create_request ten_options)
                 Polls.empty_store)) = 500 /\
  status (fst (Polls.create_poll (polls_create_request ["Pizza"])
                 Polls.empty_store)) = 400 /\
  map (fun options =>
         status (fst (PollSystem.create_poll no_expiry
                        (polls_create_request options)
                        (PollSystem.empty_store [PollSystem.mkUser 1 "ann"]))))
      [["Pizza"]; eleven_options; ["Pizza"; "Sushi"]; ten_options]
  = [400; 400; 200; 200].
Proof.
  repeat split; vm_compute; reflexivity.
Qed.

Lemma nodup_length_le {A : Type} (dec : forall x y : A, {x = y} + {x <> y})
  (l : list A) : (List.length (nodup dec l) <= List.length l)%nat.
Proof.
  induction l as [|a l IH]; cbn [nodup List.length]; [lia|].
  destruct (in_dec dec a l); cbn [List.length]; lia.
Qed.

Lemma all_distinct_NoDup (l : list string) :
  Polls.all_distinct l = true -> NoDup l.
Proof.
  unfold Polls.all_distinct. intros H. apply Nat.eqb_eq in H.
  induction l as [|a l IH]; [constructor|].
  cbn [nodup List.length] in H.
  pose proof (nodup_length_le string_dec l) as Hle.
  destruct (in_dec string_dec a l) as [Hin|Hout]; cbn [List.length] in H; [lia|].
  constructor; [assumption|]. apply IH. lia.
Qed.






(** ** Top polls *)

Section TopN.

Context {A : Type} (key : A -> Z).

Lemma insert_desc_perm (x : A) (l : list A) :
  Permutation (insert_desc key x l) (x :: l).
Proof.
  induction l as [|y l IH]; cbn [insert_desc]; [reflexivity|].
  destruct (key y <=? key x); [reflexivity|].
  rewrite IH. apply perm_swap.
Qed.

Lemma sort_desc_perm (l : list A) : Permutation (sort_desc key l) l.
Proof.
  induction l as [|x l IH]; cbn [sort_desc]; [reflexivity|].
  rewrite insert_desc_perm. now constructor.
Qed.

Lemma insert_desc_sorted (x : A) (l : list A) :
  descending key l -> descending key (insert_desc key x l).
Proof.
  unfold descending. induction l as [|y l IH]; intros H; cbn [insert_desc].
  - constructor; [constructor|constructor].
  - inversion H as [|? ? Hl Hy]; subst.
    destruct (key y <=? key x) eqn:E.
    + apply Z.leb_le in E. constructor; [assumption|].
      constructor; [assumption|].
      rewrite Forall_forall in *. intros z Hz. specialize (Hy z Hz). lia.
    + apply Z.leb_gt in E. constructor; [now apply IH|].
      rewrite Forall_forall in *. intros z Hz.
      apply (Permutation_in _ (insert_desc_perm x l)) in Hz.
      destruct Hz as [<-|Hz]; [lia | now apply Hy].
Qed.

Lemma sort_desc_sorted (l : list A) : descending key (sort_desc key l).
Proof.
  induction l as [|x l IH]; cbn [sort_desc]; [constructor|].
  now apply insert_desc_sorted.
Qed.

Lemma descending_firstn (n : nat) (l : list A) :
  descending key l -> descending key (firstn n l).
Proof.
  unfold descending. revert n. induction l as [|x l IH]; intros n H.
  - rewrite firstn_nil. constructor.
  - destruct n; cbn [firstn]; [constructor|].
    inversion H as [|? ? Hl Hx]; subst. constructor; [now apply IH|].
    rewrite Forall_forall in *. intros z Hz. apply Hx.
    rewrite <- (firstn_skipn n l). apply in_or_app. now left.
Qed.

Lemma descending_cut (n : nat) (l : list A) :
  descending key l ->
  forall a b, In a (firstn n l) -> In b (skipn n l) -> key b <= key a.
Proof.
  unfold descending. revert n. induction l as [|x l IH]; intros n H a b Ha Hb.
  - rewrite firstn_nil in Ha. destruct Ha.
  - destruct n; cbn [firstn skipn] in *; [destruct Ha|].
    inversion H as [|? ? Hl Hx]; subst.
    destruct Ha as [<-|Ha].
    + rewrite Forall_forall in Hx. apply Hx.
      rewrite <- (firstn_skipn n l). apply in_or_app. now right.
    + now apply (IH n Hl a b).
Qed.

(** The first [n] rows of a list sorted in descending order are in
    descending order, and each has a key at least as large as any row of
    the list that is left out. *)
Lemma top_n_dominates (n : nat) (l : list A) :
  descending key (firstn n (sort_desc key l)) /\
  forall a b, In a (firstn n (sort_desc key l)) -> In b l ->
              ~ In b (firstn n (sort_desc key l)) -> key b <= key a.
Proof.
  split; [apply descending_firstn, sort_desc_sorted|].
  intros a b Ha Hb Hout.
  apply (descending_cut n (sort_desc key l) (sort_desc_sorted l) a b Ha).
  apply (Permutation_in _ (Permutation_sym (sort_desc_perm l))) in Hb.
  rewrite <- (firstn_skipn n (sort_desc key l)) in Hb.
  apply in_app_or in Hb as [Hb|Hb]; [contradiction|assumption].
Qed.

End TopN.

(** The rows of the query of [top_polls] of [poll_system] are in
    descending order of vote count, and a poll that is left out has no more
    votes than any poll that is returned. *)
Lemma top_polls_query_dominates (s : PollSystem.Store) :
  descending snd (PollSystem.top_polls_query s) /\
  forall returned left_out,
    In returned (PollSystem.top_polls_query s) ->
    In left_out (PollSystem.annotate_vote_count s) ->
    ~ In left_out (PollSystem.top_polls_query s) ->
    snd left_out <= snd returned.
Proof.
  unfold PollSystem.top_polls_query.
  destruct (top_n_dominates (@snd PollSystem.Poll Z) 10
              (filter (fun pv => 0 <? snd pv) (PollSystem.annotate_vote_count s)))
    as [Hsorted Hdom].
  split; [exact Hsorted|].
  intros returned left_out Hr Hl Hout.
  destruct (0 <? snd left_out) eqn:E.
  - apply Hdom; [assumption | | assumption].
    apply filter_In. now split.
  - apply Z.ltb_ge in E.
    assert (Hpos : In returned (filter (fun pv => 0 <? snd pv)
                                  (PollSystem.annotate_vote_count s))).
    { apply (Permutation_in _ (sort_desc_perm snd _)).
      rewrite <- (firstn_skipn 10 (sort_desc snd _)). apply in_or_app. now left. }
    apply filter_In in Hpos as [_ Hpos]. apply Z.ltb_lt in Hpos. lia.
Qed.

(** [analytics_data], which is bound to the path of [api_statistics] after
    it and so receives no request, cuts before it sorts.  With six polls of
    which only the oldest has votes (three), its "popular polls" are the
    five most recent polls, each with no vote, and the poll that is left
    out has more votes than every poll returned. *)
Theorem popular_polls_are_cut_before_they_are_sorted :
  let resp := fst (PollSystem.analytics_data (mkRequest GET None None 800) six_polls) in
  status resp = 200 /\
  option_map PollSystem.an_popular_polls (payload resp)
  = Some (PollSystem.popular_polls six_polls) /\
  map PollSystem.pp_id (PollSystem.popular_polls six_polls) = [6; 5; 4; 3; 2] /\
  map PollSystem.pp_vote_count (PollSystem.popular_polls six_polls) = [0; 0; 0; 0; 0] /\
  PollSystem.total_votes six_polls 1 = 3 /\
  map (fun pv => (PollSystem.poll_id (fst pv), snd pv))
      (PollSystem.top_polls_query six_polls) = [(1, 3)].
Proof.
  vm_compute. repeat split.
Qed.

(** [analytics_top_polls] of [polls] sorts every poll before it cuts the
    list to six, and so has the same two properties. *)
Lemma polls_top_polls_list_dominates (s : Polls.Store) all_rows :
  Polls.top_polls_loop s (Polls.Poll_objects_all s) [] = Ok all_rows ->
  exists rows,
    Polls.top_polls_list s = Ok rows /\
    descending Polls.tp_vote_count rows /\
    forall returned left_out,
      In returned rows -> In left_out all_rows -> ~ In left_out rows ->
      Polls.tp_vote_count left_out <= Polls.tp_vote_count returned.
Proof.
  intros H. unfold Polls.top_polls_list. rewrite H. cbn [bind].
  eexists. split; [reflexivity|]. apply top_n_dominates.
Qed.

(* ================================================================== *)
(** * Further properties of the views *)
(* ================================================================== *)

(** ** Votes of [poll_system]: what a served vote leaves behind *)

Lemma filter_map_fix {A : Type} (q : A -> bool) (f : A -> A) (l : list A) :
  (forall w, In w l -> q (f w) = q w /\ (q w = true -> f w = w)) ->
  filter q (map f l) = filter q l.
Proof.
  induction l as [|w l IH]; cbn [map filter]; intros H; [reflexivity|].
  destruct (H w (or_introl eq_refl)) as [Hq Hf]. rewrite Hq.
  rewrite IH by (intros x Hx; apply H; now right).
  destruct (q w); [rewrite Hf|]; reflexivity.
Qed.

Lemma filter_unique {A K : Type} (key : A -> K) (q : A -> bool) (l : list A) (v : A) :
  NoDup (map key l) -> In v l -> q v = true ->
  (forall w, In w l -> q w = true -> key w = key v) ->
  filter q l = [v].
Proof.
  induction l as [|x l IH]; cbn [map filter]; intros Hnd Hin Hv Hq; [destruct Hin|].
  inversion Hnd as [|? ? Hn Hl]; subst.
  assert (Hrest : forall w, In w l -> q w = true -> key w = key v)
    by (intros w Hw; apply Hq; now right).
  destruct Hin as [->|Hin].
  - rewrite Hv. f_equal. apply filter_none. intros w Hw.
    destruct (q w) eqn:E; [|reflexivity].
    exfalso. apply Hn. rewrite <- (Hrest w Hw E). now apply in_map.
  - destruct (q x) eqn:E.
    + exfalso. apply Hn. rewrite (Hq x (or_introl eq_refl) E). now apply in_map.
    + now apply IH.
Qed.

Lemma filter_map_comm {A B : Type} (q : B -> bool) (f : A -> B) (l : list A) :
  filter q (map f l) = map f (filter (fun a => q (f a)) l).
Proof.
  induction l as [|a l IH]; cbn [map filter]; [reflexivity|].
  rewrite IH. now destruct (q (f a)).
Qed.

Lemma map_fix {A : Type} (f : A -> A) (l : list A) :
  (forall w, In w l -> f w = w) -> map f l = l.
Proof.
  induction l as [|w l IH]; cbn [map]; intros H; [reflexivity|].
  rewrite (H w (or_introl eq_refl)), IH; [reflexivity|].
  intros x Hx. apply H. now right.
Qed.

(** A request that [vote_poll] answers with 200 is a POST by a logged-in
    user, naming an option of an existing poll. *)
Lemma vote_poll_ok_inv pid req s :
  status (fst (PollSystem.vote_poll pid req s)) = 200 ->
  exists u oid poll o,
    req_user req = Some u /\ req_method req = POST /\
    req_body req = Some (mkVoteBody (Some oid)) /\ oid <> 0 /\
    PollSystem.find_poll s pid = Some poll /\
    PollSystem.find_option_of_poll s oid pid = Some o.
Proof.
  intros H.
  destruct (req_user req) as [u|] eqn:Hu.
  2:{ unfold PollSystem.vote_poll, PollSystem.json_login_required in H.
      rewrite Hu in H. discriminate H. }
  destruct (method_eqb (req_method req) POST) eqn:Hm.
  2:{ unfold PollSystem.vote_poll, PollSystem.json_login_required,
        require_http_methods in H.
      rewrite Hu in H. cbn [existsb] in H. rewrite Hm in H. discriminate H. }
  assert (Hm' : req_method req = POST) by (destruct (req_method req); easy).
  destruct (req_body req) as [[[oid|]]|] eqn:Hb.
  3:{ unfold PollSystem.vote_poll, PollSystem.json_login_required,
        require_http_methods, try_except, PollSystem.vote_poll_body, mbind,
        json_loads in H.
      rewrite Hu, Hm', Hb in H. discriminate H. }
  2:{ rewrite (vote_poll_without_option_id pid req s u) in H by assumption.
      discriminate H. }
  destruct (PollSystem.find_poll s pid) as [poll|] eqn:Hp.
  2:{ unfold PollSystem.vote_poll, PollSystem.json_login_required,
        require_http_methods, try_except, PollSystem.vote_poll_body, mbind,
        json_loads in H.
      rewrite Hu, Hm', Hb in H.
      cbn [existsb method_eqb orb ret body_option_id] in H.
      destruct oid; [discriminate H| |]; cbn [get_store] in H; rewrite Hp in H;
        discriminate H. }
  destruct (PollSystem.find_option_of_poll s oid pid) as [o|] eqn:Ho.
  2:{ rewrite (vote_poll_foreign_option pid req s u oid poll) in H by assumption.
      destruct (oid =? 0); discriminate H. }
  destruct (Z.eq_dec oid 0) as [->|Hz].
  { unfold PollSystem.vote_poll, PollSystem.json_login_required,
      require_http_methods, try_except, PollSystem.vote_poll_body, mbind,
      json_loads in H.
    rewrite Hu, Hm', Hb in H. discriminate H. }
  exists u, oid, poll, o. repeat split; assumption.
Qed.

(** The votes of a (poll, user) pair after an accepted vote: one row, for
    the chosen option; the rows of every other pair as before. *)
Lemma vote_poll_effect_on_pairs pid req s u oid poll o :
  votes_wf s ->
  req_user req = Some u -> req_method req = POST ->
  req_body req = Some (mkVoteBody (Some oid)) -> oid <> 0 ->
  PollSystem.find_poll s pid = Some poll ->
  PollSystem.find_option_of_poll s oid pid = Some o ->
  let s' := snd (PollSystem.vote_poll pid req s) in
  (exists v', PollSystem.votes_of_poll_user s' pid u = [v'] /\
              PollSystem.v_option v' = oid) /\
  (forall pid' u', (pid', u') <> (pid, u) ->
     PollSystem.votes_of_poll_user s' pid' u'
     = PollSystem.votes_of_poll_user s pid' u').
Proof.
  intros Hwf Hu Hm Hb Hz Hp Ho.
  destruct (vote_poll_accepts pid req s u oid poll o Hwf Hu Hm Hb Hz Hp Ho)
    as (message & s' & -> & Hs').
  cbn [snd]. destruct Hwf as [Hbelow Hids Hkeys].
  destruct (hd_error (PollSystem.votes_of_poll_user s pid u)) as [v|] eqn:Hv;
    destruct Hs' as [_ ->]; unfold PollSystem.votes_of_poll_user;
    cbn [PollSystem.set_votes PollSystem.votes].
  - pose proof (hd_error_filter_In _ _ _ Hv) as [Hin Hkey].
    apply andb_true_iff in Hkey as [Hk1 Hk2]. apply Z.eqb_eq in Hk1, Hk2.
    set (v' := PollSystem.mkVote (PollSystem.v_id v) (PollSystem.v_poll v) oid
                 (PollSystem.v_user v) (PollSystem.v_created_at v)).
    assert (Hsame : forall w, In w (PollSystem.votes s) ->
                              PollSystem.v_id w = PollSystem.v_id v -> w = v).
    { intros w Hw Hid.
      now apply (same_key_same_row PollSystem.v_id (PollSystem.votes s)). }
    split.
    + exists v'. split; [|reflexivity].
      rewrite filter_map_comm.
      rewrite (filter_ext_in _ (fun w => (PollSystem.v_poll w =? pid)
                                         && (PollSystem.v_user w =? u))).
      * rewrite (filter_unique vote_key _ (PollSystem.votes s) v); trivial.
        -- cbn [map]. now rewrite Z.eqb_refl.
        -- now rewrite Hk1, Hk2, !Z.eqb_refl.
        -- intros w _ Hq. apply andb_true_iff in Hq as [H1 H2].
           apply Z.eqb_eq in H1, H2. unfold vote_key. congruence.
      * intros w Hw. destruct (PollSystem.v_id w =? PollSystem.v_id v) eqn:E;
          [|reflexivity].
        apply Z.eqb_eq in E. rewrite (Hsame w Hw E). reflexivity.
    + intros pid' u' Hne. apply filter_map_fix. intros w Hw.
      destruct (PollSystem.v_id w =? PollSystem.v_id v) eqn:E; [|now split].
      apply Z.eqb_eq in E. rewrite (Hsame w Hw E).
      cbn [PollSystem.v_poll PollSystem.v_user]. split; [reflexivity|].
      intros Hq. apply andb_true_iff in Hq as [H1 H2].
      apply Z.eqb_eq in H1, H2. exfalso. apply Hne. congruence.
  - assert (Hnil : filter (fun v => (PollSystem.v_poll v =? pid)
                                    && (PollSystem.v_user v =? u))
                     (PollSystem.votes s) = []).
    { unfold PollSystem.votes_of_poll_user in Hv.
      destruct (filter _ (PollSystem.votes s)); [reflexivity|discriminate Hv]. }
    split.
    + eexists. rewrite filter_app, Hnil. cbn [filter app PollSystem.v_poll PollSystem.v_user].
      rewrite !Z.eqb_refl. cbn [andb]. split; reflexivity.
    + intros pid' u' Hne. rewrite filter_app.
      cbn [filter PollSystem.v_poll PollSystem.v_user].
      destruct ((pid =? pid') && (u =? u')) eqn:E; [|apply app_nil_r].
      apply andb_true_iff in E as [H1 H2]. apply Z.eqb_eq in H1, H2.
      exfalso. apply Hne. congruence.
Qed.

(** X1. In every store reached by served requests and direct writes to the
    [Vote] table, a vote that [vote_poll] answers with 200 leaves its user
    with exactly one vote on the poll, cast for the option of the request,
    and changes the votes of no other (poll, user) pair. *)
Theorem vote_poll_leaves_one_vote_for_the_choice :
  forall parse us ops pid req u oid,
    let s := PollSystem.db_run parse ops (PollSystem.empty_store us) in
    let r := PollSystem.vote_poll pid req s in
    req_user req = Some u -> req_body req = Some (mkVoteBody (Some oid)) ->
    status (fst r) = 200 ->
    map PollSystem.v_option (PollSystem.votes_of_poll_user (snd r) pid u) = [oid] /\
    (forall pid' u', (pid', u') <> (pid, u) ->
       PollSystem.votes_of_poll_user (snd r) pid' u'
       = PollSystem.votes_of_poll_user s pid' u').
Proof.
  intros parse us ops pid req u oid s r Hu Hb H200.
  destruct (vote_poll_ok_inv pid req s H200)
    as (u0 & oid0 & poll & o & Hu0 & Hm & Hb0 & Hz & Hp & Ho).
  assert (u0 = u) by congruence. assert (oid0 = oid) by congruence. subst u0 oid0.
  assert (Hwf : votes_wf s) by apply db_run_keeps_wf, votes_wf_empty.
  destruct (vote_poll_effect_on_pairs pid req s u oid poll o Hwf Hu Hm Hb Hz Hp Ho)
    as [(v' & Hv' & Hopt) Hframe].
  split; [|exact Hframe].
  subst r. rewrite Hv'. cbn [map]. now rewrite Hopt.
Qed.

Lemma vote_poll_leaves_one_vote_for_the_choice_witness :
  map PollSystem.v_option
    (PollSystem.votes_of_poll_user
       (snd (PollSystem.vote_poll 1 (vote_request_for 2 1 300)
               (PollSystem.db_run no_expiry
                  [PollSystem.Served
                     (PollSystem.CreatePoll
                        (create_request 1 "Lunch?" ["Pizza"; "Sushi"] 100))]
                  (PollSystem.empty_store [PollSystem.mkUser 1 "ann"]))))
       1 2) = [1].
Proof.
  exact (proj1 (vote_poll_leaves_one_vote_for_the_choice no_expiry
                  [PollSystem.mkUser 1 "ann"]
                  [PollSystem.Served
                     (PollSystem.CreatePoll
                        (create_request 1 "Lunch?" ["Pizza"; "Sushi"] 100))]
                  1 (vote_request_for 2 1 300) 2 1 eq_refl eq_refl eq_refl)).
Defined.

Lemma count_filter_cons {A : Type} (q : A -> bool) (x : A) (l : list A) :
  count (filter q (x :: l)) = Z.b2z (q x) + count (filter q l).
Proof.
  unfold count. cbn [filter]. destruct (q x); cbn [List.length Z.b2z]; lia.
Qed.

Lemma count_app {A : Type} (l l' : list A) : count (l ++ l') = count l + count l'.
Proof. unfold count. rewrite length_app. lia. Qed.

(** Overwriting the row with the primary key of [v] by [v']: what a count
    over a condition loses and gains. *)
Lemma count_filter_replace {A : Type} (id : A -> Z) (q : A -> bool) (v v' : A)
  (l : list A) :
  NoDup (map id l) -> In v l ->
  count (filter q (map (fun w => if id w =? id v then v' else w) l))
  = count (filter q l) - Z.b2z (q v) + Z.b2z (q v').
Proof.
  induction l as [|x l IH]; intros Hnd Hin; [destruct Hin|].
  cbn [map] in *. inversion Hnd as [|? ? Hn Hl]; subst.
  rewrite !count_filter_cons. destruct Hin as [->|Hin].
  - rewrite Z.eqb_refl. rewrite map_fix; [lia|].
    intros w Hw. destruct (id w =? id v) eqn:E; [|reflexivity].
    apply Z.eqb_eq in E. exfalso. apply Hn. rewrite <- E. now apply in_map.
  - destruct (id x =? id v) eqn:E.
    + apply Z.eqb_eq in E. exfalso. apply Hn. rewrite E. now apply in_map.
    + rewrite IH by assumption. lia.
Qed.

(** X2. In every store reached by served requests and direct writes to the
    [Vote] table, an accepted vote moves exactly one vote: a first vote adds
    one to the poll's total and to the chosen option, a changed vote leaves
    the total as it was and takes one from the option chosen before; the
    totals of the other polls do not move. *)
Theorem vote_poll_moves_one_vote :
  forall parse us ops pid req u oid,
    let s := PollSystem.db_run parse ops (PollSystem.empty_store us) in
    let r := PollSystem.vote_poll pid req s in
    let prior := hd_error (PollSystem.votes_of_poll_user s pid u) in
    req_user req = Some u -> req_body req = Some (mkVoteBody (Some oid)) ->
    status (fst r) = 200 ->
    PollSystem.total_votes (snd r) pid
    = PollSystem.total_votes s pid + match prior with Some _ => 0 | None => 1 end /\
    (forall oid',
       PollSystem.vote_count (snd r) oid'
       = PollSystem.vote_count s oid'
         - match prior with
           | Some v => Z.b2z (PollSystem.v_option v =? oid')
           | None => 0
           end
         + Z.b2z (oid =? oid')) /\
    (forall pid', pid' <> pid ->
       PollSystem.total_votes (snd r) pid' = PollSystem.total_votes s pid').
Proof.
  intros parse us ops pid req u oid s r prior Hu Hb H200.
  destruct (vote_poll_ok_inv pid req s H200)
    as (u0 & oid0 & poll & o & Hu0 & Hm & Hb0 & Hz & Hp & Ho).
  assert (u0 = u) by congruence. assert (oid0 = oid) by congruence. subst u0 oid0.
  assert (Hwf : votes_wf s) by apply db_run_keeps_wf, votes_wf_empty.
  destruct (vote_poll_accepts pid req s u oid poll o Hwf Hu Hm Hb Hz Hp Ho)
    as (message & s' & Hr & Hs').
  subst r. rewrite Hr. cbn [snd]. clear Hr H200.
  unfold PollSystem.total_votes, PollSystem.vote_count, PollSystem.votes_of_poll,
    PollSystem.votes_of_option.
  destruct Hwf as [_ Hids _]. subst prior.
  destruct (hd_error (PollSystem.votes_of_poll_user s pid u)) as [v|] eqn:Hv;
    destruct Hs' as [_ ->]; cbn [PollSystem.set_votes PollSystem.votes].
  - pose proof (hd_error_filter_In _ _ _ Hv) as [Hin Hkey].
    apply andb_true_iff in Hkey as [Hk1 _]. apply Z.eqb_eq in Hk1.
    repeat split.
    + rewrite (count_filter_replace PollSystem.v_id) by assumption.
      cbn [PollSystem.v_poll]. lia.
    + intros oid'. rewrite (count_filter_replace PollSystem.v_id) by assumption.
      cbn [PollSystem.v_option]. reflexivity.
    + intros pid' Hne. rewrite (count_filter_replace PollSystem.v_id) by assumption.
      cbn [PollSystem.v_poll]. lia.
  - repeat split.
    + rewrite filter_app, count_app. cbn [filter PollSystem.v_poll].
      rewrite Z.eqb_refl. reflexivity.
    + intros oid'. rewrite filter_app, count_app. cbn [filter PollSystem.v_option].
      destruct (oid =? oid'); cbn [count List.length Z.b2z]; unfold count; cbn; lia.
    + intros pid' Hne. rewrite filter_app, count_app. cbn [filter PollSystem.v_poll].
      apply Z.eqb_neq in Hne. rewrite Z.eqb_sym, Hne. unfold count. cbn. lia.
Qed.

Lemma vote_poll_moves_one_vote_witness :
  let s := PollSystem.db_run no_expiry
             [PollSystem.Served
                (PollSystem.CreatePoll
                   (create_request 1 "Lunch?" ["Pizza"; "Sushi"] 100));
              PollSystem.Served (PollSystem.VotePoll 1 (vote_request_for 2 1 300))]
             (PollSystem.empty_store [PollSystem.mkUser 1 "ann"]) in
  let r := PollSystem.vote_poll 1 (vote_request_for 2 2 400) s in
  PollSystem.total_votes (snd r) 1 = PollSystem.total_votes s 1 + 0.
Proof.
  exact (proj1 (vote_poll_moves_one_vote no_expiry
                  [PollSystem.mkUser 1 "ann"]
                  [PollSystem.Served
                     (PollSystem.CreatePoll
                        (create_request 1 "Lunch?" ["Pizza"; "Sushi"] 100));
                   PollSystem.Served
                     (PollSystem.VotePoll 1 (vote_request_for 2 1 300))]
                  1 (vote_request_for 2 2 400) 2 2 eq_refl eq_refl eq_refl)).
Defined.

Lemma set_votes_same (s : PollSystem.Store) :
  PollSystem.set_votes s (PollSystem.votes s) (PollSystem.next_vote_id s) = s.
Proof. now destruct s. Qed.

(** X3. In every store reached by served requests and direct writes to the
    [Vote] table, repeating an accepted vote (the same user, poll and option,
    at any later time) is accepted again and changes nothing: the row keeps
    its primary key and the time of the first vote. *)
Theorem vote_poll_twice_is_vote_poll_once :
  forall parse us ops pid req now',
    let s := PollSystem.db_run parse ops (PollSystem.empty_store us) in
    let first := PollSystem.vote_poll pid req s in
    let second :=
      PollSystem.vote_poll pid
        (mkRequest (req_method req) (req_user req) (req_body req) now')
        (snd first) in
    status (fst first) = 200 ->
    status (fst second) = 200 /\ snd second = snd first.
Proof.
  intros parse us ops pid req now' s first second H200.
  destruct (vote_poll_ok_inv pid req s H200)
    as (u & oid & poll & o & Hu & Hm & Hb & Hz & Hp & Ho).
  assert (Hwf : votes_wf s) by apply db_run_keeps_wf, votes_wf_empty.
  assert (Hwf1 : votes_wf (snd first)) by now apply vote_poll_keeps_wf.
  destruct (vote_poll_effect_on_pairs pid req s u oid poll o Hwf Hu Hm Hb Hz Hp Ho)
    as [(v' & Hv' & Hopt) _].
  fold first in Hv'.
  assert (Hsame : PollSystem.polls (snd first) = PollSystem.polls s /\
                  PollSystem.options (snd first) = PollSystem.options s).
  { destruct (vote_poll_accepts pid req s u oid poll o Hwf Hu Hm Hb Hz Hp Ho)
      as (message & s' & Hr & Hs').
    subst first. rewrite Hr. cbn [snd].
    destruct (hd_error _); destruct Hs' as [_ ->]; now split. }
  destruct Hsame as [Hpolls Hoptions].
  assert (Hp1 : PollSystem.find_poll (snd first) pid = Some poll)
    by (unfold PollSystem.find_poll; now rewrite Hpolls).
  assert (Ho1 : PollSystem.find_option_of_poll (snd first) oid pid = Some o)
    by (unfold PollSystem.find_option_of_poll; now rewrite Hoptions).
  destruct (vote_poll_accepts pid
              (mkRequest (req_method req) (req_user req) (req_body req) now')
              (snd first) u oid poll o Hwf1 Hu Hm Hb Hz Hp1 Ho1)
    as (message & s2 & Hr2 & Hs2).
  fold second in Hr2. rewrite Hr2. cbn [fst snd status]. split; [reflexivity|].
  rewrite Hv' in Hs2. cbn [hd_error] in Hs2. destruct Hs2 as [_ ->].
  rewrite map_fix; [apply set_votes_same|].
  intros w Hw. destruct (PollSystem.v_id w =? PollSystem.v_id v') eqn:E;
    [|reflexivity].
  apply Z.eqb_eq in E.
  assert (Hin : In v' (PollSystem.votes (snd first))).
  { assert (H : In v' (PollSystem.votes_of_poll_user (snd first) pid u))
      by (rewrite Hv'; now left).
    now apply filter_In in H. }
  rewrite (same_key_same_row PollSystem.v_id _ w v' (wf_ids_nodup _ Hwf1) Hw Hin E).
  rewrite <- Hopt. now destruct v'.
Qed.

Lemma vote_poll_twice_is_vote_poll_once_witness :
  let s := PollSystem.db_run no_expiry
             [PollSystem.Served
                (PollSystem.CreatePoll
                   (create_request 1 "Lunch?" ["Pizza"; "Sushi"] 100))]
             (PollSystem.empty_store [PollSystem.mkUser 1 "ann"]) in
  let first := PollSystem.vote_poll 1 (vote_request_for 2 1 300) s in
  let second := PollSystem.vote_poll 1 (vote_request_for 2 1 900) (snd first) in
  status (fst second) = 200 /\ snd second = snd first.
Proof.
  exact (vote_poll_twice_is_vote_poll_once no_expiry
           [PollSystem.mkUser 1 "ann"]
           [PollSystem.Served
              (PollSystem.CreatePoll
                 (create_request 1 "Lunch?" ["Pizza"; "Sushi"] 100))]
           1 (vote_request_for 2 1 300) 900 eq_refl).
Defined.

(** ** Views of [poll_system] that cannot succeed, callers that cannot write *)

Lemma update_poll_always_fails pid req s :
  snd (PollSystem.update_poll pid req s) = s /\
  400 <= status (fst (PollSystem.update_poll pid req s)).
Proof.
  unfold PollSystem.update_poll, PollSystem.json_login_required.
  destruct (req_user req) as [u|] eqn:Hu; [|split; [reflexivity|cbn; lia]].
  destruct (req_method req); try (split; [reflexivity|cbn; lia]).
  unfold try_except, PollSystem.update_poll_body, mbind, request_user.
  rewrite Hu. cbn. split; [reflexivity|lia].
Qed.

(** X4. [delete_poll] and [update_poll] look the poll up by a field,
    [created_by], that the model does not have: a DELETE resp. PUT by any
    logged-in user, the creator included, is answered 500 with the
    query's [FieldError], and no request to either view is answered 200 or
    changes the store. *)
Theorem created_by_lookups_always_fail :
  forall pid s,
    (forall u body now,
       PollSystem.delete_poll pid (mkRequest DELETE (Some u) body now) s
       = (mkResponse 500 (Crash "" FieldError), s) /\
       PollSystem.update_poll pid (mkRequest PUT (Some u) body now) s
       = (mkResponse 500 (Crash "" FieldError), s)) /\
    (forall req,
       snd (PollSystem.delete_poll pid req s) = s /\
       400 <= status (fst (PollSystem.delete_poll pid req s)) /\
       snd (PollSystem.update_poll pid req s) = s /\
       400 <= status (fst (PollSystem.update_poll pid req s))).
Proof.
  intros pid s. split.
  - intros u body now. split; reflexivity.
  - intros req.
    destruct (delete_poll_always_fails pid req s) as [H1 H2].
    destruct (update_poll_always_fails pid req s) as [H3 H4]. auto.
Qed.



(** ** A poll of [poll_system] right after its creation *)


Lemma find_app_absent {A : Type} (f : A -> bool) (l l' : list A) :
  (forall x, In x l -> f x = false) -> find f (l ++ l') = find f l'.
Proof.
  induction l as [|x l IH]; cbn [app find]; intros H; [reflexivity|].
  rewrite (H x (or_introl eq_refl)). apply IH. intros y Hy. apply H. now right.
Qed.







(** ** Lists that the views of [poll_system] answer with *)

Lemma in_firstn {A : Type} (n : nat) (l : list A) (a : A) :
  In a (firstn n l) -> In a l.
Proof.
  intros H. rewrite <- (firstn_skipn n l). apply in_or_app. now left.
Qed.

Lemma popular_loop_spec (s : PollSystem.Store) ps :
  forall acc, PollSystem.popular_loop s ps acc = acc ++ map (popular_row s) ps.
Proof.
  induction ps as [|p ps IH]; intros acc; cbn [PollSystem.popular_loop map].
  - now rewrite app_nil_r.
  - rewrite IH, <- app_assoc. reflexivity.
Qed.

Lemma popular_polls_sorted_rows (s : PollSystem.Store) :
  PollSystem.popular_polls s
  = sort_desc PollSystem.pp_vote_count
      (map (popular_row s) (firstn 5 (PollSystem.Poll_objects_all s))).
Proof.
  unfold PollSystem.popular_polls. rewrite popular_loop_spec. cbn [app].
  apply firstn_all2.
  rewrite (Permutation_length (sort_desc_perm PollSystem.pp_vote_count _)).
  rewrite length_map. apply firstn_le_length.
Qed.

(** X7. On every store, the ['popular_polls'] of [analytics_data] are the
    rows of the (at most five) most recently created polls and of no other
    poll, whatever the votes of the older polls are; these rows are listed
    in descending order of their vote count. *)
Theorem popular_polls_are_the_newest_polls :
  forall s,
    let newest := firstn 5 (PollSystem.Poll_objects_all s) in
    Permutation (PollSystem.popular_polls s) (map (popular_row s) newest) /\
    descending PollSystem.pp_vote_count (PollSystem.popular_polls s) /\
    (forall kept left_out,
       In kept newest -> In left_out (PollSystem.polls s) -> ~ In left_out newest ->
       PollSystem.created_at left_out <= PollSystem.created_at kept) /\
    (forall u b now,
       let resp := fst (PollSystem.analytics_data (mkRequest GET u b now) s) in
       status resp = 200 /\
       option_map PollSystem.an_popular_polls (payload resp)
       = Some (PollSystem.popular_polls s)).
Proof.
  intros s newest. split; [|split; [|split]].
  - rewrite popular_polls_sorted_rows. apply sort_desc_perm.
  - rewrite popular_polls_sorted_rows. apply sort_desc_sorted.
  - intros kept left_out Hk Hl Hout.
    now apply (proj2 (top_n_dominates PollSystem.created_at 5 (PollSystem.polls s))).
  - intros u b now. split; reflexivity.
Qed.

Lemma ps_participation_rate_ok (v t : Z) :
  exists n, PollSystem.participation_rate v t = Ok n.
Proof.
  unfold PollSystem.participation_rate. destruct (0 <? t) eqn:E; [|eauto].
  rewrite (truediv_positive _ _ E). cbn [bind]. eauto.
Qed.

Lemma ps_top_polls_loop_rows (s : PollSystem.Store) l :
  forall acc, exists rows,
    PollSystem.top_polls_loop s l acc = Ok (acc ++ rows) /\
    map (fun r => (PollSystem.tp_id r, PollSystem.tp_title r, PollSystem.tp_vote_count r))
        rows
    = map (fun pv => (PollSystem.poll_id (fst pv), PollSystem.title (fst pv), snd pv)) l.
Proof.
  induction l as [|[p c] l IH]; intros acc; cbn [PollSystem.top_polls_loop].
  - exists []. now rewrite app_nil_r.
  - destruct (ps_participation_rate_ok c (count (PollSystem.users s))) as [n Hn].
    rewrite Hn. cbn [bind].
    destruct (IH (acc ++ [PollSystem.mkTopPollRow (PollSystem.poll_id p)
                            (PollSystem.title p) c n])) as (rows & Hrows & Hmap).
    eexists (_ :: rows). rewrite Hrows, <- app_assoc. split; [reflexivity|].
    cbn [map fst snd PollSystem.tp_id PollSystem.tp_title PollSystem.tp_vote_count].
    now rewrite Hmap.
Qed.

(** X8. [top_polls] answers every GET with 200 and one row per poll of
    its query, in the order of the query; the query returns at most ten
    polls, each with at least one vote and its vote total, in descending
    order of the totals, and no poll that it leaves out has more votes than
    a poll that it returns. *)
Theorem top_polls_lists_the_most_voted :
  forall s u b now,
    exists rows,
      PollSystem.top_polls (mkRequest GET u b now) s
      = (mkResponse 200 (Success rows), s) /\
      map (fun r => (PollSystem.tp_id r, PollSystem.tp_title r,
                     PollSystem.tp_vote_count r)) rows
      = map (fun pv => (PollSystem.poll_id (fst pv), PollSystem.title (fst pv), snd pv))
            (PollSystem.top_polls_query s) /\
      count rows <= 10 /\
      descending PollSystem.tp_vote_count rows /\
      (forall pv, In pv (PollSystem.top_polls_query s) ->
                  In (fst pv) (PollSystem.polls s) /\
                  snd pv = PollSystem.total_votes s (PollSystem.poll_id (fst pv)) /\
                  0 < snd pv) /\
      (forall returned left_out,
         In returned (PollSystem.top_polls_query s) ->
         In left_out (PollSystem.polls s) ->
         ~ In (left_out, PollSystem.total_votes s (PollSystem.poll_id left_out))
              (PollSystem.top_polls_query s) ->
         PollSystem.total_votes s (PollSystem.poll_id left_out) <= snd returned).
Proof.
  intros s u b now.
  destruct (ps_top_polls_loop_rows s (PollSystem.top_polls_query s) [])
    as (rows & Hrows & Hmap).
  cbn [app] in Hrows. exists rows.
  destruct (top_polls_query_dominates s) as [Hsorted Hdom].
  assert (Hlen : List.length rows = List.length (PollSystem.top_polls_query s)).
  { rewrite <- (length_map (fun r => (PollSystem.tp_id r, PollSystem.tp_title r,
                                       PollSystem.tp_vote_count r)) rows).
    now rewrite Hmap, length_map. }
  assert (Hcounts : map PollSystem.tp_vote_count rows
                    = map snd (PollSystem.top_polls_query s)).
  { apply (f_equal (map snd)) in Hmap. rewrite !map_map in Hmap. exact Hmap. }
  repeat split.
  - unfold PollSystem.top_polls, require_http_methods, try_except,
      PollSystem.top_polls_body, mbind, get_store, lift.
    cbn [req_method existsb method_eqb orb]. rewrite Hrows. reflexivity.
  - exact Hmap.
  - unfold count. rewrite Hlen. unfold PollSystem.top_polls_query.
    pose proof (firstn_le_length 10
                  (sort_desc snd (filter (fun pv => 0 <? snd pv)
                                    (PollSystem.annotate_vote_count s)))).
    lia.
  - unfold descending in *.
    assert (Hid : forall (l : list Z), StronglySorted (fun a b => b <= a) l ->
                  forall rs, map PollSystem.tp_vote_count rs = l ->
                  StronglySorted (fun a b => PollSystem.tp_vote_count b
                                             <= PollSystem.tp_vote_count a) rs).
    { induction 1 as [|a l Hl IH Ha]; intros [|r rs] Hrs; try discriminate Hrs;
        constructor; cbn [map] in Hrs; injection Hrs as Hr Hrs'.
      - now apply IH.
      - subst a l. rewrite Forall_map in Ha. exact Ha. }
    apply (Hid (map snd (PollSystem.top_polls_query s))); [|exact Hcounts].
    clear -Hsorted. induction Hsorted as [|a l Hl IH Ha]; cbn [map]; constructor.
    + exact IH.
    + rewrite Forall_map. exact Ha.
  - unfold PollSystem.top_polls_query in H.
    apply in_firstn in H.
    apply (Permutation_in _ (sort_desc_perm snd _)) in H.
    apply filter_In in H as [H _].
    unfold PollSystem.annotate_vote_count in H. apply in_map_iff in H as [p [<- Hp]].
    exact Hp.
  - unfold PollSystem.top_polls_query in H.
    apply in_firstn in H.
    apply (Permutation_in _ (sort_desc_perm snd _)) in H.
    apply filter_In in H as [H _].
    unfold PollSystem.annotate_vote_count in H. apply in_map_iff in H as [p [<- Hp]].
    reflexivity.
  - unfold PollSystem.top_polls_query in H.
    apply in_firstn in H.
    apply (Permutation_in _ (sort_desc_perm snd _)) in H.
    apply filter_In in H as [_ H]. now apply Z.ltb_lt.
  - intros returned left_out Hr Hl Hout.
    apply (Hdom returned (left_out, PollSystem.total_votes s (PollSystem.poll_id left_out)));
      [assumption | | assumption].
    unfold PollSystem.annotate_vote_count. apply in_map_iff. now exists left_out.
Qed.

Lemma serialize_each_summary (s : PollSystem.Store) ps :
  PollSystem.serialize_each ps false s = (Ok (map (poll_summary s) ps), s).
Proof.
  induction ps as [|p ps IH]; cbn [PollSystem.serialize_each map]; [reflexivity|].
  unfold mbind at 1. unfold PollSystem.serialize_poll at 1.
  unfold mbind at 1. cbn [get_store ret].
  unfold mbind. rewrite IH. reflexivity.
Qed.

Lemma serialize_each_full (s : PollSystem.Store) ps :
  PollSystem.serialize_each ps true s = (Ok (map (poll_json s) ps), s).
Proof.
  induction ps as [|p ps IH]; cbn [PollSystem.serialize_each map]; [reflexivity|].
  unfold mbind at 1. unfold PollSystem.serialize_poll at 1.
  unfold mbind at 1. cbn [get_store ret].
  unfold mbind. rewrite IH. reflexivity.
Qed.

Lemma Permutation_filter {A : Type} (q : A -> bool) (l l' : list A) :
  Permutation l l' -> Permutation (filter q l) (filter q l').
Proof.
  induction 1 as [|x l l' _ IH|x y l|l l' l'' _ IH1 _ IH2]; cbn [filter].
  - constructor.
  - destruct (q x); [now constructor|exact IH].
  - destruct (q x), (q y); try reflexivity. apply perm_swap.
  - now transitivity (filter q l').
Qed.

Lemma descending_filter {A : Type} (key : A -> Z) (q : A -> bool) (l : list A) :
  descending key l -> descending key (filter q l).
Proof.
  unfold descending. induction 1 as [|a l Hl IH Ha]; cbn [filter]; [constructor|].
  destruct (q a); [|exact IH]. constructor; [exact IH|].
  apply Forall_forall. intros b Hb. apply filter_In in Hb as [Hb _].
  rewrite Forall_forall in Ha. now apply Ha.
Qed.

(** X9. [api_polls] answers every GET, of anybody, with 200 and leaves the
    store alone; its list holds every poll of the table exactly once, the
    most recently created first, each with its current vote total and
    without its options, and ['count'] is the number of polls. *)
Theorem api_polls_lists_every_poll_once :
  forall s u b now,
    PollSystem.api_polls (mkRequest GET u b now) s
    = (mkResponse 200
         (Success (PollSystem.mkPollList
                     (map (poll_summary s) (PollSystem.Poll_objects_all s))
                     (count (PollSystem.polls s)))), s) /\
    Permutation (PollSystem.Poll_objects_all s) (PollSystem.polls s) /\
    descending PollSystem.created_at (PollSystem.Poll_objects_all s).
Proof.
  intros s u b now. split; [|split].
  - unfold PollSystem.api_polls, require_http_methods, try_except, mbind at 1.
    cbn [req_method existsb method_eqb orb get_store].
    unfold mbind. rewrite serialize_each_summary. cbn [ret].
    do 4 f_equal. unfold count, PollSystem.Poll_objects_all. rewrite length_map.
    now rewrite (Permutation_length (sort_desc_perm PollSystem.created_at _)).
  - apply sort_desc_perm.
  - apply sort_desc_sorted.
Qed.

Lemma serialize_options_spec (s : PollSystem.Store) os :
  forall i acc,
    let r := PollSystem.serialize_options s i os acc in
    map PollSystem.oj_id r = map PollSystem.oj_id acc ++ map PollSystem.option_id os /\
    map PollSystem.oj_text r = map PollSystem.oj_text acc ++ map PollSystem.text os /\
    map PollSystem.oj_vote_count r
    = map PollSystem.oj_vote_count acc
      ++ map (fun o => PollSystem.vote_count s (PollSystem.option_id o)) os /\
    map PollSystem.oj_order r
    = map PollSystem.oj_order acc
      ++ map (fun n => i + Z.of_nat n) (seq 0 (List.length os)).
Proof.
  induction os as [|o os IH]; intros i acc; cbn [PollSystem.serialize_options].
  - cbn [map List.length seq]. now rewrite !app_nil_r.
  - cbv zeta in *. destruct (IH (i + 1) (acc ++ [PollSystem.mkOptionJson
                        (PollSystem.option_id o) (PollSystem.text o)
                        (PollSystem.vote_count s (PollSystem.option_id o)) i
                        (PollSystem.option_created_at o)]))
      as (H1 & H2 & H3 & H4).
    rewrite H1, H2, H3, H4. rewrite !map_app, <- !app_assoc. cbn [map app List.length seq].
    repeat split. f_equal. cbn [PollSystem.oj_order]. f_equal; [cbn; lia|].
    rewrite <- seq_shift, map_map. apply map_ext. intros n.
    rewrite Nat2Z.inj_succ. lia.
Qed.

(** X10. [api_my_polls] answers a GET of a logged-in user with 200 and
    leaves the store alone; its list holds the polls created by the caller,
    each exactly once and no poll of anybody else, the most recently
    created first, and every entry carries the options of its poll in table
    order, numbered from 0, with their vote counts. *)
Theorem api_my_polls_lists_the_callers_polls :
  forall s u b now,
    let mine := PollSystem.polls_of_creator s u in
    PollSystem.api_my_polls (mkRequest GET (Some u) b now) s
    = (mkResponse 200
         (Success (PollSystem.mkPollList (map (poll_json s) mine) (count mine))), s) /\
    Permutation mine
      (filter (fun p => PollSystem.creator p =? u) (PollSystem.polls s)) /\
    descending PollSystem.created_at mine /\
    (forall p,
       let os := PollSystem.poll_options s (PollSystem.poll_id p) in
       exists entries,
         PollSystem.pj_options (poll_json s p) = Some entries /\
         map PollSystem.oj_id entries = map PollSystem.option_id os /\
         map PollSystem.oj_text entries = map PollSystem.text os /\
         map PollSystem.oj_vote_count entries
         = map (fun o => PollSystem.vote_count s (PollSystem.option_id o)) os /\
         map PollSystem.oj_order entries = positions (List.length os)).
Proof.
  intros s u b now mine. split; [|split; [|split]].
  - unfold PollSystem.api_my_polls, PollSystem.json_login_required,
      require_http_methods, try_except, mbind at 1.
    cbn [req_user req_method existsb method_eqb orb get_store].
    unfold mbind at 1. unfold request_user. cbn [req_user ret].
    unfold mbind. rewrite serialize_each_full. cbn [ret].
    do 4 f_equal. unfold count. now rewrite length_map.
  - apply Permutation_filter, sort_desc_perm.
  - apply descending_filter, sort_desc_sorted.
  - intros p os. eexists. split; [reflexivity|].
    destruct (serialize_options_spec s os 0 []) as (H1 & H2 & H3 & H4).
    cbn [map app] in *. repeat split; assumption.
Qed.

(** ** Primary keys of [poll_system] *)

Lemma keys_wf_empty us : keys_wf (PollSystem.empty_store us).
Proof. split; constructor. Qed.

Lemma option_rows_ids_nodup pid texts now :
  forall next, NoDup (map PollSystem.option_id (option_rows next pid texts now)).
Proof.
  induction texts as [|t texts IH]; intros next; cbn [option_rows map].
  - constructor.
  - constructor; [|apply IH].
    cbn [PollSystem.option_id]. intros Hin.
    apply in_map_iff in Hin as [o [Ho Hin]].
    apply option_rows_spec in Hin as [Hge _]. lia.
Qed.

Lemma options_with_rows_nodup (os : list PollSystem.PollOption) next pid texts now :
  NoDup (map PollSystem.option_id os) ->
  (forall o, In o os -> PollSystem.option_id o < next) ->
  NoDup (map PollSystem.option_id (os ++ option_rows next pid texts now)).
Proof.
  intros Hnd Hlt. rewrite map_app. apply NoDup_app.
  - exact Hnd.
  - apply option_rows_ids_nodup.
  - intros a Ha Hb.
    apply in_map_iff in Ha as [o [<- Ho]].
    apply in_map_iff in Hb as [o' [Heq Ho']].
    apply option_rows_spec in Ho' as [Hge _]. specialize (Hlt o Ho). lia.
Qed.

Lemma after_create_keys parse s u data now :
  store_wf s -> keys_wf s -> keys_wf (after_create parse s u data now).
Proof.
  intros H [Hp Ho]. split.
  - rewrite after_create_polls, map_app. apply NoDup_snoc; [exact Hp|].
    cbn [map new_poll PollSystem.poll_id]. intros Hin.
    apply in_map_iff in Hin as [p [Heq Hin]].
    pose proof (wf_polls s H p Hin). lia.
  - rewrite after_create_options. apply options_with_rows_nodup; [exact Ho|].
    intros o Hin. now apply (wf_options s H).
Qed.

(** [vote_poll] writes to the [Vote] table only. *)
Lemma vote_poll_keeps_tables pid req s :
  PollSystem.polls (snd (PollSystem.vote_poll pid req s)) = PollSystem.polls s /\
  PollSystem.options (snd (PollSystem.vote_poll pid req s)) = PollSystem.options s.
Proof.
  set (P := fun s' => PollSystem.polls s' = PollSystem.polls s /\
                      PollSystem.options s' = PollSystem.options s).
  assert (H : P s) by (split; reflexivity).
  change (P (snd (PollSystem.vote_poll pid req s))).
  assert (Hcreate : forall p o u n, preserves P (PollSystem.Vote_objects_create p o u n)).
  { intros p o u n s' Hs'. unfold PollSystem.Vote_objects_create.
    destruct (PollSystem.unique_together_clash _ _ _ _); exact Hs'. }
  assert (Hsave : forall v, preserves P (PollSystem.Vote_save v)).
  { intros v s' Hs'. unfold PollSystem.Vote_save.
    destruct (PollSystem.unique_together_clash _ _ _ _); exact Hs'. }
  unfold PollSystem.vote_poll, PollSystem.json_login_required.
  destruct (req_user req); [|exact H].
  apply require_http_methods_keeps; [|exact H].
  intros _. apply try_except_keeps; [|exact H].
  unfold PollSystem.vote_poll_body. cbv zeta.
  repeat first [ preserve_step | apply Hcreate | apply Hsave
               | apply serialize_poll_keeps ].
Qed.

Lemma after_update_polls s poll data now :
  PollSystem.polls (after_update s poll data now)
  = map (fun q => if PollSystem.poll_id q =? PollSystem.poll_id poll
                  then updated_poll poll data else q) (PollSystem.polls s).
Proof.
  unfold after_update.
  destruct (create_options_effect (PollSystem.poll_id poll)
              (get_default (body_options data) []) now
              (snd (PollSystem.delete_options (PollSystem.poll_id poll)
                      (snd (PollSystem.Poll_save (updated_poll poll data) s)))))
    as (_ & Hp & _).
  rewrite Hp. reflexivity.
Qed.

Lemma after_update_keys s poll data now :
  store_wf s -> keys_wf s -> keys_wf (after_update s poll data now).
Proof.
  intros H [Hp Ho]. split.
  - rewrite after_update_polls.
    rewrite (replace_ids PollSystem.poll_id (updated_poll poll data)). exact Hp.
  - rewrite after_update_options. apply options_with_rows_nodup.
    + now apply NoDup_map_filter.
    + intros o Hin. apply filter_In in Hin as [Hin _]. now apply (wf_options s H).
Qed.

Lemma Poll_delete_keys pid s :
  keys_wf s -> keys_wf (snd (PollSystem.Poll_delete pid s)).
Proof.
  intros [Hp Ho].
  split; cbn [PollSystem.Poll_delete snd PollSystem.polls PollSystem.options];
    now apply NoDup_map_filter.
Qed.

Lemma step_keys parse o s :
  store_wf s -> keys_wf s -> keys_wf (PollSystem.step parse o s).
Proof.
  intros H K. destruct o; cbn [PollSystem.step].
  - destruct (create_poll_store parse req s) as [->|(u & data & ->)];
      [exact K | now apply after_create_keys].
  - destruct (vote_poll_keeps_tables poll_id req s) as [Hp Ho].
    destruct K as [Kp Ko]. split; [now rewrite Hp | now rewrite Ho].
  - destruct (poll_detail_cases poll_id req s)
      as [[-> _]|[(u & poll & data & Hm & Hu & Hf & Hc & Hb & Hn)
                 |(u & poll & Hm & Hu & Hf & Hc)]].
    + exact K.
    + rewrite (poll_detail_put_accepts poll_id req s u poll data) by assumption.
      now apply after_update_keys.
    + rewrite (poll_detail_delete_accepts poll_id req s u poll) by assumption.
      now apply Poll_delete_keys.
  - destruct (edit_poll_store poll_id req s) as [->|(poll & p' & Hin & Hid & ->)];
      [exact K|].
    destruct K as [Kp Ko]. split; [|exact Ko].
    cbn [PollSystem.Poll_save snd PollSystem.set_polls PollSystem.polls].
    now rewrite (replace_ids PollSystem.poll_id p').
  - now rewrite (proj1 (delete_poll_always_fails poll_id req s)).
Qed.

Lemma run_keys parse ops :
  forall s, store_wf s -> keys_wf s ->
            store_wf (PollSystem.run parse ops s) /\ keys_wf (PollSystem.run parse ops s).
Proof.
  unfold PollSystem.run.
  induction ops as [|o ops IH]; intros s H K; cbn [fold_left]; [now split|].
  apply IH; [now apply step_wf | now apply step_keys].
Qed.

Lemma reachable_keys parse us ops :
  keys_wf (PollSystem.run parse ops (PollSystem.empty_store us)).
Proof. apply run_keys; [apply store_wf_empty | apply keys_wf_empty]. Qed.

(** ** Votes per option and votes per poll *)

Lemma sum_counts_cons {A B : Type} (q : B -> A -> bool) (v : A) (l : list A)
  (os : list B) :
  sumZ (map (fun o => count (filter (q o) (v :: l))) os)
  = sumZ (map (fun o => Z.b2z (q o v)) os)
    + sumZ (map (fun o => count (filter (q o) l)) os).
Proof.
  induction os as [|o os IH]; cbn [map sumZ fold_right]; [reflexivity|].
  fold (sumZ (map (fun o => count (filter (q o) (v :: l))) os)).
  fold (sumZ (map (fun o => Z.b2z (q o v)) os)).
  fold (sumZ (map (fun o => count (filter (q o) l)) os)).
  rewrite IH, count_filter_cons. lia.
Qed.

Lemma sum_hits_nodup {B : Type} (id : B -> Z) (x : Z) (os : list B) :
  NoDup (map id os) ->
  sumZ (map (fun o => Z.b2z (x =? id o)) os) = Z.b2z (existsb (fun o => x =? id o) os).
Proof.
  induction os as [|o os IH]; cbn [map sumZ fold_right existsb]; intros Hnd;
    [reflexivity|].
  inversion Hnd as [|? ? Hn Hl]; subst.
  fold (sumZ (map (fun o => Z.b2z (x =? id o)) os)). rewrite IH by assumption.
  destruct (x =? id o) eqn:E; cbn [orb Z.b2z]; [|lia].
  apply Z.eqb_eq in E. subst x.
  replace (existsb (fun o' => id o =? id o') os) with false; [reflexivity|].
  symmetry. apply not_true_iff_false. intros Hex.
  apply existsb_exists in Hex as [o' [Ho' Heq]]. apply Z.eqb_eq in Heq.
  apply Hn. rewrite Heq. now apply in_map.
Qed.

(** In a well-formed store with distinct option keys, the option of a vote
    is an option of a poll exactly when the vote is a vote on that poll. *)
Lemma vote_option_in_poll (s : PollSystem.Store) pid v :
  store_wf s -> keys_wf s -> In v (PollSystem.votes s) ->
  existsb (fun o => PollSystem.v_option v =? PollSystem.option_id o)
          (PollSystem.poll_options s pid)
  = (PollSystem.v_poll v =? pid).
Proof.
  intros H [_ Ko] Hv.
  destruct (wf_refs s H v Hv) as (o & Ho & Hid & Hpoll).
  destruct (PollSystem.v_poll v =? pid) eqn:E.
  - apply Z.eqb_eq in E. apply existsb_exists. exists o. split.
    + apply filter_In. split; [exact Ho|]. apply Z.eqb_eq. congruence.
    + apply Z.eqb_eq. now symmetry.
  - apply not_true_iff_false. intros Hex.
    apply existsb_exists in Hex as [o' [Ho' Heq]]. apply Z.eqb_eq in Heq.
    apply filter_In in Ho' as [Ho' Hp']. apply Z.eqb_eq in Hp'.
    assert (o' = o).
    { apply (same_key_same_row PollSystem.option_id (PollSystem.options s));
        try assumption. congruence. }
    subst o'. apply Z.eqb_neq in E. congruence.
Qed.

Lemma option_counts_add_up_on (s : PollSystem.Store) pid :
  store_wf s -> keys_wf s ->
  forall l, incl l (PollSystem.votes s) ->
    sumZ (map (fun o =>
                count (filter (fun v => PollSystem.v_option v =? PollSystem.option_id o) l))
             (PollSystem.poll_options s pid))
    = count (filter (fun v => PollSystem.v_poll v =? pid) l).
Proof.
  intros H K.
  assert (Hos : NoDup (map PollSystem.option_id (PollSystem.poll_options s pid)))
    by (apply NoDup_map_filter, (wf_option_ids s K)).
  induction l as [|v l IH]; intros Hall.
  - cbn [filter]. induction (PollSystem.poll_options s pid) as [|o os IHos];
      cbn [map sumZ fold_right]; [reflexivity|].
    fold (sumZ (map (fun _ : PollSystem.PollOption => count (@nil PollSystem.Vote)) os)).
    rewrite IHos; [reflexivity|]. cbn [map] in Hos. now inversion Hos.
  - rewrite (sum_counts_cons (fun o w => PollSystem.v_option w =? PollSystem.option_id o)).
    rewrite IH by (intros w Hw; apply Hall; now right).
    rewrite (sum_hits_nodup PollSystem.option_id) by assumption.
    rewrite (vote_option_in_poll s pid v H K) by (apply Hall; now left).
    rewrite count_filter_cons. reflexivity.
Qed.

Lemma option_counts_add_up (s : PollSystem.Store) pid :
  store_wf s -> keys_wf s ->
  sumZ (map (fun o => PollSystem.vote_count s (PollSystem.option_id o))
           (PollSystem.poll_options s pid))
  = PollSystem.total_votes s pid.
Proof.
  intros H K. apply (option_counts_add_up_on s pid H K). apply incl_refl.
Qed.

(** X11. In every store reached by served requests, the vote counts of
    the options of a poll add up to the total of the poll, in the table and
    in the document of [poll_results]: every vote on a poll is a vote for
    exactly one of its options. *)
Theorem option_counts_add_up_to_the_total :
  forall parse us ops pid,
    let s := PollSystem.run parse ops (PollSystem.empty_store us) in
    sumZ (map (fun o => PollSystem.vote_count s (PollSystem.option_id o))
             (PollSystem.poll_options s pid))
    = PollSystem.total_votes s pid /\
    (forall u b now,
       let resp := fst (PollSystem.poll_results pid (mkRequest GET u b now) s) in
       PollSystem.find_poll s pid <> None ->
       option_map (fun d => sumZ (map PollSystem.rr_vote_count (PollSystem.rj_options d)))
                  (payload resp)
       = option_map PollSystem.rj_total_votes (payload resp)).
Proof.
  intros parse us ops pid s.
  pose proof (option_counts_add_up s pid (reachable_wf parse us ops)
                (reachable_keys parse us ops)) as Hsum.
  split; [exact Hsum|].
  intros u b now resp Hp. subst resp.
  destruct (ps_poll_results_get s pid u b now Hp) as [d ->].
  cbn [fst payload content option_map PollSystem.rj_options PollSystem.rj_total_votes].
  f_equal. rewrite map_map. cbn [PollSystem.rr_vote_count]. exact Hsum.
Qed.

(** ** What [poll_detail] and [edit_poll] leave alone *)

Lemma find_map_fix {A : Type} (f : A -> bool) (g : A -> A) (l : list A) :
  (forall w, In w l -> f (g w) = f w /\ (f w = true -> g w = w)) ->
  find f (map g l) = find f l.
Proof.
  induction l as [|w l IH]; cbn [map find]; intros H; [reflexivity|].
  destruct (H w (or_introl eq_refl)) as [Hf Hg]. rewrite Hf.
  destruct (f w); [now rewrite Hg|].
  apply IH. intros x Hx. apply H. now right.
Qed.

Lemma find_filter_implied {A : Type} (f g : A -> bool) (l : list A) :
  (forall x, In x l -> f x = true -> g x = true) ->
  find f (filter g l) = find f l.
Proof.
  induction l as [|x l IH]; cbn [filter find]; intros H; [reflexivity|].
  assert (IH' : find f (filter g l) = find f l)
    by (apply IH; intros y Hy; apply H; now right).
  destruct (g x) eqn:Eg; cbn [find].
  - now rewrite IH'.
  - destruct (f x) eqn:Ef; [|exact IH'].
    rewrite (H x (or_introl eq_refl) Ef) in Eg. discriminate Eg.
Qed.

Lemma filter_filter_implied {A : Type} (f g : A -> bool) (l : list A) :
  (forall x, In x l -> f x = true -> g x = true) ->
  filter f (filter g l) = filter f l.
Proof.
  induction l as [|x l IH]; cbn [filter]; intros H; [reflexivity|].
  assert (IH' : filter f (filter g l) = filter f l)
    by (apply IH; intros y Hy; apply H; now right).
  destruct (g x) eqn:Eg; cbn [filter].
  - now rewrite IH'.
  - destruct (f x) eqn:Ef; [|exact IH'].
    rewrite (H x (or_introl eq_refl) Ef) in Eg. discriminate Eg.
Qed.

Lemma existsb_map_comp {A B : Type} (f : B -> bool) (g : A -> B) (l : list A) :
  existsb f (map g l) = existsb (fun a => f (g a)) l.
Proof.
  induction l as [|a l IH]; cbn [map existsb]; [reflexivity|]. now rewrite IH.
Qed.

(** In a well-formed store with distinct option keys, the votes that the
    deletion of the options of a poll carries away are the votes on that
    poll. *)
Lemma doomed_votes_are_votes_on_the_poll (s : PollSystem.Store) pid v :
  store_wf s -> keys_wf s -> In v (PollSystem.votes s) ->
  existsb (Z.eqb (PollSystem.v_option v))
          (map PollSystem.option_id (PollSystem.poll_options s pid))
  = (PollSystem.v_poll v =? pid).
Proof.
  intros H K Hv. rewrite existsb_map_comp. now apply vote_option_in_poll.
Qed.

Lemma after_update_frame s poll data now other :
  store_wf s -> keys_wf s -> other <> PollSystem.poll_id poll ->
  let s' := after_update s poll data now in
  PollSystem.find_poll s' other = PollSystem.find_poll s other /\
  PollSystem.poll_options s' other = PollSystem.poll_options s other /\
  PollSystem.votes_of_poll s' other = PollSystem.votes_of_poll s other.
Proof.
  intros H K Hne s'. subst s'. repeat split.
  - unfold PollSystem.find_poll. rewrite after_update_polls.
    apply find_map_fix. intros w _.
    destruct (PollSystem.poll_id w =? PollSystem.poll_id poll) eqn:E; [|now split].
    apply Z.eqb_eq in E. cbn [updated_poll PollSystem.poll_id]. rewrite E.
    apply Z.eqb_neq in Hne. rewrite Z.eqb_sym, Hne. split; [reflexivity|discriminate].
  - unfold PollSystem.poll_options. rewrite after_update_options, filter_app.
    rewrite filter_filter_implied.
    + rewrite (filter_none _ (option_rows _ _ _ _)); [apply app_nil_r|].
      intros o Ho. apply option_rows_spec in Ho as [_ Hp]. apply Z.eqb_neq. congruence.
    + intros o _ Ho. apply Z.eqb_eq in Ho. apply negb_true_iff, Z.eqb_neq. congruence.
  - unfold PollSystem.votes_of_poll. rewrite after_update_votes.
    apply filter_filter_implied. intros v Hv Hp. apply Z.eqb_eq in Hp.
    rewrite (doomed_votes_are_votes_on_the_poll s _ v H K Hv).
    apply negb_true_iff, Z.eqb_neq. congruence.
Qed.

Lemma Poll_delete_frame s pid other :
  store_wf s -> keys_wf s -> other <> pid ->
  let s' := snd (PollSystem.Poll_delete pid s) in
  PollSystem.find_poll s' other = PollSystem.find_poll s other /\
  PollSystem.poll_options s' other = PollSystem.poll_options s other /\
  PollSystem.votes_of_poll s' other = PollSystem.votes_of_poll s other.
Proof.
  intros H K Hne s'. subst s'.
  unfold PollSystem.find_poll, PollSystem.poll_options, PollSystem.votes_of_poll.
  cbn [PollSystem.Poll_delete snd PollSystem.polls PollSystem.options PollSystem.votes].
  repeat split.
  - apply find_filter_implied. intros p _ Hp. apply Z.eqb_eq in Hp.
    apply negb_true_iff, Z.eqb_neq. congruence.
  - apply filter_filter_implied. intros o _ Ho. apply Z.eqb_eq in Ho.
    apply negb_true_iff, Z.eqb_neq. congruence.
  - apply filter_filter_implied. intros v Hv Hp. apply Z.eqb_eq in Hp.
    rewrite (doomed_votes_are_votes_on_the_poll s _ v H K Hv).
    assert (E : (PollSystem.v_poll v =? pid) = false) by (apply Z.eqb_neq; congruence).
    now rewrite E.
Qed.

(** X12. In every store reached by served requests, a request to
    [poll_detail] for one poll, whatever it is and however it is answered,
    leaves every other poll as it was: its row, its options and its votes.
    The options that a PUT deletes and the votes that go with them are those
    of the poll of the request only. *)
Theorem poll_detail_touches_one_poll :
  forall parse us ops pid req other,
    let s := PollSystem.run parse ops (PollSystem.empty_store us) in
    let s' := snd (PollSystem.poll_detail pid req s) in
    other <> pid ->
    PollSystem.find_poll s' other = PollSystem.find_poll s other /\
    PollSystem.poll_options s' other = PollSystem.poll_options s other /\
    PollSystem.votes_of_poll s' other = PollSystem.votes_of_poll s other.
Proof.
  intros parse us ops pid req other s s' Hne. subst s'.
  assert (H : store_wf s) by apply reachable_wf.
  assert (K : keys_wf s) by apply reachable_keys.
  destruct (poll_detail_cases pid req s)
    as [[-> _]|[(u & poll & data & Hm & Hu & Hf & Hc & Hb & Hn)
               |(u & poll & Hm & Hu & Hf & Hc)]].
  - repeat split.
  - rewrite (poll_detail_put_accepts pid req s u poll data) by assumption.
    cbn [snd]. apply after_update_frame; try assumption.
    now rewrite (ps_find_poll_id _ _ _ Hf).
  - rewrite (poll_detail_delete_accepts pid req s u poll) by assumption.
    cbn [snd]. rewrite (ps_find_poll_id _ _ _ Hf). now apply Poll_delete_frame.
Qed.

Lemma poll_detail_touches_one_poll_witness :
  let s := PollSystem.run no_expiry
             [PollSystem.CreatePoll (create_request 1 "Lunch?" ["Pizza"; "Sushi"] 100);
              PollSystem.CreatePoll (create_request 1 "Dinner?" ["Pasta"; "Curry"] 200);
              PollSystem.VotePoll 2 (vote_request_for 2 3 300)]
             (PollSystem.empty_store [PollSystem.mkUser 1 "ann"; PollSystem.mkUser 2 "bob"]) in
  let s' := snd (PollSystem.poll_detail 1 (mkRequest DELETE (Some 1) None 400) s) in
  PollSystem.find_poll s' 2 = PollSystem.find_poll s 2 /\
  PollSystem.poll_options s' 2 = PollSystem.poll_options s 2 /\
  PollSystem.votes_of_poll s' 2 = PollSystem.votes_of_poll s 2.
Proof.
  apply (poll_detail_touches_one_poll no_expiry
           [PollSystem.mkUser 1 "ann"; PollSystem.mkUser 2 "bob"]
           [PollSystem.CreatePoll (create_request 1 "Lunch?" ["Pizza"; "Sushi"] 100);
            PollSystem.CreatePoll (create_request 1 "Dinner?" ["Pasta"; "Curry"] 200);
            PollSystem.VotePoll 2 (vote_request_for 2 3 300)]
           1 (mkRequest DELETE (Some 1) None 400) 2).
  discriminate.
Defined.

Lemma poll_detail_delete_inv pid u body now s :
  status (fst (PollSystem.poll_detail pid (mkRequest DELETE (Some u) body now) s)) = 200 ->
  exists poll, PollSystem.find_poll s pid = Some poll /\ PollSystem.creator poll = u.
Proof.
  unfold PollSystem.poll_detail, require_http_methods, try_except,
    PollSystem.poll_detail_body, mbind, get_store.
  cbn [req_method existsb method_eqb orb].
  destruct (PollSystem.find_poll s pid) as [poll|]; [|discriminate].
  cbn [get_object_or_404 ret req_method]. unfold PollSystem.not_creator.
  cbn [req_user].
  destruct (PollSystem.creator poll =? u) eqn:E; cbn [negb]; [|discriminate].
  intros _. exists poll. split; [reflexivity|]. now apply Z.eqb_eq.
Qed.

(** X13. On every store, a DELETE on [poll_detail] that is answered 200
    was sent by the creator of the poll and removes the poll with everything
    that hangs on it: afterwards the poll is not found, it has no option and
    no vote, and no vote for one of its former options is left. *)
Theorem poll_detail_delete_removes_the_poll :
  forall s pid u body now,
    let r := PollSystem.poll_detail pid (mkRequest DELETE (Some u) body now) s in
    status (fst r) = 200 ->
    (exists poll, PollSystem.find_poll s pid = Some poll /\ PollSystem.creator poll = u) /\
    PollSystem.find_poll (snd r) pid = None /\
    PollSystem.poll_options (snd r) pid = [] /\
    PollSystem.votes_of_poll (snd r) pid = [] /\
    (forall o, In o (PollSystem.poll_options s pid) ->
               PollSystem.votes_of_option (snd r) (PollSystem.option_id o) = []).
Proof.
  intros s pid u body now r H200.
  destruct (poll_detail_delete_inv pid u body now s H200) as (poll & Hf & Hc).
  split; [now exists poll|].
  subst r.
  rewrite (poll_detail_delete_accepts pid (mkRequest DELETE (Some u) body now) s u poll
             eq_refl eq_refl Hf Hc).
  cbn [snd]. rewrite (ps_find_poll_id _ _ _ Hf).
  unfold PollSystem.find_poll, PollSystem.poll_options, PollSystem.votes_of_poll,
    PollSystem.votes_of_option.
  cbn [PollSystem.Poll_delete snd PollSystem.polls PollSystem.options PollSystem.votes].
  repeat split.
  - apply find_all_false. intros p Hp. apply filter_In in Hp as [_ Hp].
    now apply negb_true_iff in Hp.
  - apply filter_none. intros o Ho. apply filter_In in Ho as [_ Ho].
    now apply negb_true_iff in Ho.
  - apply filter_none. intros v Hv. apply filter_In in Hv as [_ Hv].
    apply andb_true_iff in Hv as [Hv _]. now apply negb_true_iff in Hv.
  - intros o Ho. apply filter_none. intros v Hv. apply filter_In in Hv as [Hin Hv].
    apply andb_true_iff in Hv as [_ Hv]. apply negb_true_iff in Hv.
    apply Z.eqb_neq. intros Heq.
    assert (Hex : existsb (Z.eqb (PollSystem.v_option v))
                    (map PollSystem.option_id (PollSystem.poll_options s pid)) = true).
    { apply existsb_exists. exists (PollSystem.option_id o). split.
      - now apply in_map.
      - now apply Z.eqb_eq. }
    rewrite Hex in Hv. discriminate Hv.
Qed.

Lemma poll_detail_delete_removes_the_poll_witness :
  let s := PollSystem.run no_expiry lunch_with_a_vote
             (PollSystem.empty_store [PollSystem.mkUser 1 "ann"; PollSystem.mkUser 2 "bob"]) in
  let r := PollSystem.poll_detail 1 (mkRequest DELETE (Some 1) None 400) s in
  PollSystem.votes_of_poll s 1 <> [] /\ PollSystem.votes_of_poll (snd r) 1 = [].
Proof.
  split; [discriminate|].
  exact (proj1 (proj2 (proj2 (proj2
           (poll_detail_delete_removes_the_poll
              (PollSystem.run no_expiry lunch_with_a_vote
                 (PollSystem.empty_store
                    [PollSystem.mkUser 1 "ann"; PollSystem.mkUser 2 "bob"]))
              1 1 None 400 eq_refl))))).
Defined.

(** ** What [edit_poll] changes *)

Lemma find_stronger {A : Type} (f g : A -> bool) (l : list A) (x : A) :
  find f l = Some x -> g x = true -> (forall y, g y = true -> f y = true) ->
  find g l = Some x.
Proof.
  induction l as [|y l IH]; cbn [find]; intros Hf Hg Himp; [discriminate Hf|].
  destruct (f y) eqn:Ef.
  - injection Hf as ->. now rewrite Hg.
  - destruct (g y) eqn:Eg; [|now apply IH].
    rewrite (Himp y Eg) in Ef. discriminate Ef.
Qed.

Lemma find_map_same_test {A : Type} (f : A -> bool) (g : A -> A) (l : list A) (x : A) :
  (forall w, f (g w) = f w) -> find f l = Some x -> find f (map g l) = Some (g x).
Proof.
  intros Hfg. induction l as [|w l IH]; cbn [map find]; [discriminate|].
  rewrite Hfg. destruct (f w); [|exact IH]. intros H. now injection H as ->.
Qed.

Lemma edit_poll_accepts pid req s u poll data :
  req_user req = Some u -> req_method req = PUT -> req_body req = Some data ->
  PollSystem.find_poll_of_creator s pid u = Some poll ->
  PollSystem.edit_poll pid req s =
  if truthy (strip (get_default (body_title data) ""))
  then (mkResponse 200
          (Success
             (PollSystem.mkAck (Some "Poll updated successfully!")
                (Some (poll_json (snd (PollSystem.Poll_save (edited_poll poll data) s))
                                 (edited_poll poll data))))),
        snd (PollSystem.Poll_save (edited_poll poll data) s))
  else (mkResponse 400 (Failure "Poll title is required"), s).
Proof.
  intros Hu Hm Hb Hf.
  unfold PollSystem.edit_poll, PollSystem.json_login_required. rewrite Hu.
  unfold require_http_methods. rewrite Hm. cbn [existsb method_eqb orb].
  unfold try_except, PollSystem.edit_poll_body, mbind, get_store, request_user,
    json_loads.
  rewrite Hu. cbn [ret]. rewrite Hf. cbn [get_object_or_404 ret]. rewrite Hb.
  cbn [ret]. cbv zeta.
  destruct (truthy (strip (get_default (body_title data) ""))); reflexivity.
Qed.

Lemma edit_poll_effect pid req s :
  snd (PollSystem.edit_poll pid req s) = s \/
  exists u poll data,
    PollSystem.find_poll_of_creator s pid u = Some poll /\
    snd (PollSystem.edit_poll pid req s)
    = snd (PollSystem.Poll_save (edited_poll poll data) s).
Proof.
  destruct (req_user req) as [u|] eqn:Hu.
  2:{ left. unfold PollSystem.edit_poll, PollSystem.json_login_required.
      now rewrite Hu. }
  destruct (PollSystem.find_poll_of_creator s pid u) as [poll|] eqn:Hf.
  2:{ left. now rewrite (edit_poll_not_found pid req s u). }
  destruct (method_eqb (req_method req) PUT) eqn:Hm.
  2:{ left. unfold PollSystem.edit_poll, PollSystem.json_login_required,
        require_http_methods.
      rewrite Hu. cbn [existsb]. now rewrite Hm. }
  assert (Hm' : req_method req = PUT) by (destruct (req_method req); easy).
  destruct (req_body req) as [data|] eqn:Hb.
  2:{ left. unfold PollSystem.edit_poll, PollSystem.json_login_required,
        require_http_methods, try_except, PollSystem.edit_poll_body, mbind,
        get_store, request_user, json_loads.
      rewrite Hu, Hm'. cbn [existsb method_eqb orb ret]. rewrite Hf.
      cbn [get_object_or_404 ret]. now rewrite Hb. }
  rewrite (edit_poll_accepts pid req s u poll data Hu Hm' Hb Hf).
  destruct (truthy _); [|now left].
  right. now exists u, poll, data.
Qed.

(** X14. In every store reached by served requests, [edit_poll] can
    change the title, the description and the category of the poll of the
    request and nothing else: options and votes stay as they are, no poll
    changes its key, creator, dates or activity, and every other poll is
    found as before.  A PUT of the creator with a non-blank title is
    answered 200 and replaces all three fields by the stripped values of
    the request, the empty string standing for an absent one; with a blank
    title it is answered 400 and changes nothing. *)
Theorem edit_poll_changes_three_fields :
  forall parse us ops pid,
    let s := PollSystem.run parse ops (PollSystem.empty_store us) in
    (forall req,
       let s' := snd (PollSystem.edit_poll pid req s) in
       PollSystem.options s' = PollSystem.options s /\
       PollSystem.votes s' = PollSystem.votes s /\
       map fixed_fields (PollSystem.polls s') = map fixed_fields (PollSystem.polls s) /\
       (forall other, other <> pid ->
          PollSystem.find_poll s' other = PollSystem.find_poll s other)) /\
    (forall poll data now,
       let r := PollSystem.edit_poll pid
                  (mkRequest PUT (Some (PollSystem.creator poll)) (Some data) now) s in
       PollSystem.find_poll s pid = Some poll ->
       if truthy (strip (get_default (body_title data) ""))
       then status (fst r) = 200 /\
            PollSystem.find_poll (snd r) pid = Some (edited_poll poll data)
       else status (fst r) = 400 /\ snd r = s).
Proof.
  intros parse us ops pid s.
  assert (K : keys_wf s) by apply reachable_keys.
  split.
  - intros req s'. subst s'.
    destruct (edit_poll_effect pid req s) as [->|(u & poll & data & Hf & ->)].
    { repeat split. }
    destruct (ps_find_poll_of_creator_spec _ _ _ _ Hf) as (Hin & Hid & Hc).
    cbn [PollSystem.Poll_save snd PollSystem.set_polls PollSystem.polls
         PollSystem.options PollSystem.votes].
    repeat split.
    + rewrite map_map. apply map_ext_in. intros w Hw.
      cbn [edited_poll PollSystem.poll_id].
      destruct (PollSystem.poll_id w =? PollSystem.poll_id poll) eqn:E; [|reflexivity].
      apply Z.eqb_eq in E.
      rewrite (same_key_same_row PollSystem.poll_id _ w poll (wf_poll_ids s K) Hw Hin E).
      reflexivity.
    + intros other Hne. unfold PollSystem.find_poll.
      cbn [PollSystem.set_polls PollSystem.polls]. apply find_map_fix. intros w _.
      cbn [edited_poll PollSystem.poll_id].
      destruct (PollSystem.poll_id w =? PollSystem.poll_id poll) eqn:E; [|now split].
      apply Z.eqb_eq in E. rewrite E.
      change (PollSystem.poll_id (edited_poll poll data)) with (PollSystem.poll_id poll).
      rewrite Hid. split; [reflexivity|].
      intros Heq. apply Z.eqb_eq in Heq. congruence.
  - intros poll data now r Hp. subst r.
    pose proof (ps_find_poll_id _ _ _ Hp) as Hid.
    assert (Hf : PollSystem.find_poll_of_creator s pid (PollSystem.creator poll)
                 = Some poll).
    { unfold PollSystem.find_poll_of_creator.
      apply (find_stronger (fun p => PollSystem.poll_id p =? pid)); [exact Hp| |].
      - now rewrite Hid, !Z.eqb_refl.
      - intros y Hy. now apply andb_true_iff in Hy as [Hy _]. }
    rewrite (edit_poll_accepts pid
               (mkRequest PUT (Some (PollSystem.creator poll)) (Some data) now)
               s _ poll data eq_refl eq_refl eq_refl Hf).
    destruct (truthy _); [|now split].
    split; [reflexivity|]. cbn [snd].
    unfold PollSystem.find_poll in *.
    cbn [PollSystem.Poll_save snd PollSystem.set_polls PollSystem.polls].
    rewrite (find_map_same_test _ _ _ poll); [| |exact Hp].
    + cbn [edited_poll PollSystem.poll_id]. now rewrite Z.eqb_refl.
    + intros w. cbn [edited_poll PollSystem.poll_id].
      destruct (PollSystem.poll_id w =? PollSystem.poll_id poll) eqn:E; [|reflexivity].
      apply Z.eqb_eq in E. cbn [PollSystem.poll_id]. now rewrite E.
Qed.

(** The creator renames the poll "Lunch?": the new title is stored without
    the white space around it. *)
Lemma edit_poll_changes_three_fields_witness :
  let s := PollSystem.run no_expiry
             [PollSystem.CreatePoll (create_request 1 "Lunch?" ["Pizza"; "Sushi"] 100)]
             (PollSystem.empty_store [PollSystem.mkUser 1 "ann"]) in
  let r := PollSystem.edit_poll 1
             (mkRequest PUT (Some 1)
                (Some (mkPollBody (Some (nbsp ++ "Brunch? ")%string) None None None None))
                200) s in
  status (fst r) = 200 /\
  option_map PollSystem.title (PollSystem.find_poll (snd r) 1) = Some "Brunch?".
Proof.
  intros s r.
  pose proof (proj2 (edit_poll_changes_three_fields no_expiry
                       [PollSystem.mkUser 1 "ann"]
                       [PollSystem.CreatePoll
                          (create_request 1 "Lunch?" ["Pizza"; "Sushi"] 100)] 1)
                (PollSystem.mkPoll 1 "Lunch?" "" 1 100 None true "")
                (mkPollBody (Some (nbsp ++ "Brunch? ")%string) None None None None)
                200 eq_refl) as [H1 H2].
  split; [exact H1|].
  exact (f_equal (option_map PollSystem.title) H2).
Defined.

(** ** Option texts of [poll_system] *)

Lemma rstrip_idempotent (s : string) : rstrip (rstrip s) = rstrip s.
Proof.
  induction s as [|c s IH]; [reflexivity|]. cbn [rstrip]. cbv zeta.
  destruct (is_space (String c (rstrip s))) eqn:E; [reflexivity|].
  cbn [rstrip]. cbv zeta. now rewrite IH, E.
Qed.

Lemma rstrip_prefix (s : string) : exists w, s = (rstrip s ++ w)%string.
Proof.
  induction s as [|c s [w IH]]; [now exists EmptyString|]. cbn [rstrip]. cbv zeta.
  destruct (is_space (String c (rstrip s))).
  - now exists (String c s).
  - exists w. cbn [String.append]. now rewrite <- IH.
Qed.

Lemma starts_with_space_app (p w : string) :
  starts_with_space p = true -> starts_with_space (p ++ w) = true.
Proof.
  destruct p as [|a [|b [|c p]]]; cbn [starts_with_space String.append];
    try discriminate.
  - rewrite orb_false_r. now intros ->.
  - rewrite orb_false_r. intros H. apply orb_true_iff in H as [->| ->]; [reflexivity|].
    destruct w; cbn; now rewrite ?orb_true_r.
  - tauto.
Qed.

Lemma lstrip_fixed (s : string) : starts_with_space s = false -> lstrip s = s.
Proof.
  destruct s as [|a [|b [|c s]]]; cbn [starts_with_space lstrip]; [reflexivity| | |].
  - rewrite orb_false_r. now intros ->.
  - rewrite orb_false_r. intros H. apply orb_false_iff in H as [-> ->]. reflexivity.
  - intros H. apply orb_false_iff in H as [-> H].
    apply orb_false_iff in H as [-> ->]. reflexivity.
Qed.

Lemma lstrip_no_space (n : nat) :
  forall s, (String.length s <= n)%nat -> starts_with_space (lstrip s) = false.
Proof.
  induction n as [|n IH]; intros s Hn.
  - destruct s; [reflexivity | cbn in Hn; lia].
  - destruct s as [|a s1]; [reflexivity|]. cbn [lstrip].
    destruct (isspace a) eqn:Ea; [apply IH; cbn in Hn; lia|].
    destruct s1 as [|b s2].
    { cbn [starts_with_space]. now rewrite Ea. }
    destruct (isspace2 a b) eqn:Eb; [apply IH; cbn in Hn |- *; lia|].
    destruct s2 as [|c s3].
    { cbn [starts_with_space]. now rewrite Ea, Eb. }
    destruct (isspace3 a b c) eqn:Ec; [apply IH; cbn in Hn |- *; lia|].
    cbn [starts_with_space]. now rewrite Ea, Eb, Ec.
Qed.

Lemma strip_idempotent (s : string) : strip (strip s) = strip s.
Proof.
  unfold strip.
  assert (H : starts_with_space (rstrip (lstrip s)) = false).
  { destruct (starts_with_space (rstrip (lstrip s))) eqn:E; [|reflexivity].
    destruct (rstrip_prefix (lstrip s)) as [w Hw].
    apply (starts_with_space_app _ w) in E. rewrite <- Hw in E.
    now rewrite (lstrip_no_space _ s (Nat.le_refl _)) in E. }
  rewrite (lstrip_fixed _ H). apply rstrip_idempotent.
Qed.

Lemma kept_text_trimmed (t : string) : truthy (strip t) = true -> trimmed (strip t).
Proof. intros H. split; [exact H | apply strip_idempotent]. Qed.

Section OptionTexts.

Let P (s : PollSystem.Store) : Prop :=
  forall o, In o (PollSystem.options s) -> trimmed (PollSystem.text o).

Lemma create_options_keeps_texts pid options now :
  preserves P (PollSystem.create_options pid options now).
Proof.
  unfold PollSystem.create_options. apply preserves_for_each. intros t.
  destruct (truthy (strip t)) eqn:E; [|apply preserves_ret].
  intros s H o Ho. cbn [PollSystem.PollOption_objects_create snd PollSystem.set_options
                         PollSystem.options] in Ho.
  apply in_app_or in Ho as [Ho|[<-|[]]]; [now apply H|].
  now apply kept_text_trimmed.
Qed.

Lemma same_options_keep_texts {A : Type} (m : M PollSystem.Store A) :
  (forall s, PollSystem.options (snd (m s)) = PollSystem.options s) -> preserves P m.
Proof. intros Hm s H o Ho. rewrite Hm in Ho. now apply H. Qed.

Lemma fewer_options_keep_texts {A : Type} (m : M PollSystem.Store A) :
  (forall s, exists q, PollSystem.options (snd (m s)) = filter q (PollSystem.options s)) ->
  preserves P m.
Proof.
  intros Hm s H o Ho. destruct (Hm s) as [q Hq]. rewrite Hq in Ho.
  apply filter_In in Ho as [Ho _]. now apply H.
Qed.

Ltac texts_step :=
  first
    [ preserve_step
    | apply create_options_keeps_texts
    | apply serialize_poll_keeps
    | apply check_lookup_keeps
    | apply same_options_keep_texts; intros ?;
      first [ reflexivity
            | unfold PollSystem.Vote_objects_create, PollSystem.Vote_save;
              destruct (PollSystem.unique_together_clash _ _ _ _); reflexivity ]
    | apply fewer_options_keep_texts; intros ?; eexists; reflexivity ].

Lemma step_keeps_texts parse o s : P s -> P (PollSystem.step parse o s).
Proof.
  intros H. destruct o; cbn [PollSystem.step].
  - unfold PollSystem.create_poll, PollSystem.json_login_required.
    destruct (req_user req); [|exact H].
    apply require_http_methods_keeps; [|exact H].
    intros _. apply try_except_keeps; [|exact H].
    unfold PollSystem.create_poll_body. cbv zeta. repeat texts_step.
  - unfold PollSystem.vote_poll, PollSystem.json_login_required.
    destruct (req_user req); [|exact H].
    apply require_http_methods_keeps; [|exact H].
    intros _. apply try_except_keeps; [|exact H].
    unfold PollSystem.vote_poll_body. cbv zeta. repeat texts_step.
  - unfold PollSystem.poll_detail.
    apply require_http_methods_keeps; [|exact H].
    intros _. apply try_except_keeps; [|exact H].
    unfold PollSystem.poll_detail_body. cbv zeta. repeat texts_step.
  - unfold PollSystem.edit_poll, PollSystem.json_login_required.
    destruct (req_user req); [|exact H].
    apply require_http_methods_keeps; [|exact H].
    intros _. apply try_except_keeps; [|exact H].
    unfold PollSystem.edit_poll_body. cbv zeta. repeat texts_step.
  - now rewrite (proj1 (delete_poll_always_fails poll_id req s)).
Qed.

Lemma run_keeps_texts parse ops : forall s, P s -> P (PollSystem.run parse ops s).
Proof.
  unfold PollSystem.run.
  induction ops as [|o ops IH]; intros s H; cbn [fold_left]; [exact H|].
  now apply IH, step_keeps_texts.
Qed.

End OptionTexts.

(** X15. In every store reached by served requests, no stored option has
    a blank text or a text with white space around it: [create_poll] and the
    PUT of [poll_detail], the two writers of the table, skip the blank
    entries of a request and store the others stripped. *)
Theorem stored_option_texts_are_trimmed :
  forall parse us ops o,
    In o (PollSystem.options (PollSystem.run parse ops (PollSystem.empty_store us))) ->
    trimmed (PollSystem.text o).
Proof.
  intros parse us ops. apply run_keeps_texts. intros o [].
Qed.

Lemma stored_option_texts_are_trimmed_witness :
  trimmed (PollSystem.text (PollSystem.mkPollOption 2 1 "Sushi" 100)).
Proof.
  apply (stored_option_texts_are_trimmed no_expiry [PollSystem.mkUser 1 "ann"]
           [PollSystem.CreatePoll
              (create_request 1 "Lunch?" ["Pizza"; nbsp; (nbsp ++ "Sushi ")%string] 100)]).
  right. left. reflexivity.
Defined.

(** ** Votes of [polls] *)

Lemma polls_find_option_id (s : Polls.Store) pk o :
  Polls.find_option s pk = Some o -> Polls.option_id o = pk.
Proof.
  unfold Polls.find_option. intros H. apply find_some in H as [_ H].
  now apply Z.eqb_eq.
Qed.

Lemma validate_option_passes (s : Polls.Store) now value :
  Polls.validate_option s now value = None ->
  forall poll, Polls.find_poll s (Polls.option_poll value) = Some poll ->
               Polls.is_active poll = true /\ Polls.is_expired poll now = false.
Proof.
  unfold Polls.validate_option. intros H poll Hp. rewrite Hp in H.
  destruct (Polls.is_active poll); [|discriminate H]. cbn [negb] in H.
  destruct (Polls.is_expired poll now); [discriminate H|]. now split.
Qed.

Lemma clash_after_insert vs oid ip session v :
  Polls.v_option v = oid -> Polls.voter_ip v = ip -> Polls.voter_session v = session ->
  Polls.unique_together_clash (vs ++ [v]) oid ip session = true.
Proof.
  intros <- <- <-. unfold Polls.unique_together_clash. rewrite existsb_app.
  cbn [existsb]. rewrite Z.eqb_refl, !String.eqb_refl. cbn [andb orb].
  apply orb_true_r.
Qed.

Lemma VoteCreateView_post_cases clean s req :
  (status (fst (Polls.VoteCreateView_post clean req s)) = 400 /\
   snd (Polls.VoteCreateView_post clean req s) = s) \/
  exists value ip,
    Polls.vr_body req = Some (Some (Polls.option_id value)) /\
    Polls.find_option s (Polls.option_id value) = Some value /\
    Polls.validate_option s (Polls.vr_now req) value = None /\
    Polls.ip_db_value clean (Polls.client_ip req) = Some ip /\
    Polls.VoteCreateView_post clean req s
    = (mkResponse 201 (Success (Polls.next_vote_id s)),
       Polls.set_votes s
         (Polls.votes s ++
            [Polls.mkVote (Polls.next_vote_id s) (Polls.option_id value)
               ip (Polls.session_key req) (Polls.vr_now req)])
         (Polls.next_vote_id s + 1)).
Proof.
  unfold Polls.VoteCreateView_post.
  destruct (Polls.vr_body req) as [[pk|]|] eqn:Hb; try (left; split; reflexivity).
  destruct (Polls.find_option s pk) as [value|] eqn:Ho; try (left; split; reflexivity).
  destruct (Polls.validate_option s (Polls.vr_now req) value) as [e|] eqn:Hv;
    try (left; split; reflexivity).
  unfold Polls.Vote_objects_create.
  destruct (Polls.ip_db_value clean (Polls.client_ip req)) as [ip|] eqn:Hip;
    try (left; split; reflexivity).
  destruct (Polls.unique_together_clash _ _ _ _); try (left; split; reflexivity).
  right. exists value, ip. rewrite (polls_find_option_id s pk value Ho).
  repeat split; assumption.
Qed.

(** X16. [VoteCreateView.post] answers 201 or 400 and nothing else, and
    changes the store only when it answers 201: it then has appended one
    vote row for the option of the request, keyed by the caller's address
    as the database holds it and by the session, and the poll of that
    option was active and not expired.  A later request for the same option
    with the same session and an address that the database holds as the
    same text - the same address, or another spelling of the same IPv6
    address - is answered 400 and changes nothing. *)
Theorem anonymous_vote_is_recorded_once :
  forall clean s req,
    let r := Polls.VoteCreateView_post clean req s in
    (status (fst r) = 201 \/ (status (fst r) = 400 /\ snd r = s)) /\
    (status (fst r) = 201 ->
     exists option ip,
       Polls.vr_body req = Some (Some (Polls.option_id option)) /\
       Polls.find_option s (Polls.option_id option) = Some option /\
       (forall poll,
          Polls.find_poll s (Polls.option_poll option) = Some poll ->
          Polls.is_active poll = true /\
          Polls.is_expired poll (Polls.vr_now req) = false) /\
       Polls.ip_db_value clean (Polls.client_ip req) = Some ip /\
       snd r = Polls.set_votes s
                 (Polls.votes s ++
                    [Polls.mkVote (Polls.next_vote_id s) (Polls.option_id option)
                       ip (Polls.session_key req) (Polls.vr_now req)])
                 (Polls.next_vote_id s + 1) /\
       (forall again,
          Polls.vr_body again = Polls.vr_body req ->
          Polls.ip_db_value clean (Polls.client_ip again) = Some ip ->
          Polls.session_key again = Polls.session_key req ->
          status (fst (Polls.VoteCreateView_post clean again (snd r))) = 400 /\
          snd (Polls.VoteCreateView_post clean again (snd r)) = snd r)).
Proof.
  intros clean s req r. subst r.
  destruct (VoteCreateView_post_cases clean s req)
    as [[H400 Hs]|(value & ip & Hb & Ho & Hv & Hip & Hr)].
  { split; [now right|]. rewrite H400. discriminate. }
  rewrite Hr. cbn [fst snd status]. split; [now left|]. intros _.
  exists value, ip.
  split; [exact Hb|]. split; [exact Ho|].
  split; [now apply validate_option_passes|]. split; [exact Hip|].
  split; [reflexivity|].
  clear Hr Hv. intros again Hb' Hip' Hsess. unfold Polls.VoteCreateView_post.
  rewrite Hb', Hb. unfold Polls.find_option in *.
  cbn [Polls.set_votes Polls.options]. rewrite Ho.
  destruct (Polls.validate_option _ (Polls.vr_now again) value);
    [split; reflexivity|].
  unfold Polls.Vote_objects_create. cbn [Polls.set_votes Polls.votes].
  rewrite Hip', Hsess, clash_after_insert; [split|..]; reflexivity.
Qed.

(** A first vote for "Pizza" is recorded, and the same vote sent again is
    refused. *)
Lemma anonymous_vote_is_recorded_once_witness :
  let first := Polls.VoteCreateView_post no_ipv6 (vote_for 1 200) lunch_poll in
  status (fst first) = 201 /\
  status (fst (Polls.VoteCreateView_post no_ipv6 (vote_for 1 210) (snd first))) = 400.
Proof.
  intros first. split; [reflexivity|].
  destruct (proj2 (anonymous_vote_is_recorded_once no_ipv6 lunch_poll (vote_for 1 200))
              eq_refl) as (option & ip & _ & _ & _ & Hip & _ & Hagain).
  injection Hip as <-.
  exact (proj1 (Hagain (vote_for 1 210) eq_refl eq_refl eq_refl)).
Defined.

(** A request whose forwarded-for header begins with a comma carries the
    empty address: the row cannot be written, and the view answers 400. *)
Example vote_without_address_is_refused :
  Polls.VoteCreateView_post no_ipv6
    (Polls.mkVoteRequest (Some (Some 1)) (Some ",10.0.0.1") "10.0.0.9" (Some "k1")
                         "fresh" 200) lunch_poll
  = (mkResponse 400 (Failure "You have already voted in this poll"), lunch_poll).
Proof. reflexivity. Qed.

(** ** Views of [polls] that read a field the model lacks *)

Lemma polls_create_poll_never_writes req s :
  snd (Polls.create_poll req s) = s /\
  status (fst (Polls.create_poll req s)) <> 200.
Proof.
  unfold Polls.create_poll, login_required.
  destruct (req_user req) as [u|] eqn:Hu; [|split; [reflexivity|discriminate]].
  unfold require_http_methods.
  destruct (existsb _ _); [|split; [reflexivity|discriminate]].
  unfold try_except, Polls.create_poll_body, mbind, json_loads.
  destruct (req_body req) as [data|]; [|split; [reflexivity|discriminate]].
  cbn [ret]. cbv zeta.
  destruct (negb _); [split; [reflexivity|discriminate]|].
  destruct (_ <? 2); [split; [reflexivity|discriminate]|].
  unfold request_user. rewrite Hu. cbn [ret]. split; [reflexivity|discriminate].
Qed.

Lemma polls_edit_poll_never_writes pid req s :
  snd (Polls.edit_poll pid req s) = s /\
  status (fst (Polls.edit_poll pid req s)) <> 200.
Proof.
  unfold Polls.edit_poll, login_required.
  destruct (req_user req) as [u|] eqn:Hu; [|split; [reflexivity|discriminate]].
  unfold require_http_methods.
  destruct (existsb _ _); [|split; [reflexivity|discriminate]].
  unfold try_except, Polls.edit_poll_body, mbind, get_store, request_user, json_loads.
  rewrite Hu. cbn [ret].
  destruct (Polls.find_poll_of_creator s pid u) as [poll|];
    [|split; [reflexivity|discriminate]].
  cbn [get_object_or_404 ret].
  destruct (req_body req) as [data|]; split; first [reflexivity|discriminate].
Qed.

(** X17. The form views [create_poll] and [edit_poll] of [polls] pass or
    read a [category] that the [Poll] model of [polls] does not have: no
    request to either of them is answered 200 or changes the store, and a
    request that passes the view's own checks is answered 500. *)
Theorem polls_form_views_never_write :
  forall s,
    (forall req,
       snd (Polls.create_poll req s) = s /\
       status (fst (Polls.create_poll req s)) <> 200) /\
    (forall pid req,
       snd (Polls.edit_poll pid req s) = s /\
       status (fst (Polls.edit_poll pid req s)) <> 200) /\
    (forall u data now,
       Polls.truthy_opt (body_title data) = true ->
       2 <= count (get_default (body_options data) []) ->
       Polls.create_poll (mkRequest POST (Some u) (Some data) now) s
       = (mkResponse 500 (Crash "" TypeError), s)) /\
    (forall pid u data now poll,
       Polls.find_poll_of_creator s pid u = Some poll ->
       Polls.edit_poll pid (mkRequest POST (Some u) (Some data) now) s
       = (mkResponse 500 (Crash "" AttributeError), s)).
Proof.
  intros s. split; [|split; [|split]].
  - intros req. apply polls_create_poll_never_writes.
  - intros pid req. apply polls_edit_poll_never_writes.
  - intros u data now Ht Hn.
    unfold Polls.create_poll, login_required, require_http_methods, try_except,
      Polls.create_poll_body, mbind, json_loads.
    cbn [req_user req_method req_body existsb method_eqb orb ret]. cbv zeta.
    rewrite Ht. cbn [negb].
    destruct (count (get_default (body_options data) []) <? 2) eqn:E;
      [apply Z.ltb_lt in E; lia|].
    reflexivity.
  - intros pid u data now poll Hf.
    unfold Polls.edit_poll, login_required, require_http_methods, try_except,
      Polls.edit_poll_body, mbind, get_store, request_user, json_loads.
    cbn [req_user req_method req_body existsb method_eqb orb ret].
    rewrite Hf. reflexivity.
Qed.

Lemma my_polls_loop_fails s poll ps acc :
  Polls.my_polls_loop s (poll :: ps) acc s = (Raise AttributeError, s).
Proof. reflexivity. Qed.

(** X18. [my_polls] reads [poll.category] for every poll of the caller:
    a GET of a logged-in user who has created at least one poll is answered
    500, a GET of a user without a poll is answered 200 with the empty
    list, and an anonymous GET is sent to the login page; the store is
    never changed. *)
Theorem my_polls_fails_for_every_poll_owner :
  forall s b now,
    (forall u p,
       In p (Polls.polls s) -> Polls.created_by p = Some u ->
       Polls.my_polls (mkRequest GET (Some u) b now) s
       = (mkResponse 500 (Crash "" AttributeError), s)) /\
    (forall u,
       (forall p, In p (Polls.polls s) -> Polls.created_by p <> Some u) ->
       Polls.my_polls (mkRequest GET (Some u) b now) s
       = (mkResponse 200 (Success []), s)) /\
    Polls.my_polls (mkRequest GET None b now) s = (mkResponse 302 Redirect, s).
Proof.
  intros s b now. split; [|split; [|reflexivity]].
  - intros u p Hin Hc.
    assert (Hmine : In p (Polls.polls_of_creator s u)).
    { apply filter_In. split.
      - apply (Permutation_in _ (Permutation_sym (sort_desc_perm Polls.created_at _))).
        exact Hin.
      - rewrite Hc. apply Z.eqb_refl. }
    unfold Polls.my_polls, Polls.api_view, drf_view, try_except, caught, try_except,
      mbind, get_store.
    cbn [req_method req_user existsb method_eqb orb].
    destruct (Polls.polls_of_creator s u) as [|q qs]; [destruct Hmine|].
    rewrite my_polls_loop_fails. reflexivity.
  - intros u Hnone.
    assert (Hmine : Polls.polls_of_creator s u = []).
    { apply filter_none. intros p Hp.
      apply (Permutation_in _ (sort_desc_perm Polls.created_at _)) in Hp.
      specialize (Hnone p Hp). destruct (Polls.created_by p) as [c|]; [|reflexivity].
      apply Z.eqb_neq. congruence. }
    unfold Polls.my_polls, Polls.api_view, drf_view, try_except, caught, try_except,
      mbind, get_store.
    cbn [req_method req_user existsb method_eqb orb].
    rewrite Hmine. reflexivity.
Qed.

(** ** The poll serializer of [polls] *)

Lemma char_field_spec lo hi value t :
  Polls.char_field lo hi value = Some t ->
  t = strip value /\ trimmed t /\ fits lo hi t /\ has_null t = false.
Proof.
  unfold Polls.char_field. cbv zeta.
  destruct (truthy (strip value)) eqn:Ht; [|discriminate].
  destruct (Nat.leb lo _) eqn:Hlo; [|discriminate].
  destruct (Nat.leb _ hi) eqn:Hhi; [|discriminate].
  destruct (has_null (strip value)) eqn:Hz; [discriminate|].
  cbn [andb negb]. intros H. injection H as <-.
  apply Nat.leb_le in Hlo, Hhi.
  split; [reflexivity|]. split; [now apply kept_text_trimmed|].
  split; [now split | exact Hz].
Qed.

Lemma all_some_char_fields lo hi value :
  forall vs,
    Polls.all_some (map (Polls.char_field lo hi) value) = Some vs ->
    vs = map strip value /\
    Forall (fun t => trimmed t /\ fits lo hi t /\ has_null t = false) vs.
Proof.
  induction value as [|v value IH]; cbn [map Polls.all_some]; intros vs H.
  - injection H as <-. split; [reflexivity|constructor].
  - destruct (Polls.char_field lo hi v) as [t|] eqn:Ht; [|discriminate H].
    destruct (Polls.all_some _) as [r|]; [|discriminate H].
    injection H as <-. destruct (IH r eq_refl) as [-> Hall].
    destruct (char_field_spec lo hi v t Ht) as (-> & Htrim & Hfit & Hz).
    split; [reflexivity|]. now constructor.
Qed.

Lemma validated_options_spec field options :
  Polls.validated_options field = Some options ->
  exists submitted,
    field = Some submitted /\ options = map strip submitted /\
    2 <= count options <= 10 /\ NoDup options /\
    Forall (fun t => trimmed t /\ fits 2 200 t /\ has_null t = false) options.
Proof.
  unfold Polls.validated_options. destruct field as [value|]; [|discriminate].
  destruct ((2 <=? count value) && (count value <=? 10)) eqn:Hc; [|discriminate].
  apply andb_true_iff in Hc as [H2 H10]. apply Z.leb_le in H2, H10.
  destruct (Polls.all_some _) as [vs|] eqn:Hs; [|discriminate].
  destruct (Polls.all_distinct vs) eqn:Hd; [|discriminate].
  intros H. injection H as <-.
  destruct (all_some_char_fields 2 200 value vs Hs) as [Hvs Hall].
  exists value. split; [reflexivity|]. split; [exact Hvs|].
  split; [|split; [now apply all_distinct_NoDup | exact Hall]].
  rewrite Hvs. unfold count in *. rewrite length_map. lia.
Qed.

Lemma is_valid_inv parse now data title description expires_at options :
  Polls.is_valid parse now data = Some (title, description, expires_at, options) ->
  Polls.validated_title (body_title data) = Some title /\
  Polls.validated_expires_at parse now (body_expires_at data) = Some expires_at /\
  Polls.validated_options (body_options data) = Some options /\
  description = option_map strip (body_description data) /\
  (forall d, description = Some d -> has_null d = false).
Proof.
  unfold Polls.is_valid.
  destruct (Polls.validated_title _) as [t|]; [|discriminate].
  destruct (Polls.validated_description _) as [d|] eqn:Hd; [|discriminate].
  destruct (Polls.validated_expires_at _ _ _) as [e|]; [|discriminate].
  destruct (Polls.validated_options _) as [opts|]; [|discriminate].
  intros H. injection H as <- <- <- <-.
  split; [reflexivity|]. split; [reflexivity|]. split; [reflexivity|].
  unfold Polls.validated_description in Hd.
  destruct (body_description data) as [value|]; [|injection Hd as <-; now split].
  cbv zeta in Hd. destruct (has_null (strip value)) eqn:Hz.
  - destruct (truthy (strip value)) eqn:Ht; [discriminate Hd|].
    destruct (strip value); [discriminate Hz | discriminate Ht].
  - rewrite andb_false_r in Hd. injection Hd as <-.
    split; [reflexivity|]. intros ? [= <-]. exact Hz.
Qed.

(** X19. What [PollCreateSerializer] lets through: data that
    [is_valid] accepts has a title of 5 to 200 characters and between 2 and
    10 options of 2 to 200 characters each, all different; title, options
    and description are the submitted ones with surrounding white space
    removed, none of title and options is blank and none of the three holds
    a null character; an expiry date, if there is one, lies in the
    future. *)
Theorem api_poll_validation_guarantees :
  forall parse now data title description expires_at options,
    Polls.is_valid parse now data = Some (title, description, expires_at, options) ->
    (exists submitted,
       body_title data = Some submitted /\ title = strip submitted) /\
    trimmed title /\ fits 5 200 title /\ has_null title = false /\
    (exists submitted,
       body_options data = Some submitted /\ options = map strip submitted) /\
    2 <= count options <= 10 /\ NoDup options /\
    Forall (fun t => trimmed t /\ fits 2 200 t /\ has_null t = false) options /\
    description = option_map strip (body_description data) /\
    (forall d, description = Some d -> has_null d = false) /\
    (forall e, expires_at = Some e -> now < e).
Proof.
  intros parse now data title description expires_at options H.
  destruct (is_valid_inv _ _ _ _ _ _ _ H) as (Ht & He & Ho & Hd & Hdz).
  unfold Polls.validated_title in Ht.
  destruct (body_title data) as [submitted|]; [|discriminate Ht].
  destruct (char_field_spec 5 200 submitted title Ht) as (Hs & Htrim & Hfit & Hz).
  destruct (validated_options_spec _ _ Ho) as (subs & Hb & Hm & Hn & Hnd & Hall).
  split; [now exists submitted|]. split; [exact Htrim|]. split; [exact Hfit|].
  split; [exact Hz|].
  split; [now exists subs|]. split; [exact Hn|]. split; [exact Hnd|].
  split; [exact Hall|]. split; [exact Hd|]. split; [exact Hdz|].
  intros e ->. unfold Polls.validated_expires_at in He.
  destruct (body_expires_at data) as [x|]; [|discriminate He].
  destruct (parse x) as [value|]; [|discriminate He].
  destruct (value <=? now) eqn:E; [discriminate He|].
  injection He as <-. now apply Z.leb_gt in E.
Qed.

Lemma api_poll_validation_guarantees_witness :
  NoDup ["Pizza"; "Sushi"] /\ trimmed "Lunch today?".
Proof.
  pose proof (api_poll_validation_guarantees no_expiry 100
                (mkPollBody (Some " Lunch today? ") None None None
                            (Some ["Pizza "; " Sushi"]))
                "Lunch today?" None None ["Pizza"; "Sushi"] eq_refl)
    as (_ & Ht & _ & _ & _ & _ & Hnd & _).
  exact (conj Hnd Ht).
Defined.

(** The length bounds of the serializer count characters: the four
    characters of "Caf" and U+00E9 are too few for a title, and 150 times
    U+00E9 - 300 bytes - fit an option; a text with a null character is
    refused. *)
Example char_field_counts_characters :
  Polls.char_field 5 200 cafe = None /\
  Polls.char_field 2 200 (nbsp ++ cafe ++ " ")%string = Some cafe /\
  Polls.char_field 2 200 (times e_acute 150) = Some (times e_acute 150) /\
  Polls.char_field 2 200 (times e_acute 201) = None /\
  Polls.char_field 2 200 ("ab" ++ String Ascii.zero "cd")%string = None.
Proof. vm_compute. repeat split. Qed.

(** ** Primary keys of [polls] *)

Lemma polls_store_wf_empty : polls_store_wf Polls.empty_store.
Proof.
  split; cbn; [intros ? [] | intros ? [] | constructor | constructor | intros ? []].
Qed.

Lemma Poll_insert_pwf t d e a c now s :
  polls_store_wf s ->
  polls_store_wf (snd (Polls.Poll_insert t d e a c now s)).
Proof.
  intros [Hp Ho Hpn Hon Hv].
  split; cbn [Polls.Poll_insert snd Polls.set_polls Polls.polls Polls.options
              Polls.votes Polls.next_poll_id Polls.next_option_id].
  - intros p Hin. apply in_app_or in Hin as [Hin|[<-|[]]].
    + specialize (Hp p Hin). lia.
    + cbn [Polls.poll_id]. lia.
  - intros o Hin. specialize (Ho o Hin). lia.
  - rewrite map_app. apply NoDup_snoc; [exact Hpn|].
    cbn [map Polls.poll_id]. intros Hin. apply in_map_iff in Hin as [p [Heq Hin]].
    specialize (Hp p Hin). lia.
  - exact Hon.
  - exact Hv.
Qed.

Lemma Option_objects_create_pwf pid text order s :
  polls_store_wf s -> pid < Polls.next_poll_id s ->
  polls_store_wf (snd (Polls.Option_objects_create pid text order s)) /\
  Polls.next_poll_id (snd (Polls.Option_objects_create pid text order s))
  = Polls.next_poll_id s.
Proof.
  intros H Hpid. unfold Polls.Option_objects_create.
  destruct (existsb _ _); [now split|].
  destruct H as [Hp Ho Hpn Hon Hv].
  split; [|reflexivity].
  split; cbn [snd Polls.set_options Polls.polls Polls.options Polls.votes
              Polls.next_poll_id Polls.next_option_id].
  - exact Hp.
  - intros o Hin. apply in_app_or in Hin as [Hin|[<-|[]]].
    + specialize (Ho o Hin). lia.
    + cbn [Polls.option_id Polls.option_poll]. lia.
  - exact Hpn.
  - rewrite map_app. apply NoDup_snoc; [exact Hon|].
    cbn [map Polls.option_id]. intros Hin. apply in_map_iff in Hin as [o [Heq Hin]].
    specialize (Ho o Hin). lia.
  - intros v Hin. specialize (Hv v Hin). lia.
Qed.

Lemma create_indexed_pwf pid texts :
  forall index s,
    polls_store_wf s -> pid < Polls.next_poll_id s ->
    polls_store_wf (snd (Polls.create_indexed pid index texts s)).
Proof.
  induction texts as [|t texts IH]; intros index s H Hpid;
    cbn [Polls.create_indexed]; [exact H|].
  unfold mbind.
  destruct (Option_objects_create_pwf pid t index s H Hpid) as [H1 Hn].
  destruct (Polls.Option_objects_create pid t index s) as [[[]|e] s1];
    cbn [snd] in *; [|exact H1].
  apply IH; [exact H1 | now rewrite Hn].
Qed.

Lemma PollCreateView_create_pwf parse req s :
  polls_store_wf s -> polls_store_wf (snd (Polls.PollCreateView_create parse req s)).
Proof.
  intros H. unfold Polls.PollCreateView_create.
  destruct (req_body req) as [data|]; [|exact H].
  destruct (Polls.is_valid parse (req_now req) data) as [[[[t d] e] os]|]; [|exact H].
  unfold drf_view, try_except, mbind.
  pose proof (Poll_insert_pwf t d e true None (req_now req) s H) as H1.
  cbn [Polls.Poll_insert snd Polls.poll_id] in *.
  match goal with
  | |- context [Polls.create_indexed ?a ?b ?c ?d] =>
      pose proof (create_indexed_pwf a c b d H1) as H2;
      destruct (Polls.create_indexed a b c d) as [[[]|x] s2]
  end; cbn [snd] in *; apply H2; cbn; lia.
Qed.

Lemma VoteCreateView_post_pwf clean req s :
  polls_store_wf s -> polls_store_wf (snd (Polls.VoteCreateView_post clean req s)).
Proof.
  intros H.
  destruct (VoteCreateView_post_cases clean s req) as [[_ ->]|(value & ip & _ & Ho & _ & _ & ->)];
    [exact H|].
  destruct H as [Hp Hopt Hpn Hon Hv].
  split; cbn [snd Polls.set_votes Polls.polls Polls.options Polls.votes
              Polls.next_poll_id Polls.next_option_id]; try assumption.
  intros v Hin. apply in_app_or in Hin as [Hin|[<-|[]]]; [now apply Hv|].
  cbn [Polls.v_option]. unfold Polls.find_option in Ho. apply find_some in Ho as [Ho _].
  now apply Hopt.
Qed.

Lemma polls_Poll_delete_pwf pid s :
  polls_store_wf s -> polls_store_wf (snd (Polls.Poll_delete pid s)).
Proof.
  intros [Hp Ho Hpn Hon Hv].
  split; cbn [Polls.Poll_delete snd Polls.polls Polls.options Polls.votes
              Polls.next_poll_id Polls.next_option_id].
  - intros p Hin. apply filter_In in Hin as [Hin _]. now apply Hp.
  - intros o Hin. apply filter_In in Hin as [Hin _]. now apply Ho.
  - now apply NoDup_map_filter.
  - now apply NoDup_map_filter.
  - intros v Hin. apply filter_In in Hin as [Hin _]. now apply Hv.
Qed.

Lemma polls_find_poll_of_creator_spec s pid u poll :
  Polls.find_poll_of_creator s pid u = Some poll ->
  In poll (Polls.polls s) /\ Polls.poll_id poll = pid /\
  Polls.created_by poll = Some u.
Proof.
  unfold Polls.find_poll_of_creator. intros H. apply find_some in H as [Hin H].
  apply andb_true_iff in H as [H1 H2]. apply Z.eqb_eq in H1.
  split; [exact Hin|]. split; [exact H1|].
  destruct (Polls.created_by poll) as [c|]; [|discriminate H2].
  apply Z.eqb_eq in H2. now subst c.
Qed.

Lemma polls_Poll_save_pwf p s :
  polls_store_wf s -> Polls.poll_id p < Polls.next_poll_id s ->
  polls_store_wf (snd (Polls.Poll_save p s)).
Proof.
  intros [Hp Ho Hpn Hon Hv] Hlt.
  split; cbn [Polls.Poll_save snd Polls.set_polls Polls.polls Polls.options
              Polls.votes Polls.next_poll_id Polls.next_option_id].
  - intros q Hin. apply in_map_iff in Hin as [w [<- Hw]].
    destruct (Polls.poll_id w =? Polls.poll_id p); [exact Hlt | now apply Hp].
  - exact Ho.
  - now rewrite (replace_ids Polls.poll_id p).
  - exact Hon.
  - exact Hv.
Qed.

(** The row that [toggle_poll_status] saves. *)
Lemma toggle_poll_status_cases pid req s :
  (snd (Polls.toggle_poll_status pid req s) = s /\
   status (fst (Polls.toggle_poll_status pid req s)) <> 200) \/
  exists u poll,
    req_user req = Some u /\ req_method req = POST /\
    Polls.find_poll_of_creator s pid u = Some poll /\
    Polls.toggle_poll_status pid req s
    = (mkResponse 200 (Success (negb (Polls.is_active poll))),
       snd (Polls.Poll_save
              (Polls.mkPoll (Polls.poll_id poll) (Polls.title poll)
                 (Polls.description poll) (Polls.created_at poll)
                 (Polls.expires_at poll) (negb (Polls.is_active poll))
                 (Polls.created_by poll)) s)).
Proof.
  unfold Polls.toggle_poll_status, login_required.
  destruct (req_user req) as [u|] eqn:Hu; [|left; split; [reflexivity|discriminate]].
  unfold require_http_methods. cbn [existsb].
  destruct (method_eqb (req_method req) POST) eqn:Hm;
    [|left; split; [reflexivity|discriminate]].
  assert (Hm' : req_method req = POST) by (destruct (req_method req); easy).
  cbn [orb]. unfold try_except, Polls.toggle_poll_status_body, mbind, get_store,
    request_user.
  rewrite Hu. cbn [ret].
  destruct (Polls.find_poll_of_creator s pid u) as [poll|] eqn:Hf;
    [|left; split; [reflexivity|discriminate]].
  right. exists u, poll. repeat split; try assumption.
Qed.

Lemma toggle_poll_status_pwf pid req s :
  polls_store_wf s -> polls_store_wf (snd (Polls.toggle_poll_status pid req s)).
Proof.
  intros H.
  destruct (toggle_poll_status_cases pid req s)
    as [[-> _]|(u & poll & _ & _ & Hf & ->)]; [exact H|].
  cbn [snd]. apply polls_Poll_save_pwf; [exact H|]. cbn [Polls.poll_id].
  destruct (polls_find_poll_of_creator_spec s pid u poll Hf) as (Hin & _ & _).
  now apply (pwf_polls s H).
Qed.

Lemma polls_delete_poll_pwf pid req s :
  polls_store_wf s -> polls_store_wf (snd (Polls.delete_poll pid req s)).
Proof.
  intros H. unfold Polls.delete_poll, login_required.
  destruct (req_user req) as [u|] eqn:Hu; [|exact H].
  unfold require_http_methods. destruct (existsb _ _); [|exact H].
  unfold try_except, Polls.delete_poll_body, mbind, get_store, request_user.
  rewrite Hu. cbn [ret].
  destruct (Polls.find_poll_of_creator s pid u) as [poll|]; [|exact H].
  cbn [get_object_or_404 ret snd]. now apply polls_Poll_delete_pwf.
Qed.

(** What [PollDetailView] does on an update: nothing, or it saves a row
    that has the key, the creator and the creation date of the poll it
    found. *)
Lemma PollDetailView_update_cases parse partial pk req s :
  let r := Polls.PollDetailView_update parse partial pk req s in
  (snd r = s /\ status (fst r) <> 200) \/
  exists instance saved,
    Polls.find_poll s pk = Some instance /\
    Polls.poll_id saved = Polls.poll_id instance /\
    Polls.created_at saved = Polls.created_at instance /\
    Polls.created_by saved = Polls.created_by instance /\
    r = (mkResponse 200 (Success saved), snd (Polls.Poll_save saved s)).
Proof.
  intros r. subst r.
  unfold Polls.PollDetailView_update, drf_view, try_except, mbind, get_store.
  destruct (Polls.find_poll s pk) as [instance|] eqn:Hf;
    [|left; split; [reflexivity|discriminate]].
  cbn [get_object_or_404 ret].
  destruct (req_body req) as [data|]; [|left; split; [reflexivity|discriminate]].
  cbv zeta.
  destruct (_ || _ || _ || _); [left; split; [reflexivity|discriminate]|].
  right. eexists instance, _. split; [reflexivity|].
  split; [|split; [|split]]; [| | |reflexivity]; reflexivity.
Qed.

Lemma PollDetailView_delete_cases pk req s :
  let r := Polls.PollDetailView_delete pk req s in
  (Polls.find_poll s pk = None /\ r = (mkResponse 404 (Failure "Not found."), s)) \/
  exists instance,
    Polls.find_poll s pk = Some instance /\
    r = (mkResponse 204 (Success tt), snd (Polls.Poll_delete (Polls.poll_id instance) s)).
Proof.
  intros r. subst r.
  unfold Polls.PollDetailView_delete, drf_view, try_except, mbind, get_store.
  destruct (Polls.find_poll s pk) as [instance|] eqn:Hf; [|now left].
  right. now exists instance.
Qed.

Lemma PollDetailView_update_pwf parse partial pk req s :
  polls_store_wf s ->
  polls_store_wf (snd (Polls.PollDetailView_update parse partial pk req s)).
Proof.
  intros H.
  destruct (PollDetailView_update_cases parse partial pk req s)
    as [[-> _]|(instance & saved & Hf & Hid & _ & _ & ->)]; [exact H|].
  cbn [snd]. apply polls_Poll_save_pwf; [exact H|]. rewrite Hid.
  unfold Polls.find_poll in Hf. apply find_some in Hf as [Hin _].
  now apply (pwf_polls s H).
Qed.

Lemma PollDetailView_delete_pwf pk req s :
  polls_store_wf s -> polls_store_wf (snd (Polls.PollDetailView_delete pk req s)).
Proof.
  intros H.
  destruct (PollDetailView_delete_cases pk req s)
    as [[_ ->]|(instance & _ & ->)]; [exact H|].
  cbn [snd]. now apply polls_Poll_delete_pwf.
Qed.

Lemma polls_step_pwf clean parse o s :
  polls_store_wf s -> polls_store_wf (Polls.step parse clean o s).
Proof.
  intros H. destruct o; cbn [Polls.step].
  - now apply PollCreateView_create_pwf.
  - now apply PollDetailView_update_pwf.
  - now apply PollDetailView_update_pwf.
  - now apply PollDetailView_delete_pwf.
  - now apply VoteCreateView_post_pwf.
  - now rewrite (proj1 (polls_create_poll_never_writes req s)).
  - now rewrite (proj1 (polls_edit_poll_never_writes poll_id req s)).
  - now apply polls_delete_poll_pwf.
  - now apply toggle_poll_status_pwf.
Qed.

Lemma polls_reachable_pwf clean parse ops :
  polls_store_wf (Polls.run parse clean ops Polls.empty_store).
Proof.
  unfold Polls.run. generalize polls_store_wf_empty.
  generalize Polls.empty_store.
  induction ops as [|o ops IH]; intros s H; cbn [fold_left]; [exact H|].
  now apply IH, polls_step_pwf.
Qed.

(** ** A poll of [polls] right after its creation through the API *)

Lemma indexed_rows_spec next pid index texts :
  forall o, In o (indexed_rows next pid index texts) ->
            next <= Polls.option_id o /\ Polls.option_poll o = pid /\
            index <= Polls.order o.
Proof.
  revert next index. induction texts as [|t texts IH]; intros next index o;
    cbn [indexed_rows]; [intros []|].
  intros [<-|Hin]; [cbn; lia|].
  destruct (IH _ _ o Hin) as (H1 & H2 & H3). lia.
Qed.

Lemma indexed_rows_texts next pid index texts :
  map Polls.text (indexed_rows next pid index texts) = texts.
Proof.
  revert next index. induction texts as [|t texts IH]; intros next index;
    cbn [indexed_rows map Polls.text]; [reflexivity|]. now rewrite IH.
Qed.

Lemma indexed_rows_orders next pid index texts :
  map Polls.order (indexed_rows next pid index texts)
  = map (fun n => index + Z.of_nat n) (seq 0 (List.length texts)).
Proof.
  revert next index. induction texts as [|t texts IH]; intros next index;
    cbn [indexed_rows map Polls.order List.length seq]; [reflexivity|].
  rewrite IH. f_equal; [cbn; lia|].
  rewrite <- seq_shift, map_map. apply map_ext. intros n.
  rewrite Nat2Z.inj_succ. lia.
Qed.

Lemma sort_by_sorted {A : Type} (leb : A -> A -> bool) (l : list A) :
  StronglySorted (fun a b => leb a b = true) l -> sort_by leb l = l.
Proof.
  induction 1 as [|a l Hl IH Ha]; cbn [sort_by]; [reflexivity|].
  rewrite IH. destruct l as [|b l]; cbn [insert_by]; [reflexivity|].
  inversion Ha as [|? ? Hab _]; subst. now rewrite Hab.
Qed.

Lemma indexed_rows_sorted next pid index texts :
  StronglySorted (fun a b => Polls.option_leb a b = true)
                 (indexed_rows next pid index texts).
Proof.
  revert next index. induction texts as [|t texts IH]; intros next index;
    cbn [indexed_rows]; constructor; [apply IH|].
  apply Forall_forall. intros o Ho.
  apply indexed_rows_spec in Ho as (_ & _ & Hord).
  unfold Polls.option_leb. cbn [Polls.order].
  apply orb_true_iff. left. apply Z.ltb_lt. lia.
Qed.

Lemma count_cons {A : Type} (a : A) (l : list A) : count (a :: l) = 1 + count l.
Proof. unfold count. cbn [List.length]. lia. Qed.

Lemma create_indexed_effect pid texts :
  forall index s,
    NoDup texts ->
    (forall o, In o (Polls.options s) -> Polls.option_poll o = pid ->
               ~ In (Polls.text o) texts) ->
    Polls.create_indexed pid index texts s
    = (Ok tt,
       Polls.set_options s
         (Polls.options s ++ indexed_rows (Polls.next_option_id s) pid index texts)
         (Polls.next_option_id s + count texts)).
Proof.
  induction texts as [|t texts IH]; intros index s Hnd Hfresh;
    cbn [Polls.create_indexed indexed_rows].
  - unfold ret, Polls.set_options. rewrite app_nil_r.
    change (count (@nil string)) with 0. rewrite Z.add_0_r. now destruct s.
  - inversion Hnd as [|? ? Hout Hnd']; subst.
    unfold mbind, Polls.Option_objects_create.
    destruct (existsb _ (Polls.options s)) eqn:E.
    { exfalso. apply existsb_exists in E as [o [Hin Ho]].
      apply andb_true_iff in Ho as [Hp Ht].
      apply Z.eqb_eq in Hp. apply String.eqb_eq in Ht.
      apply (Hfresh o Hin Hp). left. now symmetry. }
    rewrite IH; [|assumption|].
    + unfold Polls.set_options.
      cbn [Polls.polls Polls.options Polls.votes Polls.next_poll_id
           Polls.next_option_id Polls.next_vote_id].
      rewrite <- app_assoc, count_cons. cbn [app]. do 2 f_equal. lia.
    + cbn [Polls.set_options Polls.options]. intros o Hin Hp Hin'.
      apply in_app_or in Hin as [Hin|[<-|[]]].
      * apply (Hfresh o Hin Hp). now right.
      * cbn in Hin'. contradiction.
Qed.

Lemma find_snoc_other {A : Type} (f : A -> bool) (l : list A) (x : A) :
  f x = false -> find f (l ++ [x]) = find f l.
Proof.
  intros Hx. induction l as [|y l IH]; cbn [app find]; [now rewrite Hx|].
  now destruct (f y).
Qed.

(** X20. In every store reached from the empty one by requests to the
    views of [src/polls/views.py], a request to [PollCreateView] that the
    serializer accepts is answered 201 with the primary key that
    was handed out; the poll is then found under that key with the validated
    title, description and expiry date, active and without a creator; its
    options are the validated texts in the order of the request, numbered
    from 0; it has no vote; and every other poll and its options are as
    before. *)
Theorem api_poll_round_trip :
  forall parse clean ops req data title description expires_at options,
    let s := Polls.run parse clean ops Polls.empty_store in
    let r := Polls.PollCreateView_create parse req s in
    let pid := Polls.next_poll_id s in
    req_body req = Some data ->
    Polls.is_valid parse (req_now req) data
    = Some (title, description, expires_at, options) ->
    fst r = mkResponse 201 (Success pid) /\
    Polls.find_poll (snd r) pid
    = Some (Polls.mkPoll pid title description (req_now req) expires_at true None) /\
    map Polls.text (Polls.poll_options (snd r) pid) = options /\
    map Polls.order (Polls.poll_options (snd r) pid) = positions (List.length options) /\
    Polls.total_votes (snd r) pid = 0 /\
    (forall other, other <> pid ->
       Polls.find_poll (snd r) other = Polls.find_poll s other /\
       Polls.poll_options (snd r) other = Polls.poll_options s other).
Proof.
  intros parse clean ops req data title description expires_at options s r pid Hb Hv.
  assert (H : polls_store_wf s) by apply polls_reachable_pwf.
  destruct (is_valid_inv _ _ _ _ _ _ _ Hv) as (_ & _ & Ho & _).
  destruct (validated_options_spec _ _ Ho) as (_ & _ & _ & _ & Hnd & _).
  assert (Hr : r = (mkResponse 201 (Success pid),
                    Polls.mkStore
                      (Polls.polls s ++
                         [Polls.mkPoll pid title description (req_now req) expires_at
                                       true None])
                      (Polls.options s ++
                         indexed_rows (Polls.next_option_id s) pid 0 options)
                      (Polls.votes s) (pid + 1)
                      (Polls.next_option_id s + count options)
                      (Polls.next_vote_id s))).
  { subst r. unfold Polls.PollCreateView_create. rewrite Hb, Hv.
    unfold drf_view, try_except, mbind.
    cbn [Polls.Poll_insert Polls.poll_id].
    rewrite create_indexed_effect; [reflexivity|exact Hnd|].
    cbn [Polls.set_polls Polls.options]. intros o Hin Hp.
    destruct (pwf_options s H o Hin) as [_ Hlt]. fold pid in Hp. subst pid. lia. }
  rewrite Hr. cbn [fst snd]. clear Hr r.
  assert (Hold : forall o, In o (Polls.options s) -> (Polls.option_poll o =? pid) = false).
  { intros o Hin. apply Z.eqb_neq. destruct (pwf_options s H o Hin) as [_ Hlt].
    subst pid. lia. }
  assert (Hmine : Polls.poll_options
                    (Polls.mkStore
                       (Polls.polls s ++
                          [Polls.mkPoll pid title description (req_now req) expires_at
                                        true None])
                       (Polls.options s ++
                          indexed_rows (Polls.next_option_id s) pid 0 options)
                       (Polls.votes s) (pid + 1)
                       (Polls.next_option_id s + count options)
                       (Polls.next_vote_id s)) pid
                  = indexed_rows (Polls.next_option_id s) pid 0 options).
  { unfold Polls.poll_options. cbn [Polls.options]. rewrite filter_app.
    rewrite (filter_none _ (Polls.options s)) by exact Hold. cbn [app].
    rewrite forallb_filter_id.
    - apply sort_by_sorted, indexed_rows_sorted.
    - apply forallb_forall. intros o Ho'.
      apply indexed_rows_spec in Ho' as (_ & Hp & _). now apply Z.eqb_eq. }
  split; [reflexivity|]. split; [|split; [|split; [|split]]].
  - unfold Polls.find_poll. cbn [Polls.polls]. rewrite find_app_absent.
    + cbn [find Polls.poll_id]. now rewrite Z.eqb_refl.
    + intros p Hp. apply Z.eqb_neq. pose proof (pwf_polls s H p Hp). subst pid. lia.
  - rewrite Hmine. apply indexed_rows_texts.
  - rewrite Hmine, indexed_rows_orders. unfold positions. apply map_ext.
    intros n. lia.
  - unfold Polls.total_votes, Polls.votes_of_poll. cbn [Polls.votes].
    rewrite filter_none; [reflexivity|]. intros v Hin.
    unfold Polls.find_option. cbn [Polls.options].
    destruct (find _ _) as [o|] eqn:Hf; [|reflexivity].
    apply find_some in Hf as [Hino Hid]. apply Z.eqb_eq in Hid.
    apply in_app_or in Hino as [Hino|Hino]; [now apply Hold|].
    apply indexed_rows_spec in Hino as (Hge & _ & _).
    pose proof (pwf_votes s H v Hin). lia.
  - intros other Hne. split.
    + unfold Polls.find_poll. cbn [Polls.polls]. apply find_snoc_other.
      cbn [Polls.poll_id]. apply Z.eqb_neq. congruence.
    + unfold Polls.poll_options. cbn [Polls.options]. rewrite filter_app.
      rewrite (filter_none _ (indexed_rows _ _ _ _)); [now rewrite app_nil_r|].
      intros o Ho'. apply indexed_rows_spec in Ho' as (_ & Hp & _).
      apply Z.eqb_neq. congruence.
Qed.

(** A history of the examples of [polls]: a poll is created through the
    API and then deleted through [PollDetailView] by an anonymous caller. *)
Lemma api_poll_round_trip_witness :
  let history :=
    [Polls.ApiCreate
       (mkRequest POST None
          (Some (mkPollBody (Some "Dinner now?") None None None
                            (Some ["Pasta"; "Curry"]))) 50);
     Polls.ApiDelete 1 (mkRequest DELETE None None 60)] in
  let r := Polls.PollCreateView_create no_expiry
             (mkRequest POST None
                (Some (mkPollBody (Some "Lunch today?") None None None
                                  (Some ["Pizza"; "Sushi"; "Pasta"]))) 100)
             (Polls.run no_expiry no_ipv6 history Polls.empty_store) in
  fst r = mkResponse 201 (Success 2) /\
  map Polls.text (Polls.poll_options (snd r) 2) = ["Pizza"; "Sushi"; "Pasta"] /\
  map Polls.order (Polls.poll_options (snd r) 2) = [0; 1; 2].
Proof.
  intros history.
  pose proof (api_poll_round_trip no_expiry no_ipv6 history
                (mkRequest POST None
                   (Some (mkPollBody (Some "Lunch today?") None None None
                                     (Some ["Pizza"; "Sushi"; "Pasta"]))) 100)
                (mkPollBody (Some "Lunch today?") None None None
                            (Some ["Pizza"; "Sushi"; "Pasta"]))
                "Lunch today?" None None ["Pizza"; "Sushi"; "Pasta"]
                eq_refl eq_refl) as (H1 & _ & Ht & Hord & _).
  exact (conj H1 (conj Ht Hord)).
Defined.

(** ** Switching a poll of [polls] off and on *)

Lemma find_map_same_test_in {A : Type} (f : A -> bool) (g : A -> A) (l : list A)
  (x : A) :
  (forall w, In w l -> f (g w) = f w) -> find f l = Some x ->
  find f (map g l) = Some (g x).
Proof.
  induction l as [|w l IH]; cbn [map find]; intros Hfg; [discriminate|].
  rewrite (Hfg w (or_introl eq_refl)).
  destruct (f w); [intros H; now injection H as ->|].
  apply IH. intros y Hy. apply Hfg. now right.
Qed.

Lemma find_unique {A : Type} (id : A -> Z) (l : list A) (x : A) :
  NoDup (map id l) -> In x l -> find (fun w => id w =? id x) l = Some x.
Proof.
  induction l as [|w l IH]; cbn [map find]; intros Hnd Hin; [destruct Hin|].
  inversion Hnd as [|? ? Hn Hl]; subst.
  destruct Hin as [->|Hin]; [now rewrite Z.eqb_refl|].
  destruct (id w =? id x) eqn:E; [|now apply IH].
  apply Z.eqb_eq in E. exfalso. apply Hn. rewrite E. now apply in_map.
Qed.

Lemma toggled_twice (p : Polls.Poll) : toggled (toggled p) = p.
Proof. destruct p. unfold toggled. cbn. now rewrite negb_involutive. Qed.

Lemma polls_set_polls_same (s : Polls.Store) :
  Polls.set_polls s (Polls.polls s) (Polls.next_poll_id s) = s.
Proof. now destruct s. Qed.

Lemma poll_of_user_1_wf : polls_store_wf poll_of_user_1.
Proof.
  split; cbn.
  - intros p [<-|[]]. cbn. lia.
  - intros o [<-|[<-|[]]]; cbn; lia.
  - repeat constructor. intros [].
  - repeat constructor; cbn; intuition lia.
  - intros v [].
Qed.

Lemma Poll_save_back s poll :
  polls_store_wf s -> In poll (Polls.polls s) ->
  snd (Polls.Poll_save poll (snd (Polls.Poll_save (toggled poll) s))) = s.
Proof.
  intros H Hin. unfold Polls.Poll_save, Polls.set_polls.
  cbn [snd Polls.polls Polls.options Polls.votes Polls.next_poll_id
       Polls.next_option_id Polls.next_vote_id].
  rewrite map_map.
  rewrite (map_fix (fun x => if Polls.poll_id
                                  (if Polls.poll_id x =? Polls.poll_id (toggled poll)
                                   then toggled poll else x) =? Polls.poll_id poll
                             then poll
                             else if Polls.poll_id x =? Polls.poll_id (toggled poll)
                                  then toggled poll else x));
    [now destruct s|].
  intros w Hw. cbn [toggled Polls.poll_id].
  destruct (Polls.poll_id w =? Polls.poll_id poll) eqn:E.
  - rewrite Z.eqb_refl. apply Z.eqb_eq in E. symmetry.
    now apply (same_key_same_row Polls.poll_id (Polls.polls s) w poll
                 (pwf_poll_ids s H)).
  - now rewrite E.
Qed.

Lemma toggle_poll_status_accepts pid u b now s poll :
  Polls.find_poll_of_creator s pid u = Some poll ->
  Polls.toggle_poll_status pid (mkRequest POST (Some u) b now) s
  = (mkResponse 200 (Success (negb (Polls.is_active poll))),
     snd (Polls.Poll_save (toggled poll) s)).
Proof.
  intros Hf.
  unfold Polls.toggle_poll_status, login_required, require_http_methods, try_except,
    Polls.toggle_poll_status_body, mbind, get_store, request_user.
  cbn [req_user req_method existsb method_eqb orb ret]. rewrite Hf. reflexivity.
Qed.

Lemma toggled_is_found pid u s poll :
  polls_store_wf s ->
  Polls.find_poll_of_creator s pid u = Some poll ->
  Polls.find_poll_of_creator (snd (Polls.Poll_save (toggled poll) s)) pid u
  = Some (toggled poll) /\
  Polls.find_poll (snd (Polls.Poll_save (toggled poll) s)) pid = Some (toggled poll).
Proof.
  intros H Hf.
  destruct (polls_find_poll_of_creator_spec s pid u poll Hf) as (Hin & Hid & Hc).
  assert (Hsame : forall w, In w (Polls.polls s) ->
                            Polls.poll_id w = Polls.poll_id poll -> w = poll).
  { intros w Hw E.
    now apply (same_key_same_row Polls.poll_id (Polls.polls s) w poll (pwf_poll_ids s H)). }
  assert (Hg : (if Polls.poll_id poll =? Polls.poll_id (toggled poll)
                then toggled poll else poll) = toggled poll).
  { cbn [toggled Polls.poll_id]. now rewrite Z.eqb_refl. }
  unfold Polls.find_poll_of_creator, Polls.find_poll in *.
  cbn [Polls.Poll_save snd Polls.set_polls Polls.polls]. split.
  - rewrite (find_map_same_test_in _ _ _ poll); [now rewrite Hg| |exact Hf].
    intros w Hw. cbn [toggled Polls.poll_id].
    destruct (Polls.poll_id w =? Polls.poll_id poll) eqn:E; [|reflexivity].
    apply Z.eqb_eq in E. now rewrite (Hsame w Hw E).
  - assert (Hfp : find (fun p => Polls.poll_id p =? pid) (Polls.polls s) = Some poll).
    { rewrite <- Hid. now apply find_unique; [apply (pwf_poll_ids s H)|]. }
    rewrite (find_map_same_test_in _ _ _ poll); [now rewrite Hg| |exact Hfp].
    intros w Hw. cbn [toggled Polls.poll_id].
    destruct (Polls.poll_id w =? Polls.poll_id poll) eqn:E; [|reflexivity].
    apply Z.eqb_eq in E. now rewrite (Hsame w Hw E).
Qed.

(** X21. In every well-formed store of [polls], a POST to
    [toggle_poll_status] by the creator of the poll is answered 200 with the
    new activity, the opposite of the old one, and changes nothing but this
    flag; a second POST restores the store exactly.  While the poll is
    switched off, a vote for one of its options is refused with 400.  For a
    caller who is not the creator, or a poll that does not exist, the view
    answers 500 and changes nothing. *)
Theorem toggle_poll_status_flips_the_flag :
  forall clean s pid u b now b' now',
    let first := Polls.toggle_poll_status pid (mkRequest POST (Some u) b now) s in
    let second := Polls.toggle_poll_status pid (mkRequest POST (Some u) b' now')
                    (snd first) in
    polls_store_wf s ->
    match Polls.find_poll_of_creator s pid u with
    | Some poll =>
        fst first = mkResponse 200 (Success (negb (Polls.is_active poll))) /\
        Polls.find_poll (snd first) pid = Some (toggled poll) /\
        Polls.options (snd first) = Polls.options s /\
        Polls.votes (snd first) = Polls.votes s /\
        fst second = mkResponse 200 (Success (Polls.is_active poll)) /\
        snd second = s /\
        (Polls.is_active poll = true ->
         forall req option,
           Polls.vr_body req = Some (Some (Polls.option_id option)) ->
           Polls.find_option s (Polls.option_id option) = Some option ->
           Polls.option_poll option = pid ->
           Polls.VoteCreateView_post clean req (snd first)
           = (mkResponse 400 (Failure "This poll is no longer active"), snd first))
    | None => first = (mkResponse 500 (Crash "" Http404), s)
    end.
Proof.
  intros clean s pid u b now b' now' first second H.
  destruct (Polls.find_poll_of_creator s pid u) as [poll|] eqn:Hf.
  2:{ subst first.
      unfold Polls.toggle_poll_status, login_required, require_http_methods,
        try_except, Polls.toggle_poll_status_body, mbind, get_store, request_user.
      cbn [req_user req_method existsb method_eqb orb ret]. now rewrite Hf. }
  assert (Hfirst : first = (mkResponse 200 (Success (negb (Polls.is_active poll))),
                            snd (Polls.Poll_save (toggled poll) s)))
    by now apply toggle_poll_status_accepts.
  destruct (toggled_is_found pid u s poll H Hf) as [Hf1 Hp1].
  destruct (polls_find_poll_of_creator_spec s pid u poll Hf) as (Hin & Hid & Hc).
  assert (Hsecond : second = (mkResponse 200 (Success (Polls.is_active poll)), s)).
  { subst second. rewrite Hfirst. cbn [snd].
    rewrite (toggle_poll_status_accepts pid u b' now' _ (toggled poll) Hf1).
    cbn [toggled Polls.is_active]. rewrite negb_involutive. f_equal.
    fold (toggled poll). rewrite toggled_twice. now apply Poll_save_back. }
  rewrite Hsecond, Hfirst. cbn [fst snd].
  split; [reflexivity|]. split; [exact Hp1|]. split; [reflexivity|].
  split; [reflexivity|]. split; [reflexivity|]. split; [reflexivity|].
  intros Hactive req option Hb Ho Hp.
  unfold Polls.VoteCreateView_post. rewrite Hb.
  unfold Polls.find_option in *.
  cbn [Polls.Poll_save snd Polls.set_polls Polls.options].
  rewrite Ho. unfold Polls.validate_option. rewrite Hp.
  change (Polls.find_poll (Polls.set_polls s
            (map (fun q => if Polls.poll_id q =? Polls.poll_id (toggled poll)
                           then toggled poll else q) (Polls.polls s))
            (Polls.next_poll_id s)) pid)
    with (Polls.find_poll (snd (Polls.Poll_save (toggled poll) s)) pid).
  rewrite Hp1. cbn [toggled Polls.is_active]. now rewrite Hactive.
Qed.

Lemma toggle_poll_status_flips_the_flag_witness :
  let first := Polls.toggle_poll_status 1 (mkRequest POST (Some 1) None 200)
                 poll_of_user_1 in
  let second := Polls.toggle_poll_status 1 (mkRequest POST (Some 1) None 300)
                  (snd first) in
  fst first = mkResponse 200 (Success false) /\ snd second = poll_of_user_1 /\
  Polls.VoteCreateView_post no_ipv6 (vote_for 1 250) (snd first)
  = (mkResponse 400 (Failure "This poll is no longer active"), snd first).
Proof.
  pose proof (toggle_poll_status_flips_the_flag no_ipv6 poll_of_user_1 1 1 None 200 None 300
                poll_of_user_1_wf) as (H1 & _ & _ & _ & _ & H2 & H3).
  split; [exact H1|]. split; [exact H2|].
  exact (H3 eq_refl (vote_for 1 250) (Polls.mkOption 1 1 "Pizza" 0)
            eq_refl eq_refl eq_refl).
Defined.

(** ** The most popular poll of [polls] *)

Lemma poll_votes_loop_sum (s : Polls.Store) os :
  forall acc,
    Polls.poll_votes_loop s os acc
    = acc + sumZ (map (fun o => count (Polls.votes_of_option s (Polls.option_id o))) os).
Proof.
  induction os as [|o os IH]; intros acc; cbn [Polls.poll_votes_loop map sumZ fold_right].
  - lia.
  - rewrite IH. fold (sumZ (map (fun o => count (Polls.votes_of_option s
                                                  (Polls.option_id o))) os)). lia.
Qed.

Lemma sum_counts_nonneg {A : Type} (f : A -> Z) (l : list A) :
  (forall a, 0 <= f a) -> 0 <= sumZ (map f l).
Proof.
  intros Hf. induction l as [|a l IH]; cbn [map sumZ fold_right]; [lia|].
  fold (sumZ (map f l)). specialize (Hf a). lia.
Qed.

Lemma option_votes_nonneg (s : Polls.Store) p : 0 <= option_votes s p.
Proof. apply sum_counts_nonneg. intros o. apply count_nonneg. Qed.

Lemma best_poll_loop_spec (s : Polls.Store) ps :
  forall best_poll max_votes,
    let r := Polls.best_poll_loop s ps best_poll max_votes in
    max_votes <= snd r /\
    (forall q, In q ps -> option_votes s q <= snd r) /\
    ((fst r = best_poll /\ snd r = max_votes) \/
     (exists p, fst r = Some p /\ In p ps /\ option_votes s p = snd r /\
                max_votes < snd r)).
Proof.
  induction ps as [|p ps IH]; intros best_poll max_votes;
    cbn [Polls.best_poll_loop].
  - cbn. split; [lia|]. split; [intros q []|]. now left.
  - rewrite poll_votes_loop_sum, Z.add_0_l. fold (option_votes s p). cbv zeta.
    destruct (max_votes <? option_votes s p) eqn:E.
    + apply Z.ltb_lt in E.
      destruct (IH (Some p) (option_votes s p)) as (Hle & Hall & Hcase).
      split; [lia|]. split.
      * intros q [<-|Hq]; [exact Hle | now apply Hall].
      * right. destruct Hcase as [[Hb Hm]|(p' & Hb & Hin & Hv & Hlt)].
        -- exists p. rewrite Hb, Hm. repeat split; [now left | exact E].
        -- exists p'. repeat split; [exact Hb | now right | exact Hv | lia].
    + apply Z.ltb_ge in E.
      destruct (IH best_poll max_votes) as (Hle & Hall & Hcase).
      split; [exact Hle|]. split.
      * intros q [<-|Hq]; [lia | now apply Hall].
      * destruct Hcase as [Hsame|(p' & Hb & Hin & Hv & Hlt)]; [now left|].
        right. exists p'. repeat split; [exact Hb | now right | exact Hv | exact Hlt].
Qed.

(** X22. [poll_statistics] answers every GET with 200 and the counts of
    the tables.  The poll it names as the most popular one is a poll of the
    table with at least one vote, it is reported with its own number of
    votes, and no poll has more votes than it; no poll is named exactly when
    no poll has a vote. *)
Theorem most_popular_poll_has_the_most_votes :
  forall s u b now,
    Polls.poll_statistics (mkRequest GET u b now) s
    = (mkResponse 200
         (Success (Polls.mkStatistics (count (Polls.polls s))
                     (count (filter Polls.is_active (Polls.polls s)))
                     (count (Polls.votes s)) (Polls.most_popular s))), s) /\
    match Polls.most_popular s with
    | Some best =>
        0 < Polls.mp_votes best /\
        (exists p, In p (Polls.polls s) /\ Polls.poll_id p = Polls.mp_id best /\
                   Polls.title p = Polls.mp_title best /\
                   option_votes s p = Polls.mp_votes best) /\
        (forall q, In q (Polls.polls s) -> option_votes s q <= Polls.mp_votes best)
    | None => forall q, In q (Polls.polls s) -> option_votes s q = 0
    end.
Proof.
  intros s u b now. split; [reflexivity|].
  unfold Polls.most_popular.
  assert (Hperm : forall q, In q (Polls.polls s) <-> In q (Polls.Poll_objects_all s)).
  { intros q. split; apply Permutation_in;
      [apply Permutation_sym|]; apply sort_desc_perm. }
  destruct (0 <? count (Polls.polls s)) eqn:Hn.
  2:{ apply Z.ltb_ge in Hn. intros q Hq. exfalso.
      destruct (Polls.polls s); [destruct Hq|]. rewrite count_cons in Hn.
      pose proof (count_nonneg l). lia. }
  destruct (best_poll_loop_spec s (Polls.Poll_objects_all s) None 0)
    as (Hle & Hall & Hcase).
  destruct (Polls.best_poll_loop s (Polls.Poll_objects_all s) None 0)
    as [[best|] max_votes]; cbn [fst snd] in *.
  - destruct (0 <? max_votes) eqn:Hpos.
    + apply Z.ltb_lt in Hpos. cbn [Polls.mp_votes Polls.mp_id Polls.mp_title].
      destruct Hcase as [[Hb _]|(p & Hb & Hin & Hv & _)]; [discriminate Hb|].
      injection Hb as ->. split; [exact Hpos|]. split.
      * exists p. repeat split; [now apply Hperm | exact Hv].
      * intros q Hq. apply Hall. now apply Hperm.
    + apply Z.ltb_ge in Hpos. intros q Hq.
      pose proof (Hall q (proj1 (Hperm q) Hq)). pose proof (option_votes_nonneg s q).
      lia.
  - intros q Hq. destruct Hcase as [[_ Hm]|(p & Hb & _)]; [|discriminate Hb].
    pose proof (Hall q (proj1 (Hperm q) Hq)). pose proof (option_votes_nonneg s q).
    lia.
Qed.

(** ** A poll that does not exist *)

(** X23. The views of [poll_system] look a poll up with
    [get_object_or_404] inside a [try] block whose last handler catches
    every exception: for a poll that does not exist, [poll_detail] and
    [vote_poll] answer 500 with the message of [Http404] behind their
    prefix, and [poll_results] answers 500 with its fixed message; none of
    them answers 404 and none changes the store.  The [poll_results] view of
    [polls] leaves the exception to the framework and answers 404. *)
Theorem missing_poll_is_answered_500 :
  (forall s pid,
     PollSystem.find_poll s pid = None ->
     (forall m u b now,
        m <> POST ->
        PollSystem.poll_detail pid (mkRequest m u b now) s
        = (mkResponse 500 (Crash "Operation failed: " Http404), s)) /\
     (forall u b now,
        PollSystem.poll_results pid (mkRequest GET u b now) s
        = (mkResponse 500 (Failure "Unable to load poll results"), s)) /\
     (forall u oid now,
        oid <> 0 ->
        PollSystem.vote_poll pid
          (mkRequest POST (Some u) (Some (mkVoteBody (Some oid))) now) s
        = (mkResponse 500 (Crash "Unable to vote: " Http404), s))) /\
  (forall s pk u b now,
     Polls.find_poll s pk = None ->
     Polls.poll_results pk (mkRequest GET u b now) s
     = (mkResponse 404 (Failure "Not found."), s)).
Proof.
  split.
  - intros s pid Hp. split; [|split].
    + intros m u b now Hm.
      unfold PollSystem.poll_detail, require_http_methods, try_except,
        PollSystem.poll_detail_body, mbind, get_store.
      destruct m; try contradiction; cbn [req_method existsb method_eqb orb];
        now rewrite Hp.
    + intros u b now.
      unfold PollSystem.poll_results, require_http_methods, try_except,
        PollSystem.poll_results_body, mbind, get_store.
      cbn [req_method existsb method_eqb orb]. now rewrite Hp.
    + intros u oid now Hz.
      unfold PollSystem.vote_poll, PollSystem.json_login_required,
        require_http_methods, try_except, PollSystem.vote_poll_body, mbind,
        json_loads, get_store.
      cbn [req_user req_method req_body existsb method_eqb orb ret body_option_id].
      destruct oid; [contradiction| |]; now rewrite Hp.
  - intros s pk u b now Hp.
    unfold Polls.poll_results, Polls.api_view, drf_view, try_except, mbind, get_store.
    cbn [req_method existsb method_eqb orb]. now rewrite Hp.
Qed.

(** ** Votes per option and votes per poll in [polls] *)

Lemma insert_by_perm {A : Type} (leb : A -> A -> bool) (x : A) (l : list A) :
  Permutation (insert_by leb x l) (x :: l).
Proof.
  induction l as [|y l IH]; cbn [insert_by]; [reflexivity|].
  destruct (leb x y); [reflexivity|]. rewrite IH. apply perm_swap.
Qed.

Lemma sort_by_perm {A : Type} (leb : A -> A -> bool) (l : list A) :
  Permutation (sort_by leb l) l.
Proof.
  induction l as [|x l IH]; cbn [sort_by]; [reflexivity|].
  rewrite insert_by_perm. now constructor.
Qed.

Lemma sum_perm (l l' : list Z) : Permutation l l' -> sumZ l = sumZ l'.
Proof.
  induction 1 as [|x l l' _ IH|x y l|l l' l'' _ IH1 _ IH2]; cbn [sumZ fold_right] in *;
    [reflexivity| | |congruence].
  - fold (sumZ l) (sumZ l'). lia.
  - fold (sumZ l). lia.
Qed.

(** Counting the rows of a table per key of a duplicate-free list of keys
    counts every row whose key is in the list once. *)
Lemma sum_counts_partition {A B : Type} (id : B -> Z) (key : A -> Z) (os : list B)
  (l : list A) :
  NoDup (map id os) ->
  sumZ (map (fun o => count (filter (fun v => key v =? id o) l)) os)
  = count (filter (fun v => existsb (fun o => key v =? id o) os) l).
Proof.
  intros Hnd. induction l as [|v l IH].
  - cbn [filter]. induction os as [|o os IHos]; cbn [map sumZ fold_right];
      [reflexivity|].
    fold (sumZ (map (fun _ : B => count (@nil A)) os)).
    rewrite IHos; [reflexivity|]. cbn [map] in Hnd. now inversion Hnd.
  - rewrite (sum_counts_cons (fun o w => key w =? id o)), IH.
    rewrite (sum_hits_nodup id) by assumption.
    now rewrite count_filter_cons.
Qed.

Lemma polls_option_votes_total (s : Polls.Store) p :
  polls_store_wf s -> option_votes s p = Polls.total_votes s (Polls.poll_id p).
Proof.
  intros H. unfold option_votes, Polls.total_votes, Polls.poll_options.
  set (os := filter (fun o => Polls.option_poll o =? Polls.poll_id p) (Polls.options s)).
  rewrite (sum_perm _ (map (fun o => count (Polls.votes_of_option s (Polls.option_id o))) os))
    by (apply Permutation_map, sort_by_perm).
  unfold Polls.votes_of_option.
  rewrite (sum_counts_partition Polls.option_id Polls.v_option)
    by (apply NoDup_map_filter, (pwf_option_ids s H)).
  unfold Polls.votes_of_poll. f_equal. apply filter_ext. intros v.
  unfold Polls.find_option.
  destruct (find _ (Polls.options s)) as [o|] eqn:Hf.
  - apply find_some in Hf as [Hin Hid]. apply Z.eqb_eq in Hid.
    destruct (Polls.option_poll o =? Polls.poll_id p) eqn:E.
    + apply existsb_exists. exists o. split.
      * apply filter_In. now split.
      * apply Z.eqb_eq. now symmetry.
    + apply not_true_iff_false. intros Hex.
      apply existsb_exists in Hex as [o' [Ho' Heq]]. apply Z.eqb_eq in Heq.
      apply filter_In in Ho' as [Ho' Hp']. 
      assert (o' = o).
      { apply (same_key_same_row Polls.option_id (Polls.options s)); trivial.
        - apply (pwf_option_ids s H).
        - congruence. }
      subst o'. rewrite Hp' in E. discriminate E.
  - apply not_true_iff_false. intros Hex.
    apply existsb_exists in Hex as [o' [Ho' Heq]].
    apply filter_In in Ho' as [Ho' _].
    pose proof (find_none _ _ Hf o' Ho') as Hn. cbv beta in Hn.
    rewrite Z.eqb_sym, Heq in Hn. discriminate Hn.
Qed.

(** X24. In every store reached from the empty one by requests to the
    views of [src/polls/views.py], the votes of the options of a poll add up
    to [Poll.total_votes]: the rows of
    [Poll.get_results] and of the [poll_results] view add up to the total they
    are reported with, and the number of votes that [poll_statistics]
    compares for a poll is that total. *)
Theorem polls_option_counts_add_up_to_the_total :
  forall parse clean ops p,
    let s := Polls.run parse clean ops Polls.empty_store in
    option_votes s p = Polls.total_votes s (Polls.poll_id p) /\
    (exists rows,
       Polls.get_results s p = Ok rows /\
       sumZ (map Polls.rr_votes rows) = Polls.total_votes s (Polls.poll_id p)) /\
    (forall u b now,
       let resp := fst (Polls.poll_results (Polls.poll_id p) (mkRequest GET u b now) s) in
       Polls.find_poll s (Polls.poll_id p) <> None ->
       option_map (fun d => sumZ (map Polls.rr_votes (Polls.pr_results d))) (payload resp)
       = option_map Polls.pr_total_votes (payload resp)).
Proof.
  intros parse clean ops p s.
  pose proof (polls_option_votes_total s p (polls_reachable_pwf clean parse ops)) as Hsum.
  split; [exact Hsum|]. split.
  - unfold Polls.get_results. rewrite polls_get_results_loop_spec. cbn [app].
    eexists. split; [reflexivity|]. rewrite map_map. exact Hsum.
  - intros u b now resp Hp. subst resp.
    destruct (polls_poll_results_get s (Polls.poll_id p) u b now Hp) as [t ->].
    cbn [fst payload content option_map Polls.pr_results Polls.pr_total_votes].
    f_equal. rewrite map_map. exact Hsum.
Qed.

(** ** Deleting a poll of [polls] *)

Lemma find_filter_kept {A : Type} (f g : A -> bool) (l : list A) (x : A) :
  find f l = Some x -> g x = true -> find f (filter g l) = Some x.
Proof.
  induction l as [|y l IH]; cbn [find filter]; [discriminate|].
  destruct (f y) eqn:Ef.
  - intros H Hg. injection H as ->. rewrite Hg. cbn [find]. now rewrite Ef.
  - intros H Hg. destruct (g y); cbn [find]; [rewrite Ef|]; now apply IH.
Qed.

Lemma polls_delete_poll_accepts pid m u b now s poll :
  m = DELETE \/ m = POST ->
  Polls.find_poll_of_creator s pid u = Some poll ->
  Polls.delete_poll pid (mkRequest m (Some u) b now) s
  = (mkResponse 200 (Success (Polls.mkAck "Poll deleted successfully" None)),
     snd (Polls.Poll_delete pid s)).
Proof.
  intros Hm Hf.
  destruct (polls_find_poll_of_creator_spec s pid u poll Hf) as (_ & Hid & _).
  unfold Polls.delete_poll, login_required, require_http_methods, try_except,
    Polls.delete_poll_body, mbind, get_store, request_user.
  destruct Hm as [-> | ->]; cbn [req_user req_method existsb method_eqb orb ret];
    rewrite Hf; cbn [get_object_or_404 ret]; now rewrite Hid.
Qed.

Lemma polls_doomed_votes (s : Polls.Store) pid v :
  polls_store_wf s ->
  existsb (Z.eqb (Polls.v_option v))
    (map Polls.option_id
       (filter (fun o => Polls.option_poll o =? pid) (Polls.options s)))
  = match Polls.find_option s (Polls.v_option v) with
    | Some o => Polls.option_poll o =? pid
    | None => false
    end.
Proof.
  intros H. rewrite existsb_map_comp. unfold Polls.find_option.
  destruct (find _ (Polls.options s)) as [o|] eqn:Hf.
  - apply find_some in Hf as [Hin Hid]. apply Z.eqb_eq in Hid.
    destruct (Polls.option_poll o =? pid) eqn:E.
    + apply existsb_exists. exists o. split.
      * apply filter_In. now split.
      * apply Z.eqb_eq. now symmetry.
    + apply not_true_iff_false. intros Hex.
      apply existsb_exists in Hex as [o' [Ho' Heq]]. apply Z.eqb_eq in Heq.
      apply filter_In in Ho' as [Ho' Hp'].
      assert (o' = o).
      { apply (same_key_same_row Polls.option_id (Polls.options s)); trivial.
        - apply (pwf_option_ids s H).
        - congruence. }
      subst o'. rewrite Hp' in E. discriminate E.
  - apply not_true_iff_false. intros Hex.
    apply existsb_exists in Hex as [o' [Ho' Heq]].
    apply filter_In in Ho' as [Ho' _].
    pose proof (find_none _ _ Hf o' Ho') as Hn. cbv beta in Hn.
    rewrite Z.eqb_sym, Heq in Hn. discriminate Hn.
Qed.

(** What the cascading [poll.delete()] leaves in a well-formed store. *)
Lemma polls_Poll_delete_effect s pid :
  polls_store_wf s ->
  let s' := snd (Polls.Poll_delete pid s) in
  Polls.find_poll s' pid = None /\
  Polls.poll_options s' pid = [] /\
  Polls.votes_of_poll s' pid = [] /\
  (forall other, other <> pid ->
     Polls.find_poll s' other = Polls.find_poll s other /\
     Polls.poll_options s' other = Polls.poll_options s other /\
     Polls.votes_of_poll s' other = Polls.votes_of_poll s other).
Proof.
  intros H s'. subst s'.
  assert (Hfind : forall v x,
            Polls.find_option (snd (Polls.Poll_delete pid s)) (Polls.v_option v) = Some x ->
            Polls.find_option s (Polls.v_option v) = Some x /\
            Polls.option_poll x <> pid).
  { intros v x Hx. unfold Polls.find_option in *.
    cbn [Polls.Poll_delete snd Polls.options] in Hx.
    pose proof (find_some _ _ Hx) as [Hin Hid].
    apply filter_In in Hin as [Hin Hkeep].
    apply negb_true_iff, Z.eqb_neq in Hkeep. split; [|exact Hkeep].
    apply Z.eqb_eq in Hid. rewrite <- Hid.
    apply find_unique; [apply (pwf_option_ids s H) | exact Hin]. }
  split; [|split; [|split]].
  - unfold Polls.find_poll. cbn [Polls.Poll_delete snd Polls.polls].
    apply find_all_false. intros p Hp. apply filter_In in Hp as [_ Hp].
    now apply negb_true_iff in Hp.
  - unfold Polls.poll_options. cbn [Polls.Poll_delete snd Polls.options].
    rewrite filter_none; [reflexivity|].
    intros o Ho. apply filter_In in Ho as [_ Ho]. now apply negb_true_iff in Ho.
  - unfold Polls.votes_of_poll. apply filter_none. intros v _.
    destruct (Polls.find_option _ _) as [x|] eqn:Hx; [|reflexivity].
    destruct (Hfind v x Hx) as [_ Hne]. now apply Z.eqb_neq.
  - intros other Hne. split; [|split].
    + unfold Polls.find_poll. cbn [Polls.Poll_delete snd Polls.polls].
      apply find_filter_implied. intros p _ Hp. apply Z.eqb_eq in Hp.
      apply negb_true_iff, Z.eqb_neq. congruence.
    + unfold Polls.poll_options. cbn [Polls.Poll_delete snd Polls.options].
      f_equal. apply filter_filter_implied. intros o _ Ho. apply Z.eqb_eq in Ho.
      apply negb_true_iff, Z.eqb_neq. congruence.
    + unfold Polls.votes_of_poll at 1.
      cbn [Polls.Poll_delete snd Polls.votes].
      rewrite (filter_ext_in _
                 (fun v => match Polls.find_option s (Polls.v_option v) with
                           | Some o => Polls.option_poll o =? other
                           | None => false
                           end)).
      * apply filter_filter_implied. intros v _ Hv.
        rewrite (polls_doomed_votes s pid v H).
        destruct (Polls.find_option s (Polls.v_option v)) as [o|]; [|discriminate Hv].
        apply Z.eqb_eq in Hv. apply negb_true_iff, Z.eqb_neq. congruence.
      * intros v Hv. apply filter_In in Hv as [_ Hkeep].
        apply negb_true_iff in Hkeep. rewrite (polls_doomed_votes s pid v H) in Hkeep.
        destruct (Polls.find_option s (Polls.v_option v)) as [o|] eqn:Ho.
        -- unfold Polls.find_option in *.
           cbn [Polls.Poll_delete snd Polls.options].
           rewrite (find_filter_kept _ _ _ o Ho); [reflexivity|].
           now apply negb_true_iff.
        -- unfold Polls.find_option in *.
           cbn [Polls.Poll_delete snd Polls.options].
           rewrite find_all_false; [reflexivity|].
           intros x Hx. apply filter_In in Hx as [Hx _].
           exact (find_none _ _ Ho x Hx).
Qed.

(** X25. In every well-formed store of [polls], a DELETE or POST to
    [delete_poll] by the creator of the poll is answered 200 and removes the
    poll, its options and the votes for them: afterwards the poll is not
    found and has no option and no vote, while every other poll, its options
    and its votes are as before. *)
Theorem polls_delete_poll_removes_the_poll :
  forall s pid m u b now poll,
    let r := Polls.delete_poll pid (mkRequest m (Some u) b now) s in
    polls_store_wf s ->
    m = DELETE \/ m = POST ->
    Polls.find_poll_of_creator s pid u = Some poll ->
    status (fst r) = 200 /\
    Polls.find_poll (snd r) pid = None /\
    Polls.poll_options (snd r) pid = [] /\
    Polls.votes_of_poll (snd r) pid = [] /\
    (forall other, other <> pid ->
       Polls.find_poll (snd r) other = Polls.find_poll s other /\
       Polls.poll_options (snd r) other = Polls.poll_options s other /\
       Polls.votes_of_poll (snd r) other = Polls.votes_of_poll s other).
Proof.
  intros s pid m u b now poll r H Hm Hf.
  subst r. rewrite (polls_delete_poll_accepts pid m u b now s poll Hm Hf).
  cbn [fst snd status]. split; [reflexivity|].
  now apply polls_Poll_delete_effect.
Qed.

Lemma polls_delete_poll_removes_the_poll_witness :
  let r := Polls.delete_poll 1 (mkRequest POST (Some 1) None 200) poll_of_user_1 in
  status (fst r) = 200 /\ Polls.find_poll (snd r) 1 = None /\
  Polls.poll_options (snd r) 1 = [].
Proof.
  pose proof (polls_delete_poll_removes_the_poll poll_of_user_1 1 POST 1 None 200
                (Polls.mkPoll 1 "Lunch today?" None 100 None true (Some 1))
                poll_of_user_1_wf (or_intror eq_refl) eq_refl)
    as (H1 & H2 & H3 & _).
  exact (conj H1 (conj H2 H3)).
Defined.

(** ** Polls of [polls] have no creator *)

Lemma create_indexed_polls pid texts :
  forall index s,
    Polls.polls (snd (Polls.create_indexed pid index texts s)) = Polls.polls s.
Proof.
  induction texts as [|t texts IH]; intros index s; cbn [Polls.create_indexed];
    [reflexivity|].
  unfold mbind, Polls.Option_objects_create.
  destruct (existsb _ _); [reflexivity|]. now rewrite IH.
Qed.

Lemma no_creator_not_found (s : Polls.Store) pid u :
  (forall p, In p (Polls.polls s) -> Polls.created_by p = None) ->
  Polls.find_poll_of_creator s pid u = None.
Proof.
  intros H. apply find_all_false. intros p Hp. rewrite (H p Hp).
  apply andb_false_r.
Qed.

Lemma polls_delete_poll_not_creator pid req s :
  (forall u, Polls.find_poll_of_creator s pid u = None) ->
  snd (Polls.delete_poll pid req s) = s /\
  status (fst (Polls.delete_poll pid req s)) <> 200.
Proof.
  intros H. unfold Polls.delete_poll, login_required.
  destruct (req_user req) as [u|] eqn:Hu; [|split; [reflexivity|discriminate]].
  unfold require_http_methods.
  destruct (existsb _ _); [|split; [reflexivity|discriminate]].
  unfold try_except, Polls.delete_poll_body, mbind, get_store, request_user.
  rewrite Hu. cbn [ret]. rewrite H. split; [reflexivity|discriminate].
Qed.

Lemma toggle_poll_status_not_creator pid req s :
  (forall u, Polls.find_poll_of_creator s pid u = None) ->
  snd (Polls.toggle_poll_status pid req s) = s /\
  status (fst (Polls.toggle_poll_status pid req s)) <> 200.
Proof.
  intros H.
  destruct (toggle_poll_status_cases pid req s)
    as [Hsame|(u & poll & _ & _ & Hf & _)]; [exact Hsame|].
  rewrite H in Hf. discriminate Hf.
Qed.

Lemma PollDetailView_update_no_creator parse partial pk req s :
  (forall p, In p (Polls.polls s) -> Polls.created_by p = None) ->
  forall p, In p (Polls.polls (snd (Polls.PollDetailView_update parse partial pk req s))) ->
            Polls.created_by p = None.
Proof.
  intros H.
  destruct (PollDetailView_update_cases parse partial pk req s)
    as [[-> _]|(instance & saved & Hf & _ & _ & Hc & ->)]; [exact H|].
  cbn [snd Polls.Poll_save Polls.set_polls Polls.polls]. intros p Hin.
  apply in_map_iff in Hin as [q [<- Hq]].
  destruct (Polls.poll_id q =? Polls.poll_id saved); [|now apply H].
  rewrite Hc. unfold Polls.find_poll in Hf. apply find_some in Hf as [Hin _].
  now apply H.
Qed.

Lemma PollDetailView_delete_no_creator pk req s :
  (forall p, In p (Polls.polls s) -> Polls.created_by p = None) ->
  forall p, In p (Polls.polls (snd (Polls.PollDetailView_delete pk req s))) ->
            Polls.created_by p = None.
Proof.
  intros H.
  destruct (PollDetailView_delete_cases pk req s)
    as [[_ ->]|(instance & _ & ->)]; [exact H|].
  cbn [snd Polls.Poll_delete Polls.polls]. intros p Hin.
  apply filter_In in Hin as [Hin _]. now apply H.
Qed.

Lemma polls_step_no_creator clean parse o s :
  (forall p, In p (Polls.polls s) -> Polls.created_by p = None) ->
  forall p, In p (Polls.polls (Polls.step parse clean o s)) -> Polls.created_by p = None.
Proof.
  intros H. destruct o; cbn [Polls.step].
  2: now apply PollDetailView_update_no_creator.
  2: now apply PollDetailView_update_no_creator.
  2: now apply PollDetailView_delete_no_creator.
  - unfold Polls.PollCreateView_create.
    destruct (req_body req) as [data|]; [|exact H].
    destruct (Polls.is_valid parse (req_now req) data) as [[[[t d] e] os]|]; [|exact H].
    unfold drf_view, try_except, mbind. cbn [Polls.Poll_insert Polls.poll_id].
    match goal with
    | |- context [Polls.create_indexed ?a ?b ?c ?d] =>
        pose proof (create_indexed_polls a c b d) as Hp;
        destruct (Polls.create_indexed a b c d) as [[[]|x] s2]
    end; cbn [snd ret fst] in *; rewrite Hp; cbn [Polls.set_polls Polls.polls];
      intros p Hin; apply in_app_or in Hin as [Hin|[<-|[]]];
      first [now apply H | reflexivity].
  - destruct (VoteCreateView_post_cases clean s req) as [[_ ->]|(value & ip & _ & _ & _ & _ & ->)];
      exact H.
  - now rewrite (proj1 (polls_create_poll_never_writes req s)).
  - now rewrite (proj1 (polls_edit_poll_never_writes poll_id req s)).
  - rewrite (proj1 (polls_delete_poll_not_creator poll_id req s
                      (fun u => no_creator_not_found s poll_id u H))).
    exact H.
  - rewrite (proj1 (toggle_poll_status_not_creator poll_id req s
                      (fun u => no_creator_not_found s poll_id u H))).
    exact H.
Qed.

Lemma polls_reachable_no_creator clean parse ops :
  forall p, In p (Polls.polls (Polls.run parse clean ops Polls.empty_store)) ->
            Polls.created_by p = None.
Proof.
  unfold Polls.run.
  assert (H0 : forall p, In p (Polls.polls Polls.empty_store) ->
                         Polls.created_by p = None) by (intros p []).
  revert H0. generalize Polls.empty_store.
  induction ops as [|o ops IH]; intros s H; cbn [fold_left]; [exact H|].
  apply IH. now apply polls_step_no_creator.
Qed.

(** X26. No view of [src/polls/views.py] records a creator:
    [PollCreateView] creates polls without one, [PollDetailView] does not
    write the field, and the form view that would set one cannot succeed.
    In every store reached from the empty one by requests to these views
    every poll has no creator; hence no request to [delete_poll] or
    [toggle_poll_status] is answered 200 or changes such a store. *)
Theorem polls_views_never_record_a_creator :
  forall parse clean ops,
    let s := Polls.run parse clean ops Polls.empty_store in
    (forall p, In p (Polls.polls s) -> Polls.created_by p = None) /\
    (forall pid req,
       snd (Polls.delete_poll pid req s) = s /\
       status (fst (Polls.delete_poll pid req s)) <> 200) /\
    (forall pid req,
       snd (Polls.toggle_poll_status pid req s) = s /\
       status (fst (Polls.toggle_poll_status pid req s)) <> 200).
Proof.
  intros parse clean ops s.
  assert (H : forall p, In p (Polls.polls s) -> Polls.created_by p = None)
    by apply polls_reachable_no_creator.
  split; [exact H|]. split.
  - intros pid req. apply polls_delete_poll_not_creator.
    intros u. now apply no_creator_not_found.
  - intros pid req. apply toggle_poll_status_not_creator.
    intros u. now apply no_creator_not_found.
Qed.

(** ** The top polls of [polls] *)

Lemma polls_top_polls_loop_rows (s : Polls.Store) ps :
  forall acc all_rows,
    Polls.top_polls_loop s ps acc = Ok all_rows ->
    exists rows,
      all_rows = acc ++ rows /\
      Forall2 (fun p row =>
                 Polls.tp_id row = Polls.poll_id p /\
                 Polls.tp_title row = Polls.title p /\
                 Polls.tp_vote_count row = Polls.total_votes s (Polls.poll_id p) /\
                 Polls.tp_participation_rate row <= 100) ps rows.
Proof.
  induction ps as [|p ps IH]; intros acc all_rows; cbn [Polls.top_polls_loop].
  - intros H. injection H as <-. exists []. rewrite app_nil_r. split; constructor.
  - destruct (Polls.participation_rate _) as [rate|e]; cbn [bind]; [|discriminate].
    intros H. destruct (IH _ _ H) as (rows & -> & Hall).
    eexists (_ :: rows). rewrite <- app_assoc. split; [reflexivity|].
    constructor; [|exact Hall].
    cbn [Polls.tp_id Polls.tp_title Polls.tp_vote_count Polls.tp_participation_rate].
    repeat split. apply Z.le_min_l.
Qed.

Lemma top_poll_row_eq_dec (a b : Polls.TopPollRow) : {a = b} + {a <> b}.
Proof. decide equality; first [apply Z.eq_dec | apply string_dec]. Qed.

Lemma Forall2_in_left {A B : Type} (R : A -> B -> Prop) (l : list A) (l' : list B) a :
  Forall2 R l l' -> In a l -> exists b, In b l' /\ R a b.
Proof.
  induction 1 as [|x y l l' Hxy _ IH]; intros Hin; [destruct Hin|].
  destruct Hin as [<-|Hin]; [exists y; split; [now left|exact Hxy]|].
  destruct (IH Hin) as (b & Hb & Hab). exists b. split; [now right|exact Hab].
Qed.

Lemma Forall2_in_right {A B : Type} (R : A -> B -> Prop) (l : list A) (l' : list B) b :
  Forall2 R l l' -> In b l' -> exists a, In a l /\ R a b.
Proof.
  induction 1 as [|x y l l' Hxy _ IH]; intros Hin; [destruct Hin|].
  destruct Hin as [<-|Hin]; [exists x; split; [now left|exact Hxy]|].
  destruct (IH Hin) as (a & Ha & Hab). exists a. split; [now right|exact Hab].
Qed.

(** X27. When [analytics_top_polls] answers a GET with 200, it has not
    changed the store and its list has at most six rows, in descending
    order of their vote count; every row is the row of a poll of the table,
    with the poll's total of votes and a participation rate of at most 100;
    and every poll of the table either has a row with its total in the list
    or has no more votes than every poll listed. *)
Theorem analytics_top_polls_lists_the_most_voted :
  forall s u b now rows,
    let r := Polls.analytics_top_polls (mkRequest GET u b now) s in
    fst r = mkResponse 200 (Success rows) ->
    snd r = s /\
    count rows <= 6 /\
    descending Polls.tp_vote_count rows /\
    (forall row, In row rows ->
       Polls.tp_participation_rate row <= 100 /\
       exists p, In p (Polls.polls s) /\ Polls.tp_id row = Polls.poll_id p /\
                 Polls.tp_title row = Polls.title p /\
                 Polls.tp_vote_count row = Polls.total_votes s (Polls.poll_id p)) /\
    (forall p, In p (Polls.polls s) ->
       (exists row, In row rows /\ Polls.tp_id row = Polls.poll_id p /\
                    Polls.tp_vote_count row = Polls.total_votes s (Polls.poll_id p)) \/
       (forall row, In row rows ->
                    Polls.total_votes s (Polls.poll_id p) <= Polls.tp_vote_count row)).
Proof.
  intros s u b now rows r. subst r.
  unfold Polls.analytics_top_polls, Polls.api_view, drf_view, try_except, caught,
    try_except, mbind, get_store, lift.
  cbn [req_method existsb method_eqb orb].
  destruct (Polls.top_polls_list s) as [rows'|e] eqn:Hlist; cbn [fst snd ret];
    [|discriminate].
  intros H. injection H as ->. split; [reflexivity|].
  unfold Polls.top_polls_list in Hlist.
  destruct (Polls.top_polls_loop s (Polls.Poll_objects_all s) []) as [all_rows|e] eqn:Hloop;
    unfold bind in Hlist; [|discriminate Hlist].
  assert (Hrows : rows = firstn 6 (sort_desc Polls.tp_vote_count all_rows))
    by congruence.
  clear Hlist. subst rows.
  destruct (polls_top_polls_loop_rows s _ _ _ Hloop) as (rws & Hrws & Hall).
  cbn [app] in Hrws. subst rws.
  destruct (top_n_dominates Polls.tp_vote_count 6 all_rows) as [Hsorted Hdom].
  assert (Hsub : forall row, In row (firstn 6 (sort_desc Polls.tp_vote_count all_rows)) ->
                             In row all_rows).
  { intros row Hrow. apply in_firstn in Hrow.
    now apply (Permutation_in _ (sort_desc_perm Polls.tp_vote_count _)) in Hrow. }
  assert (Hperm : forall q, In q (Polls.polls s) <-> In q (Polls.Poll_objects_all s)).
  { intros q. split; apply Permutation_in;
      [apply Permutation_sym|]; apply sort_desc_perm. }
  split; [|split; [exact Hsorted|split]].
  - unfold count.
    pose proof (firstn_le_length 6 (sort_desc Polls.tp_vote_count all_rows)). lia.
  - intros row Hrow.
    destruct (Forall2_in_right _ _ _ row Hall (Hsub row Hrow))
      as (p & Hp & H1 & H2 & H3 & H4).
    split; [exact H4|]. exists p. repeat split; try assumption. now apply Hperm.
  - intros p Hp.
    destruct (Forall2_in_left _ _ _ p Hall (proj1 (Hperm p) Hp))
      as (row & Hrow & H1 & H2 & H3 & H4).
    destruct (in_dec top_poll_row_eq_dec row
                (firstn 6 (sort_desc Polls.tp_vote_count all_rows))) as [Hin|Hout].
    + left. exists row. now repeat split.
    + right. intros returned Hret. rewrite <- H3. now apply Hdom.
Qed.

Lemma analytics_top_polls_lists_the_most_voted_witness :
  snd (Polls.analytics_top_polls (mkRequest GET None None 200) three_votes)
  = three_votes /\
  count [Polls.mkTopPollRow 1 "Lunch today?" 3 6] <= 6.
Proof.
  pose proof (analytics_top_polls_lists_the_most_voted three_votes None None 200
                [Polls.mkTopPollRow 1 "Lunch today?" 3 6] eq_refl)
    as (H1 & H2 & _).
  exact (conj H1 H2).
Defined.

(** ** The statistics of a user in [poll_system] *)

(** X28. [api_statistics] never reports an error and never writes: every
    GET is answered 200 with a document; an anonymous caller gets the
    all-zero document; the number of active polls in the document is at most
    the number of polls, and the average participation is an integer that is
    at most 100. *)
Theorem api_statistics_never_reports_an_error :
  forall s u b now,
    exists doc,
      PollSystem.api_statistics (mkRequest GET u b now) s
      = (mkResponse 200 (Success doc), s) /\
      0 <= PollSystem.activePollsCount doc <= PollSystem.totalPolls doc /\
      (exists k, PollSystem.avgParticipation doc = PyInt k /\ k <= 100) /\
      (u = None -> doc = PollSystem.mkBasicStats 0 0 0 (PyInt 0)) /\
      (forall user, u = Some user ->
         doc = PollSystem.mkBasicStats 0 0 0 (PyInt 0) \/
         (PollSystem.totalPolls doc
          = count (filter (fun p => PollSystem.creator p =? user) (PollSystem.polls s)) /\
          PollSystem.totalVotes doc = count (PollSystem.votes_on_polls_of s user))).
Proof.
  intros s u b now.
  unfold PollSystem.api_statistics, require_http_methods.
  cbn [req_method req_user existsb method_eqb orb].
  destruct u as [user|].
  2:{ eexists. split; [reflexivity|].
      cbn [PollSystem.activePollsCount PollSystem.totalPolls
           PollSystem.avgParticipation PollSystem.totalVotes].
      split; [lia|]. split; [exists 0; split; [reflexivity|lia]|].
      split; [reflexivity|]. intros user Hu. discriminate Hu. }
  unfold try_except, PollSystem.api_statistics_body, mbind, get_store, lift.
  set (mine := filter (fun p => PollSystem.creator p =? user) (PollSystem.polls s)).
  set (total_votes := count (PollSystem.votes_on_polls_of s user)).
  assert (Hactive : 0 <= count (filter PollSystem.is_active mine) <= count mine).
  { split; [apply count_nonneg|]. unfold count.
    pose proof (filter_length_le PollSystem.is_active mine). lia. }
  unfold PollSystem.user_avg_participation.
  destruct ((0 <? count mine) && (0 <? total_votes)) eqn:E.
  - apply andb_true_iff in E as [E1 _].
    rewrite (truediv_positive _ _ E1). cbn [bind].
    destruct (round_int _) as [n|e]; cbn [bind ret].
    + eexists. split; [reflexivity|].
      cbn [PollSystem.activePollsCount PollSystem.totalPolls
           PollSystem.avgParticipation PollSystem.totalVotes].
      split; [exact Hactive|]. split; [exists (Z.min 100 n); split; [reflexivity|apply Z.le_min_l]|].
      split; [discriminate|]. intros user' Hu. injection Hu as <-. right. now split.
    + eexists. split; [reflexivity|].
      cbn [PollSystem.activePollsCount PollSystem.totalPolls
           PollSystem.avgParticipation PollSystem.totalVotes].
      split; [lia|]. split; [exists 0; split; [reflexivity|lia]|].
      split; [discriminate|]. intros user' _. now left.
  - cbn [ret]. eexists. split; [reflexivity|].
    cbn [PollSystem.activePollsCount PollSystem.totalPolls
         PollSystem.avgParticipation PollSystem.totalVotes].
    split; [exact Hactive|]. split; [exists 0; split; [reflexivity|lia]|].
    split; [discriminate|]. intros user' Hu. injection Hu as <-. right. now split.
Qed.

(** ** The bounds on the number of options, on the end points that serve
    creation requests *)



(** ** The top polls, on the end points that serve them *)







(** ** The generic detail view of [polls] *)

Lemma PollDetailView_update_found parse partial pk req s instance data :
  Polls.find_poll s pk = Some instance -> req_body req = Some data ->
  Polls.PollDetailView_update parse partial pk req s
  = if update_accepted parse partial data
    then (mkResponse 200 (Success (saved_poll parse partial data instance)),
          snd (Polls.Poll_save (saved_poll parse partial data instance) s))
    else (mkResponse 400 (Failure "Invalid input."), s).
Proof.
  intros Hf Hb.
  unfold Polls.PollDetailView_update, drf_view, try_except, mbind, get_store.
  rewrite Hf. cbn [get_object_or_404 ret]. rewrite Hb. cbv zeta.
  unfold update_accepted. destruct (_ || _ || _ || _); reflexivity.
Qed.

(** X29. [PollDetailView] of [polls] does not look at the caller.  In
    every well-formed store and for every caller - anonymous, the creator
    or anybody else - a DELETE for an existing poll is answered 204 and
    removes the poll, its options and their votes, and leaves every other
    poll, its options and its votes as they were.  A PUT or PATCH for an
    existing poll whose data the serializer accepts is answered 200 and
    replaces the title, description, expiry date and activity whose keys
    were validated; the poll keeps its key, creation date and creator, and
    options, votes and every other poll are as before.  With data that the
    serializer refuses the answer is 400, for a poll that does not exist it
    is 404, and the store is unchanged in both cases. *)
Theorem PollDetailView_serves_every_caller :
  forall parse s pk,
    polls_store_wf s ->
    (forall instance,
       Polls.find_poll s pk = Some instance ->
       (forall req,
          let r := Polls.PollDetailView_delete pk req s in
          status (fst r) = 204 /\
          Polls.find_poll (snd r) pk = None /\
          Polls.poll_options (snd r) pk = [] /\
          Polls.votes_of_poll (snd r) pk = [] /\
          (forall other, other <> pk ->
             Polls.find_poll (snd r) other = Polls.find_poll s other /\
             Polls.poll_options (snd r) other = Polls.poll_options s other /\
             Polls.votes_of_poll (snd r) other = Polls.votes_of_poll s other)) /\
       (forall partial req data,
          let r := Polls.PollDetailView_update parse partial pk req s in
          let saved := saved_poll parse partial data instance in
          req_body req = Some data ->
          if update_accepted parse partial data
          then fst r = mkResponse 200 (Success saved) /\
               Polls.find_poll (snd r) pk = Some saved /\
               Polls.options (snd r) = Polls.options s /\
               Polls.votes (snd r) = Polls.votes s /\
               (forall other, other <> pk ->
                  Polls.find_poll (snd r) other = Polls.find_poll s other)
          else status (fst r) = 400 /\ snd r = s)) /\
    (Polls.find_poll s pk = None ->
     (forall req,
        Polls.PollDetailView_delete pk req s
        = (mkResponse 404 (Failure "Not found."), s)) /\
     (forall partial req,
        Polls.PollDetailView_update parse partial pk req s
        = (mkResponse 404 (Failure "Not found."), s))).
Proof.
  intros parse s pk H. split.
  - intros instance Hf.
    pose proof (polls_find_poll_id s pk instance Hf) as Hid. split.
    + intros req r. subst r.
      destruct (PollDetailView_delete_cases pk req s)
        as [[Hnone _]|(instance' & Hf' & ->)]; [congruence|].
      assert (instance' = instance) by congruence. subst instance'.
      rewrite Hid. cbn [fst snd status]. split; [reflexivity|].
      now apply polls_Poll_delete_effect.
    + intros partial req data r saved Hb. subst r.
      rewrite (PollDetailView_update_found parse partial pk req s instance data Hf Hb).
      destruct (update_accepted parse partial data); [|split; reflexivity].
      cbn [fst snd]. split; [reflexivity|].
      assert (Hsaved : Polls.poll_id saved = pk) by exact Hid.
      split; [|split; [reflexivity|split; [reflexivity|]]].
      * unfold Polls.find_poll.
        cbn [Polls.Poll_save snd Polls.set_polls Polls.polls].
        fold saved. rewrite Hsaved.
        rewrite (find_map_same_test _ _ _ instance); [| |exact Hf].
        -- now rewrite Hid, Z.eqb_refl.
        -- intros w. destruct (Polls.poll_id w =? pk) eqn:E; [|exact E].
           rewrite Hsaved. apply Z.eqb_refl.
      * intros other Hne. unfold Polls.find_poll.
        cbn [Polls.Poll_save snd Polls.set_polls Polls.polls].
        fold saved. rewrite Hsaved. apply find_map_fix. intros w _.
        destruct (Polls.poll_id w =? pk) eqn:E.
        -- apply Z.eqb_eq in E. rewrite Hsaved, E.
           assert (En : (pk =? other) = false) by (apply Z.eqb_neq; congruence).
           rewrite En. split; [reflexivity|discriminate].
        -- split; reflexivity.
  - intros Hnone. split.
    + intros req. destruct (PollDetailView_delete_cases pk req s)
        as [[_ Hr]|(instance & Hf & _)]; [exact Hr|congruence].
    + intros partial req.
      unfold Polls.PollDetailView_update, drf_view, try_except, mbind, get_store.
      now rewrite Hnone.
Qed.

(** User 2 deletes the poll of user 1 through [PollDetailView]. *)
Lemma PollDetailView_serves_every_caller_witness :
  let r := Polls.PollDetailView_delete 1 (mkRequest DELETE (Some 2) None 500)
             poll_of_user_1 in
  status (fst r) = 204 /\ Polls.find_poll (snd r) 1 = None.
Proof.
  destruct (proj1 (proj1 (PollDetailView_serves_every_caller no_expiry poll_of_user_1 1
                            poll_of_user_1_wf)
                     (Polls.mkPoll 1 "Lunch today?" None 100 None true (Some 1)) eq_refl)
              (mkRequest DELETE (Some 2) None 500))
    as (H1 & H2 & _).
  exact (conj H1 H2).
Defined.
